(** * Verification of the desktop provisioning scripts

    A shallow embedding of the installer scripts [startup.py], [startup2.py],
    [startup3.py] and [python.py]: the filesystem they mutate, the external
    world they talk to (network, package manager, process launcher, clock)
    and the functions that back up, install, download, verify and provision.

    Layout:
    - [SHA256]   : hashlib's SHA-256 object (FIPS 180-4), incremental and one-shot;
    - [Py]       : Python values the scripts use (exceptions, paths, ranges);
    - [FS]       : the filesystem as a tree of directories and files;
    - [World]    : the state monad over the world, with an oracle for every
                   external collaborator and a trace of the effects performed;
    - [Shutil]   : the library calls ([shutil.move], [shutil.copy],
                   [shutil.copytree], ...) over [FS];
    - [Startup2], [Startup], [Startup3], [PythonPy] : the scripts;
    - [Obs]      : what is observed of a run (network attempts, delays,
                   commands, moves) and the predicates the statements use;
    - [Scenario] : concrete machines, networks and package managers;
    - [Session]  : the phases of [main];
    - the theorems: downloads and digests, the session, copies, backups,
      missing sources. *)

From Stdlib Require Import ZArith List Lia Ascii Sorted DecimalString DecimalZ.
From stdpp Require Import gmap strings list.

Local Open Scope Z_scope.

(* ================================================================== *)
(** * SHA-256 as computed by [hashlib.sha256] *)
(* ================================================================== *)

Module SHA256.

Definition word := Z.
Definition wrap (x : Z) : word := x mod 2^32.
Definition add32 (x y : word) : word := wrap (x + y).
Definition not32 (x : word) : word := Z.lxor x (2^32 - 1).
Definition rotr (n : Z) (x : word) : word :=
  Z.lor (Z.shiftr x n) (wrap (Z.shiftl x (32 - n))).
Definition shr (n : Z) (x : word) : word := Z.shiftr x n.

Definition Ch (x y z : word) : word := Z.lxor (Z.land x y) (Z.land (not32 x) z).
Definition Maj (x y z : word) : word :=
  Z.lxor (Z.lxor (Z.land x y) (Z.land x z)) (Z.land y z).
Definition Sigma0 (x : word) := Z.lxor (Z.lxor (rotr 2 x) (rotr 13 x)) (rotr 22 x).
Definition Sigma1 (x : word) := Z.lxor (Z.lxor (rotr 6 x) (rotr 11 x)) (rotr 25 x).
Definition sigma0 (x : word) := Z.lxor (Z.lxor (rotr 7 x) (rotr 18 x)) (shr 3 x).
Definition sigma1 (x : word) := Z.lxor (Z.lxor (rotr 17 x) (rotr 19 x)) (shr 10 x).

(** The constants of FIPS 180-4 are fractional parts of roots of the first
    primes: 32 bits of the cube roots of the first 64 primes for [K], of the
    square roots of the first 8 for [H0]. *)
Definition is_prime (n : nat) : bool :=
  (1 <? n)%nat && forallb (fun d => negb (n mod d =? 0)%nat) (seq 2 (n - 2)).

Definition first_primes (n : nat) : list Z :=
  map Z.of_nat (firstn n (List.filter is_prime (seq 2 320))).

(** The largest [r] in [[lo, lo + 2^bits)] with [r^3 <= x], by bisection. *)
Fixpoint cube_root_from (bits : nat) (lo x : Z) : Z :=
  match bits with
  | O => lo
  | S bits' =>
      let mid := lo + 2 ^ Z.of_nat bits' in
      if mid * mid * mid <=? x then cube_root_from bits' mid x
      else cube_root_from bits' lo x
  end.

Definition frac_cube_root (p : Z) : word := wrap (cube_root_from 36 0 (p * 2 ^ 96)).
Definition frac_square_root (p : Z) : word := wrap (Z.sqrt (p * 2 ^ 64)).

Definition K : list word := Eval vm_compute in map frac_cube_root (first_primes 64).

Definition H0 : list word := Eval vm_compute in map frac_square_root (first_primes 8).

Definition byte_val (b : Byte.byte) : Z := Z.of_N (Byte.to_N b).

(** The big-endian 32-bit words of a block. *)
Fixpoint words_of (bs : list Byte.byte) : list word :=
  match bs with
  | a :: b :: c :: d :: rest =>
      (byte_val a * 2^24 + byte_val b * 2^16 + byte_val c * 2^8 + byte_val d) :: words_of rest
  | _ => []
  end.

(** Message schedule; [recent] holds W[t-1], W[t-2], ... (latest first). *)
Fixpoint schedule (n : nat) (recent : list word) : list word :=
  match n with
  | O => recent
  | S n' =>
      let w := add32 (add32 (sigma1 (nth 1 recent 0)) (nth 6 recent 0))
                     (add32 (sigma0 (nth 14 recent 0)) (nth 15 recent 0)) in
      schedule n' (w :: recent)
  end.

Definition round (s : list word) (kw : word * word) : list word :=
  match s with
  | [a; b; c; d; e; f; g; h] =>
      let t1 := add32 (add32 (add32 h (Sigma1 e)) (add32 (Ch e f g) (fst kw))) (snd kw) in
      let t2 := add32 (Sigma0 a) (Maj a b c) in
      [add32 t1 t2; a; b; c; add32 d t1; e; f; g]
  | _ => s
  end.

(** The compression function on one 64-byte block. *)
Definition compress (h : list word) (block : list Byte.byte) : list word :=
  let w := rev (schedule 48 (rev (words_of block))) in
  let s := fold_left round (combine K w) h in
  map (fun p => add32 (fst p) (snd p)) (combine h s).

(** Compress the first [n] blocks of [bs]. *)
Fixpoint hash_blocks (n : nat) (h : list word) (bs : list Byte.byte) : list word :=
  match n with
  | O => h
  | S n' => hash_blocks n' (compress h (firstn 64 bs)) (skipn 64 bs)
  end.

Definition byte_of (z : Z) : Byte.byte :=
  match Byte.of_N (Z.to_N (z mod 256)) with Some b => b | None => Byte.x00 end.

Definition be_bytes (n : nat) (z : Z) : list Byte.byte :=
  map (fun i => byte_of (Z.shiftr z (8 * Z.of_nat i))) (rev (seq 0 n)).

(** Padding of a message of [len] bytes: 0x80, zeros, the bit length on 8 bytes. *)
Definition padding (len : nat) : list Byte.byte :=
  Byte.x80 :: repeat Byte.x00 ((64 - (len + 9) mod 64) mod 64)%nat
           ++ be_bytes 8 (8 * Z.of_nat len).

Definition hex_digit (z : Z) : Ascii.ascii :=
  nth (Z.to_nat z)
      ["0"; "1"; "2"; "3"; "4"; "5"; "6"; "7"; "8"; "9"; "a"; "b"; "c"; "d"; "e"; "f"]%char
      "0"%char.

Fixpoint hex_of_bytes (bs : list Byte.byte) : string :=
  match bs with
  | [] => ""
  | b :: rest =>
      String (hex_digit (byte_val b / 16)) (String (hex_digit (byte_val b mod 16)) (hex_of_bytes rest))
  end.

Definition hex_of_state (h : list word) : string :=
  hex_of_bytes (flat_map (be_bytes 4) h).

(** One-shot digest: pad the whole message, then fold the compression function
    over all its blocks. *)
Definition sha256 (msg : list Byte.byte) : list word :=
  let padded := msg ++ padding (length msg) in
  hash_blocks (length padded / 64)%nat H0 padded.

Definition sha256_hex (msg : list Byte.byte) : string := hex_of_state (sha256 msg).

(** The hash object: chaining value, buffered bytes of the incomplete block,
    number of bytes fed so far. *)
Record hasher := Hasher { h_state : list word; h_buf : list Byte.byte; h_len : nat }.

(** [hashlib.sha256()] *)
Definition new : hasher := Hasher H0 [] 0.

(** [h.update(data)]: the complete blocks of buffer plus data are compressed,
    the rest stays in the buffer. *)
Definition update (h : hasher) (data : list Byte.byte) : hasher :=
  let full := h_buf h ++ data in
  let n := (length full / 64)%nat in
  Hasher (hash_blocks n (h_state h) full) (skipn (64 * n) full) (h_len h + length data).

(** [h.hexdigest()] *)
Definition hexdigest (h : hasher) : string :=
  let final := h_buf h ++ padding (h_len h) in
  hex_of_state (hash_blocks (length final / 64)%nat (h_state h) final).

(** The hash object [h] has been fed the message [m]. *)
Definition fed (h : hasher) (m : list Byte.byte) : Prop :=
  h_len h = length m
  ∧ h_state h = hash_blocks (length m / 64)%nat H0 m
  ∧ h_buf h = skipn (64 * (length m / 64))%nat m.

End SHA256.


(* ================================================================== *)
(** * Python values: exceptions, strings, paths *)
(* ================================================================== *)

Module Py.

(** The exception classes the scripts raise, catch or can receive. *)
Inductive exn_class :=
| BaseException | SystemExit | KeyboardInterrupt | Exception
| OSError | FileNotFoundError | FileExistsError | IsADirectoryError
| NotADirectoryError | PermissionError | TimeoutError
| URLError | HTTPError | ShutilError
| SubprocessError | CalledProcessError
| RuntimeError | NameError | UnboundLocalError | ValueError.

Global Instance exn_class_eq_dec : EqDecision exn_class.
Proof. solve_decision. Defined.

(** Direct superclass. *)
Definition base (c : exn_class) : option exn_class :=
  match c with
  | BaseException => None
  | SystemExit | KeyboardInterrupt | Exception => Some BaseException
  | OSError | SubprocessError | RuntimeError | NameError | ValueError => Some Exception
  | FileNotFoundError | FileExistsError | IsADirectoryError | NotADirectoryError
  | PermissionError | TimeoutError | URLError | ShutilError => Some OSError
  | HTTPError => Some URLError
  | CalledProcessError => Some SubprocessError
  | UnboundLocalError => Some NameError
  end.

Fixpoint mro (fuel : nat) (c : exn_class) : list exn_class :=
  c :: match fuel, base c with
       | S fuel', Some b => mro fuel' b
       | _, _ => []
       end.

Definition issubclass (c d : exn_class) : bool := bool_decide (d ∈ mro 4 c).

(** An exception object: class, message ([str(e)]), the integer it carries
    ([e.code] of an HTTPError or SystemExit, [e.returncode] of a
    CalledProcessError). *)
Record exn := Exn {
  e_class : exn_class;
  e_msg : string;
  e_code : Z;
  e_stdout : string;     (* captured output of a CalledProcessError *)
  e_stderr : string;
}.

Global Instance exn_eq_dec : EqDecision exn.
Proof. solve_decision. Defined.

Definition isinstance (e : exn) (c : exn_class) : bool := issubclass (e_class e) c.

Definition mk_exn (c : exn_class) (msg : string) : exn := Exn c msg 0 "" "".

(** ** Strings *)

Definition is_slash (c : ascii) : bool := bool_decide (c = "/"%char).

Fixpoint has_slash (s : string) : bool :=
  match s with
  | "" => false
  | String c s' => is_slash c || has_slash s'
  end.

Fixpoint last_char (s : string) : option ascii :=
  match s with
  | "" => None
  | String c "" => Some c
  | String _ s' => last_char s'
  end.

Fixpoint startswith (s p : string) : bool :=
  match p, s with
  | "", _ => true
  | String a p', String b s' => bool_decide (a = b) && startswith s' p'
  | _, _ => false
  end.

(** [s.endswith(suffix)] *)
Definition endswith (s suffix : string) : bool :=
  startswith (String.rev s) (String.rev suffix).

(** [sep.join(parts)] *)
Fixpoint str_join (sep : string) (parts : list string) : string :=
  match parts with
  | [] => ""
  | [x] => x
  | x :: rest => x +:+ sep +:+ str_join sep rest
  end.

(** [str(n)] for an integer. *)
Definition str_of_Z (z : Z) : string := NilZero.string_of_int (Z.to_int z).

(** [needle in haystack] *)
Fixpoint str_contains (haystack needle : string) : bool :=
  startswith haystack needle ||
  match haystack with
  | "" => false
  | String _ rest => str_contains rest needle
  end.

(** [s.lower()] on ASCII letters. *)
Definition lower_char (c : ascii) : ascii :=
  let n := nat_of_ascii c in
  if (65 <=? n)%nat && (n <=? 90)%nat then ascii_of_nat (n + 32) else c.

Fixpoint lower (s : string) : string :=
  match s with
  | "" => ""
  | String c rest => String (lower_char c) (lower rest)
  end.

(** [s.strip()] *)
Fixpoint lstrip (s : string) : string :=
  match s with
  | String c rest => if Ascii.is_space c then lstrip rest else s
  | "" => ""
  end.

Definition strip (s : string) : string :=
  String.rev (lstrip (String.rev (lstrip s))).

(** [s[:-1]] *)
Fixpoint drop_last (s : string) : string :=
  match s with
  | "" => ""
  | String _ "" => ""
  | String c rest => String c (drop_last rest)
  end.

(** [bytes.decode(errors="ignore")], byte for character. *)
Definition decode (bs : list Byte.byte) : string := String.string_of_list_byte bs.

(** [range(a, b)] *)
Definition range (a b : Z) : list Z :=
  map (fun i => a + Z.of_nat i) (seq 0 (Z.to_nat (b - a))).

(** ** [os.path] *)

(** [os.path.join(a, b)] *)
Definition path_join (a b : string) : string :=
  if startswith b "/" then b
  else if bool_decide (a = "") || endswith a "/" then a +:+ b
  else a +:+ "/" +:+ b.

(** [os.path.basename(p)]: what follows the last slash. *)
Fixpoint basename (p : string) : string :=
  match p with
  | "" => ""
  | String c rest =>
      if has_slash rest then basename rest
      else if is_slash c then rest else p
  end.

(** The head of [os.path.split(p)]: everything up to and including the last slash. *)
Fixpoint split_head (p : string) : string :=
  match p with
  | "" => ""
  | String c rest =>
      if has_slash rest then String c (split_head rest)
      else if is_slash c then "/" else ""
  end.

(** [s.rstrip("/")] *)
Fixpoint rstrip_slash (s : string) : string :=
  match s with
  | "" => ""
  | String c rest =>
      match rstrip_slash rest with
      | "" => if is_slash c then "" else String c ""
      | r => String c r
      end
  end.

(** [os.path.dirname(p)] *)
Definition dirname (p : string) : string :=
  let head := split_head p in
  if bool_decide (rstrip_slash head = "") then head else rstrip_slash head.

(** The components of a path: the names between slashes, without the empty
    ones and ".".  The component ".." and symbolic links are not interpreted;
    none of the paths of the scripts has them.  [cur] is the name being read,
    reversed. *)
Definition flush (cur : string) : list string :=
  if bool_decide (cur = "") || bool_decide (cur = ".") then [] else [String.rev cur].

Fixpoint components_go (cur : string) (s : string) : list string :=
  match s with
  | "" => flush cur
  | String c rest =>
      if is_slash c
      then flush cur ++ components_go "" rest
      else components_go (String c cur) rest
  end.

Definition components (s : string) : list string := components_go "" s.

(** The absolute location a path string denotes when the working directory is [cwd]. *)
Definition resolve (cwd p : string) : list string :=
  if startswith p "/" then components p else components cwd ++ components p.

(** [os.path.abspath(p)] for a path without "." and ".." components. *)
Definition abspath (cwd p : string) : string :=
  "/" +:+ str_join "/" (resolve cwd p).

End Py.

(* ================================================================== *)
(** * The filesystem *)
(* ================================================================== *)

(** Regular files and directories; permissions, ownership, timestamps,
    symbolic links and devices are not modelled. *)

Module FS.

#[warnings="-register-all"]
Inductive node :=
| File (data : list Byte.byte)
| Dir (children : gmap string node).

(** A location: the names from the root down. *)
Definition path := list string.

Definition children_of (t : option node) : gmap string node :=
  match t with
  | Some (Dir ch) => ch
  | _ => ∅
  end.

Definition is_dir (t : option node) : bool :=
  match t with Some (Dir _) => true | _ => false end.

Definition is_file (t : option node) : bool :=
  match t with Some (File _) => true | _ => false end.

(** The node at [p] below [n]. *)
Fixpoint get (p : path) (n : node) : option node :=
  match p with
  | [] => Some n
  | c :: p' =>
      match n with
      | Dir ch => match ch !! c with Some child => get p' child | None => None end
      | File _ => None
      end
  end.

(** Put [v] at [p] (create or replace); [None] when the parent of [p] is not
    an existing directory. *)
Fixpoint put (p : path) (v : node) (t : option node) : option node :=
  match p with
  | [] => Some v
  | c :: p' =>
      match t with
      | Some (Dir ch) =>
          match put p' v (ch !! c) with
          | Some child => Some (Dir (<[c := child]> ch))
          | None => None
          end
      | _ => None
      end
  end.

(** Remove the subtree at [p]; [None] stands for "nothing left here". *)
Fixpoint del (p : path) (n : node) : option node :=
  match p with
  | [] => None
  | c :: p' =>
      match n with
      | Dir ch => Some (Dir (partial_alter (fun o => o ≫= del p') c ch))
      | File _ => Some n
      end
  end.

(** Take the tree [n] away from [src] and put it at [dst]. *)
Definition relocate (src dst : path) (n : node) (root : node) : option node :=
  match del src root with
  | Some root' => put dst n (Some root')
  | None => None
  end.

(** [mkdir -p]: make [p] and its missing ancestors directories; [None] when a
    file is in the way. *)
Fixpoint mkdirs (p : path) (t : option node) : option node :=
  match t with
  | Some (File _) => None
  | _ =>
      match p with
      | [] => Some (Dir (children_of t))
      | c :: p' =>
          match mkdirs p' (children_of t !! c) with
          | Some child => Some (Dir (<[c := child]> (children_of t)))
          | None => None
          end
      end
  end.

(** What [shutil.copy2(src, dst)] does with the file [data] named [name] when
    [dst] currently holds [t]: into the directory when [t] is one, otherwise
    over it.  The flag tells a failure (the slot inside the directory is
    itself a directory). *)
Definition copy_file_onto (name : string) (data : list Byte.byte) (t : option node)
  : option node * bool :=
  match t with
  | Some (Dir d) =>
      if is_dir (d !! name) then (t, true)
      else (Some (Dir (<[name := File data]> d)), false)
  | _ => (Some (File data), false)
  end.

(** One entry of [shutil.copytree(..., dirs_exist_ok=True)]: copy [src], whose
    name is [name], onto the slot holding [t].  Returns the slot afterwards and
    the number of entries that failed (the [errors] list of copytree; an entry
    that fails is skipped and the others are still copied). *)
Fixpoint copy_entry (name : string) (src : node) (t : option node) : option node * nat :=
  match src with
  | File data =>
      let '(t', failed) := copy_file_onto name data t in
      (t', if failed then 1%nat else 0%nat)
  | Dir sch =>
      if is_file t then (t, 1%nat)   (* os.makedirs: FileExistsError *)
      else
        let '(ch, errs) :=
          map_fold (fun nm child (acc : gmap string node * nat) =>
                      let '(r, e) := copy_entry nm child (acc.1 !! nm) in
                      (match r with Some n => <[nm := n]> acc.1 | None => acc.1 end,
                       (acc.2 + e)%nat))
                   (children_of t, 0%nat) sch in
        (Some (Dir ch), errs)
  end.


(** [a] is [b] or an ancestor of [b]. *)
Fixpoint is_prefix (a b : path) : bool :=
  match a, b with
  | [], _ => true
  | x :: a', y :: b' => bool_decide (x = y) && is_prefix a' b'
  | _, [] => false
  end.

(** Neither location is inside the other. *)
Definition apart (a b : path) : bool := negb (is_prefix a b) && negb (is_prefix b a).

(** The names in a directory, as [os.listdir] gives them (in some order). *)
Definition names (t : option node) : list string :=
  (map_to_list (children_of t)).*1.

End FS.

(* ================================================================== *)
(** * The world: external collaborators, effects, exceptions *)
(* ================================================================== *)

Module World.
Import Py.

Inductive level := DEBUG | INFO | WARNING | ERROR.

(** What is given to [subprocess]: an argument vector, or a line for the shell. *)
Inductive command :=
| Argv (args : list string)
| Shell (line : string).

(** The effects a run performs on its surroundings, as they happen. *)
Inductive event :=
| EvLog (lvl : level) (msg : string)       (* a logging record *)
| EvPrint (msg : string)                   (* print() *)
| EvUrlopen (url : string)                 (* one network attempt *)
| EvSleep (seconds : Z)                    (* time.sleep *)
| EvTime                                   (* time.time *)
| EvRun (cmd : command) (environ : list (string * string))  (* subprocess.run *)
| EvPopen (argv : list string)             (* subprocess.Popen *)
| EvMove (src dst : string) (dst_existed : bool)  (* a completed shutil.move *)
| EvSetrlimit                              (* resource.setrlimit *)
| EvInput (prompt : string).               (* input() *)

(** Answer of the network to one attempt: the connection fails, or a
    response arrives whose body is read until its end or until [read_error]. *)
Inductive net_reply :=
| NetFail (e : exn)
| NetOk (status : Z) (final_url : string) (body : list Byte.byte) (read_error : option exn).

(** Answer of the system to a command: it cannot be started, or it runs,
    leaves the filesystem as [fs'] and exits. *)
Inductive cmd_reply :=
| CmdSpawnFail (e : exn)
| CmdExit (returncode : Z) (stdout stderr : string) (fs' : FS.node).

(** The external collaborators.  Each one answers from the history of the
    run so far, so that every deterministic behaviour of the surroundings is
    an instance. *)
Record env := Env {
  e_urlopen : list event → string → net_reply;
  e_run : list event → command → list (string * string) → FS.node → cmd_reply;
  e_popen : list event → list string → option exn;
  e_time : list event → Z;
  e_input : list event → string → string;
  e_setrlimit : list event → option exn;
  e_geteuid : Z;
}.

Record world := W {
  w_env : env;
  w_cwd : string;          (* working directory *)
  w_fs : FS.node;          (* the root directory *)
  w_trace : list event;    (* latest event first *)
}.

(** ** Computations that may raise *)

Inductive result (A : Type) :=
| Ret (a : A)
| Raise (e : exn).
Global Arguments Ret {A} a.
Global Arguments Raise {A} e.

Definition M (A : Type) : Type := world → result A * world.

Definition ret {A} (a : A) : M A := fun w => (Ret a, w).
Definition raise {A} (e : exn) : M A := fun w => (Raise e, w).
Definition bind {A B} (m : M A) (k : A → M B) : M B :=
  fun w => match m w with
           | (Ret a, w') => k a w'
           | (Raise e, w') => (Raise e, w')
           end.

Declare Scope prog_scope.
Delimit Scope prog_scope with prog.
Notation "x ← y ; z" := (bind y (fun x => z))
  (at level 20, y at level 100, z at level 200, only parsing) : prog_scope.
Notation "' x ← y ; z" := (bind y (fun x => z))
  (at level 20, x pattern, y at level 100, z at level 200, only parsing) : prog_scope.
Notation "x ;; z" := (bind x (fun _ => z))
  (at level 100, z at level 200, only parsing, right associativity) : prog_scope.
Local Open Scope prog_scope.

(** [try: body except <handler>]: the handler says whether it takes the exception. *)
Definition try_except {A} (body : M A) (handler : exn → option (M A)) : M A :=
  fun w => match body w with
           | (Ret a, w') => (Ret a, w')
           | (Raise e, w') =>
               match handler e with
               | Some h => h w'
               | None => (Raise e, w')
               end
           end.

(** [except cls:] *)
Definition except (cls : exn_class) {A} (h : exn → M A) : exn → option (M A) :=
  fun e => if isinstance e cls then Some (h e) else None.

Definition get_world : M world := fun w => (Ret w, w).
Definition emit (ev : event) : M unit :=
  fun w => (Ret tt, W (w_env w) (w_cwd w) (w_fs w) (ev :: w_trace w)).
Definition set_fs (fs : FS.node) : M unit :=
  fun w => (Ret tt, W (w_env w) (w_cwd w) fs (w_trace w)).
Definition set_cwd (d : string) : M unit :=
  fun w => (Ret tt, W (w_env w) d (w_fs w) (w_trace w)).

Definition log (lvl : level) (msg : string) : M unit := emit (EvLog lvl msg).
Definition print (msg : string) : M unit := emit (EvPrint msg).

(** [sys.exit(code)] *)
Definition sys_exit {A} (code : Z) : M A := raise (Exn SystemExit "" code "" "").

(** [for x in xs: body x] *)
Fixpoint for_each {A} (xs : list A) (body : A → M unit) : M unit :=
  match xs with
  | [] => ret tt
  | x :: rest => body x ;; for_each rest body
  end.

(** ** The collaborators *)

(** [time.time()], truncated to an integer. *)
Definition time_now : M Z :=
  w ← get_world; emit EvTime ;; ret (e_time (w_env w) (w_trace w)).

(** [time.sleep(seconds)] *)
Definition sleep (seconds : Z) : M unit := emit (EvSleep seconds).

(** [input(prompt)] *)
Definition input (prompt : string) : M string :=
  w ← get_world; emit (EvInput prompt) ;; ret (e_input (w_env w) (w_trace w) prompt).

(** [resource.setrlimit(RLIMIT_NOFILE, ...)] *)
Definition setrlimit : M unit :=
  w ← get_world;
  emit EvSetrlimit ;;
  match e_setrlimit (w_env w) (w_trace w) with
  | Some e => raise e
  | None => ret tt
  end.

Definition geteuid : M Z := w ← get_world; ret (e_geteuid (w_env w)).

(** One network attempt. *)
Definition urlopen (url : string) : M net_reply :=
  w ← get_world; emit (EvUrlopen url) ;; ret (e_urlopen (w_env w) (w_trace w) url).

(** [subprocess.run(cmd, env=environ, check=False)]: exit code, stdout,
    stderr.  [environ] lists the variables set on top of the inherited ones. *)
Definition subprocess_run (cmd : command) (environ : list (string * string))
  : M (Z * string * string) :=
  w ← get_world;
  emit (EvRun cmd environ) ;;
  match e_run (w_env w) (w_trace w) cmd environ (w_fs w) with
  | CmdSpawnFail e => raise e
  | CmdExit rc out err fs' => set_fs fs' ;; ret (rc, out, err)
  end.

Definition show_command (cmd : command) : string :=
  match cmd with
  | Argv args => str_join " " args
  | Shell line => line
  end.

(** [subprocess.run(cmd, env=environ, check=True)] *)
Definition subprocess_check (cmd : command) (environ : list (string * string))
  : M (Z * string * string) :=
  r ← subprocess_run cmd environ;
  if bool_decide (r.1.1 = 0) then ret r
  else raise (Exn CalledProcessError
                  ("Command '" +:+ show_command cmd +:+ "' returned non-zero exit status")
                  r.1.1 r.1.2 r.2).

(** [subprocess.Popen(argv, ...)]: start a process and do not wait for it. *)
Definition popen (argv : list string) : M unit :=
  w ← get_world;
  emit (EvPopen argv) ;;
  match e_popen (w_env w) (w_trace w) argv with
  | Some e => raise e
  | None => ret tt
  end.

(** ** Filesystem calls *)

Definition loc (w : world) (p : string) : FS.path := resolve (w_cwd w) p.

Definition stat (p : string) : M (option FS.node) :=
  w ← get_world; ret (FS.get (loc w p) (w_fs w)).

(** [os.path.exists], [os.path.isdir], [os.path.isfile] *)
Definition path_exists (p : string) : M bool :=
  t ← stat p; ret (bool_decide (is_Some t)).
Definition isdir (p : string) : M bool := t ← stat p; ret (FS.is_dir t).
Definition isfile (p : string) : M bool := t ← stat p; ret (FS.is_file t).

(** [os.makedirs(p, exist_ok=True)] *)
Definition makedirs (p : string) : M unit :=
  w ← get_world;
  match FS.mkdirs (loc w p) (Some (w_fs w)) with
  | Some fs' => set_fs fs'
  | None =>
      if FS.is_file (FS.get (loc w p) (w_fs w))
      then raise (mk_exn FileExistsError p)
      else raise (mk_exn NotADirectoryError p)
  end.

(** [os.makedirs(p)], which refuses an existing [p]. *)
Definition makedirs_new (p : string) : M unit :=
  e ← path_exists p;
  if e then raise (mk_exn FileExistsError p) else makedirs p.

(** [os.chmod(p, mode)]; modes are not modelled, only the failure on a missing path. *)
Definition chmod (p : string) : M unit :=
  e ← path_exists p;
  if e then ret tt else raise (mk_exn FileNotFoundError p).

(** [open(p, "rb").read()] *)
Definition read_file (p : string) : M (list Byte.byte) :=
  t ← stat p;
  match t with
  | Some (FS.File data) => ret data
  | Some (FS.Dir _) => raise (mk_exn IsADirectoryError p)
  | None => raise (mk_exn FileNotFoundError p)
  end.

(** [open(p, "wb")] followed by writing [data]. *)
Definition write_file (p : string) (data : list Byte.byte) : M unit :=
  w ← get_world;
  if FS.is_dir (FS.get (loc w p) (w_fs w)) then raise (mk_exn IsADirectoryError p)
  else match FS.put (loc w p) (FS.File data) (Some (w_fs w)) with
       | Some fs' => set_fs fs'
       | None => raise (mk_exn FileNotFoundError p)
       end.

(** Remove whatever is at [p]. *)
Definition unlink_tree (p : string) : M unit :=
  w ← get_world;
  match FS.del (loc w p) (w_fs w) with
  | Some fs' => set_fs fs'
  | None => raise (mk_exn PermissionError p)     (* the root *)
  end.

(** [os.remove(p)] *)
Definition os_remove (p : string) : M unit :=
  t ← stat p;
  match t with
  | Some (FS.File _) => unlink_tree p
  | Some (FS.Dir _) => raise (mk_exn IsADirectoryError p)
  | None => raise (mk_exn FileNotFoundError p)
  end.

(** [os.listdir(p)] *)
Definition listdir (p : string) : M (list string) :=
  t ← stat p;
  match t with
  | Some (FS.Dir _) => ret (FS.names t)
  | Some (FS.File _) => raise (mk_exn NotADirectoryError p)
  | None => raise (mk_exn FileNotFoundError p)
  end.

(** Run a computation from a world: the result and the final world. *)
Definition run {A} (m : M A) (w : world) : result A * world := m w.

End World.

(* ================================================================== *)
(** * [shutil] *)
(* ================================================================== *)

Module Shutil.
Import Py World.
Local Open Scope prog_scope.

(** [shutil.copy(src, dst)] and [shutil.copy2(src, dst)] (they differ in the
    metadata they keep, which is not modelled): into [dst] when it is a
    directory, otherwise onto it.  Returns the path written. *)
Definition copy (src dst : string) : M string :=
  d ← isdir dst;
  let dst' := if d then path_join dst (basename src) else dst in
  w ← get_world;
  if bool_decide (loc w src = loc w dst') && bool_decide (is_Some (FS.get (loc w src) (w_fs w)))
  then raise (mk_exn ShutilError "SameFileError")
  else
    data ← read_file src;
    write_file dst' data ;;
    ret dst'.

(** [shutil.copytree(src, dst, dirs_exist_ok=...)].  The source tree is read
    when the call starts; copying a directory into itself is outside the model. *)
Definition copytree (src dst : string) (dirs_exist_ok : bool) : M unit :=
  s ← stat src;
  match s with
  | None => raise (mk_exn FileNotFoundError src)
  | Some (FS.File _) => raise (mk_exn NotADirectoryError src)
  | Some (FS.Dir sch) =>
      (if dirs_exist_ok then makedirs dst else makedirs_new dst) ;;
      t ← stat dst;
      w ← get_world;
      let '(t', errs) := FS.copy_entry (basename src) (FS.Dir sch) t in
      match t' ≫= fun n => FS.put (loc w dst) n (Some (w_fs w)) with
      | Some fs' => set_fs fs'
      | None => ret tt
      end ;;
      if bool_decide (errs = 0%nat) then ret tt
      else raise (mk_exn ShutilError "copytree: errors")
  end.

(** [shutil.rmtree(p)] *)
Definition rmtree (p : string) : M unit :=
  t ← stat p;
  match t with
  | Some (FS.Dir _) => unlink_tree p
  | Some (FS.File _) => raise (mk_exn NotADirectoryError p)
  | None => raise (mk_exn FileNotFoundError p)
  end.

(** [shutil.move(src, dst)]: into [dst] when it is a directory (refusing to
    replace what is there), otherwise a rename, which replaces a file at [dst].
    When the rename fails because the parent of the destination is missing, a
    directory is still moved by copying (which creates the parent).  Returns
    the path the source now has.  The completed move is recorded with whether
    its destination existed before. *)
Definition move (src dst : string) : M string :=
  w ← get_world;
  d ← isdir dst;
  if d && bool_decide (loc w src = loc w dst) then ret dst     (* the same directory *)
  else
    let real_dst := if d then path_join dst (basename (rstrip_slash src)) else dst in
    occupied ← path_exists real_dst;
    if d && occupied
    then raise (mk_exn ShutilError ("Destination path '" +:+ real_dst +:+ "' already exists"))
    else
      s ← stat src;
      t ← stat real_dst;
      match s with
      | None => raise (mk_exn FileNotFoundError src)
      | Some n =>
          if FS.is_dir s && FS.is_prefix (loc w src) (loc w real_dst)
          then raise (mk_exn ShutilError "Cannot move a directory into itself")
          else if FS.is_dir s && FS.is_file t
          then raise (mk_exn FileExistsError real_dst)
          else
            let parent := removelast (loc w real_dst) in
            let fs0 := if FS.is_dir s && negb (FS.is_dir (FS.get parent (w_fs w)))
                       then FS.mkdirs parent (Some (w_fs w))
                       else Some (w_fs w) in
            match fs0 ≫= FS.relocate (loc w src) (loc w real_dst) n with
            | Some fs' => set_fs fs' ;; emit (EvMove src real_dst occupied) ;; ret real_dst
            | None => raise (mk_exn (if FS.is_dir s then NotADirectoryError else FileNotFoundError)
                                    real_dst)
            end
      end.

End Shutil.

(* ================================================================== *)
(** * startup2.py *)
(* ================================================================== *)

Module Startup2.
Import Py World.
Local Open Scope prog_scope.

(** ** Configuration *)

Definition REPO_URL := "https://github.com/Abr-ahamis/startup.git".
Definition REPO_DIRNAME := "startup".
Definition DOWNLOADS_DIRNAME := "downloads".

Definition VSCODE_DEB_URL :=
  "https://code.visualstudio.com/sha/download?build=stable&os=linux-deb-x64".
Definition TELEGRAM_DL_PAGE := "https://telegram.org/dl/desktop/linux".
Definition BRAVE_INSTALLER_URL := "https://dl.brave.com/install.sh".
Definition PROTONVPN_DEB_URL :=
  "https://repo.protonvpn.com/debian/dists/stable/main/binary-all/protonvpn-stable-release_1.0.8_all.deb".
Definition PROTONVPN_SHA256 :=
  "0b14e71586b22e498eb20926c48c7b434b751149b1f2af9902ef1cfe6b03e180".
Definition RUSTSCAN_DEB_URL :=
  "https://github.com/RustScan/RustScan/releases/download/2.2.3/rustscan_2.2.3_amd64.deb".

Definition GRUB_CFG_SRC := "grub.cfg".
Definition KALI_THEME_SRC := "kali".
Definition WALLPAPER_DIR := "wallpaper".
Definition WALLPAPER_FILES : list (string * string) :=
  [ ("20-wallpaper.svg", "/usr/share/backgrounds/kali/login.svg");
    ("12-wallpaper.png", "/usr/share/backgrounds/kali/kali-maze-16x9.jpg");
    ("1-wallpaper.png", "/usr/share/backgrounds/kali/kali-tiles-16x9.jpg");
    ("2-wallpaper.png", "/usr/share/backgrounds/kali/kali-waves-16x9.png");
    ("3-wallpaper.png", "/usr/share/backgrounds/kali/kali-oleo-16x9.png");
    ("4-wallpaper.png", "/usr/share/backgrounds/kali/kali-tiles-purple-16x9.jpg") ].
Definition WALLPAPER_FILES_TO_BACKUP : list string :=
  [ "kali-maze-16x9.jpg"; "kali-tiles-16x9.jpg"; "kali-oleo-16x9.png";
    "kali-tiles-purple-16x9.jpg"; "kali-waves-16x9.png"; "login.svg"; "login-blurred" ].

Definition DESIRED_FONT_FAMILY := "DejaVu Serif Condensed".
Definition DESIRED_FONT_PACKAGE := "fonts-dejavu-core".
Definition DESIRED_FONT_SETTING := DESIRED_FONT_FAMILY +:+ " 10".

(** ** Helpers *)

(** [run_cmd(cmd, check=True, capture_output, env)]; every call of the script
    leaves [check] at its default. *)
Definition run_cmd (cmd : command) (capture_output : bool) (environ : list (string * string))
  : M (Z * string * string) :=
  let display := show_command cmd in
  log INFO ("Running: " +:+ display) ;;
  try_except
    (proc ← subprocess_check cmd environ;
     if capture_output
     then log DEBUG ("stdout: " +:+ proc.1.2) ;; log DEBUG ("stderr: " +:+ proc.2) ;; ret proc
     else ret proc)
    (except CalledProcessError (fun e =>
       log ERROR ("Command failed: " +:+ display +:+ " (exit " +:+ str_of_Z (e_code e) +:+ ")") ;;
       (if capture_output
        then log ERROR ("stdout: " +:+ e_stdout e) ;; log ERROR ("stderr: " +:+ e_stderr e)
        else ret tt) ;;
       raise e)).

Definition require_root : M unit :=
  euid ← geteuid;
  if bool_decide (euid ≠ 0)
  then log ERROR "This script must be run as root (sudo). Exiting." ;; sys_exit 2
  else ret tt.

Definition safe_makedirs (path : string) : M unit :=
  makedirs path ;;
  try_except (chmod path) (except Exception (fun _ => ret tt)).

(** The [while os.path.exists(candidate)] loop of [make_unique_path].  The
    loop has no bound in the script; here it runs on [fuel], and
    [make_unique_path] gives it more than it can use (one more than the number
    of entries in the directory of the candidates). *)
Fixpoint unique_loop (fuel : nat) (path_base : string) (timestamp counter : Z)
    (candidate : string) : M string :=
  taken ← path_exists candidate;
  if taken then
    match fuel with
    | O => raise (mk_exn RuntimeError "make_unique_path: loop cut short")
    | S fuel' =>
        let counter := counter + 1 in
        unique_loop fuel' path_base timestamp counter
          (path_base +:+ "." +:+ str_of_Z timestamp +:+ "." +:+ str_of_Z counter)
    end
  else ret candidate.

Definition loop_fuel (w : world) (candidate : string) : nat :=
  S (size (FS.children_of (FS.get (removelast (loc w candidate)) (w_fs w)))).

(** Return path_base or a timestamped unique variant if exists. *)
Definition make_unique_path (path_base : string) : M string :=
  present ← path_exists path_base;
  if negb present then ret path_base
  else
    timestamp ← time_now;
    let candidate := path_base +:+ "." +:+ str_of_Z timestamp in
    w ← get_world;
    unique_loop (loop_fuel w candidate) path_base timestamp 0 candidate.

(** [f.read(n)] on what is left of an open file: the bytes read, the bytes left. *)
Definition file_read (n : Z) (rest : list Byte.byte) : list Byte.byte * list Byte.byte :=
  if n <? 0 then (rest, [])
  else (firstn (Z.to_nat n) rest, skipn (Z.to_nat n) rest).

(** [for chunk in iter(lambda: f.read(chunk_size), b""): h.update(chunk)] *)
Fixpoint update_chunks (fuel : nat) (chunk_size : Z) (h : SHA256.hasher)
    (rest : list Byte.byte) : SHA256.hasher :=
  match fuel with
  | O => h
  | S fuel' =>
      let '(chunk, rest') := file_read chunk_size rest in
      match chunk with
      | [] => h
      | _ => update_chunks fuel' chunk_size (SHA256.update h chunk) rest'
      end
  end.

(** [sha256_of_file(path, chunk_size=8192)].  A read that returns bytes
    shortens what is left, so the loop ends within [length data + 1] reads. *)
Definition sha256_of_file (path : string) (chunk_size : Z) : M string :=
  data ← read_file path;
  let h := SHA256.new in
  ret (SHA256.hexdigest (update_chunks (S (length data)) chunk_size h data)).

(** One pass through the [try] block of [download_with_retries]. *)
Definition download_attempt (url target_path : string) (attempt retries : Z) : M string :=
  log INFO ("Downloading (attempt " +:+ str_of_Z attempt +:+ "/" +:+ str_of_Z retries
            +:+ "): " +:+ url) ;;
  resp ← urlopen url;
  match resp with
  | NetFail e => raise e
  | NetOk _ _ body read_error =>
      let d := dirname target_path in
      safe_makedirs (if bool_decide (d = "") then "." else d) ;;
      write_file target_path body ;;
      match read_error with
      | Some e => raise e
      | None => log INFO ("Saved to: " +:+ target_path) ;; ret target_path
      end
  end.

(** The [for attempt in range(1, retries + 1)] loop; [last_err] is [None]
    as long as the local variable is unbound. *)
Fixpoint download_loop (url target_path : string) (retries : Z) (attempts : list Z)
    (last_err : option exn) : M string :=
  match attempts with
  | [] =>
      log ERROR ("Failed to download " +:+ url +:+ " after " +:+ str_of_Z retries
                 +:+ " attempts") ;;
      match last_err with
      | Some e => raise e
      | None => raise (mk_exn UnboundLocalError
                  "cannot access local variable 'last_err' where it is not associated with a value")
      end
  | attempt :: rest =>
      r ← try_except
            (p ← download_attempt url target_path attempt retries; ret (inl p))
            (fun e =>
               if isinstance e HTTPError then Some (
                 log WARNING ("HTTP error downloading " +:+ url +:+ ": "
                              +:+ str_of_Z (e_code e) +:+ " " +:+ e_msg e) ;;
                 ret (inr e))
               else if isinstance e URLError then Some (
                 log WARNING ("URL error downloading " +:+ url +:+ ": " +:+ e_msg e) ;;
                 ret (inr e))
               else if isinstance e Exception then Some (
                 log WARNING ("Error downloading " +:+ url +:+ ": " +:+ e_msg e) ;;
                 ret (inr e))
               else None);
      match r with
      | inl p => ret p
      | inr e => sleep (1 + attempt) ;; download_loop url target_path retries rest (Some e)
      end
  end.

(** Download a URL to target_path with retries. Returns target_path on
    success.  Raises on final failure. *)
Definition download_with_retries (url target_path : string) (retries : Z) : M string :=
  download_loop url target_path retries (range 1 (retries + 1)) None.

(** ** Main steps *)

Definition clone_repo (repo_url dest_dir : string) : M unit :=
  d ← isdir dest_dir;
  done ← (if d then
            log INFO ("Repo directory '" +:+ dest_dir +:+ "' exists; attempting git pull.") ;;
            try_except
              (run_cmd (Argv ["git"; "-C"; dest_dir; "pull"]) false [] ;; ret true)
              (except Exception (fun _ =>
                 log WARNING "git pull failed; renaming existing directory and cloning fresh." ;;
                 ts ← time_now;
                 let backup_name := dest_dir +:+ ".bak-" +:+ str_of_Z ts in
                 Shutil.move dest_dir backup_name ;;
                 log INFO ("Moved existing repo to " +:+ backup_name) ;;
                 ret false))
          else ret false);
  if done then ret tt
  else run_cmd (Argv ["git"; "clone"; repo_url; dest_dir]) false [] ;; ret tt.

Definition setup_downloads (repo_path : string) : M string :=
  let downloads := path_join repo_path DOWNLOADS_DIRNAME in
  safe_makedirs downloads ;;
  log INFO ("Downloads folder: " +:+ downloads) ;;
  ret downloads.

Definition backup_and_copy_grub (repo_path : string) : M unit :=
  log INFO "Backing up and copying GRUB themes and grub.cfg" ;;
  let grub_cfg_path := "/boot/grub/grub.cfg" in
  present ← path_exists grub_cfg_path;
  (if present then
     dest ← make_unique_path (grub_cfg_path +:+ ".b");
     log INFO ("Moving " +:+ grub_cfg_path +:+ " -> " +:+ dest) ;;
     Shutil.move grub_cfg_path dest ;; ret tt
   else ret tt) ;;
  let src_grubcfg := path_join repo_path GRUB_CFG_SRC in
  found ← path_exists src_grubcfg;
  if negb found then raise (mk_exn FileNotFoundError (src_grubcfg +:+ " not found in repo"))
  else
  safe_makedirs "/boot/grub" ;;
  Shutil.copy src_grubcfg "/boot/grub/" ;;
  safe_makedirs "/boot/grub/themes/backup" ;;
  safe_makedirs "/usr/share/grub/themes/backup" ;;

  let boot_kali := "/boot/grub/themes/kali" in
  d ← isdir boot_kali;
  (if d then
     dest ← make_unique_path "/boot/grub/themes/backup/kali.b";
     log INFO ("Moving existing " +:+ boot_kali +:+ " -> " +:+ dest) ;;
     Shutil.move boot_kali dest ;; ret tt
   else ret tt) ;;

  let repo_kali := path_join repo_path KALI_THEME_SRC in
  found ← isdir repo_kali;
  if negb found then raise (mk_exn FileNotFoundError (repo_kali +:+ " not found in repo"))
  else
  safe_makedirs "/boot/grub/themes" ;;
  Shutil.copytree repo_kali "/boot/grub/themes/kali" true ;;

  let usr_kali := "/usr/share/grub/themes/kali" in
  d ← isdir usr_kali;
  (if d then
     dest ← make_unique_path "/usr/share/grub/themes/backup/kali.b";
     log INFO ("Backing up " +:+ usr_kali +:+ " -> " +:+ dest) ;;
     Shutil.move usr_kali dest ;; ret tt
   else ret tt) ;;
  safe_makedirs "/usr/share/grub/themes" ;;
  Shutil.copytree "/boot/grub/themes/kali" "/usr/share/grub/themes/kali" true.

Definition backup_and_copy_wallpapers (repo_path : string) : M unit :=
  log INFO "Backing up and copying wallpapers" ;;
  let wallpaper_repo_path := path_join repo_path WALLPAPER_DIR in
  d ← isdir wallpaper_repo_path;
  if negb d then raise (mk_exn FileNotFoundError (wallpaper_repo_path +:+ " not found in repo"))
  else
  let target_dir := "/usr/share/backgrounds/kali" in
  let backup_dir := path_join target_dir "backup" in
  safe_makedirs backup_dir ;;
  for_each WALLPAPER_FILES_TO_BACKUP (fun f =>
    let target_file := path_join target_dir f in
    present ← path_exists target_file;
    if present then
      dest ← make_unique_path (path_join backup_dir (f +:+ ".b"));
      safe_makedirs (dirname dest) ;;
      Shutil.move target_file dest ;;
      log INFO ("Backed up " +:+ target_file +:+ " -> " +:+ dest)
    else ret tt) ;;
  for_each WALLPAPER_FILES (fun '(src_name, dest) =>
    let src_file := path_join wallpaper_repo_path src_name in
    found ← path_exists src_file;
    if negb found then raise (mk_exn FileNotFoundError (src_file +:+ " not found in repo"))
    else
      safe_makedirs (dirname dest) ;;
      Shutil.copy src_file dest ;;
      log INFO ("Copied " +:+ src_file +:+ " -> " +:+ dest)).

Definition fc_list_has (font_family : string) : M bool :=
  proc ← subprocess_run (Argv ["fc-list"; ":family"]) [];
  ret (str_contains (lower proc.1.2) (lower font_family)).

Definition ensure_font_available (font_family apt_package : string) : M bool :=
  found ← try_except
            (has ← fc_list_has font_family;
             if has then log INFO ("Font '" +:+ font_family +:+ "' already available.") ;; ret true
             else ret false)
            (except FileNotFoundError (fun _ =>
               log DEBUG "fc-list not available; will attempt apt install of font package." ;;
               ret false));
  if found then ret true
  else
    try_except
      (run_cmd (Argv ["apt-get"; "update"]) false [] ;;
       run_cmd (Argv ["apt-get"; "install"; "-y"; apt_package]) false [] ;; ret tt)
      (except Exception (fun e =>
         log WARNING ("Could not install font package " +:+ apt_package +:+ ": " +:+ e_msg e))) ;;
    found ← try_except
              (has ← fc_list_has font_family;
               if has then log INFO ("Font '" +:+ font_family +:+ "' installed/available.") ;; ret true
               else ret false)
              (except Exception (fun _ => ret false));
    if found then ret true
    else log WARNING ("Font '" +:+ font_family +:+ "' not found after attempts.") ;; ret false.

Definition gsettings_set (schema key value : string) : command :=
  Argv ["gsettings"; "set"; schema; key; value].
Definition gsettings_get (schema key : string) : command :=
  Argv ["gsettings"; "get"; schema; key].

Definition apply_gnome_tweaks : M unit :=
  log INFO "Applying GNOME tweaks and font settings" ;;
  ensure_font_available DESIRED_FONT_FAMILY DESIRED_FONT_PACKAGE ;;
  try_except
    (run_cmd (gsettings_set "org.gnome.desktop.interface" "font-name" DESIRED_FONT_SETTING) false [] ;;
     log INFO ("Set interface font -> " +:+ DESIRED_FONT_SETTING))
    (except Exception (fun e => log WARNING ("Failed to set interface font: " +:+ e_msg e))) ;;
  try_except
    (run_cmd (gsettings_set "org.gnome.desktop.interface" "text-scaling-factor" "0.95") false [] ;;
     run_cmd (gsettings_set "org.gnome.desktop.background" "picture-options" "zoom") false [] ;;
     ret tt)
    (except Exception (fun e => log WARNING ("Failed to set some gsettings: " +:+ e_msg e))) ;;
  try_except
    (font ← run_cmd (gsettings_get "org.gnome.desktop.interface" "font-name") true [];
     scale ← run_cmd (gsettings_get "org.gnome.desktop.interface" "text-scaling-factor") true [];
     pic ← run_cmd (gsettings_get "org.gnome.desktop.background" "picture-options") true [];
     log INFO "GNOME settings now:" ;;
     log INFO (strip font.1.2) ;;
     log INFO (strip scale.1.2) ;;
     log INFO (strip pic.1.2))
    (except Exception (fun _ => log DEBUG "Could not read back gsettings values.")).

Definition DASH_TO_DOCK := "org.gnome.shell.extensions.dash-to-dock".

Definition configure_dash_to_dock : M unit :=
  log INFO "Configuring Dash-to-Dock" ;;
  let cmds := [ gsettings_set DASH_TO_DOCK "dock-position" "LEFT";
                gsettings_set DASH_TO_DOCK "autohide" "true";
                gsettings_set DASH_TO_DOCK "animation-time" "0.0";
                gsettings_set DASH_TO_DOCK "hide-delay" "0.0";
                gsettings_set DASH_TO_DOCK "pressure-threshold" "0.0";
                gsettings_set DASH_TO_DOCK "dash-max-icon-size" "20" ] in
  for_each cmds (fun c => run_cmd c false [] ;; ret tt) ;;
  let keys := [ "dock-position"; "autohide"; "animation-time"; "hide-delay";
                "pressure-threshold"; "dash-max-icon-size" ] in
  for_each keys (fun k =>
    r ← run_cmd (gsettings_get DASH_TO_DOCK k) true [];
    log INFO (k +:+ ": " +:+ strip r.1.2)).

(** ** Packages *)

Section Packages.

(** [re.search(pattern, text)]: the first match, if any.  The regular
    expression engine is a parameter. *)
Variable re_search : string → string → option string.

Definition TSETUP_PATTERN :=
  "https://telegram\.org/dl/desktop/linux/tsetup\.[0-9]+\.[0-9]+\.[0-9]+\.tar\.xz".
Definition TAR_XZ_PATTERN :=
  "https://[^\s'" +:+ String (ascii_of_nat 34) "<>]+\.tar\.xz".

(** [urlopen(page)] then [resp.geturl()] and [resp.read().decode()]. *)
Definition fetch_page (url : string) : M (Z * string * string) :=
  resp ← urlopen url;
  match resp with
  | NetFail e => raise e
  | NetOk status final_url body read_error =>
      match read_error with
      | Some e => raise e
      | None => ret (status, final_url, decode body)
      end
  end.

(** The loop over the fallback candidates of [install_telegram]: the first one
    that answers a HEAD request with status 200. *)
Fixpoint first_candidate (candidates : list string) : M (option string) :=
  match candidates with
  | [] => ret None
  | c :: rest =>
      ok ← try_except
             (r2 ← urlopen c;      (* a HEAD request *)
              match r2 with
              | NetFail e => raise e
              | NetOk status _ _ _ =>
                  if bool_decide (status = 200)
                  then log INFO ("Candidate Telegram archive OK: " +:+ c) ;; ret true
                  else ret false
              end)
             (except Exception (fun _ => ret false));
      if ok then ret (Some c) else first_candidate rest
  end.

Definition install_telegram (downloads_dir : string) : M unit :=
  log INFO "Installing Telegram Desktop (saved into downloads folder)" ;;
  '(final_url, page) ←
     try_except
       (r ← fetch_page TELEGRAM_DL_PAGE; ret (Some r.1.2, r.2))
       (except Exception (fun e =>
          log WARNING ("Could not fetch Telegram page: " +:+ e_msg e) ;;
          ret (None, "")));
  tg_url ←
    (match final_url with
     | Some u =>
         if bool_decide (u ≠ "") && endswith u ".tar.xz"
         then log INFO ("Redirected to Telegram archive: " +:+ u) ;; ret (Some u)
         else
           match re_search TSETUP_PATTERN page with
           | Some m => log INFO ("Found Telegram link in page: " +:+ m) ;; ret (Some m)
           | None => ret None
           end
     | None =>
         match re_search TSETUP_PATTERN page with
         | Some m => log INFO ("Found Telegram link in page: " +:+ m) ;; ret (Some m)
         | None => ret None
         end
     end);
  tg_url ←
    (match tg_url with
     | Some u => ret (Some u)
     | None =>
         if bool_decide (page ≠ "") then
           match re_search TAR_XZ_PATTERN page with
           | Some m2 => log INFO ("Fallback found .tar.xz link: " +:+ m2) ;; ret (Some m2)
           | None => ret None
           end
         else ret None
     end);
  tg_url ←
    (match tg_url with
     | Some u => ret (Some u)
     | None =>
         first_candidate
           [ "https://telegram.org/dl/desktop/linux/tsetup.4.9.12.tar.xz";
             "https://telegram.org/dl/desktop/linux/tsetup.4.9.11.tar.xz" ]
     end);
  match tg_url with
  | None =>
      log ERROR "Telegram archive link not found. Open https://telegram.org/dl/desktop/linux in a browser and paste a tar.xz URL into the script if needed." ;;
      raise (mk_exn RuntimeError "Telegram download link not found")
  | Some tg_url =>
      let tg_local := path_join downloads_dir (basename tg_url) in
      download_with_retries tg_url tg_local 3 ;;
      present ← path_exists "/opt/Telegram";
      (if present then Shutil.rmtree "/opt/Telegram" else ret tt) ;;
      safe_makedirs "/opt/Telegram" ;;
      run_cmd (Argv ["tar"; "-xf"; tg_local; "-C"; "/opt/Telegram"; "--strip-components=1"]) false [] ;;
      let tg_bin := "/opt/Telegram/Telegram" in
      present ← path_exists tg_bin;
      if present then
        chmod tg_bin ;;
        try_except
          (popen [tg_bin])
          (except Exception (fun _ =>
             log DEBUG "Could not launch Telegram binary; installation may still be ok.")) ;;
        log INFO "✅ Telegram installed."
      else raise (mk_exn FileNotFoundError "/opt/Telegram/Telegram not found after extraction")
  end.

(** The loop over the package names of [install_protonvpn]: stop at the first
    one that installs. *)
Fixpoint try_packages (pkgs : list string) : M unit :=
  match pkgs with
  | [] => ret tt
  | pkg :: rest =>
      ok ← try_except
             (run_cmd (Argv ["apt"; "install"; "-y"; pkg]) false [] ;;
              log INFO ("Installed ProtonVPN package: " +:+ pkg) ;;
              ret true)
             (except Exception (fun e =>
                log WARNING ("Could not install ProtonVPN package '" +:+ pkg +:+ "': " +:+ e_msg e) ;;
                ret false));
      if ok then ret tt else try_packages rest
  end.

Definition install_protonvpn (downloads_dir : string) : M unit :=
  log INFO "Installing ProtonVPN (repo package + app)" ;;
  let target := path_join downloads_dir (basename PROTONVPN_DEB_URL) in
  download_with_retries PROTONVPN_DEB_URL target 3 ;;
  log INFO "Verifying ProtonVPN .deb SHA256..." ;;
  actual ← sha256_of_file target 8192;
  log INFO ("Computed SHA256: " +:+ actual) ;;
  if bool_decide (actual ≠ PROTONVPN_SHA256) then
    log ERROR "ProtonVPN .deb SHA256 mismatch. Aborting." ;;
    raise (mk_exn RuntimeError "ProtonVPN checksum mismatch")
  else
    run_cmd (Argv ["dpkg"; "-i"; target]) false [] ;;
    run_cmd (Argv ["apt"; "update"]) false [] ;;
    try_packages ["proton-vpn-gnome-desktop"; "protonvpn-gnome-desktop"; "proton-vpn"] ;;
    run_cmd (Argv ["apt"; "install"; "-y"; "libayatana-appindicator3-1";
                   "gir1.2-ayatanaappindicator3-0.1"; "gnome-shell-extension-appindicator"])
            false [] ;;
    try_except
      (popen ["protonvpn-app"] ;;
       log INFO "✅ ProtonVPN installed and attempted to launch.")
      (except Exception (fun _ =>
         log DEBUG "ProtonVPN binary not found to launch right away; may require reboot or relogin.")).

Definition install_rustscan (downloads_dir : string) : M unit :=
  log INFO "Installing RustScan (.deb)" ;;
  let target := path_join downloads_dir (basename RUSTSCAN_DEB_URL) in
  download_with_retries RUSTSCAN_DEB_URL target 3 ;;
  run_cmd (Argv ["dpkg"; "-i"; target]) false [] ;;
  run_cmd (Argv ["apt-get"; "install"; "-f"; "-y"]) false [] ;;
  try_except
    setrlimit
    (except Exception (fun _ => log DEBUG "Could not set RLIMIT_NOFILE; continuing.")) ;;
  log INFO "✅ RustScan installed.".

Definition install_vscode (downloads_dir : string) : M unit :=
  log INFO "Installing VS Code (.deb)" ;;
  let target := path_join downloads_dir "code.deb" in
  download_with_retries VSCODE_DEB_URL target 3 ;;
  try_except
    (run_cmd (Argv ["dpkg"; "-i"; target]) false [] ;; ret tt)
    (except Exception (fun _ =>
       run_cmd (Argv ["apt-get"; "install"; "-f"; "-y"]) false [] ;; ret tt)) ;;
  try_except
    (popen ["code"])
    (except Exception (fun _ =>
       log DEBUG "Could not start VS Code now; it may require desktop session.")) ;;
  log INFO "✅ VS Code install attempted.".

(** The first of the [.desktop] names present in [/usr/share/applications]. *)
Fixpoint find_desktop_file (names : list string) : M string :=
  match names with
  | [] => ret ""
  | f :: rest =>
      let candidate := path_join "/usr/share/applications" f in
      present ← isfile candidate;
      if present then ret f else find_desktop_file rest
  end.

Definition install_brave (downloads_dir : string) : M unit :=
  log INFO "Installing Brave (nightly) via installer script" ;;
  let installer_path := path_join downloads_dir "brave-install.sh" in
  download_with_retries BRAVE_INSTALLER_URL installer_path 3 ;;
  chmod installer_path ;;
  run_cmd (Shell ("sh " +:+ installer_path)) false [("CHANNEL", "nightly")] ;;
  desktop_file ←
    find_desktop_file ["brave-browser.desktop"; "brave-browser-nightly.desktop"; "brave.desktop"];
  (if bool_decide (desktop_file ≠ "") then
     r ← run_cmd (gsettings_get "org.gnome.shell" "favorite-apps") true [];
     let favs := strip r.1.2 in
     if negb (str_contains favs desktop_file) then
       let new_favs := if endswith favs "]"
                       then drop_last favs +:+ ", '" +:+ desktop_file +:+ "']"
                       else favs +:+ " ['" +:+ desktop_file +:+ "']" in
       run_cmd (gsettings_set "org.gnome.shell" "favorite-apps" new_favs) false [] ;; ret tt
     else ret tt
   else ret tt) ;;
  log INFO "✅ Brave installation attempted.".

Definition cleanup_downloads (downloads_dir : string) : M unit :=
  log INFO "Cleaning up downloads folder" ;;
  try_except
    (entries ← listdir downloads_dir;
     for_each entries (fun entry =>
       let path := path_join downloads_dir entry in
       try_except
         (f ← isfile path;
          if f then os_remove path
          else d ← isdir path; if d then Shutil.rmtree path else ret tt)
         (except Exception (fun e =>
            log WARNING ("Could not remove " +:+ path +:+ ": " +:+ e_msg e)))) ;;
     log INFO "Cleanup complete.")
    (except FileNotFoundError (fun _ => log DEBUG "Downloads folder not found for cleanup.")).

(** ** Main *)

(** The handler of [main]: [except Exception as e]. *)
Definition fatal (e : exn) : M unit :=
  log ERROR ("Fatal error during installation: " +:+ e_msg e) ;;
  log ERROR "Installation aborted due to errors. Check logs above." ;;
  sys_exit 1.

Definition main : M unit :=
  log INFO "=== Installer started ===" ;;
  require_root ;;
  try_except
    (clone_repo REPO_URL REPO_DIRNAME ;;
     w ← get_world;
     let repo_path := abspath (w_cwd w) REPO_DIRNAME in
     downloads_dir ← setup_downloads repo_path;

     backup_and_copy_grub repo_path ;;
     backup_and_copy_wallpapers repo_path ;;
     apply_gnome_tweaks ;;
     configure_dash_to_dock ;;

     install_telegram downloads_dir ;;
     install_protonvpn downloads_dir ;;
     install_rustscan downloads_dir ;;
     install_vscode downloads_dir ;;
     install_brave downloads_dir ;;

     cleanup_downloads downloads_dir ;;

     choice ← input "Installation complete. Reboot now? (y/N) ";
     let choice := strip choice in
     (if startswith (lower choice) "y"
      then log INFO "Rebooting now..." ;; run_cmd (Argv ["reboot"]) false [] ;; ret tt
      else log INFO "Reboot skipped; logout/login may be required for some settings.") ;;
     log INFO "=== Installer finished successfully ===")
    (except Exception fatal).

End Packages.

End Startup2.

(* ================================================================== *)
(** * startup.py *)
(* ================================================================== *)

Module Startup.
Import Py World.
Local Open Scope prog_scope.

Definition REPO_URL := Startup2.REPO_URL.
Definition REPO_DIRNAME := Startup2.REPO_DIRNAME.
Definition DOWNLOADS_DIRNAME := Startup2.DOWNLOADS_DIRNAME.
Definition VSCODE_DEB_URL := Startup2.VSCODE_DEB_URL.
Definition TELEGRAM_DL_PAGE := Startup2.TELEGRAM_DL_PAGE.
Definition BRAVE_INSTALLER_URL := Startup2.BRAVE_INSTALLER_URL.
Definition PROTONVPN_DEB_URL := Startup2.PROTONVPN_DEB_URL.
Definition PROTONVPN_SHA256 := Startup2.PROTONVPN_SHA256.
(** This script does not define [RUSTSCAN_DEB_URL]. *)
Definition GRUB_CFG_SRC := Startup2.GRUB_CFG_SRC.
Definition KALI_THEME_SRC := Startup2.KALI_THEME_SRC.
Definition WALLPAPER_DIR := Startup2.WALLPAPER_DIR.
Definition WALLPAPER_FILES := Startup2.WALLPAPER_FILES.
Definition WALLPAPER_FILES_TO_BACKUP := Startup2.WALLPAPER_FILES_TO_BACKUP.

(** ** Helpers *)

Definition run_cmd (cmd : command) (capture_output : bool) (environ : list (string * string))
  : M (Z * string * string) :=
  let display := show_command cmd in
  log INFO ("Running: " +:+ display) ;;
  try_except
    (result ← subprocess_check cmd environ;
     if capture_output
     then log DEBUG ("stdout: " +:+ result.1.2) ;; log DEBUG ("stderr: " +:+ result.2) ;; ret result
     else ret result)
    (except CalledProcessError (fun e =>
       log ERROR ("Command failed: " +:+ display) ;;
       (if capture_output
        then log ERROR ("stdout: " +:+ e_stdout e) ;; log ERROR ("stderr: " +:+ e_stderr e)
        else ret tt) ;;
       raise e)).

Definition require_root : M unit :=
  euid ← geteuid;
  (if bool_decide (euid ≠ 0)
   then log ERROR "This script must be run as root (sudo). Exiting." ;; sys_exit 2
   else ret tt) ;;
  log DEBUG "Root check passed.".

(** The three helpers below have the same text in both scripts. *)
Definition safe_makedirs := Startup2.safe_makedirs.
Definition make_unique_path := Startup2.make_unique_path.
Definition sha256_of_file := Startup2.sha256_of_file.

(** [urllib.request.urlretrieve(url, filename)]: a single attempt. *)
Definition urlretrieve (url filename : string) : M unit :=
  resp ← urlopen url;
  match resp with
  | NetFail e => raise e
  | NetOk _ _ body read_error =>
      write_file filename body ;;
      match read_error with
      | Some e => raise e
      | None => ret tt
      end
  end.

(** ** Steps *)

Definition clone_repo (repo_url dest_dir : string) : M unit :=
  d ← isdir dest_dir;
  if d then
    log INFO ("Repo directory '" +:+ dest_dir +:+ "' already exists. Attempting to pull latest.") ;;
    try_except
      (run_cmd (Argv ["git"; "-C"; dest_dir; "pull"]) false [] ;; ret tt)
      (except Exception (fun _ =>
         log WARNING "Git pull failed; renaming existing folder and cloning fresh." ;;
         ts ← time_now;
         let backup_name := dest_dir +:+ ".bak-" +:+ str_of_Z ts in
         Shutil.move dest_dir backup_name ;;
         run_cmd (Argv ["git"; "clone"; repo_url; dest_dir]) false [] ;; ret tt))
  else run_cmd (Argv ["git"; "clone"; repo_url; dest_dir]) false [] ;; ret tt.

Definition setup_downloads (repo_path : string) : M string :=
  let downloads := path_join repo_path DOWNLOADS_DIRNAME in
  safe_makedirs downloads ;;
  log INFO ("Downloads folder prepared at: " +:+ downloads) ;;
  ret downloads.

Definition backup_and_copy_grub (repo_path : string) : M unit :=
  log INFO "Backing up and copying GRUB themes and grub.cfg" ;;
  let grub_cfg_path := "/boot/grub/grub.cfg" in
  present ← path_exists grub_cfg_path;
  (if present then
     dest ← make_unique_path (grub_cfg_path +:+ ".b");
     log INFO ("Moving " +:+ grub_cfg_path +:+ " -> " +:+ dest) ;;
     Shutil.move grub_cfg_path dest ;;
     log INFO ("Backed up " +:+ grub_cfg_path +:+ " -> " +:+ dest)
   else ret tt) ;;

  let src_grubcfg := path_join repo_path GRUB_CFG_SRC in
  found ← path_exists src_grubcfg;
  if negb found
  then raise (mk_exn FileNotFoundError ("Expected grub.cfg in repo at " +:+ src_grubcfg))
  else
  safe_makedirs "/boot/grub" ;;
  Shutil.copy src_grubcfg "/boot/grub/" ;;
  log INFO ("Copied " +:+ src_grubcfg +:+ " -> /boot/grub/") ;;

  safe_makedirs "/boot/grub/themes/backup" ;;
  safe_makedirs "/usr/share/grub/themes/backup" ;;

  let boot_kali := "/boot/grub/themes/kali" in
  d ← isdir boot_kali;
  (if d then
     let desired := "/boot/grub/themes/backup/kali.b" in
     dest ← make_unique_path desired;
     log INFO ("Moving existing " +:+ boot_kali +:+ " -> " +:+ dest) ;;
     Shutil.move boot_kali dest ;;
     log INFO ("Moved existing " +:+ boot_kali +:+ " -> " +:+ dest)
   else ret tt) ;;

  let repo_kali := path_join repo_path KALI_THEME_SRC in
  found ← isdir repo_kali;
  if negb found
  then raise (mk_exn FileNotFoundError ("Expected kali theme folder in repo at " +:+ repo_kali))
  else
  safe_makedirs "/boot/grub/themes" ;;
  Shutil.copytree repo_kali "/boot/grub/themes/kali" true ;;
  log INFO ("Copied " +:+ repo_kali +:+ " -> /boot/grub/themes/") ;;

  let usr_kali := "/usr/share/grub/themes/kali" in
  d ← isdir usr_kali;
  (if d then
     let desired := "/usr/share/grub/themes/backup/kali.b" in
     dest ← make_unique_path desired;
     log INFO ("Backing up " +:+ usr_kali +:+ " -> " +:+ dest) ;;
     Shutil.move usr_kali dest ;;
     log INFO ("Backed up " +:+ usr_kali +:+ " -> " +:+ dest)
   else ret tt) ;;

  safe_makedirs "/usr/share/grub/themes" ;;
  Shutil.copytree "/boot/grub/themes/kali" "/usr/share/grub/themes/kali" true ;;
  log INFO "Copied /boot/grub/themes/kali -> /usr/share/grub/themes/".

Definition backup_and_copy_wallpapers (repo_path : string) : M unit :=
  log INFO "Backing up and copying wallpapers" ;;
  let wallpaper_repo_path := path_join repo_path WALLPAPER_DIR in
  d ← isdir wallpaper_repo_path;
  if negb d
  then raise (mk_exn FileNotFoundError
                ("Expected wallpaper directory in repo at " +:+ wallpaper_repo_path))
  else
  let target_dir := "/usr/share/backgrounds/kali" in
  let backup_dir := path_join target_dir "backup" in
  safe_makedirs backup_dir ;;
  for_each WALLPAPER_FILES_TO_BACKUP (fun f =>
    let target_file := path_join target_dir f in
    present ← path_exists target_file;
    if present then
      dest ← make_unique_path (path_join backup_dir (f +:+ ".b"));
      log INFO ("Backing up " +:+ target_file +:+ " -> " +:+ dest) ;;
      safe_makedirs (dirname dest) ;;
      Shutil.move target_file dest ;;
      log INFO ("Backed up " +:+ target_file +:+ " -> " +:+ dest)
    else ret tt) ;;
  for_each WALLPAPER_FILES (fun '(src_name, dest) =>
    let src_file := path_join wallpaper_repo_path src_name in
    found ← path_exists src_file;
    if negb found
    then raise (mk_exn FileNotFoundError ("Expected wallpaper file " +:+ src_file +:+ " in repo"))
    else
      safe_makedirs (dirname dest) ;;
      Shutil.copy src_file dest ;;
      log INFO ("Copied " +:+ src_file +:+ " -> " +:+ dest)).

Definition gsettings_set := Startup2.gsettings_set.
Definition gsettings_get := Startup2.gsettings_get.
Definition DASH_TO_DOCK := Startup2.DASH_TO_DOCK.

Definition apply_gnome_tweaks : M unit :=
  log INFO "Applying GNOME Tweaks via gsettings" ;;
  run_cmd (gsettings_set "org.gnome.desktop.interface" "font-name" "Conifer 11") false [] ;;
  run_cmd (gsettings_set "org.gnome.desktop.interface" "text-scaling-factor" "0.95") false [] ;;
  run_cmd (gsettings_set "org.gnome.desktop.background" "picture-options" "zoom") false [] ;;
  font ← run_cmd (gsettings_get "org.gnome.desktop.interface" "font-name") true [];
  scale ← run_cmd (gsettings_get "org.gnome.desktop.interface" "text-scaling-factor") true [];
  pic ← run_cmd (gsettings_get "org.gnome.desktop.background" "picture-options") true [];
  log INFO "✅ GNOME Tweaks settings applied:" ;;
  log INFO (strip font.1.2) ;;
  log INFO (strip scale.1.2) ;;
  log INFO (strip pic.1.2).

Definition configure_dash_to_dock : M unit :=
  log INFO "Configuring Dash-to-Dock" ;;
  let cmds := [ gsettings_set DASH_TO_DOCK "dock-position" "LEFT";
                gsettings_set DASH_TO_DOCK "autohide" "true";
                gsettings_set DASH_TO_DOCK "animation-time" "0.0";
                gsettings_set DASH_TO_DOCK "hide-delay" "0.0";
                gsettings_set DASH_TO_DOCK "pressure-threshold" "0.0";
                gsettings_set DASH_TO_DOCK "dash-max-icon-size" "20" ] in
  for_each cmds (fun c => run_cmd c false [] ;; ret tt) ;;
  let keys := [ "dock-position"; "autohide"; "animation-time"; "hide-delay";
                "pressure-threshold"; "dash-max-icon-size" ] in
  for_each keys (fun k =>
    r ← run_cmd (gsettings_get DASH_TO_DOCK k) true [];
    log INFO (k +:+ ": " +:+ strip r.1.2)).

(** ** Packages *)

Section Packages.

Variable re_search : string → string → option string.

Definition TSETUP_PATTERN :=
  "https://telegram\.org/dl/desktop/linux/tsetup\.\d+\.\d+\.\d+\.tar\.xz".
Definition TAR_XZ_PATTERN := Startup2.TAR_XZ_PATTERN.

Definition install_telegram (downloads_dir : string) : M unit :=
  log INFO "Installing Telegram Desktop (following redirects or parsing page)" ;;
  r ← try_except
        (Startup2.fetch_page TELEGRAM_DL_PAGE)
        (except Exception (fun e =>
           log ERROR "Failed to fetch Telegram download page or follow redirect" ;;
           raise e));
  let final_url := r.1.2 in
  let page := r.2 in
  tg_url ←
    (if bool_decide (final_url ≠ "") && endswith final_url ".tar.xz"
     then log INFO ("Detected redirect to Telegram archive: " +:+ final_url) ;; ret (Some final_url)
     else
       match re_search TSETUP_PATTERN page with
       | Some m => log INFO ("Found Telegram archive link on page: " +:+ m) ;; ret (Some m)
       | None => ret None
       end);
  tg_url ←
    (match tg_url with
     | Some u => ret (Some u)
     | None =>
         match re_search TAR_XZ_PATTERN page with
         | Some m2 => log INFO ("Fallback found .tar.xz link: " +:+ m2) ;; ret (Some m2)
         | None => ret None
         end
     end);
  match tg_url with
  | None =>
      log ERROR "Could not locate a Telegram .tar.xz link by redirect or page parse." ;;
      raise (mk_exn RuntimeError "Telegram download link not found — try opening https://telegram.org/dl/desktop/linux to confirm availability")
  | Some tg_url =>
      let tg_local := path_join downloads_dir (basename tg_url) in
      log INFO ("Downloading Telegram archive to: " +:+ tg_local) ;;
      try_except
        (urlretrieve tg_url tg_local)
        (except Exception (fun e =>
           log ERROR ("Failed to download Telegram archive from " +:+ tg_url +:+ ": " +:+ e_msg e) ;;
           raise e)) ;;
      present ← path_exists "/opt/Telegram";
      (if present then Shutil.rmtree "/opt/Telegram" else ret tt) ;;
      safe_makedirs "/opt/Telegram" ;;
      run_cmd (Argv ["tar"; "-xf"; tg_local; "-C"; "/opt/Telegram"; "--strip-components=1"]) false [] ;;
      let tg_bin := "/opt/Telegram/Telegram" in
      present ← path_exists tg_bin;
      if present then
        chmod tg_bin ;;
        popen [tg_bin] ;;
        log INFO "✅ Telegram installed and launched."
      else raise (mk_exn FileNotFoundError
                    ("Telegram binary not found after extraction at " +:+ tg_bin))
  end.

Definition install_protonvpn (downloads_dir : string) : M unit :=
  log INFO "Installing ProtonVPN repository package (downloading .deb)" ;;
  let target := path_join downloads_dir (basename PROTONVPN_DEB_URL) in
  log INFO ("Downloading ProtonVPN repo package to " +:+ target) ;;
  urlretrieve PROTONVPN_DEB_URL target ;;

  log INFO "Verifying ProtonVPN package checksum..." ;;
  actual ← sha256_of_file target 8192;
  log INFO ("Actual SHA256: " +:+ actual) ;;
  if bool_decide (actual ≠ PROTONVPN_SHA256) then
    log ERROR "ProtonVPN checksum mismatch! Aborting installation." ;;
    raise (mk_exn RuntimeError "ProtonVPN .deb checksum does not match expected value")
  else
    log INFO "Checksum OK — installing repository package" ;;
    run_cmd (Argv ["dpkg"; "-i"; target]) false [] ;;
    run_cmd (Argv ["apt"; "update"]) false [] ;;
    run_cmd (Argv ["apt"; "install"; "-y"; "proton-vpn-gnome-desktop"]) false [] ;;
    run_cmd (Argv ["apt"; "install"; "-y"; "libayatana-appindicator3-1";
                   "gir1.2-ayatanaappindicator3-0.1"; "gnome-shell-extension-appindicator"])
            false [] ;;
    try_except
      (popen ["protonvpn-app"] ;;
       log INFO "✅ ProtonVPN installed and (attempted) launched.")
      (except FileNotFoundError (fun _ =>
         log WARNING "ProtonVPN app binary not found to launch; installation likely succeeded.")).

(** [RUSTSCAN_DEB_URL] is not defined in this script: evaluating the name
    raises NameError. *)
Definition install_rustscan (downloads_dir : string) : M unit :=
  log INFO "Installing RustScan (.deb)" ;;
  raise (mk_exn NameError "name 'RUSTSCAN_DEB_URL' is not defined").

Definition install_vscode (downloads_dir : string) : M unit :=
  log INFO "Installing VS Code (.deb) using provided direct link" ;;
  let target := path_join downloads_dir "code.deb" in
  log INFO ("Downloading VS Code to " +:+ target) ;;
  try_except
    (urlretrieve VSCODE_DEB_URL target)
    (except Exception (fun e =>
       log ERROR ("Failed to download VS Code: " +:+ e_msg e) ;; raise e)) ;;
  try_except
    (run_cmd (Argv ["dpkg"; "-i"; target]) false [] ;; ret tt)
    (except CalledProcessError (fun _ =>
       run_cmd (Argv ["apt-get"; "install"; "-f"; "-y"]) false [] ;; ret tt)) ;;
  try_except
    (popen ["code"] ;;
     log INFO "✅ VS Code launched in background.")
    (except FileNotFoundError (fun _ =>
       log WARNING "VS Code not found to launch; installation may still be successful.")).

Definition install_brave (downloads_dir : string) : M unit :=
  log INFO "Installing Brave (nightly)" ;;
  let installer_path := path_join downloads_dir "brave-install.sh" in
  log INFO ("Downloading Brave installer to " +:+ installer_path) ;;
  urlretrieve BRAVE_INSTALLER_URL installer_path ;;
  chmod installer_path ;;
  run_cmd (Shell ("sh " +:+ installer_path)) false [("CHANNEL", "nightly")] ;;
  desktop_file ←
    Startup2.find_desktop_file
      ["brave-browser.desktop"; "brave-browser-nightly.desktop"; "brave.desktop"];
  (if bool_decide (desktop_file ≠ "") then
     r ← run_cmd (gsettings_get "org.gnome.shell" "favorite-apps") true [];
     let favs := strip r.1.2 in
     if negb (str_contains favs desktop_file) then
       let new_favs := if endswith favs "]"
                       then drop_last favs +:+ ", '" +:+ desktop_file +:+ "']"
                       else favs +:+ " ['" +:+ desktop_file +:+ "']" in
       run_cmd (gsettings_set "org.gnome.shell" "favorite-apps" new_favs) false [] ;; ret tt
     else ret tt
   else ret tt) ;;
  log INFO "✅ Brave installed and pinned (if .desktop was found).".

Definition cleanup_downloads (downloads_dir : string) : M unit :=
  log INFO "Cleaning up downloaded installer files in the repo downloads folder" ;;
  try_except
    (entries ← listdir downloads_dir;
     for_each entries (fun entry =>
       let path := path_join downloads_dir entry in
       try_except
         (f ← isfile path;
          if f then os_remove path
          else d ← isdir path; if d then Shutil.rmtree path else ret tt)
         (except Exception (fun e =>
            log WARNING ("Could not remove " +:+ path +:+ ": " +:+ e_msg e)))) ;;
     log INFO "Downloads cleanup complete.")
    (except FileNotFoundError (fun _ =>
       log WARNING "Downloads folder not found during cleanup; skipping.")).

(** ** Main *)

Definition fatal (e : exn) : M unit :=
  log ERROR ("Fatal error during installation: " +:+ e_msg e) ;;
  log ERROR "Installation aborted due to errors. Check the log above for details." ;;
  sys_exit 1.

Definition main : M unit :=
  log INFO "=== Installer started ===" ;;
  require_root ;;
  try_except
    (clone_repo REPO_URL REPO_DIRNAME ;;
     w ← get_world;
     let repo_path := abspath (w_cwd w) REPO_DIRNAME in
     downloads_dir ← setup_downloads repo_path;

     backup_and_copy_grub repo_path ;;
     backup_and_copy_wallpapers repo_path ;;
     apply_gnome_tweaks ;;
     configure_dash_to_dock ;;

     install_telegram downloads_dir ;;
     install_protonvpn downloads_dir ;;
     install_rustscan downloads_dir ;;
     install_vscode downloads_dir ;;
     install_brave downloads_dir ;;

     cleanup_downloads downloads_dir ;;

     choice ← input "Installation complete. Reboot now? (y/N) ";
     let choice := strip choice in
     (if startswith (lower choice) "y"
      then log INFO "Rebooting now..." ;; run_cmd (Argv ["reboot"]) false [] ;; ret tt
      else log INFO "Reboot skipped. You may need to log out/in for some settings to take effect.") ;;
     log INFO "=== Installer finished successfully ===")
    (except Exception fatal).

End Packages.

End Startup.

(* ================================================================== *)
(** * startup3.py: the two resource steps *)
(* ================================================================== *)

Module Startup3.
Import Py World.
Local Open Scope prog_scope.

Definition ensure_dir (path : string) : M unit := makedirs path.

(** A line feed. *)
Definition newline : string := String (ascii_of_nat 10) "".

(** [run(cmd, check=True)]: run a shell command. *)
Definition run (cmd : string) (check : bool) : M string :=
  log INFO ("Running: " +:+ cmd) ;;
  result ← subprocess_run (Shell cmd) [];
  if check && negb (bool_decide (result.1.1 = 0)) then
    log ERROR ("Command failed: " +:+ cmd +:+ newline +:+ result.2) ;;
    raise (mk_exn RuntimeError ("Command failed: " +:+ cmd))
  else ret (strip result.1.2).

Definition repo_url := "https://github.com/Abr-ahamis/startup.git".

(** The statements at the top of the script, before the first step: the
    paths, the downloads folder, and the working copy, cloned or updated.
    Gives [repo_path] and [downloads_dir]. *)
Definition clone_or_update : M (string * string) :=
  w ← get_world;
  let repo_path := path_join (w_cwd w) "startup" in       (* os.getcwd() *)
  let downloads_dir := path_join repo_path "downloads" in
  ensure_dir downloads_dir ;;
  present ← path_exists repo_path;
  (if negb present then run ("git clone " +:+ repo_url) true ;; ret tt
   else
     log INFO "Repo directory 'startup' already exists. Attempting to pull latest." ;;
     run ("git -C " +:+ repo_path +:+ " pull") true ;; ret tt) ;;
  ret (repo_path, downloads_dir).

Definition backup_and_copy_grub (repo_path : string) : M unit :=
  log INFO "Backing up and copying GRUB themes and grub.cfg" ;;
  timestamp ← time_now;
  let grub_cfg_src := path_join repo_path "grub.cfg" in
  let grub_cfg_dst := "/boot/grub/grub.cfg" in
  present ← path_exists grub_cfg_dst;
  (if present then
     let backup_path := grub_cfg_dst +:+ ".b." +:+ str_of_Z timestamp in
     Shutil.move grub_cfg_dst backup_path ;;
     log INFO ("Moved " +:+ grub_cfg_dst +:+ " -> " +:+ backup_path)
   else ret tt) ;;
  Shutil.copy grub_cfg_src grub_cfg_dst ;;
  log INFO ("Copied " +:+ grub_cfg_src +:+ " -> " +:+ grub_cfg_dst) ;;
  for_each ["/boot/grub/themes"; "/usr/share/grub/themes"] (fun theme_dir =>
    ensure_dir (path_join theme_dir "backup") ;;
    let src_kali := if bool_decide (theme_dir = "/boot/grub/themes")
                    then path_join repo_path "kali"
                    else "/boot/grub/themes/kali" in
    let dst_kali := path_join theme_dir "kali" in
    present ← path_exists dst_kali;
    (if present then
       let backup_kali := path_join theme_dir ("backup/kali.b." +:+ str_of_Z timestamp) in
       Shutil.move dst_kali backup_kali ;;
       log INFO ("Moved existing " +:+ dst_kali +:+ " -> " +:+ backup_kali)
     else ret tt) ;;
    Shutil.copytree src_kali dst_kali false ;;
    log INFO ("Copied " +:+ src_kali +:+ " -> " +:+ dst_kali)).

(** [wallpaper_map.items()], in the order the dictionary is written. *)
Definition wallpaper_map : list (string * string) :=
  [ ("kali-maze-16x9.jpg", "12-wallpaper.png");
    ("kali-tiles-16x9.jpg", "1-wallpaper.png");
    ("kali-waves-16x9.png", "2-wallpaper.png");
    ("kali-oleo-16x9.png", "3-wallpaper.png");
    ("kali-tiles-purple-16x9.jpg", "4-wallpaper.png");
    ("login.svg", "20-wallpaper.svg");
    ("login-blurred", "2-wallpaper.png") ].

Definition backup_and_copy_wallpapers (repo_path : string) : M unit :=
  log INFO "Backing up and copying wallpapers" ;;
  let wallpaper_dir := path_join repo_path "wallpaper" in
  let target_dir := "/usr/share/backgrounds/kali" in
  let backup_dir := path_join target_dir "backup" in
  ensure_dir backup_dir ;;
  timestamp ← time_now;
  for_each wallpaper_map (fun '(orig_file, new_file) =>
    let orig_path := path_join target_dir orig_file in
    let backup_path := path_join backup_dir (orig_file +:+ ".b." +:+ str_of_Z timestamp) in
    present ← path_exists orig_path;
    (if present then
       Shutil.move orig_path backup_path ;;
       log INFO ("Backed up " +:+ orig_path +:+ " -> " +:+ backup_path)
     else ret tt) ;;
    let src_path := path_join wallpaper_dir new_file in
    found ← path_exists src_path;
    if found then
      Shutil.copy src_path orig_path ;;
      log INFO ("Copied " +:+ src_path +:+ " -> " +:+ orig_path)
    else log WARNING ("Source wallpaper " +:+ src_path +:+ " not found")).

End Startup3.

(* ================================================================== *)
(** * python.py: the resource steps *)
(* ================================================================== *)

Module PythonPy.
Import Py World.
Local Open Scope prog_scope.

(** Ensure a directory exists. *)
Definition ensure_dir (path : string) : M unit := makedirs path.

(** Backup a file if it exists. *)
Definition backup_file (src dest : string) : M unit :=
  present ← path_exists src;
  if present then
    Shutil.move src dest ;;
    print ("🔹 Backed up " +:+ src +:+ " -> " +:+ dest)
  else ret tt.

(** A line feed. *)
Definition newline : string := String (ascii_of_nat 10) "".

(** [run(cmd, check=True, capture_output=False)]: run a shell command.  A
    command that exits with a non-zero status is reported and gives [None],
    or the exception itself (its exit status and output) when the output
    was captured. *)
Definition run (cmd : string) (capture_output : bool) : M (option (Z * string * string)) :=
  try_except
    (print ("🟢 Running: " +:+ cmd) ;;
     r ← subprocess_check (Shell cmd) [];
     ret (Some r))
    (except CalledProcessError (fun e =>
       print ("❌ Command failed: " +:+ cmd +:+ newline +:+ e_msg e) ;;
       if capture_output then ret (Some (e_code e, e_stdout e, e_stderr e))
       else ret None)).

(** Copy file or directory. *)
Definition copy_file (src dest : string) : M unit :=
  d ← isdir src;
  if d then Shutil.copytree src dest true
  else Shutil.copy src dest ;; ret tt.

Definition setup_grub : M unit :=
  ensure_dir "/boot/grub/themes/backup" ;;
  ensure_dir "/usr/share/grub/themes/backup" ;;

  present ← path_exists "/boot/grub/themes/kali";
  (if present
   then backup_file "/boot/grub/themes/kali" "/boot/grub/themes/backup/kali.b"
   else ret tt) ;;
  copy_file "kali" "/boot/grub/themes/" ;;

  present ← path_exists "/usr/share/grub/themes/kali";
  (if present
   then backup_file "/usr/share/grub/themes/kali" "/usr/share/grub/themes/backup/kali.b"
   else ret tt) ;;
  copy_file "/boot/grub/themes/kali" "/usr/share/grub/themes/" ;;

  backup_file "/boot/grub/grub.cfg" "/boot/grub/grub.cfg.b" ;;
  copy_file "grub.cfg" "/boot/grub/" ;;

  print "✅ GRUB setup completed.".

Definition setup_wallpapers : M unit :=
  ensure_dir "/usr/share/backgrounds/kali/backup" ;;
  let wallpapers :=
    [ "kali-maze-16x9.jpg"; "kali-tiles-16x9.jpg"; "kali-oleo-16x9.png";
      "kali-tiles-purple-16x9.jpg"; "kali-waves-16x9.png";
      "login.svg"; "login-blurred" ] in
  for_each wallpapers (fun wp =>
    let src_path := "/usr/share/backgrounds/kali/" +:+ wp in
    let dest_path := "/usr/share/backgrounds/kali/backup/" +:+ wp +:+ ".b" in
    backup_file src_path dest_path) ;;

  copy_file "20-wallpaper.svg" "/usr/share/backgrounds/kali/login.svg" ;;
  copy_file "12-wallpaper.png" "/usr/share/backgrounds/kali/kali-maze-16x9.jpg" ;;
  copy_file "1-wallpaper.png" "/usr/share/backgrounds/kali/kali-tiles-16x9.jpg" ;;
  copy_file "2-wallpaper.png" "/usr/share/backgrounds/kali/kali-waves-16x9.png" ;;
  copy_file "3-wallpaper.png" "/usr/share/backgrounds/kali/kali-oleo-16x9.png" ;;
  copy_file "4-wallpaper.png" "/usr/share/backgrounds/kali/kali-tiles-purple-16x9.jpg" ;;

  print "✅ Wallpapers setup completed.".

(** [tweaks.items()], in the order the dictionary is written. *)
Definition tweaks : list (string * string) :=
  [ ("org.gnome.desktop.interface font-name", "'DejaVu Serif Condensed 10'");
    ("org.gnome.desktop.interface text-scaling-factor", "0.95");
    ("org.gnome.desktop.background picture-options", "'zoom'") ].

Definition apply_gnome_tweaks : M unit :=
  for_each tweaks (fun '(key, value) =>
    run ("gsettings set " +:+ key +:+ " " +:+ value) false ;; ret tt) ;;
  print "✅ GNOME tweaks applied.".

(** [dock_settings.items()], in the order the dictionary is written. *)
Definition dock_settings : list (string * string) :=
  [ ("dock-position", "'LEFT'"); ("autohide", "true"); ("animation-time", "0.0");
    ("hide-delay", "0.0"); ("pressure-threshold", "0.0"); ("dash-max-icon-size", "20") ].

Definition configure_dash_to_dock : M unit :=
  for_each dock_settings (fun '(key, value) =>
    run ("gsettings set org.gnome.shell.extensions.dash-to-dock " +:+ key +:+ " " +:+ value)
        false ;; ret tt) ;;
  print "✅ Dash-to-Dock configured.".

End PythonPy.

(* ================================================================== *)
(** * Observations on a run *)
(* ================================================================== *)

Module Obs.
Import Py World.

Definition is_urlopen (ev : event) : bool :=
  match ev with EvUrlopen _ => true | _ => false end.

Definition is_run (ev : event) : bool :=
  match ev with EvRun _ _ => true | _ => false end.

(** Number of network attempts in a trace. *)
Definition net_attempts (tr : list event) : nat := length (List.filter is_urlopen tr).

(** The delays slept, in the order they were slept. *)
Definition sleeps (tr : list event) : list Z :=
  omap (fun ev => match ev with EvSleep s => Some s | _ => None end) (rev tr).

(** The commands given to [subprocess.run], in order. *)
Definition commands (tr : list event) : list command :=
  omap (fun ev => match ev with EvRun c _ => Some c | _ => None end) (rev tr).

(** The events of [w'] that came after [w]. *)
Definition added (w w' : world) : list event :=
  take (length (w_trace w') - length (w_trace w)) (w_trace w').

(** The completed moves of a trace: destination and whether it existed. *)
Definition moves (tr : list event) : list (string * bool) :=
  omap (fun ev => match ev with EvMove _ dst ex => Some (dst, ex) | _ => None end) (rev tr).

(** The network answers the attempts on [url] by [script]: the k-th attempt
    after the first [n0] gets the k-th answer. *)
Definition scripted (e : env) (n0 : nat) (url : string) (script : list net_reply) : Prop :=
  ∀ h k r, net_attempts h = (n0 + k)%nat → script !! k = Some r → e_urlopen e h url = r.

(** A network that always fails. *)
Definition always_fails (e : env) (url : string) : Prop :=
  ∀ h, ∃ err, e_urlopen e h url = NetFail err ∧ isinstance err Exception = true.

(** What Python raises when [last_err] is read before any assignment. *)
Definition unbound_last_err : exn :=
  mk_exn UnboundLocalError
    "cannot access local variable 'last_err' where it is not associated with a value".

(** The [except] clauses of [download_with_retries]: the warning logged for
    an error the loop retries after, [None] for one it lets through. *)
Definition retry_after (e : exn) : option (string → string) :=
  if isinstance e HTTPError then
    Some (fun url => "HTTP error downloading " +:+ url +:+ ": "
                     +:+ str_of_Z (e_code e) +:+ " " +:+ e_msg e)
  else if isinstance e URLError then
    Some (fun url => "URL error downloading " +:+ url +:+ ": " +:+ e_msg e)
  else if isinstance e Exception then
    Some (fun url => "Error downloading " +:+ url +:+ ": " +:+ e_msg e)
  else None.

(** [os.path.dirname(target_path) or "."] *)
Definition dir_of (target_path : string) : string :=
  if bool_decide (dirname target_path = "") then "." else dirname target_path.

(** A network attempt on [url] appears in the trace. *)
Definition attempted (url : string) (tr : list event) : bool :=
  existsb (fun ev => match ev with
                     | EvUrlopen u => bool_decide (u = url)
                     | _ => false
                     end) tr.

(** A record with that message appears in the trace. *)
Definition logged (msg : string) (tr : list event) : bool :=
  existsb (fun ev => match ev with
                     | EvLog _ m => bool_decide (m = msg)
                     | _ => false
                     end) tr.

(** A computation only adds events to the trace, and leaves the
    collaborators and the working directory as they are. *)
Definition extends {A} (m : M A) : Prop :=
  ∀ w, ∃ evs, w_trace (m w).2 = evs ++ w_trace w
              ∧ w_env (m w).2 = w_env w ∧ w_cwd (m w).2 = w_cwd w.

(** A computation first performs [ev], and then only adds events. *)
Definition emits_first {A} (ev : event) (m : M A) : Prop :=
  ∀ w, ∃ evs, w_trace (m w).2 = evs ++ ev :: w_trace w.

(** What [make_unique_path] appends to [path_base] and a dot: the timestamp,
    then the timestamp, a dot and the counter. *)
Definition suffix (timestamp counter : Z) : string :=
  if bool_decide (counter = 0) then str_of_Z timestamp
  else str_of_Z timestamp +:+ "." +:+ str_of_Z counter.

(** Nothing is at [q], seen from the working directory [c]. *)
Definition absent (c : string) (q : FS.path) (w : world) : Prop :=
  w_cwd w = c ∧ FS.get q (w_fs w) = None.

(** A computation keeps [I], whether it returns or raises, and what it
    returns satisfies [Q]. *)
Definition keeps (I : world → Prop) {A} (m : M A) (Q : A → Prop) : Prop :=
  ∀ w, I w → I (m w).2 ∧ ∀ a, (m w).1 = Ret a → Q a.

(** From a world where [I] holds, a computation never returns: it raises. *)
Definition never (I : world → Prop) {A} (m : M A) : Prop :=
  ∀ w, I w → ∃ e, (m w).1 = Raise e.

(** The path string [p] denotes, from [c], a location apart from [q]. *)
Definition zone (c : string) (q : FS.path) (p : string) : Prop :=
  FS.apart (resolve c p) q = true.

(** The path string [p] starts with [pre]. *)
Definition rooted (pre p : string) : Prop := ∃ s, p = pre +:+ s.

(** The collaborators fail with ordinary errors only: what they raise is an
    [Exception] (not a KeyboardInterrupt or a SystemExit). *)
Definition mannered (e : env) : Prop :=
  (∀ h cmd environ fs err, e_run e h cmd environ fs = CmdSpawnFail err →
                           isinstance err Exception = true)
  ∧ (∀ h argv err, e_popen e h argv = Some err → isinstance err Exception = true)
  ∧ (∀ h url err, e_urlopen e h url = NetFail err → isinstance err Exception = true)
  ∧ (∀ h url status final_url body err,
       e_urlopen e h url = NetOk status final_url body (Some err) →
       isinstance err Exception = true)
  ∧ (∀ h err, e_setrlimit e h = Some err → isinstance err Exception = true).

(** A computation gives the commands [cmds] to the system, in this order,
    and nothing else: all of them when it returns, the first ones when it
    raises. *)
Definition runs (cmds : list command) {A} (m : M A) : Prop :=
  ∀ w, ∃ evs k,
    w_trace (m w).2 = evs ++ w_trace w
    ∧ commands evs = take k cmds
    ∧ ∀ a, (m w).1 = Ret a → commands evs = cmds.

(** The command [cmd] does not succeed in these surroundings, whenever it is
    given: it cannot be started, or it exits with a non-zero status. *)
Definition refuses (e : env) (cmd : command) : Prop :=
  ∀ h environ fs out err fs', e_run e h cmd environ fs ≠ CmdExit 0 out err fs'.

(** The command [cmd] succeeds in these surroundings, whenever it is given. *)
Definition accepts (e : env) (cmd : command) : Prop :=
  ∀ h environ fs, ∃ out err fs', e_run e h cmd environ fs = CmdExit 0 out err fs'.

(** The command [install_protonvpn] tries a package name with. *)
Definition apt_install (pkg : string) : command := Argv ["apt"; "install"; "-y"; pkg].

(** From a world where [I] holds, what a computation raises is a [cls]. *)
Definition raises_only (I : world → Prop) (cls : exn_class) {A} (m : M A) : Prop :=
  ∀ w e, I w → (m w).1 = Raise e → isinstance e cls = true.

(** Where the collaborators fail with ordinary errors only, a computation
    leaves them as they are and raises nothing but an [Exception]. *)
Definition orderly {A} (m : M A) : Prop :=
  ∀ w, mannered (w_env w) →
       w_env (m w).2 = w_env w
       ∧ ∀ e, (m w).1 = Raise e → isinstance e Exception = true.

(** From a world where [I] holds, a computation returns. *)
Definition completes (I : world → Prop) {A} (m : M A) : Prop :=
  ∀ w, I w → ∃ a, (m w).1 = Ret a.

(** What [run_cmd] makes of the answer of the system to a command. *)
Definition outcome (cmd : command) (reply : cmd_reply) : result (Z * string * string) :=
  match reply with
  | CmdSpawnFail e => Raise e
  | CmdExit rc out err _ =>
      if bool_decide (rc = 0) then Ret (rc, out, err)
      else Raise (Exn CalledProcessError
                      ("Command '" +:+ show_command cmd +:+ "' returned non-zero exit status")
                      rc out err)
  end.

(** The filesystem after the answer [reply] to a command given on [fs]. *)
Definition left_by (reply : cmd_reply) (fs : FS.node) : FS.node :=
  match reply with
  | CmdSpawnFail _ => fs
  | CmdExit _ _ _ fs' => fs'
  end.

(** The commands of [configure_dash_to_dock], in the order of the script. *)
Definition dash_to_dock_commands : list command :=
  [ Startup2.gsettings_set Startup2.DASH_TO_DOCK "dock-position" "LEFT";
    Startup2.gsettings_set Startup2.DASH_TO_DOCK "autohide" "true";
    Startup2.gsettings_set Startup2.DASH_TO_DOCK "animation-time" "0.0";
    Startup2.gsettings_set Startup2.DASH_TO_DOCK "hide-delay" "0.0";
    Startup2.gsettings_set Startup2.DASH_TO_DOCK "pressure-threshold" "0.0";
    Startup2.gsettings_set Startup2.DASH_TO_DOCK "dash-max-icon-size" "20";
    Startup2.gsettings_get Startup2.DASH_TO_DOCK "dock-position";
    Startup2.gsettings_get Startup2.DASH_TO_DOCK "autohide";
    Startup2.gsettings_get Startup2.DASH_TO_DOCK "animation-time";
    Startup2.gsettings_get Startup2.DASH_TO_DOCK "hide-delay";
    Startup2.gsettings_get Startup2.DASH_TO_DOCK "pressure-threshold";
    Startup2.gsettings_get Startup2.DASH_TO_DOCK "dash-max-icon-size" ].

(** The commands of [apply_gnome_tweaks] of startup.py, in the order of the script. *)
Definition gnome_tweaks_commands : list command :=
  [ Startup2.gsettings_set "org.gnome.desktop.interface" "font-name" "Conifer 11";
    Startup2.gsettings_set "org.gnome.desktop.interface" "text-scaling-factor" "0.95";
    Startup2.gsettings_set "org.gnome.desktop.background" "picture-options" "zoom";
    Startup2.gsettings_get "org.gnome.desktop.interface" "font-name";
    Startup2.gsettings_get "org.gnome.desktop.interface" "text-scaling-factor";
    Startup2.gsettings_get "org.gnome.desktop.background" "picture-options" ].


(** The shell can be started, whatever the command line. *)
Definition shell_starts (e : env) : Prop :=
  ∀ h line environ fs err, e_run e h (Shell line) environ fs ≠ CmdSpawnFail err.

(** The command lines of python.py for the GNOME settings and for the dock. *)
Definition tweak_command (kv : string * string) : command :=
  Shell ("gsettings set " +:+ kv.1 +:+ " " +:+ kv.2).
Definition dock_command (kv : string * string) : command :=
  Shell ("gsettings set org.gnome.shell.extensions.dash-to-dock " +:+ kv.1 +:+ " " +:+ kv.2).

(** A name a directory entry can have: not empty, not ".", without a slash. *)
Definition plain (name : string) : Prop :=
  has_slash name = false ∧ name ≠ "" ∧ name ≠ ".".

(** What [cleanup_downloads downloads_dir] makes of the world [w], by what
    is at [downloads_dir]: nothing (tolerated), a regular file (an error),
    a directory (emptied, the rest of the filesystem being left alone). *)
Definition cleaned (downloads_dir : string) (w : world) (r : result unit * world) : Prop :=
  match FS.get (loc w downloads_dir) (w_fs w) with
  | None => r.1 = Ret tt ∧ w_fs r.2 = w_fs w
  | Some (FS.File _) =>
      r.1 = Raise (mk_exn NotADirectoryError downloads_dir) ∧ w_fs r.2 = w_fs w
  | Some (FS.Dir entries) =>
      downloads_dir ≠ "" → endswith downloads_dir "/" = false →
      (∀ name, is_Some (entries !! name) → plain name) →
      r.1 = Ret tt
      ∧ FS.get (loc w downloads_dir) (w_fs r.2) = Some (FS.Dir ∅)
      ∧ ∀ q, FS.apart (loc w downloads_dir) q = true → FS.get q (w_fs r.2) = FS.get q (w_fs w)
  end.

(** The world after one more event. *)
Definition after (ev : event) (w : world) : world :=
  W (w_env w) (w_cwd w) (w_fs w) (ev :: w_trace w).

(** Where [install_protonvpn] stores the package. *)
Definition protonvpn_target (downloads_dir : string) : string :=
  path_join downloads_dir (basename Startup2.PROTONVPN_DEB_URL).

(** Where [install_rustscan] stores the package, and the command it installs it with. *)
Definition rustscan_target (downloads_dir : string) : string :=
  path_join downloads_dir (basename Startup2.RUSTSCAN_DEB_URL).

Definition dpkg_install (target : string) : command := Argv ["dpkg"; "-i"; target].

(** The exception [subprocess.run(..., check=True)] raises for a non-zero exit. *)
Definition called_process_error (cmd : command) (rc : Z) (out err : string) : exn :=
  Exn CalledProcessError
      ("Command '" +:+ show_command cmd +:+ "' returned non-zero exit status") rc out err.

End Obs.

(* ================================================================== *)
(** * Concrete surroundings *)
(* ================================================================== *)

Module Scenario.
Import Py World Obs.

Definition refused : exn := mk_exn URLError "Connection refused".
Definition timed_out : exn := mk_exn TimeoutError "timed out".

(** A network that answers the attempts by a script, then refuses. *)
Definition scripted_net (script : list net_reply) : list event → string → net_reply :=
  fun h _ => nth (net_attempts h) script (NetFail refused).

(** Surroundings in which every command succeeds without touching the
    filesystem, every process starts, and the user declines to reboot. *)
Definition calm (net : list event → string → net_reply) : env :=
  {| e_urlopen := net;
     e_run := fun _ _ _ fs => CmdExit 0 "" "" fs;
     e_popen := fun _ _ => None;
     e_time := fun _ => 1700000000;
     e_input := fun _ _ => "n";
     e_setrlimit := fun _ => None;
     e_geteuid := 0 |}.

Definition dir (entries : list (string * FS.node)) : FS.node :=
  FS.Dir (list_to_map entries).

Definition text (s : string) : FS.node := FS.File (String.list_byte_of_string s).

(** A machine with an empty [/tmp]. *)
Definition bare_root : FS.node := dir [("tmp", dir [])].

Definition start (e : env) (cwd : string) (root : FS.node) : world := W e cwd root [].

Definition pkg_url := "https://example.org/pool/pkg.deb".
Definition pkg_body : list Byte.byte := String.list_byte_of_string "package".

(** Three refusals, then the package. *)
Definition three_failures_then_ok : list net_reply :=
  [NetFail refused; NetFail timed_out; NetFail refused; NetOk 200 pkg_url pkg_body None].

(** Two refusals, then the package. *)
Definition two_failures_then_ok : list net_reply :=
  [NetFail refused; NetFail timed_out; NetOk 200 pkg_url pkg_body None].

(** One refusal, then a package that is not the expected ProtonVPN one. *)
Definition refusal_then_wrong_package : list net_reply :=
  [NetFail refused; NetOk 200 Startup2.PROTONVPN_DEB_URL pkg_body None].

(** A package that is not the expected ProtonVPN one, at once. *)
Definition wrong_package : list net_reply :=
  [NetOk 200 Startup2.PROTONVPN_DEB_URL pkg_body None].

(** A file longer than one SHA-256 block. *)
Definition long_body : list Byte.byte :=
  String.list_byte_of_string
    "abcdbcdecdefdefgefghfghighijhijkijkljklmklmnlmnomnopnopqabcdbcdecdefdefgefghfghighij".

Definition root_with_download : FS.node := dir [("tmp", dir [("pkg.deb", FS.File long_body)])].

(** *** A machine on which the scripts run to the package phase *)

(** A network that serves what [site] lists and refuses the rest. *)
Fixpoint served (site : list (string * net_reply)) (url : string) : net_reply :=
  match site with
  | [] => NetFail refused
  | (u, r) :: rest => if bool_decide (u = url) then r else served rest url
  end.

Definition telegram_archive_url := "https://td.telegram.org/tlinux/tsetup.6.1.3.tar.xz".
Definition telegram_archive : list Byte.byte := String.list_byte_of_string "tar.xz archive".

(** Telegram's download page redirects to the archive, which is served. *)
Definition telegram_site : list (string * net_reply) :=
  [ (Startup2.TELEGRAM_DL_PAGE, NetOk 200 telegram_archive_url [] None);
    (telegram_archive_url, NetOk 200 telegram_archive_url telegram_archive None) ].

(** The regular expression engine of runs that never reach it. *)
Definition unused_regex : string → string → option string := fun _ _ => None.

(** The working copy, already cloned under [/root/startup]. *)
Definition working_copy : FS.node :=
  dir [ ("grub.cfg", text "set timeout=5");
        ("kali", dir [("theme.txt", text "title-text: kali")]);
        ("wallpaper",
         dir [ ("20-wallpaper.svg", text "svg"); ("12-wallpaper.png", text "png12");
               ("1-wallpaper.png", text "png1"); ("2-wallpaper.png", text "png2");
               ("3-wallpaper.png", text "png3"); ("4-wallpaper.png", text "png4") ]) ].

Definition machine : FS.node :=
  dir [ ("root", dir [("startup", working_copy)]);
        ("boot", dir [("grub", dir [("grub.cfg", text "old grub.cfg")])]);
        ("usr", dir [("share", dir [])]);
        ("opt", dir []) ].

(** The machine with what is at [p] taken away. *)
Definition without (p : FS.path) (root : FS.node) : FS.node :=
  default root (FS.del p root).

Definition is_tar (cmd : command) : bool :=
  match cmd with
  | Argv ("tar" :: _) => true
  | _ => false
  end.

(** Every command succeeds, except that [tar] exits with status 2. *)
Definition tar_fails : env :=
  {| e_urlopen := fun _ url => served telegram_site url;
     e_run := fun _ cmd _ fs =>
                if is_tar cmd then CmdExit 2 "" "tar: Unexpected EOF in archive" fs
                else CmdExit 0 "" "" fs;
     e_popen := fun _ _ => None;
     e_time := fun _ => 1700000000;
     e_input := fun _ _ => "n";
     e_setrlimit := fun _ => None;
     e_geteuid := 0 |}.

(** What [tar -xf ... -C /opt/Telegram] leaves: the Telegram binary. *)
Definition extract_telegram (fs : FS.node) : FS.node :=
  default fs (FS.put ["opt"; "Telegram"; "Telegram"] (text "ELF") (Some fs)).

Definition exec_format_error : exn := mk_exn OSError "[Errno 8] Exec format error".

(** Every command succeeds and [tar] extracts the binary, but no process can
    be started. *)
Definition launch_fails : env :=
  {| e_urlopen := fun _ url => served telegram_site url;
     e_run := fun _ cmd _ fs =>
                CmdExit 0 "" "" (if is_tar cmd then extract_telegram fs else fs);
     e_popen := fun _ _ => Some exec_format_error;
     e_time := fun _ => 1700000000;
     e_input := fun _ _ => "n";
     e_setrlimit := fun _ => None;
     e_geteuid := 0 |}.

Definition is_dpkg (cmd : command) : bool :=
  match cmd with
  | Argv ("dpkg" :: _) => true
  | _ => false
  end.

(** Every download arrives, every command succeeds, except that [dpkg]
    exits with status 1. *)
Definition dpkg_fails : env :=
  {| e_urlopen := fun _ url => NetOk 200 url pkg_body None;
     e_run := fun _ cmd _ fs =>
                if is_dpkg cmd then CmdExit 1 "" "dpkg: error processing archive" fs
                else CmdExit 0 "" "" fs;
     e_popen := fun _ _ => None;
     e_time := fun _ => 1700000000;
     e_input := fun _ _ => "n";
     e_setrlimit := fun _ => None;
     e_geteuid := 0 |}.

(** The downloads folder of the working copy, and the Telegram archive in it. *)
Definition downloads := "/root/startup/downloads".
Definition telegram_download : FS.path :=
  ["root"; "startup"; "downloads"; "tsetup.6.1.3.tar.xz"].

(** [tar] as [install_telegram] calls it. *)
Definition tar_telegram : command :=
  Argv ["tar"; "-xf"; "/root/startup/downloads/tsetup.6.1.3.tar.xz"; "-C"; "/opt/Telegram"].

Definition is_gsettings (cmd : command) : bool :=
  match cmd with
  | Argv ("gsettings" :: _) => true
  | _ => false
  end.

Definition is_fc_list (cmd : command) : bool :=
  match cmd with
  | Argv ("fc-list" :: _) => true
  | _ => false
  end.

Definition no_fc_list : exn :=
  mk_exn FileNotFoundError "[Errno 2] No such file or directory: 'fc-list'".

(** A machine without a desktop session, without fontconfig and without
    network: [gsettings] exits with status 1, [fc-list] is not installed,
    the other commands succeed. *)
Definition headless : env :=
  {| e_urlopen := fun _ _ => NetFail refused;
     e_run := fun _ cmd _ fs =>
                if is_gsettings cmd then CmdExit 1 "" "dconf-WARNING: failed to commit changes" fs
                else if is_fc_list cmd then CmdSpawnFail no_fc_list
                else CmdExit 0 "" "" fs;
     e_popen := fun _ _ => None;
     e_time := fun _ => 1700000000;
     e_input := fun _ _ => "n";
     e_setrlimit := fun _ => None;
     e_geteuid := 0 |}.

(** A machine whose package index knows the packages [known] only:
    [apt install -y p] exits with status 100 for any other [p]; every other
    command succeeds and every download arrives. *)
Definition installable (known : list string) : env :=
  {| e_urlopen := fun _ url => NetOk 200 url pkg_body None;
     e_run := fun _ cmd _ fs =>
                match cmd with
                | Argv ["apt"; "install"; "-y"; p] =>
                    if bool_decide (p ∈ known) then CmdExit 0 "" "" fs
                    else CmdExit 100 "" ("E: Unable to locate package " +:+ p) fs
                | _ => CmdExit 0 "" "" fs
                end;
     e_popen := fun _ _ => None;
     e_time := fun _ => 1700000000;
     e_input := fun _ _ => "n";
     e_setrlimit := fun _ => None;
     e_geteuid := 0 |}.

(** The package names [install_protonvpn] tries. *)
Definition protonvpn_names : list string :=
  ["proton-vpn-gnome-desktop"; "protonvpn-gnome-desktop"; "proton-vpn"].

(** What Python raises in the main thread when the user presses Ctrl-C. *)
Definition keyboard_interrupt : exn := mk_exn KeyboardInterrupt "".

(** The user interrupts every network attempt. *)
Definition interrupted : env :=
  {| e_urlopen := fun _ _ => NetFail keyboard_interrupt;
     e_run := fun _ _ _ fs => CmdExit 0 "" "" fs;
     e_popen := fun _ _ => None;
     e_time := fun _ => 1700000000;
     e_input := fun _ _ => "n";
     e_setrlimit := fun _ => None;
     e_geteuid := 0 |}.

(** The machine after some downloads: two packages and a directory left in
    the downloads folder. *)
Definition machine_with_downloads : FS.node :=
  default machine
    (FS.put ["root"; "startup"; "downloads"]
       (dir [ ("code.deb", text "deb"); ("brave-install.sh", text "#!/bin/sh");
              ("partial", dir [("chunk", text "data")]) ])
       (Some machine)).



(** Every command line given to the shell exits with status 1. *)
Definition failing_shell : env :=
  {| e_urlopen := fun _ _ => NetFail refused;
     e_run := fun _ cmd _ fs =>
                match cmd with
                | Shell _ => CmdExit 1 "" "error" fs
                | Argv _ => CmdExit 0 "" "" fs
                end;
     e_popen := fun _ _ => None;
     e_time := fun _ => 1700000000;
     e_input := fun _ _ => "n";
     e_setrlimit := fun _ => None;
     e_geteuid := 0 |}.

(** A response that breaks off after three bytes, then the whole package. *)
Definition truncated_then_whole : list net_reply :=
  [ NetOk 200 pkg_url (take 3 pkg_body) (Some timed_out);
    NetOk 200 pkg_url pkg_body None ].

(** The same surroundings for a user who is not root. *)
Definition as_user (uid : Z) (e : env) : env :=
  {| e_urlopen := e_urlopen e;
     e_run := e_run e;
     e_popen := e_popen e;
     e_time := e_time e;
     e_input := e_input e;
     e_setrlimit := e_setrlimit e;
     e_geteuid := uid |}.

End Scenario.

(* ================================================================== *)
(** * The phases of [main] *)
(* ================================================================== *)

(** [main] of startup.py and of startup2.py is one [try] block; the
    definitions below name its parts, and [main_by_phases] puts them back
    together (the theorems show it runs as [main] does). *)

Module Session.
Import Py World.
Local Open Scope prog_scope.

(** [steps[0]; steps[1]; ...] *)
Fixpoint sequence (steps : list (M unit)) : M unit :=
  match steps with
  | [] => ret tt
  | step :: rest => step ;; sequence rest
  end.

Section Phases.

Variable re_search : string → string → option string.

(** *** startup2.py *)

Definition prepare2 : M string :=
  Startup2.clone_repo Startup2.REPO_URL Startup2.REPO_DIRNAME ;;
  w ← get_world;
  let repo_path := abspath (w_cwd w) Startup2.REPO_DIRNAME in
  downloads_dir ← Startup2.setup_downloads repo_path;
  Startup2.backup_and_copy_grub repo_path ;;
  Startup2.backup_and_copy_wallpapers repo_path ;;
  Startup2.apply_gnome_tweaks ;;
  Startup2.configure_dash_to_dock ;;
  ret downloads_dir.

Definition packages2 (downloads_dir : string) : list (M unit) :=
  [ Startup2.install_telegram re_search downloads_dir;
    Startup2.install_protonvpn downloads_dir;
    Startup2.install_rustscan downloads_dir;
    Startup2.install_vscode downloads_dir;
    Startup2.install_brave downloads_dir ].

Definition finish2 (downloads_dir : string) : M unit :=
  Startup2.cleanup_downloads downloads_dir ;;
  choice ← input "Installation complete. Reboot now? (y/N) ";
  let choice := strip choice in
  (if startswith (lower choice) "y"
   then log INFO "Rebooting now..." ;; Startup2.run_cmd (Argv ["reboot"]) false [] ;; ret tt
   else log INFO "Reboot skipped; logout/login may be required for some settings.") ;;
  log INFO "=== Installer finished successfully ===".

Definition main2_by_phases : M unit :=
  log INFO "=== Installer started ===" ;;
  Startup2.require_root ;;
  try_except
    (downloads_dir ← prepare2;
     sequence (packages2 downloads_dir) ;;
     finish2 downloads_dir)
    (except Exception Startup2.fatal).

(** *** startup.py *)

Definition prepare1 : M string :=
  Startup.clone_repo Startup.REPO_URL Startup.REPO_DIRNAME ;;
  w ← get_world;
  let repo_path := abspath (w_cwd w) Startup.REPO_DIRNAME in
  downloads_dir ← Startup.setup_downloads repo_path;
  Startup.backup_and_copy_grub repo_path ;;
  Startup.backup_and_copy_wallpapers repo_path ;;
  Startup.apply_gnome_tweaks ;;
  Startup.configure_dash_to_dock ;;
  ret downloads_dir.

Definition packages1 (downloads_dir : string) : list (M unit) :=
  [ Startup.install_telegram re_search downloads_dir;
    Startup.install_protonvpn downloads_dir;
    Startup.install_rustscan downloads_dir;
    Startup.install_vscode downloads_dir;
    Startup.install_brave downloads_dir ].

Definition finish1 (downloads_dir : string) : M unit :=
  Startup.cleanup_downloads downloads_dir ;;
  choice ← input "Installation complete. Reboot now? (y/N) ";
  let choice := strip choice in
  (if startswith (lower choice) "y"
   then log INFO "Rebooting now..." ;; Startup.run_cmd (Argv ["reboot"]) false [] ;; ret tt
   else log INFO "Reboot skipped. You may need to log out/in for some settings to take effect.") ;;
  log INFO "=== Installer finished successfully ===".

Definition main1_by_phases : M unit :=
  log INFO "=== Installer started ===" ;;
  Startup.require_root ;;
  try_except
    (downloads_dir ← prepare1;
     sequence (packages1 downloads_dir) ;;
     finish1 downloads_dir)
    (except Exception Startup.fatal).

End Phases.

(** The world [main] leaves when [e] reaches its handler in world [w]. *)
Definition aborted2 (e : exn) (w : world) : world :=
  Obs.after (EvLog ERROR "Installation aborted due to errors. Check logs above.")
    (Obs.after (EvLog ERROR ("Fatal error during installation: " +:+ e_msg e)) w).

Definition aborted1 (e : exn) (w : world) : world :=
  Obs.after (EvLog ERROR "Installation aborted due to errors. Check the log above for details.")
    (Obs.after (EvLog ERROR ("Fatal error during installation: " +:+ e_msg e)) w).

(** [SystemExit(1)] *)
Definition exit_1 : exn := Exn SystemExit "" 1 "" "".

End Session.
(* ================================================================== *)
(** * Properties *)
(* ================================================================== *)

(** ** SHA-256 test vectors (FIPS 180-4) *)

Example round_constants :
  nth 0 SHA256.K 0 = 0x428a2f98 ∧ nth 63 SHA256.K 0 = 0xc67178f2
  ∧ nth 0 SHA256.H0 0 = 0x6a09e667 ∧ nth 7 SHA256.H0 0 = 0x5be0cd19
  ∧ length SHA256.K = 64%nat.
Proof. repeat split; reflexivity. Qed.

Example sha256_abc :
  SHA256.sha256_hex (String.list_byte_of_string "abc")
  = "ba7816bf8f01cfea414140de5dae2223b00361a396177a9cb410ff61f20015ad".
Proof. vm_compute. reflexivity. Qed.

Example sha256_empty :
  SHA256.sha256_hex []
  = "e3b0c44298fc1c149afbf4c8996fb92427ae41e4649b934ca495991b7852b855".
Proof. vm_compute. reflexivity. Qed.

Example sha256_two_blocks :
  SHA256.sha256_hex (String.list_byte_of_string
     "abcdbcdecdefdefgefghfghighijhijkijkljklmklmnlmnomnopnopq")
  = "248d6a61d20638b8e5c026930c3e6039a33ce45964ff2167f6ecedd419db06c1".
Proof. vm_compute. reflexivity. Qed.

Example hasher_incremental_abc :
  SHA256.hexdigest
    (SHA256.update (SHA256.update SHA256.new (String.list_byte_of_string "a"))
                   (String.list_byte_of_string "bc"))
  = "ba7816bf8f01cfea414140de5dae2223b00361a396177a9cb410ff61f20015ad".
Proof. vm_compute. reflexivity. Qed.

(** ** Sanity checks of the Python string and path functions *)

Example path_join_ex :
  Py.path_join "/boot/grub/" "grub.cfg" = "/boot/grub/grub.cfg"
  ∧ Py.path_join "/repo" "kali" = "/repo/kali"
  ∧ Py.path_join "/repo" "/abs" = "/abs".
Proof. repeat split; reflexivity. Qed.

Example basename_dirname_ex :
  Py.basename "https://example.org/a/pkg.deb" = "pkg.deb"
  ∧ Py.dirname "/usr/share/backgrounds/kali/login.svg" = "/usr/share/backgrounds/kali"
  ∧ Py.dirname "/x" = "/" ∧ Py.dirname "x" = "" ∧ Py.basename "/boot/grub/" = "".
Proof. repeat split; reflexivity. Qed.

Example resolve_ex :
  Py.resolve "/root" "/boot/grub/" = ["boot"; "grub"]
  ∧ Py.resolve "/root/startup" "kali" = ["root"; "startup"; "kali"]
  ∧ Py.abspath "/root" "startup" = "/root/startup"
  ∧ Py.str_of_Z 1700000000 = "1700000000"
  ∧ Py.range 1 4 = [1; 2; 3]
  ∧ Py.endswith "https://t.org/tsetup.1.2.3.tar.xz" ".tar.xz" = true
  ∧ Py.isinstance (Py.mk_exn Py.HTTPError "404") Py.Exception = true
  ∧ Py.isinstance (Py.mk_exn Py.SystemExit "") Py.Exception = false.
Proof. repeat split; reflexivity. Qed.

(** ** Running programs *)

Import Py World Obs.
Local Open Scope prog_scope.

Lemma run_bind {A B} (m : M A) (k : A → M B) w :
  run (bind m k) w =
  match run m w with
  | (Ret a, w') => run (k a) w'
  | (Raise e, w') => (Raise e, w')
  end.
Proof. reflexivity. Qed.

(** Unfold the primitives of the world monad and reduce what they expose. *)
Ltac mstep :=
  repeat progress
    (unfold run, bind, ret, raise, sys_exit, log, print, World.emit, get_world, set_fs,
       urlopen, sleep, time_now, stat, path_exists, isdir, isfile, read_file, write_file,
       chmod, after in *;
     cbn beta iota zeta delta [w_env w_cwd w_fs w_trace fst snd] in *).

Lemma range_nonpos (a b : Z) : b ≤ a → range a b = [].
Proof.
  intros H. unfold range. replace (Z.to_nat (b - a)) with 0%nat by lia. reflexivity.
Qed.

Lemma range_cons (a b : Z) : a < b → range a b = a :: range (a + 1) b.
Proof.
  intros H. unfold range.
  replace (Z.to_nat (b - a)) with (S (Z.to_nat (b - (a + 1)))) by lia.
  simpl. f_equal; [lia|].
  rewrite <- seq_shift, map_map. apply map_ext. intros i. lia.
Qed.

Lemma range_length (a b : Z) : length (range a b) = Z.to_nat (b - a).
Proof. unfold range. by rewrite length_map, length_seq. Qed.

(** ** download_with_retries *)

Lemma download_with_retries_no_attempt (url target : string) (retries : Z) (w : world) :
  retries ≤ 0 →
  run (Startup2.download_with_retries url target retries) w
  = (Raise unbound_last_err,
     W (w_env w) (w_cwd w) (w_fs w)
       (EvLog ERROR ("Failed to download " +:+ url +:+ " after " +:+ str_of_Z retries
                     +:+ " attempts") :: w_trace w)).
Proof.
  intros H. unfold Startup2.download_with_retries.
  rewrite range_nonpos by lia. reflexivity.
Qed.

(** One failed attempt: a warning, a sleep of [1 + attempt] seconds, and the
    loop goes on with [last_err] bound to the error. *)
Lemma download_loop_failed_attempt url target retries a rest last w :
  ∃ m1, ∀ e,
    e_urlopen (w_env w) (EvLog INFO m1 :: w_trace w) url = NetFail e →
    isinstance e Exception = true →
    ∃ m2,
      run (Startup2.download_loop url target retries (a :: rest) last) w
      = run (Startup2.download_loop url target retries rest (Some e))
            (W (w_env w) (w_cwd w) (w_fs w)
               (EvSleep (1 + a) :: EvLog WARNING m2 :: EvUrlopen url :: EvLog INFO m1 :: w_trace w)).
Proof.
  eexists. intros e Hnet Hexc.
  cbn [Startup2.download_loop].
  unfold run, bind, try_except, Startup2.download_attempt, log, urlopen, World.emit,
    bind, get_world, ret, raise, sleep. cbn.
  rewrite Hnet.
  destruct (isinstance e HTTPError); [eauto|].
  destruct (isinstance e URLError); [eauto|].
  rewrite Hexc. eauto.
Qed.

Lemma net_attempts_cons ev tr :
  net_attempts (ev :: tr) = ((if is_urlopen ev then 1 else 0) + net_attempts tr)%nat.
Proof. unfold net_attempts. cbn. destruct (is_urlopen ev); reflexivity. Qed.

Lemma net_attempts_app t1 t2 :
  net_attempts (t1 ++ t2) = (net_attempts t1 + net_attempts t2)%nat.
Proof. unfold net_attempts. by rewrite List.filter_app, length_app. Qed.

Lemma sleeps_cons ev tr :
  sleeps (ev :: tr) = sleeps tr ++ match ev with EvSleep s => [s] | _ => [] end.
Proof.
  unfold sleeps. cbn [rev]. rewrite omap_app. f_equal. destruct ev; reflexivity.
Qed.

Lemma sleeps_app t1 t2 : sleeps (t1 ++ t2) = sleeps t2 ++ sleeps t1.
Proof. unfold sleeps. by rewrite rev_app_distr, omap_app. Qed.

Lemma commands_cons ev tr :
  commands (ev :: tr) = commands tr ++ match ev with EvRun c _ => [c] | _ => [] end.
Proof.
  unfold commands. cbn [rev]. rewrite omap_app. f_equal. destruct ev; reflexivity.
Qed.

Lemma commands_app t1 t2 : commands (t1 ++ t2) = commands t2 ++ commands t1.
Proof. unfold commands. by rewrite rev_app_distr, omap_app. Qed.

Lemma added_app evs w w' :
  w_trace w' = evs ++ w_trace w → added w w' = evs.
Proof.
  intros H. unfold added. rewrite H, length_app.
  replace (length evs + length (w_trace w) - length (w_trace w))%nat with (length evs) by lia.
  by rewrite take_app_length.
Qed.

(** When every attempt fails, the loop ends by raising: the error of the last
    attempt, or what [last_err] held when no attempt is left to make. *)
Lemma download_loop_all_fail url target retries attempts :
  ∀ last w,
  always_fails (w_env w) url →
  ∃ e evs,
    run (Startup2.download_loop url target retries attempts last) w
    = (Raise e, W (w_env w) (w_cwd w) (w_fs w) (evs ++ w_trace w))
    ∧ net_attempts evs = length attempts
    ∧ sleeps evs = map (Z.add 1) attempts
    ∧ (attempts = [] → e = default unbound_last_err last)
    ∧ (attempts ≠ [] →
       ∃ pre h, evs ++ w_trace w = pre ++ EvUrlopen url :: h
                ∧ net_attempts pre = 0%nat
                ∧ e_urlopen (w_env w) h url = NetFail e).
Proof.
  induction attempts as [|a rest IH]; intros last w Hfail.
  - exists (default unbound_last_err last), [EvLog ERROR ("Failed to download " +:+ url +:+ " after "
              +:+ str_of_Z retries +:+ " attempts")].
    repeat split; try done.
    destruct last; reflexivity.
  - destruct (download_loop_failed_attempt url target retries a rest last w) as [m1 Hstep].
    destruct (Hfail (EvLog INFO m1 :: w_trace w)) as (e & Hnet & Hexc).
    destruct (Hstep e Hnet Hexc) as [m2 Heq]. rewrite Heq.
    set (w1 := W _ _ _ _).
    destruct (IH (Some e) w1 Hfail) as (e' & evs & Hrun & Hn & Hs & Hnil & Hcons).
    exists e', (evs ++ [EvSleep (1 + a); EvLog WARNING m2; EvUrlopen url; EvLog INFO m1]).
    rewrite Hrun. subst w1. cbn [w_env w_cwd w_fs w_trace].
    rewrite <- app_assoc. split; [reflexivity|].
    rewrite net_attempts_app, sleeps_app, Hn, Hs.
    split; [cbn; lia|]. split; [reflexivity|]. split; [done|].
    intros _. destruct rest as [|b rest'].
    + specialize (Hnil eq_refl). cbn in Hnil. subst e'.
      apply (f_equal snd) in Hrun. cbn in Hrun.
      exists (evs ++ [EvSleep (1 + a); EvLog WARNING m2]), (EvLog INFO m1 :: w_trace w).
      rewrite <- !app_assoc. split; [reflexivity|].
      rewrite net_attempts_app, Hn. split; [reflexivity|]. exact Hnet.
    + destruct Hcons as (pre & h & Hsplit & Hpre & Hlast); [done|].
      exists pre, h. cbn [w_trace] in Hsplit. rewrite <- Hsplit. done.
Qed.

Lemma scripted_head e n0 url r script h :
  scripted e n0 url (r :: script) → net_attempts h = n0 → e_urlopen e h url = r.
Proof. intros H Hh. apply (H h 0%nat r); [lia | reflexivity]. Qed.

Lemma scripted_tail e n0 url r script :
  scripted e n0 url (r :: script) → scripted e (S n0) url script.
Proof. intros H h k r' Hh Hk. apply (H h (S k) r'); [lia | exact Hk]. Qed.

(** [N] scripted failures: [N] attempts, each followed by its sleep. *)
Lemma download_loop_scripted_failures url target retries errs :
  ∀ a rest last w script,
  Forall (fun e => isinstance e Exception = true) errs →
  scripted (w_env w) (net_attempts (w_trace w)) url (map NetFail errs ++ script) →
  ∃ evs last',
    run (Startup2.download_loop url target retries
           (map (fun i => a + Z.of_nat i) (seq 0 (length errs)) ++ rest) last) w
    = run (Startup2.download_loop url target retries rest last')
          (W (w_env w) (w_cwd w) (w_fs w) (evs ++ w_trace w))
    ∧ net_attempts evs = length errs
    ∧ sleeps evs = map (fun i => 1 + a + Z.of_nat i) (seq 0 (length errs)).
Proof.
  induction errs as [|e errs IH]; intros a rest last w script Hexc Hscript.
  - exists [], last. by destruct w.
  - inversion Hexc as [|? ? He Hrest]; subst.
    assert (Hseq : ∀ b, map (fun i => b + Z.of_nat i) (seq 0 (S (length errs)))
                   = b :: map (fun i => b + 1 + Z.of_nat i) (seq 0 (length errs))).
    { intros b. cbn. f_equal; [lia|].
      rewrite <- seq_shift, map_map. apply map_ext. intros; lia. }
    cbn [length]. rewrite Hseq. cbn [map app] in *.
    destruct (download_loop_failed_attempt url target retries a
                (map (fun i => a + 1 + Z.of_nat i) (seq 0 (length errs)) ++ rest) last w)
      as [m1 Hstep].
    destruct (Hstep e) as [m2 Heq]; [|exact He|].
    { eapply scripted_head; [exact Hscript|]. by rewrite net_attempts_cons. }
    rewrite Heq. set (w1 := W _ _ _ _).
    destruct (IH (a + 1) rest (Some e) w1 script Hrest) as (evs & last' & Hrun & Hn & Hs).
    { subst w1. cbn [w_env w_trace]. rewrite !net_attempts_cons. cbn.
      eapply scripted_tail. exact Hscript. }
    exists (evs ++ [EvSleep (1 + a); EvLog WARNING m2; EvUrlopen url; EvLog INFO m1]), last'.
    rewrite Hrun. subst w1. cbn [w_env w_cwd w_fs w_trace]. rewrite <- app_assoc.
    split; [reflexivity|]. rewrite net_attempts_app, sleeps_app, Hn, Hs.
    split; [cbn; lia|].
    specialize (Hseq (1 + a)). cbn [map] in Hseq. rewrite Hseq.
    cbn. f_equal. apply map_ext. intros; lia.
Qed.

(** [safe_makedirs] never fails on the chmod: a failure there is swallowed. *)
Lemma run_safe_makedirs p w :
  run (Startup2.safe_makedirs p) w =
  match FS.mkdirs (loc w p) (Some (w_fs w)) with
  | Some fs' => (Ret tt, W (w_env w) (w_cwd w) fs' (w_trace w))
  | None =>
      (Raise (mk_exn (if FS.is_file (FS.get (loc w p) (w_fs w))
                      then FileExistsError else NotADirectoryError) p), w)
  end.
Proof.
  unfold run, Startup2.safe_makedirs, makedirs, bind, get_world, set_fs, try_except, chmod,
    path_exists, stat, bind, get_world, ret, raise.
  destruct (FS.mkdirs _ _) as [fs'|]; cbn.
  - destruct (bool_decide _); reflexivity.
  - destruct (FS.is_file _); reflexivity.
Qed.

(** The successful attempt: the body is stored at the target and the loop returns. *)
Lemma download_loop_success url target retries a rest last w :
  ∃ m1, ∀ status final_url body fs1 fs2,
    e_urlopen (w_env w) (EvLog INFO m1 :: w_trace w) url = NetOk status final_url body None →
    FS.mkdirs (loc w (dir_of target)) (Some (w_fs w)) = Some fs1 →
    FS.is_dir (FS.get (loc w target) fs1) = false →
    FS.put (loc w target) (FS.File body) (Some fs1) = Some fs2 →
    ∃ m2,
      run (Startup2.download_loop url target retries (a :: rest) last) w
      = (Ret target,
         W (w_env w) (w_cwd w) fs2 (EvLog INFO m2 :: EvUrlopen url :: EvLog INFO m1 :: w_trace w)).
Proof.
  eexists. intros status final_url body fs1 fs2 Hnet Hmk Hnd Hput.
  cbn [Startup2.download_loop].
  unfold run, bind, try_except, Startup2.download_attempt, log, urlopen, World.emit,
    bind, get_world, ret, raise, sleep. cbn.
  rewrite Hnet.
  fold (dir_of target).
  change (Startup2.safe_makedirs (dir_of target) ?w) with (run (Startup2.safe_makedirs (dir_of target)) w).
  rewrite run_safe_makedirs. unfold loc in *. cbn [w_fs w_cwd w_env w_trace] in *. rewrite Hmk.
  unfold write_file, bind, get_world, set_fs, raise, ret, loc. cbn.
  rewrite Hnd, Hput. eauto.
Qed.

(** Whatever the network and the filesystem do, one pass through the [try]
    block makes exactly one network attempt, does not sleep and runs no command. *)
Lemma download_attempt_shape url target a retries w :
  ∃ r fs' evs,
    run (Startup2.download_attempt url target a retries) w
    = (r, W (w_env w) (w_cwd w) fs' (evs ++ w_trace w))
    ∧ net_attempts evs = 1%nat ∧ sleeps evs = [] ∧ commands evs = [].
Proof.
  unfold Startup2.download_attempt.
  unfold run, bind, log, urlopen, World.emit, get_world, ret, raise. cbn.
  destruct (e_urlopen _ _ _) as [e|status final_url body read_error].
  - by eexists _, _, [_; _].
  - match goal with |- context [Startup2.safe_makedirs ?p ?w0] =>
      change (Startup2.safe_makedirs p w0) with (run (Startup2.safe_makedirs p) w0)
    end.
    rewrite run_safe_makedirs. cbn [w_fs w_cwd w_env w_trace].
    destruct (FS.mkdirs _ _) as [fs1|]; [|by eexists _, _, [_; _]].
    unfold write_file, bind, get_world, set_fs, raise, ret. cbn.
    destruct (FS.is_dir _); [by eexists _, _, [_; _]|].
    destruct (FS.put _ _ _) as [fs2|]; cbn; [|by eexists _, _, [_; _]].
    destruct read_error; [by eexists _, _, [_; _]|by eexists _, _, [_; _; _]].
Qed.

(** The loop, one iteration at a time. *)
Lemma download_loop_cons url target retries a rest last w :
  run (Startup2.download_loop url target retries (a :: rest) last) w =
  match run (Startup2.download_attempt url target a retries) w with
  | (Ret p, w1) => (Ret p, w1)
  | (Raise e, w1) =>
      match retry_after e with
      | Some m =>
          run (log WARNING (m url) ;; sleep (1 + a) ;;
               Startup2.download_loop url target retries rest (Some e)) w1
      | None => (Raise e, w1)
      end
  end.
Proof.
  cbn [Startup2.download_loop]. unfold run, bind, try_except, retry_after.
  destruct (Startup2.download_attempt url target a retries w) as [[p|e] w1]; [reflexivity|].
  destruct (isinstance e HTTPError); [reflexivity|].
  destruct (isinstance e URLError); [reflexivity|].
  destruct (isinstance e Exception); reflexivity.
Qed.

(** Any run of the loop: the attempts it makes are bounded by the attempts
    it is given, the k-th sleep lasts [1 + attempt_k], and no command is run. *)
Lemma download_loop_shape url target retries attempts :
  ∀ last w,
  ∃ r fs' evs j,
    run (Startup2.download_loop url target retries attempts last) w
    = (r, W (w_env w) (w_cwd w) fs' (evs ++ w_trace w))
    ∧ (net_attempts evs ≤ length attempts)%nat
    ∧ (j ≤ net_attempts evs)%nat
    ∧ sleeps evs = map (Z.add 1) (take j attempts)
    ∧ commands evs = [].
Proof.
  induction attempts as [|a rest IH]; intros last w.
  - cbn [Startup2.download_loop].
    eexists (Raise (default unbound_last_err last)), (w_fs w), [EvLog ERROR _], 0%nat.
    split; [destruct last; reflexivity|]. repeat split; cbn; lia.
  - rewrite download_loop_cons.
    destruct (download_attempt_shape url target a retries w)
      as (r & fs1 & evs1 & Hrun & Hn & Hs & Hc).
    rewrite Hrun. set (w1 := W _ _ fs1 _).
    destruct r as [p|e].
    + exists (Ret p), fs1, evs1, 0%nat. split; [reflexivity|].
      rewrite Hn, Hs, Hc. cbn. repeat split; lia.
    + destruct (retry_after e) as [m|] eqn:Hretry.
      * unfold log, sleep, World.emit, bind, run. cbn.
        set (w2 := W _ _ fs1 _).
        destruct (IH (Some e) w2) as (r & fs' & evs & j & Hrun2 & Hle & Hj & Hsl & Hcm).
        unfold run in Hrun2. rewrite Hrun2. subst w2. cbn [w_env w_cwd w_fs w_trace].
        exists r, fs', (evs ++ EvSleep (1 + a) :: EvLog WARNING (m url) :: evs1), (S j).
        rewrite <- app_assoc. split; [reflexivity|].
        rewrite net_attempts_app, !net_attempts_cons, Hn. cbn [is_urlopen].
        split; [cbn; lia|]. split; [lia|].
        rewrite sleeps_app, !sleeps_cons, Hs, Hsl.
        rewrite commands_app, !commands_cons, Hc, Hcm. split; reflexivity.
      * exists (Raise e), fs1, evs1, 0%nat. split; [reflexivity|].
        rewrite Hn, Hs, Hc. cbn. repeat split; lia.
Qed.

Lemma range_split (a : Z) (n : nat) (b : Z) :
  a + Z.of_nat n < b →
  range a b = map (fun i => a + Z.of_nat i) (seq 0 n) ++ (a + Z.of_nat n) :: range (a + Z.of_nat n + 1) b.
Proof.
  revert a. induction n as [|n IH]; intros a H.
  - cbn. rewrite Z.add_0_r. apply range_cons. lia.
  - rewrite range_cons by lia. cbn [seq map app]. rewrite Z.add_0_r. f_equal.
    rewrite (IH (a + 1)) by lia.
    rewrite <- seq_shift, map_map. f_equal.
    + apply map_ext. intros; lia.
    + f_equal; [lia|]. f_equal. lia.
Qed.

Lemma sorted_delays (a : Z) (n : nat) :
  StronglySorted Z.le (map (fun i => a + Z.of_nat i) (seq 0 n)).
Proof.
  revert a. induction n as [|n IH]; intros a; cbn; constructor.
  - rewrite <- seq_shift, map_map.
    erewrite map_ext; [apply (IH (a + 1))|]. intros; cbn; lia.
  - apply List.Forall_forall. intros x Hx. apply in_map_iff in Hx as (i & <- & _). lia.
Qed.

(** ** C9 and C5: the retry loop *)

Import Scenario.

(** C9. The failure path of [download_with_retries] re-raises the last
    observed transport error only when [retries >= 1].  Called with
    [retries <= 0] it makes no network attempt, and the final [raise last_err]
    reads a local variable that was never assigned: the error is an
    UnboundLocalError, not a transport error.  With [retries >= 1] and a
    network that fails every time, it makes [retries] attempts and raises the
    error of the last one. *)
Theorem C9_last_err_needs_one_attempt (url target : string) (retries : Z) (w : world) :
  (retries ≤ 0 →
   ∃ w', run (Startup2.download_with_retries url target retries) w
         = (Raise unbound_last_err, w')
       ∧ net_attempts (added w w') = 0%nat
       ∧ e_class unbound_last_err = UnboundLocalError
       ∧ isinstance unbound_last_err OSError = false)
  ∧ (1 ≤ retries → always_fails (w_env w) url →
     ∃ e w' pre h,
       run (Startup2.download_with_retries url target retries) w = (Raise e, w')
       ∧ net_attempts (added w w') = Z.to_nat retries
       ∧ w_trace w' = pre ++ EvUrlopen url :: h
       ∧ net_attempts pre = 0%nat
       ∧ e_urlopen (w_env w) h url = NetFail e).
Proof.
  split.
  - intros H. eexists. rewrite download_with_retries_no_attempt by exact H.
    split; [reflexivity|]. split; [|split; reflexivity].
    match goal with |- net_attempts (added w (W _ _ _ (?ev :: _))) = _ =>
      rewrite (added_app [ev] w) by reflexivity
    end. reflexivity.
  - intros H Hfail. unfold Startup2.download_with_retries.
    destruct (download_loop_all_fail url target retries (range 1 (retries + 1)) None w Hfail)
      as (e & evs & Hrun & Hn & _ & _ & Hlast).
    destruct Hlast as (pre & h & Hsplit & Hpre & Hnet).
    { rewrite range_cons by lia. discriminate. }
    exists e, (W (w_env w) (w_cwd w) (w_fs w) (evs ++ w_trace w)), pre, h.
    split; [exact Hrun|]. erewrite added_app by reflexivity.
    rewrite Hn, range_length. split; [f_equal; lia|]. done.
Qed.

Lemma C9_witness :
  let w := start (calm (scripted_net [])) "/tmp" bare_root in
  (∃ w', run (Startup2.download_with_retries pkg_url "/tmp/pkg.deb" 0) w
         = (Raise unbound_last_err, w')
       ∧ net_attempts (added w w') = 0%nat
       ∧ e_class unbound_last_err = UnboundLocalError
       ∧ isinstance unbound_last_err OSError = false)
  ∧ (∃ e w' pre h,
       run (Startup2.download_with_retries pkg_url "/tmp/pkg.deb" 3) w = (Raise e, w')
       ∧ net_attempts (added w w') = Z.to_nat 3
       ∧ w_trace w' = pre ++ EvUrlopen pkg_url :: h
       ∧ net_attempts pre = 0%nat
       ∧ e_urlopen (w_env w) h pkg_url = NetFail e).
Proof.
  intros w. split.
  - apply (C9_last_err_needs_one_attempt pkg_url "/tmp/pkg.deb" 0 w). lia.
  - apply (C9_last_err_needs_one_attempt pkg_url "/tmp/pkg.deb" 3 w); [lia|].
    intros h. exists refused. split; [|reflexivity].
    cbn. unfold scripted_net. by destruct (net_attempts h).
Defined.

Lemma scripted_net_scripted script url :
  scripted (calm (scripted_net script)) 0 url script.
Proof.
  intros h k r Hh Hk. cbn. unfold scripted_net. rewrite Hh. cbn.
  apply nth_lookup_Some with (d := NetFail refused) in Hk. exact Hk.
Qed.

(** C5 as stated fails when the number of failures equals the budget: called
    with [retries = 3], as every caller does, three failures followed by an
    attempt that would succeed end in the third error after three attempts;
    the fourth attempt is never made. *)
Lemma C5_counterexample_budget_counts_attempts :
  let w := start (calm (scripted_net three_failures_then_ok)) "/tmp" bare_root in
  let N := 3 in
  let retries := 3 in
  N ≤ retries
  ∧ scripted (w_env w) 0 pkg_url
      (map NetFail [refused; timed_out; refused] ++ [NetOk 200 pkg_url pkg_body None])
  ∧ ∃ w', run (Startup2.download_with_retries pkg_url "/tmp/pkg.deb" retries) w
          = (Raise refused, w')
        ∧ net_attempts (w_trace w') = 3%nat
        ∧ sleeps (w_trace w') = [2; 3; 4].
Proof.
  cbn zeta. split; [lia|]. split; [apply scripted_net_scripted|].
  eexists. split; [vm_compute; reflexivity|]. split; reflexivity.
Qed.

(** C5 (amended).  [retries] is the number of attempts, the first included.
    For every N with N + 1 <= retries, fetch under N transient transport
    failures followed by an attempt that succeeds returns the target after
    exactly N + 1 network attempts; the k-th failed attempt is followed by
    a sleep of 1 + k seconds, so the delays 2, 3, ..., N + 1 between
    consecutive attempts are non-decreasing.  In every run, whatever the
    network does, the number of attempts is at most [retries] and the delays
    are non-decreasing. *)
Theorem C5_fetch_after_transient_failures (url target : string) (retries : Z) (w : world) :
  (∃ r w', run (Startup2.download_with_retries url target retries) w = (r, w')
         ∧ (net_attempts (added w w') ≤ Z.to_nat retries)%nat
         ∧ StronglySorted Z.le (sleeps (added w w')))
  ∧ ∀ (errs : list exn) status final_url body fs1 fs2,
      Z.of_nat (length errs) + 1 ≤ retries →
      Forall (fun e => isinstance e Exception = true) errs →
      scripted (w_env w) (net_attempts (w_trace w)) url
        (map NetFail errs ++ [NetOk status final_url body None]) →
      FS.mkdirs (loc w (dir_of target)) (Some (w_fs w)) = Some fs1 →
      FS.is_dir (FS.get (loc w target) fs1) = false →
      FS.put (loc w target) (FS.File body) (Some fs1) = Some fs2 →
      ∃ w', run (Startup2.download_with_retries url target retries) w = (Ret target, w')
          ∧ net_attempts (added w w') = S (length errs)
          ∧ sleeps (added w w') = map (fun k => 2 + Z.of_nat k) (seq 0 (length errs))
          ∧ StronglySorted Z.le (sleeps (added w w'))
          ∧ w_fs w' = fs2.
Proof.
  split.
  - unfold Startup2.download_with_retries.
    destruct (download_loop_shape url target retries (range 1 (retries + 1)) None w)
      as (r & fs' & evs & j & Hrun & Hle & Hj & Hsl & _).
    eexists _, _. split; [exact Hrun|].
    rewrite (added_app evs) by reflexivity.
    rewrite range_length in Hle. split; [lia|].
    rewrite Hsl. unfold range. rewrite firstn_map, take_seq, map_map.
    erewrite map_ext; [apply (sorted_delays 2)|]. intros; cbn; lia.
  - intros errs status final_url body fs1 fs2 Hn Hexc Hscript Hmk Hnd Hput.
    unfold Startup2.download_with_retries.
    rewrite (range_split 1 (length errs)) by lia.
    destruct (download_loop_scripted_failures url target retries errs 1
                (1 + Z.of_nat (length errs) :: range (1 + Z.of_nat (length errs) + 1) (retries + 1))
                None w [NetOk status final_url body None] Hexc Hscript)
      as (evs & last' & Hrun & Hcnt & Hsl).
    rewrite Hrun. set (w1 := W _ _ _ (evs ++ _)).
    destruct (download_loop_success url target retries (1 + Z.of_nat (length errs))
                (range (1 + Z.of_nat (length errs) + 1) (retries + 1)) last' w1) as [m1 Hok].
    destruct (Hok status final_url body fs1 fs2) as [m2 Hfin]; try assumption.
    { subst w1. cbn [w_env w_trace].
      apply (Hscript _ (length errs)).
      - rewrite net_attempts_cons, net_attempts_app, Hcnt. cbn. lia.
      - rewrite lookup_app_r by (rewrite length_map; lia).
        rewrite length_map, Nat.sub_diag. reflexivity. }
    rewrite Hfin. eexists. split; [reflexivity|].
    subst w1. cbn [w_env w_cwd w_fs w_trace].
    rewrite (added_app (EvLog INFO m2 :: EvUrlopen url :: EvLog INFO m1 :: evs) w)
      by reflexivity.
    rewrite !net_attempts_cons, !sleeps_cons, Hcnt, Hsl, !app_nil_r. cbn [is_urlopen].
    assert (Heq : map (fun i => 1 + 1 + Z.of_nat i) (seq 0 (length errs))
                  = map (fun k => 2 + Z.of_nat k) (seq 0 (length errs)))
      by (apply map_ext; intros; lia).
    rewrite Heq. repeat split; try reflexivity. apply sorted_delays.
Qed.

Lemma C5_witness :
  let w := start (calm (scripted_net two_failures_then_ok)) "/tmp" bare_root in
  ∃ w', run (Startup2.download_with_retries pkg_url "/tmp/pkg.deb" 3) w
        = (Ret "/tmp/pkg.deb", w')
      ∧ net_attempts (added w w') = 3%nat
      ∧ sleeps (added w w') = [2; 3]
      ∧ StronglySorted Z.le (sleeps (added w w'))
      ∧ w_fs w' = dir [("tmp", dir [("pkg.deb", FS.File pkg_body)])].
Proof.
  intros w.
  destruct (C5_fetch_after_transient_failures pkg_url "/tmp/pkg.deb" 3 w) as [_ H].
  apply (H [refused; timed_out] 200 pkg_url pkg_body bare_root).
  - cbn. lia.
  - repeat constructor.
  - apply scripted_net_scripted.
  - vm_compute. reflexivity.
  - vm_compute. reflexivity.
  - vm_compute. reflexivity.
Defined.

(** ** The hash object against the one-shot digest *)

Lemma hash_blocks_add n1 n2 h l :
  SHA256.hash_blocks (n1 + n2) h l
  = SHA256.hash_blocks n2 (SHA256.hash_blocks n1 h l) (skipn (64 * n1) l).
Proof.
  revert h l. induction n1 as [|n1 IH]; intros h l.
  - reflexivity.
  - cbn [Nat.add SHA256.hash_blocks]. rewrite IH. f_equal.
    rewrite skipn_skipn. f_equal. lia.
Qed.

(** Only the first [n] blocks matter. *)
Lemma hash_blocks_app n h l1 l2 :
  (64 * n ≤ length l1)%nat →
  SHA256.hash_blocks n h (l1 ++ l2) = SHA256.hash_blocks n h l1.
Proof.
  revert h l1. induction n as [|n IH]; intros h l1 Hlen.
  - reflexivity.
  - cbn [SHA256.hash_blocks].
    rewrite firstn_app, skipn_app.
    replace (64 - length l1)%nat with 0%nat by lia.
    cbn [firstn skipn]. rewrite app_nil_r.
    apply IH. rewrite length_skipn. lia.
Qed.

Lemma div64_add q x : ((64 * q + x) / 64 = q + x / 64)%nat.
Proof. rewrite (Nat.mul_comm 64 q). by rewrite Nat.div_add_l. Qed.

Lemma fed_new : SHA256.fed SHA256.new [].
Proof. repeat split. Qed.

Section Fed.
Variables (h : SHA256.hasher) (m : list Byte.byte).
Hypothesis Hfed : SHA256.fed h m.

Let q := (length m / 64)%nat.

Local Lemma fed_blocks_le : (64 * q ≤ length m)%nat.
Proof. subst q. apply Nat.Div0.mul_div_le. Qed.

Local Lemma fed_split : length m = (64 * q + length (SHA256.h_buf h))%nat.
Proof.
  destruct Hfed as (_ & _ & ->). rewrite length_skipn.
  pose proof fed_blocks_le. subst q. lia.
Qed.

(** Feeding [d] to a hasher fed [m] gives a hasher fed [m ++ d]. *)
Lemma fed_update d : SHA256.fed (SHA256.update h d) (m ++ d).
Proof.
  pose proof fed_blocks_le as Hle. pose proof fed_split as Hsplit.
  destruct Hfed as (Hlen & Hst & Hbuf).
  assert (Hfull : skipn (64 * q) (m ++ d) = SHA256.h_buf h ++ d).
  { rewrite skipn_app, Hbuf. fold q.
    replace (64 * q - length m)%nat with 0%nat by lia. reflexivity. }
  assert (Hq : (length (m ++ d) / 64 = q + length (SHA256.h_buf h ++ d) / 64)%nat).
  { rewrite !length_app, Hsplit, <- Nat.add_assoc. apply div64_add. }
  unfold SHA256.fed, SHA256.update. cbn [SHA256.h_len SHA256.h_state SHA256.h_buf].
  split; [rewrite length_app; lia|]. rewrite Hq. split.
  - rewrite hash_blocks_add, (hash_blocks_app q _ m d Hle).
    rewrite Hfull, Hst. reflexivity.
  - rewrite Nat.mul_add_distr_l, Nat.add_comm, <- skipn_skipn, Hfull. reflexivity.
Qed.

(** The digest of a hasher fed [m] is the one-shot digest of [m]. *)
Lemma fed_hexdigest : SHA256.hexdigest h = SHA256.sha256_hex m.
Proof.
  pose proof fed_blocks_le as Hle. pose proof fed_split as Hsplit.
  destruct Hfed as (Hlen & Hst & Hbuf).
  unfold SHA256.hexdigest, SHA256.sha256_hex, SHA256.sha256. cbn zeta. f_equal.
  rewrite Hlen.
  set (pad := SHA256.padding (length m)).
  assert (Hq : (length (m ++ pad) / 64 = q + length (SHA256.h_buf h ++ pad) / 64)%nat).
  { rewrite !length_app, Hsplit, <- Nat.add_assoc. apply div64_add. }
  rewrite Hq, hash_blocks_add, (hash_blocks_app q _ m pad Hle).
  rewrite skipn_app. replace (64 * q - length m)%nat with 0%nat by lia.
  cbn [skipn]. unfold q. rewrite <- Hbuf, <- Hst. reflexivity.
Qed.
End Fed.

(** The chunked loop feeds all that is left of the file, whatever the chunk
    size, as long as a read returns bytes while some are left. *)
Lemma update_chunks_fed (chunk_size : Z) :
  chunk_size ≠ 0 →
  ∀ fuel h m rest,
    (length rest < fuel)%nat →
    SHA256.fed h m →
    SHA256.fed (Startup2.update_chunks fuel chunk_size h rest) (m ++ rest).
Proof.
  intros Hcs. induction fuel as [|fuel IH]; intros h m rest Hfuel Hfed; [lia|].
  cbn [Startup2.update_chunks]. unfold Startup2.file_read.
  destruct (chunk_size <? 0) eqn:Hneg.
  - destruct rest as [|b rest]; [by rewrite app_nil_r|].
    rewrite <- (app_nil_r (m ++ b :: rest)).
    apply IH; [cbn in *; lia|]. by apply fed_update.
  - apply Z.ltb_ge in Hneg.
    set (n := Z.to_nat chunk_size). assert (0 < n)%nat by lia.
    destruct (firstn n rest) as [|b chunk] eqn:Hchunk.
    + destruct rest; [by rewrite app_nil_r|]. destruct n; [lia|discriminate].
    + rewrite <- (firstn_skipn n rest) at 2. rewrite Hchunk, app_assoc.
      apply IH; [|by apply fed_update].
      rewrite length_skipn. destruct rest; [by destruct n|]. cbn in *. lia.
Qed.

(** The digest of a file read in chunks of a positive size. *)
Lemma run_sha256_of_file (path : string) (chunk_size : Z) (data : list Byte.byte) (w : world) :
  0 < chunk_size →
  FS.get (loc w path) (w_fs w) = Some (FS.File data) →
  run (Startup2.sha256_of_file path chunk_size) w = (Ret (SHA256.sha256_hex data), w).
Proof.
  intros Hcs Hfile.
  unfold run, Startup2.sha256_of_file, read_file, stat, bind, get_world, ret.
  rewrite Hfile. do 2 f_equal.
  apply (fed_hexdigest _ data).
  apply (update_chunks_fed chunk_size ltac:(lia) _ SHA256.new [] data); [lia|].
  apply fed_new.
Qed.

(** C10. For every file and every positive chunk size, [sha256_of_file], which
    reads the file chunk by chunk and updates the hash object with each chunk,
    returns the hex digest that SHA-256 gives for the whole content in one
    step (in startup.py and in startup2.py, whose texts are the same). *)
Theorem C10_sha256_of_file_is_whole_file_digest
    (path : string) (chunk_size : Z) (data : list Byte.byte) (w : world) :
  0 < chunk_size →
  FS.get (loc w path) (w_fs w) = Some (FS.File data) →
  run (Startup2.sha256_of_file path chunk_size) w = (Ret (SHA256.sha256_hex data), w)
  ∧ run (Startup.sha256_of_file path chunk_size) w = (Ret (SHA256.sha256_hex data), w).
Proof.
  intros Hcs Hfile. split; by apply run_sha256_of_file.
Qed.

Lemma C10_witness :
  let w := start (calm (scripted_net [])) "/tmp" root_with_download in
  run (Startup2.sha256_of_file "/tmp/pkg.deb" 7) w = (Ret (SHA256.sha256_hex long_body), w)
  ∧ run (Startup.sha256_of_file "pkg.deb" 7) w = (Ret (SHA256.sha256_hex long_body), w).
Proof.
  intros w. split.
  - apply (C10_sha256_of_file_is_whole_file_digest "/tmp/pkg.deb" 7 long_body w);
      [lia | vm_compute; reflexivity].
  - apply (C10_sha256_of_file_is_whole_file_digest "pkg.deb" 7 long_body w);
      [lia | vm_compute; reflexivity].
Defined.

(** The digest [hashlib] gives for that file, read seven bytes at a time. *)
Example sha256_of_file_runs :
  (run (Startup2.sha256_of_file "/tmp/pkg.deb" 7)
       (start (calm (scripted_net [])) "/tmp" root_with_download)).1
  = Ret "067dd8f79a6371692566288f9020798ba9b65eca03d28c098cb2bb2bca18e5c3".
Proof. vm_compute. reflexivity. Qed.

(** ** The filesystem *)

Lemma get_put_same p v t n' :
  FS.put p v t = Some n' → FS.get p n' = Some v.
Proof.
  revert t n'. induction p as [|c p IH]; intros t n' H; cbn in *.
  - by simplify_eq.
  - destruct t as [[|ch]|]; try discriminate.
    destruct (FS.put p v (ch !! c)) as [child|] eqn:Hput; simplify_eq.
    rewrite lookup_insert_eq. by eapply IH.
Qed.

Lemma apart_cons c p d q :
  FS.apart (c :: p) (d :: q) = true → c ≠ d ∨ (c = d ∧ FS.apart p q = true).
Proof.
  unfold FS.apart. cbn. destruct (decide (c = d)) as [->|Hne]; [|by left].
  rewrite !bool_decide_true by done. cbn. by right.
Qed.


(** Writing at [p] leaves what is apart from [p] as it was. *)
Lemma get_put_apart p v t t' q :
  FS.put p v t = Some t' → FS.apart p q = true → FS.get q t' = t ≫= FS.get q.
Proof.
  revert t t' q. induction p as [|c p IH]; intros t t' q Hput Hap.
  - discriminate.
  - destruct q as [|d q]; [by destruct p|].
    cbn in Hput. destruct t as [[|ch]|]; try discriminate.
    destruct (FS.put p v (ch !! c)) as [child|] eqn:Hchild; simplify_eq.
    cbn. destruct (apart_cons _ _ _ _ Hap) as [Hne|[<- Hap']].
    + by rewrite lookup_insert_ne.
    + rewrite lookup_insert_eq. rewrite (IH _ _ _ Hchild Hap').
      by destruct (ch !! c).
Qed.

(** Making directories down to [p] leaves everything as it was, except the
    ancestors of [p] (and [p] itself) that were missing. *)
Lemma get_mkdirs_other p t t' q :
  FS.mkdirs p t = Some t' → FS.is_prefix q p = false → FS.get q t' = t ≫= FS.get q.
Proof.
  revert t t' q. induction p as [|c p IH]; intros t t' q Hmk Hq.
  - destruct q as [|d q]; [discriminate|].
    cbn in Hmk. destruct t as [[|ch]|]; simplify_eq; cbn; [done|].
    by rewrite lookup_empty.
  - destruct q as [|d q]; [discriminate|].
    cbn in Hq.
    assert (Hsome : ∃ child, FS.mkdirs p (FS.children_of t !! c) = Some child
                             ∧ t' = FS.Dir (<[c := child]> (FS.children_of t))).
    { cbn in Hmk. destruct t as [[|ch]|]; try discriminate;
        destruct (FS.mkdirs p _) as [child|]; simplify_eq; eauto. }
    destruct Hsome as (child & Hchild & ->).
    assert (Hget : t ≫= FS.get (d :: q) = (FS.children_of t !! d) ≫= FS.get q).
    { destruct t as [[|ch]|]; cbn; [cbn in Hmk; discriminate| |by rewrite lookup_empty].
      by destruct (ch !! d). }
    rewrite Hget. cbn [FS.get].
    destruct (decide (d = c)) as [->|Hne].
    + rewrite bool_decide_true in Hq by done. cbn in Hq.
      rewrite lookup_insert_eq. by apply IH.
    + rewrite lookup_insert_ne by done. by destruct (FS.children_of t !! d).
Qed.

(** The directory made is there; it is empty when it was missing. *)
Lemma get_mkdirs_same p t t' :
  FS.mkdirs p t = Some t' →
  FS.get p t' = Some (FS.Dir (FS.children_of (t ≫= FS.get p))).
Proof.
  revert t t'. induction p as [|c p IH]; intros t t' Hmk.
  - cbn in Hmk. destruct t as [[|ch]|]; by simplify_eq.
  - assert (Hsome : ∃ child, FS.mkdirs p (FS.children_of t !! c) = Some child
                             ∧ t' = FS.Dir (<[c := child]> (FS.children_of t))).
    { cbn in Hmk. destruct t as [[|ch]|]; try discriminate;
        destruct (FS.mkdirs p _) as [child|]; simplify_eq; eauto. }
    destruct Hsome as (child & Hchild & ->). cbn.
    rewrite lookup_insert_eq, (IH _ _ Hchild).
    destruct t as [[|ch]|]; cbn; [cbn in Hmk; discriminate| |by rewrite lookup_empty].
    by destruct (ch !! c).
Qed.

(** Removing a subtree makes nothing appear. *)
Lemma get_del_none p t q :
  t ≫= FS.get q = None → (t ≫= FS.del p) ≫= FS.get q = None.
Proof.
  revert t q. induction p as [|c p IH]; intros t q Hq.
  - by destruct t.
  - destruct t as [[|ch]|]; [done| |done].
    destruct q as [|d q]; [done|]. cbn in *.
    destruct (decide (d = c)) as [->|Hne].
    + rewrite lookup_partial_alter_eq. apply IH. by destruct (ch !! c).
    + by rewrite lookup_partial_alter_ne.
Qed.


(** ** Copying a tree *)



(** ** C1: a digest mismatch stops ProtonVPN before any command *)

(** startup2.py: once the download has returned, a file whose digest differs
    from the expected one ends [install_protonvpn] at the check. *)
Lemma install_protonvpn_mismatch (downloads_dir : string) (w w1 : world)
    (body : list Byte.byte) :
  let target := protonvpn_target downloads_dir in
  run (Startup2.download_with_retries Startup2.PROTONVPN_DEB_URL target 3)
      (after (EvLog INFO "Installing ProtonVPN (repo package + app)") w)
  = (Ret target, w1) →
  FS.get (loc w1 target) (w_fs w1) = Some (FS.File body) →
  SHA256.sha256_hex body ≠ Startup2.PROTONVPN_SHA256 →
  run (Startup2.install_protonvpn downloads_dir) w
  = (Raise (mk_exn RuntimeError "ProtonVPN checksum mismatch"),
     after (EvLog ERROR "ProtonVPN .deb SHA256 mismatch. Aborting.")
       (after (EvLog INFO ("Computed SHA256: " +:+ SHA256.sha256_hex body))
          (after (EvLog INFO "Verifying ProtonVPN .deb SHA256...") w1))).
Proof.
  intros target Hdl Hfile Hne.
  unfold Startup2.install_protonvpn. fold (protonvpn_target downloads_dir). fold target.
  rewrite run_bind. change (run (log INFO ?m) w) with (Ret tt, after (EvLog INFO m) w).
  cbv iota. rewrite run_bind, Hdl. cbv iota.
  rewrite run_bind. change (run (log INFO ?m) w1) with (Ret tt, after (EvLog INFO m) w1).
  cbv iota. rewrite run_bind.
  rewrite (run_sha256_of_file target 8192 body) by (lia || exact Hfile). cbv iota.
  rewrite run_bind.
  change (run (log INFO ?m) ?w0) with (Ret tt, after (EvLog INFO m) w0).
  cbv iota. rewrite bool_decide_true by exact Hne. reflexivity.
Qed.

(** startup2.py: the file arrives at the first attempt. *)
Lemma install_protonvpn_mismatch_first_attempt (downloads_dir : string) (w : world)
    (body : list Byte.byte) status final_url fs1 fs2 :
  let target := protonvpn_target downloads_dir in
  SHA256.sha256_hex body ≠ Startup2.PROTONVPN_SHA256 →
  scripted (w_env w) (net_attempts (w_trace w)) Startup2.PROTONVPN_DEB_URL
    [NetOk status final_url body None] →
  FS.mkdirs (loc w (dir_of target)) (Some (w_fs w)) = Some fs1 →
  FS.is_dir (FS.get (loc w target) fs1) = false →
  FS.put (loc w target) (FS.File body) (Some fs1) = Some fs2 →
  ∃ w', run (Startup2.install_protonvpn downloads_dir) w
        = (Raise (mk_exn RuntimeError "ProtonVPN checksum mismatch"), w')
      ∧ commands (added w w') = []
      ∧ net_attempts (added w w') = 1%nat
      ∧ w_fs w' = fs2.
Proof.
  intros target Hne Hscript Hmk Hnd Hput.
  set (w0 := after (EvLog INFO "Installing ProtonVPN (repo package + app)") w).
  destruct (download_loop_success Startup2.PROTONVPN_DEB_URL target 3 1 (range 2 4) None w0)
    as [m1 Hok].
  destruct (Hok status final_url body fs1 fs2) as [m2 Hdl]; try assumption.
  { eapply scripted_head; [exact Hscript|]. subst w0. cbn [after w_trace].
    by rewrite !net_attempts_cons. }
  eexists. split.
  - eapply install_protonvpn_mismatch; [exact Hdl| |exact Hne].
    cbn [w_fs w_cwd loc]. eapply get_put_same. exact Hput.
  - subst w0. unfold after. cbn [w_env w_cwd w_fs w_trace].
    match goal with |- context [added w (W _ _ _ ?tr)] =>
      match tr with
      | ?a :: ?b :: ?c :: ?d :: ?e :: ?f :: ?g :: _ =>
          rewrite (added_app [a; b; c; d; e; f; g] w) by reflexivity
      end
    end.
    repeat split.
Qed.

(** startup.py: [urlretrieve] makes its single attempt, and a file whose
    digest differs from the expected one ends [install_protonvpn] at the check. *)
Lemma startup_install_protonvpn_mismatch (downloads_dir : string) (w : world)
    (body : list Byte.byte) status final_url fs2 :
  let target := protonvpn_target downloads_dir in
  SHA256.sha256_hex body ≠ Startup.PROTONVPN_SHA256 →
  scripted (w_env w) (net_attempts (w_trace w)) Startup.PROTONVPN_DEB_URL
    [NetOk status final_url body None] →
  FS.is_dir (FS.get (loc w target) (w_fs w)) = false →
  FS.put (loc w target) (FS.File body) (Some (w_fs w)) = Some fs2 →
  ∃ w', run (Startup.install_protonvpn downloads_dir) w
        = (Raise (mk_exn RuntimeError "ProtonVPN .deb checksum does not match expected value"), w')
      ∧ commands (added w w') = []
      ∧ net_attempts (added w w') = 1%nat
      ∧ w_fs w' = fs2.
Proof.
  intros target Hne Hscript Hnd Hput.
  subst target. unfold Startup.install_protonvpn, Startup.urlretrieve.
  unfold protonvpn_target, Startup.PROTONVPN_DEB_URL, Startup.PROTONVPN_SHA256, loc in *.
  mstep.
  erewrite (scripted_head _ _ _ _ _ _ Hscript); [|by rewrite !net_attempts_cons].
  mstep. unfold loc. mstep. rewrite Hnd, Hput. mstep.
  match goal with |- context [Startup.sha256_of_file ?p ?c ?w0] =>
    change (Startup.sha256_of_file p c w0) with (run (Startup2.sha256_of_file p c) w0);
    rewrite (run_sha256_of_file p c body w0)
      by (lia || (unfold loc; cbn [w_fs w_cwd]; eapply get_put_same; exact Hput))
  end.
  mstep. rewrite bool_decide_true by exact Hne. mstep.
  eexists. split; [reflexivity|].
  match goal with |- context [added w (W _ _ _ ?tr)] =>
    match tr with
    | ?a :: ?b :: ?c :: ?d :: ?e :: ?f :: _ =>
        rewrite (added_app [a; b; c; d; e; f] w) by reflexivity
    end
  end.
  repeat split.
Qed.

(** C1 as stated fails in startup2.py when a transport failure precedes the
    file: the first attempt is refused, the second delivers a file with the
    wrong digest.  The integrity error is raised and no command is run, but
    two network attempts were made for that fetch, not exactly one. *)
Lemma C1_counterexample_two_attempts_before_mismatch :
  let w := start (calm (scripted_net refusal_then_wrong_package)) "/tmp" bare_root in
  SHA256.sha256_hex pkg_body ≠ Startup2.PROTONVPN_SHA256
  ∧ ∃ w', run (Startup2.install_protonvpn "/tmp") w
          = (Raise (mk_exn RuntimeError "ProtonVPN checksum mismatch"), w')
        ∧ FS.get ["tmp"; "protonvpn-stable-release_1.0.8_all.deb"] (w_fs w') = Some (FS.File pkg_body)
        ∧ commands (w_trace w') = []
        ∧ net_attempts (w_trace w') = 2%nat.
Proof.
  cbn zeta. split; [by vm_compute|].
  eexists. split; [vm_compute; reflexivity|]. repeat split.
Qed.

(** C1 (amended).  When the SHA-256 of the downloaded ProtonVPN package
    differs from the expected digest, [install_protonvpn] raises the integrity
    error (a RuntimeError) before any command is given to the package manager,
    and the mismatch causes no further download: no network attempt follows
    the check.  In startup2.py the attempts made are those of the download
    itself, exactly one when the first attempt delivers the file; in
    startup.py, whose [urlretrieve] makes a single attempt, exactly one. *)
Theorem C1_digest_mismatch_is_fatal_and_not_retried
    (downloads_dir : string) (w : world) (body : list Byte.byte) :
  let target := protonvpn_target downloads_dir in
  SHA256.sha256_hex body ≠ Startup2.PROTONVPN_SHA256 →
  (∀ w1,
     run (Startup2.download_with_retries Startup2.PROTONVPN_DEB_URL target 3)
         (after (EvLog INFO "Installing ProtonVPN (repo package + app)") w)
     = (Ret target, w1) →
     FS.get (loc w1 target) (w_fs w1) = Some (FS.File body) →
     ∃ w', run (Startup2.install_protonvpn downloads_dir) w
           = (Raise (mk_exn RuntimeError "ProtonVPN checksum mismatch"), w')
         ∧ commands (added w w') = []
         ∧ net_attempts (added w w') = net_attempts (added w w1)
         ∧ (net_attempts (added w w') ≤ 3)%nat
         ∧ w_fs w' = w_fs w1)
  ∧ (∀ status final_url fs1 fs2,
       scripted (w_env w) (net_attempts (w_trace w)) Startup2.PROTONVPN_DEB_URL
         [NetOk status final_url body None] →
       FS.mkdirs (loc w (dir_of target)) (Some (w_fs w)) = Some fs1 →
       FS.is_dir (FS.get (loc w target) fs1) = false →
       FS.put (loc w target) (FS.File body) (Some fs1) = Some fs2 →
       ∃ w', run (Startup2.install_protonvpn downloads_dir) w
             = (Raise (mk_exn RuntimeError "ProtonVPN checksum mismatch"), w')
           ∧ commands (added w w') = []
           ∧ net_attempts (added w w') = 1%nat
           ∧ w_fs w' = fs2)
  ∧ (∀ status final_url fs2,
       scripted (w_env w) (net_attempts (w_trace w)) Startup.PROTONVPN_DEB_URL
         [NetOk status final_url body None] →
       FS.is_dir (FS.get (loc w target) (w_fs w)) = false →
       FS.put (loc w target) (FS.File body) (Some (w_fs w)) = Some fs2 →
       ∃ w', run (Startup.install_protonvpn downloads_dir) w
             = (Raise (mk_exn RuntimeError
                         "ProtonVPN .deb checksum does not match expected value"), w')
           ∧ commands (added w w') = []
           ∧ net_attempts (added w w') = 1%nat
           ∧ w_fs w' = fs2).
Proof.
  intros target Hne. split; [|split].
  - intros w1 Hdl Hfile.
    eexists. split; [by eapply install_protonvpn_mismatch|].
    unfold Startup2.download_with_retries in Hdl.
    destruct (download_loop_shape Startup2.PROTONVPN_DEB_URL target 3 (range 1 (3 + 1)) None
                (after (EvLog INFO "Installing ProtonVPN (repo package + app)") w))
      as (r & fs' & evs & j & Hrun & Hle & _ & _ & Hcmd).
    rewrite Hrun in Hdl. injection Hdl as -> <-.
    unfold after. cbn [w_env w_cwd w_fs w_trace].
    match goal with |- context [added w (W _ _ _ (?a :: ?b :: ?c :: evs ++ ?d :: _))] =>
      rewrite (added_app ([a; b; c] ++ evs ++ [d]) w)
        by (cbn [w_trace]; rewrite <- !app_assoc; reflexivity);
      rewrite (added_app (evs ++ [d]) w)
        by (cbn [w_trace]; rewrite <- !app_assoc; reflexivity)
    end.
    rewrite !commands_app, !net_attempts_app, Hcmd. cbn.
    change (length (range 1 (3 + 1))) with 3%nat in Hle.
    repeat split; lia.
  - intros. by eapply install_protonvpn_mismatch_first_attempt.
  - intros. by eapply startup_install_protonvpn_mismatch.
Qed.

Lemma C1_witness :
  let w := start (calm (scripted_net wrong_package)) "/tmp" bare_root in
  let fs2 := dir [("tmp", dir [("protonvpn-stable-release_1.0.8_all.deb", FS.File pkg_body)])] in
  (∃ w', run (Startup2.install_protonvpn "/tmp") w
         = (Raise (mk_exn RuntimeError "ProtonVPN checksum mismatch"), w')
       ∧ commands (added w w') = []
       ∧ net_attempts (added w w') = 1%nat
       ∧ w_fs w' = fs2)
  ∧ (∃ w', run (Startup.install_protonvpn "/tmp") w
           = (Raise (mk_exn RuntimeError
                       "ProtonVPN .deb checksum does not match expected value"), w')
         ∧ commands (added w w') = []
         ∧ net_attempts (added w w') = 1%nat
         ∧ w_fs w' = fs2).
Proof.
  intros w fs2.
  destruct (C1_digest_mismatch_is_fatal_and_not_retried "/tmp" w pkg_body) as (_ & H2 & H3).
  { by vm_compute. }
  split.
  - apply (H2 200 Startup2.PROTONVPN_DEB_URL bare_root fs2).
    + apply scripted_net_scripted.
    + vm_compute. reflexivity.
    + vm_compute. reflexivity.
    + vm_compute. reflexivity.
  - apply (H3 200 Startup2.PROTONVPN_DEB_URL fs2).
    + apply scripted_net_scripted.
    + vm_compute. reflexivity.
    + vm_compute. reflexivity.
Defined.

(** ** The session: one [try] block around every step *)

Import Session.

Lemma sequence_app (pre post : list (M unit)) w :
  run (sequence (pre ++ post)) w =
  match run (sequence pre) w with
  | (Ret _, w') => run (sequence post) w'
  | (Raise e, w') => (Raise e, w')
  end.
Proof.
  revert w. induction pre as [|step pre IH]; intros w; [reflexivity|].
  cbn [app sequence]. rewrite !run_bind.
  destruct (run step w) as [[[]|e] w1]; [apply IH|reflexivity].
Qed.

Lemma main2_phases re w : run (Startup2.main re) w = run (main2_by_phases re) w.
Proof.
  unfold Startup2.main, main2_by_phases, prepare2, packages2, finish2, sequence.
  unfold run, bind, try_except.
  destruct (log _ _ w) as [[[]|?] w0]; [|reflexivity].
  destruct (Startup2.require_root w0) as [[[]|?] w1]; [|reflexivity].
  destruct (Startup2.clone_repo _ _ w1) as [[[]|?] w2]; [|reflexivity].
  unfold get_world.
  destruct (Startup2.setup_downloads _ w2) as [[d|?] w3]; [|reflexivity].
  destruct (Startup2.backup_and_copy_grub _ w3) as [[[]|?] w4]; [|reflexivity].
  destruct (Startup2.backup_and_copy_wallpapers _ w4) as [[[]|?] w5]; [|reflexivity].
  destruct (Startup2.apply_gnome_tweaks w5) as [[[]|?] w6]; [|reflexivity].
  destruct (Startup2.configure_dash_to_dock w6) as [[[]|?] w7]; [|reflexivity].
  unfold ret.
  destruct (Startup2.install_telegram _ _ w7) as [[[]|?] w8]; [|reflexivity].
  destruct (Startup2.install_protonvpn _ w8) as [[[]|?] w9]; [|reflexivity].
  destruct (Startup2.install_rustscan _ w9) as [[[]|?] w10]; [|reflexivity].
  destruct (Startup2.install_vscode _ w10) as [[[]|?] w11]; [|reflexivity].
  destruct (Startup2.install_brave _ w11) as [[[]|?] w12]; [|reflexivity].
  reflexivity.
Qed.

Lemma main1_phases re w : run (Startup.main re) w = run (main1_by_phases re) w.
Proof.
  unfold Startup.main, main1_by_phases, prepare1, packages1, finish1, sequence.
  unfold run, bind, try_except.
  destruct (log _ _ w) as [[[]|?] w0]; [|reflexivity].
  destruct (Startup.require_root w0) as [[[]|?] w1]; [|reflexivity].
  destruct (Startup.clone_repo _ _ w1) as [[[]|?] w2]; [|reflexivity].
  unfold get_world.
  destruct (Startup.setup_downloads _ w2) as [[d|?] w3]; [|reflexivity].
  destruct (Startup.backup_and_copy_grub _ w3) as [[[]|?] w4]; [|reflexivity].
  destruct (Startup.backup_and_copy_wallpapers _ w4) as [[[]|?] w5]; [|reflexivity].
  destruct (Startup.apply_gnome_tweaks w5) as [[[]|?] w6]; [|reflexivity].
  destruct (Startup.configure_dash_to_dock w6) as [[[]|?] w7]; [|reflexivity].
  unfold ret.
  destruct (Startup.install_telegram _ _ w7) as [[[]|?] w8]; [|reflexivity].
  destruct (Startup.install_protonvpn _ w8) as [[[]|?] w9]; [|reflexivity].
  destruct (Startup.install_rustscan _ w9) as [[[]|?] w10]; [|reflexivity].
  destruct (Startup.install_vscode _ w10) as [[[]|?] w11]; [|reflexivity].
  destruct (Startup.install_brave _ w11) as [[[]|?] w12]; [|reflexivity].
  reflexivity.
Qed.

(** A run is known once its result is: the world is the one it leaves. *)
Lemma run_result {A} (m : M A) (w : world) (r : result A) :
  (run m w).1 = r → run m w = (r, (run m w).2).
Proof. intros <-. by destruct (run m w). Qed.

Lemma run_try_except {A} (body : M A) handler w :
  run (try_except body handler) w =
  match run body w with
  | (Ret a, w') => (Ret a, w')
  | (Raise e, w') =>
      match handler e with
      | Some h => run h w'
      | None => (Raise e, w')
      end
  end.
Proof. reflexivity. Qed.

(** An exception that leaves a package step reaches the handler of [main]:
    two error records, exit status 1, and nothing else happens. *)
Lemma main2_aborts re w w0 d w1 pre step post w2 e w3 :
  run (log INFO "=== Installer started ===" ;; Startup2.require_root) w = (Ret tt, w0) →
  run prepare2 w0 = (Ret d, w1) →
  packages2 re d = pre ++ step :: post →
  run (sequence pre) w1 = (Ret tt, w2) →
  run step w2 = (Raise e, w3) →
  isinstance e Exception = true →
  run (Startup2.main re) w = (Raise exit_1, aborted2 e w3).
Proof.
  intros Hstart Hprep Hsplit Hpre Hstep Hexc.
  rewrite main2_phases. unfold main2_by_phases.
  rewrite run_bind in Hstart |- *.
  destruct (run (log INFO "=== Installer started ===") w) as [[[]|?] wa]; [|discriminate].
  rewrite run_bind. rewrite Hstart.
  rewrite run_try_except, run_bind, Hprep, run_bind, Hsplit, sequence_app, Hpre.
  cbn [sequence]. rewrite run_bind, Hstep.
  unfold except. rewrite Hexc. reflexivity.
Qed.

Lemma main1_aborts re w w0 d w1 pre step post w2 e w3 :
  run (log INFO "=== Installer started ===" ;; Startup.require_root) w = (Ret tt, w0) →
  run prepare1 w0 = (Ret d, w1) →
  packages1 re d = pre ++ step :: post →
  run (sequence pre) w1 = (Ret tt, w2) →
  run step w2 = (Raise e, w3) →
  isinstance e Exception = true →
  run (Startup.main re) w = (Raise exit_1, aborted1 e w3).
Proof.
  intros Hstart Hprep Hsplit Hpre Hstep Hexc.
  rewrite main1_phases. unfold main1_by_phases.
  rewrite run_bind in Hstart |- *.
  destruct (run (log INFO "=== Installer started ===") w) as [[[]|?] wa]; [|discriminate].
  rewrite run_bind. rewrite Hstart.
  rewrite run_try_except, run_bind, Hprep, run_bind, Hsplit, sequence_app, Hpre.
  cbn [sequence]. rewrite run_bind, Hstep.
  unfold except. rewrite Hexc. reflexivity.
Qed.

(** When every package step returns, [main] goes on with the cleanup. *)
Lemma main2_reaches_finish re w w0 d w1 w2 :
  run (log INFO "=== Installer started ===" ;; Startup2.require_root) w = (Ret tt, w0) →
  run prepare2 w0 = (Ret d, w1) →
  run (sequence (packages2 re d)) w1 = (Ret tt, w2) →
  run (Startup2.main re) w
  = run (try_except (finish2 d) (except Exception Startup2.fatal)) w2.
Proof.
  intros Hstart Hprep Hpkgs.
  rewrite main2_phases. unfold main2_by_phases.
  rewrite run_bind in Hstart |- *.
  destruct (run (log INFO "=== Installer started ===") w) as [[[]|?] wa]; [|discriminate].
  rewrite run_bind. rewrite Hstart.
  rewrite !run_try_except, run_bind, Hprep, run_bind, Hpkgs. reflexivity.
Qed.

(** [run_cmd] on a command that exits with a non-zero status: the failure is
    logged and CalledProcessError is raised. *)
Lemma run_cmd2_fails cmd environ w rc out err fs' :
  e_run (w_env w) (EvLog INFO ("Running: " +:+ show_command cmd) :: w_trace w)
        cmd environ (w_fs w) = CmdExit rc out err fs' →
  rc ≠ 0 →
  run (Startup2.run_cmd cmd false environ) w
  = (Raise (called_process_error cmd rc out err),
     W (w_env w) (w_cwd w) fs'
       (EvLog ERROR ("Command failed: " +:+ show_command cmd +:+ " (exit " +:+ str_of_Z rc +:+ ")")
        :: EvRun cmd environ
        :: EvLog INFO ("Running: " +:+ show_command cmd) :: w_trace w)).
Proof.
  intros Hrun Hrc.
  unfold Startup2.run_cmd, subprocess_check, subprocess_run, try_except, except. mstep.
  rewrite Hrun. mstep. rewrite bool_decide_false by exact Hrc. mstep.
  reflexivity.
Qed.

(** startup2.py: when [dpkg -i] exits with a non-zero status, [install_rustscan]
    raises CalledProcessError. *)
Lemma install_rustscan_dpkg_fails downloads_dir w w1 rc out err fs' :
  let target := rustscan_target downloads_dir in
  run (Startup2.download_with_retries Startup2.RUSTSCAN_DEB_URL target 3)
      (after (EvLog INFO "Installing RustScan (.deb)") w) = (Ret target, w1) →
  e_run (w_env w1) (EvLog INFO ("Running: " +:+ show_command (dpkg_install target)) :: w_trace w1)
        (dpkg_install target) [] (w_fs w1) = CmdExit rc out err fs' →
  rc ≠ 0 →
  ∃ w', run (Startup2.install_rustscan downloads_dir) w
        = (Raise (called_process_error (dpkg_install target) rc out err), w').
Proof.
  intros target Hdl Hrun Hrc.
  unfold Startup2.install_rustscan. fold (rustscan_target downloads_dir). fold target.
  rewrite run_bind. change (run (log INFO ?m) w) with (Ret tt, after (EvLog INFO m) w).
  cbv iota. rewrite run_bind, Hdl. cbv iota.
  rewrite run_bind. fold (dpkg_install target).
  rewrite (run_cmd2_fails _ _ _ _ _ _ _ Hrun Hrc). eauto.
Qed.

(** ** Computations only add to the trace *)

Lemma extends_ret {A} (a : A) : extends (ret a).
Proof. intros w. by exists []. Qed.

Lemma extends_raise {A} e : extends (@raise A e).
Proof. intros w. by exists []. Qed.

Lemma extends_get_world : extends get_world.
Proof. intros w. by exists []. Qed.

Lemma extends_emit ev : extends (World.emit ev).
Proof. intros w. by exists [ev]. Qed.

Lemma extends_set_fs fs : extends (set_fs fs).
Proof. intros w. by exists []. Qed.

Lemma extends_bind {A B} (m : M A) (k : A → M B) :
  extends m → (∀ a, extends (k a)) → extends (bind m k).
Proof.
  intros Hm Hk w. unfold bind.
  destruct (Hm w) as (evs & Ht & He & Hc).
  destruct (m w) as [[a|e] w1]; cbn in *.
  - destruct (Hk a w1) as (evs' & Ht' & He' & Hc').
    exists (evs' ++ evs). rewrite Ht', Ht, He', He, Hc', Hc. by rewrite app_assoc.
  - by exists evs.
Qed.

Lemma extends_try_except {A} (body : M A) handler :
  extends body → (∀ e h, handler e = Some h → extends h) → extends (try_except body handler).
Proof.
  intros Hm Hh w. unfold try_except.
  destruct (Hm w) as (evs & Ht & He & Hc).
  destruct (body w) as [[a|e] w1]; cbn in *.
  - by exists evs.
  - destruct (handler e) as [h|] eqn:Hhe; [|by exists evs].
    destruct (Hh e h Hhe w1) as (evs' & Ht' & He' & Hc').
    exists (evs' ++ evs). rewrite Ht', Ht, He', He, Hc', Hc. by rewrite app_assoc.
Qed.

Lemma extends_except cls {A} (h : exn → M A) e h' :
  (∀ e, extends (h e)) → except cls h e = Some h' → extends h'.
Proof. unfold except. intros Hh. destruct (isinstance e cls); [|done]. intros [= <-]. apply Hh. Qed.

Lemma extends_for_each {A} (xs : list A) body :
  (∀ x, extends (body x)) → extends (for_each xs body).
Proof.
  intros Hb. induction xs as [|x xs IH]; cbn [for_each].
  - apply extends_ret.
  - apply extends_bind; [apply Hb|]. intros _. exact IH.
Qed.

(** Decompose a program along its binds, handlers, loops and branches. *)
Ltac extends_step :=
  cbv beta;
  lazymatch goal with
  | |- extends (bind _ _) => apply extends_bind; [|intros ?]
  | |- extends (ret _) => apply extends_ret
  | |- extends (raise _) => apply extends_raise
  | |- extends (sys_exit _) => apply extends_raise
  | |- extends get_world => apply extends_get_world
  | |- extends (World.emit _) => apply extends_emit
  | |- extends (log _ _) => apply extends_emit
  | |- extends (print _) => apply extends_emit
  | |- extends (sleep _) => apply extends_emit
  | |- extends (set_fs _) => apply extends_set_fs
  | |- extends (try_except _ (except _ _)) =>
      apply extends_try_except; [|intros ? ? ?; eapply extends_except; [intros ?|eassumption]]
  | |- extends (for_each _ _) => apply extends_for_each; intros ?
  | |- extends (if ?b then _ else _) => destruct b
  | |- extends (match ?x with _ => _ end) => destruct x
  | |- extends (let '(_, _) := ?x in _) => destruct x
  end.

Ltac extends_auto := repeat extends_step.

Lemma extends_stat p : extends (stat p).
Proof. unfold stat. extends_auto. Qed.

Lemma extends_path_exists p : extends (path_exists p).
Proof. unfold path_exists. extends_auto. apply extends_stat. Qed.

Lemma extends_isdir p : extends (isdir p).
Proof. unfold isdir. extends_auto. apply extends_stat. Qed.

Lemma extends_isfile p : extends (isfile p).
Proof. unfold isfile. extends_auto. apply extends_stat. Qed.

Lemma extends_unlink_tree p : extends (unlink_tree p).
Proof. unfold unlink_tree. extends_auto. Qed.

Lemma extends_os_remove p : extends (os_remove p).
Proof. unfold os_remove. extends_auto; apply extends_stat || apply extends_unlink_tree. Qed.

Lemma extends_rmtree p : extends (Shutil.rmtree p).
Proof. unfold Shutil.rmtree. extends_auto; apply extends_stat || apply extends_unlink_tree. Qed.

Lemma extends_listdir p : extends (listdir p).
Proof. unfold listdir. extends_auto; apply extends_stat. Qed.

Lemma extends_input prompt : extends (input prompt).
Proof. unfold input. extends_auto. Qed.

Lemma extends_subprocess_run cmd environ : extends (subprocess_run cmd environ).
Proof. unfold subprocess_run. extends_auto. Qed.

Lemma extends_subprocess_check cmd environ : extends (subprocess_check cmd environ).
Proof. unfold subprocess_check. extends_auto. apply extends_subprocess_run. Qed.

Lemma extends_run_cmd2 cmd capture environ : extends (Startup2.run_cmd cmd capture environ).
Proof. unfold Startup2.run_cmd. extends_auto; apply extends_subprocess_check. Qed.

Lemma extends_cleanup_downloads2 d : extends (Startup2.cleanup_downloads d).
Proof.
  unfold Startup2.cleanup_downloads.
  extends_auto;
    first [apply extends_listdir | apply extends_isfile | apply extends_isdir
          | apply extends_os_remove | apply extends_rmtree].
Qed.

Lemma extends_fatal2 e : extends (Startup2.fatal e).
Proof. unfold Startup2.fatal. extends_auto. Qed.

Lemma emits_first_log lvl msg : emits_first (EvLog lvl msg) (log lvl msg).
Proof. intros w. by exists []. Qed.

Lemma emits_first_bind {A B} ev (m : M A) (k : A → M B) :
  emits_first ev m → (∀ a, extends (k a)) → emits_first ev (bind m k).
Proof.
  intros Hm Hk w. unfold bind.
  destruct (Hm w) as (evs & Ht).
  destruct (m w) as [[a|e] w1]; cbn in *.
  - destruct (Hk a w1) as (evs' & Ht' & _).
    exists (evs' ++ evs). by rewrite Ht', Ht, app_assoc.
  - by exists evs.
Qed.

Lemma emits_first_try_except {A} ev (body : M A) handler :
  emits_first ev body → (∀ e h, handler e = Some h → extends h) →
  emits_first ev (try_except body handler).
Proof.
  intros Hm Hh w. unfold try_except.
  destruct (Hm w) as (evs & Ht).
  destruct (body w) as [[a|e] w1]; cbn in *.
  - by exists evs.
  - destruct (handler e) as [h|] eqn:Hhe; [|by exists evs].
    destruct (Hh e h Hhe w1) as (evs' & Ht' & _).
    exists (evs' ++ evs). by rewrite Ht', Ht, app_assoc.
Qed.

(** The cleanup announces itself first, whatever it finds. *)
Lemma cleanup_downloads2_emits d :
  emits_first (EvLog INFO "Cleaning up downloads folder") (Startup2.cleanup_downloads d).
Proof.
  unfold Startup2.cleanup_downloads.
  apply emits_first_bind; [apply emits_first_log|]. intros _.
  extends_auto;
    first [apply extends_listdir | apply extends_isfile | apply extends_isdir
          | apply extends_os_remove | apply extends_rmtree].
Qed.

(** The last phase of [main] of startup2.py, under the handler of [main]. *)
Lemma finish2_emits d :
  emits_first (EvLog INFO "Cleaning up downloads folder")
    (try_except (Session.finish2 d) (except Exception Startup2.fatal)).
Proof.
  apply emits_first_try_except.
  - unfold Session.finish2. apply emits_first_bind; [apply cleanup_downloads2_emits|].
    intros _. extends_auto; first [apply extends_input | apply extends_run_cmd2].
  - intros e h He. eapply extends_except; [|exact He]. apply extends_fatal2.
Qed.

(** ** A failing package and the rest of the session *)

Lemma isinstance_called_process_error cmd rc out err :
  isinstance (called_process_error cmd rc out err) Exception = true.
Proof. reflexivity. Qed.

(** C3, as the specification states it, fails: in a session of startup2.py in
    which the command that installs the first package (tar, unpacking
    Telegram) exits with status 2, the session ends there with exit status 1.
    tar is the last command run, and no later package is attempted: no
    network attempt is made for ProtonVPN, RustScan, VS Code or Brave. *)
Lemma C3_counterexample_failed_install_ends_session :
  let r := run (Startup2.main unused_regex) (start tar_fails "/root" machine) in
  r.1 = Raise exit_1
  ∧ last (commands (w_trace r.2))
    = Some (Argv ["tar"; "-xf"; "/root/startup/downloads/tsetup.6.1.3.tar.xz";
                  "-C"; "/opt/Telegram"; "--strip-components=1"])
  ∧ attempted Startup2.PROTONVPN_DEB_URL (w_trace r.2) = false
  ∧ attempted Startup2.RUSTSCAN_DEB_URL (w_trace r.2) = false
  ∧ attempted Startup2.VSCODE_DEB_URL (w_trace r.2) = false
  ∧ attempted Startup2.BRAVE_INSTALLER_URL (w_trace r.2) = false.
Proof. vm_compute. repeat split; reflexivity. Qed.

(** C3, amended: [main] of startup.py and of startup2.py runs the packages in
    one [try] block.  When the packages before [step] have returned and [step]
    raises an exception [e] (an [Exception], as the CalledProcessError of an
    install command that exits non-zero is), the failure is recorded in two
    error records and the session ends with exit status 1 in the world [step]
    left: the packages after [step] are not attempted.  For RustScan in
    startup2.py: when [dpkg -i] exits non-zero, [install_rustscan] raises that
    CalledProcessError. *)
Theorem C3_failed_package_ends_the_session re w e :
  isinstance e Exception = true →
  (∀ w0 d w1 pre step post w2 w3,
     run (log INFO "=== Installer started ===" ;; Startup2.require_root) w = (Ret tt, w0) →
     run prepare2 w0 = (Ret d, w1) →
     packages2 re d = pre ++ step :: post →
     run (sequence pre) w1 = (Ret tt, w2) →
     run step w2 = (Raise e, w3) →
     run (Startup2.main re) w = (Raise exit_1, aborted2 e w3))
  ∧ (∀ w0 d w1 pre step post w2 w3,
     run (log INFO "=== Installer started ===" ;; Startup.require_root) w = (Ret tt, w0) →
     run prepare1 w0 = (Ret d, w1) →
     packages1 re d = pre ++ step :: post →
     run (sequence pre) w1 = (Ret tt, w2) →
     run step w2 = (Raise e, w3) →
     run (Startup.main re) w = (Raise exit_1, aborted1 e w3))
  ∧ (∀ d wa w1 rc out err fs',
     let target := rustscan_target d in
     run (Startup2.download_with_retries Startup2.RUSTSCAN_DEB_URL target 3)
         (after (EvLog INFO "Installing RustScan (.deb)") wa) = (Ret target, w1) →
     e_run (w_env w1)
           (EvLog INFO ("Running: " +:+ show_command (dpkg_install target)) :: w_trace w1)
           (dpkg_install target) [] (w_fs w1) = CmdExit rc out err fs' →
     rc ≠ 0 →
     ∃ w', run (Startup2.install_rustscan d) wa
           = (Raise (called_process_error (dpkg_install target) rc out err), w')
           ∧ isinstance (called_process_error (dpkg_install target) rc out err) Exception
             = true).
Proof.
  intros Hexc. split; [|split].
  - intros. eapply main2_aborts; eassumption.
  - intros. eapply main1_aborts; eassumption.
  - intros d wa w1 rc out err fs' target Hdl Hrun Hrc.
    destruct (install_rustscan_dpkg_fails d wa w1 rc out err fs' Hdl Hrun Hrc) as [w' Hw'].
    exists w'. split; [exact Hw'|reflexivity].
Qed.

(** The theorem at the session in which tar fails, for both scripts, and at a
    machine on which [dpkg -i] fails. *)
Lemma C3_witness :
  let w := start tar_fails "/root" machine in
  let e := called_process_error
             (Argv ["tar"; "-xf"; "/root/startup/downloads/tsetup.6.1.3.tar.xz";
                    "-C"; "/opt/Telegram"; "--strip-components=1"])
             2 "" "tar: Unexpected EOF in archive" in
  let w2 := (run prepare2
                 (run (log INFO "=== Installer started ===" ;; Startup2.require_root) w).2).2 in
  let w1 := (run prepare1
                 (run (log INFO "=== Installer started ===" ;; Startup.require_root) w).2).2 in
  let wd := start dpkg_fails "/root" machine in
  isinstance e Exception = true
  ∧ run (Startup2.main unused_regex) w
    = (Raise exit_1,
       aborted2 e (run (Startup2.install_telegram unused_regex downloads) w2).2)
  ∧ run (Startup.main unused_regex) w
    = (Raise exit_1,
       aborted1 e (run (Startup.install_telegram unused_regex downloads) w1).2)
  ∧ (∃ w', run (Startup2.install_rustscan downloads) wd
           = (Raise (called_process_error (dpkg_install (rustscan_target downloads)) 1 ""
                       "dpkg: error processing archive"), w')).
Proof.
  intros w e w2 w1 wd.
  assert (He : isinstance e Exception = true) by reflexivity.
  destruct (C3_failed_package_ends_the_session unused_regex w e He) as (H2 & H1 & _).
  destruct (C3_failed_package_ends_the_session unused_regex wd e He) as (_ & _ & Hd).
  split; [exact He|]. split; [|split].
  - apply (H2 (run (log INFO "=== Installer started ===" ;; Startup2.require_root) w).2
              downloads w2 [] (Startup2.install_telegram unused_regex downloads)
              (tail (packages2 unused_regex downloads)) w2).
    + apply (run_result _ w (Ret tt)). vm_compute; reflexivity.
    + subst w2. apply (run_result prepare2 _ (Ret downloads)). vm_compute; reflexivity.
    + reflexivity.
    + reflexivity.
    + apply (run_result _ w2 (Raise e)). vm_compute; reflexivity.
  - apply (H1 (run (log INFO "=== Installer started ===" ;; Startup.require_root) w).2
              downloads w1 [] (Startup.install_telegram unused_regex downloads)
              (tail (packages1 unused_regex downloads)) w1).
    + apply (run_result _ w (Ret tt)). vm_compute; reflexivity.
    + subst w1. apply (run_result prepare1 _ (Ret downloads)). vm_compute; reflexivity.
    + reflexivity.
    + reflexivity.
    + apply (run_result _ w1 (Raise e)). vm_compute; reflexivity.
  - set (wr := (run (Startup2.download_with_retries Startup2.RUSTSCAN_DEB_URL
                       (rustscan_target downloads) 3)
                    (after (EvLog INFO "Installing RustScan (.deb)") wd)).2).
    assert (Henv : w_env wr = dpkg_fails) by (vm_compute; reflexivity).
    destruct (Hd downloads wd wr 1 "" "dpkg: error processing archive" (w_fs wr))
      as (w' & Hw' & _).
    + subst wr. apply (run_result _ _ (Ret (rustscan_target downloads))).
      vm_compute; reflexivity.
    + rewrite Henv. reflexivity.
    + discriminate.
    + exists w'. exact Hw'.
Defined.

(** ** The cleanup of the downloads folder *)

(** C7, as the specification states it, fails: in the session of startup2.py
    in which tar fails on the Telegram archive, the package phase is entered
    (the archive is downloaded), the session ends with exit status 1, the
    cleanup is never announced and the archive is still in the downloads
    folder. *)
Lemma C7_counterexample_no_cleanup_after_failed_package :
  let r := run (Startup2.main unused_regex) (start tar_fails "/root" machine) in
  attempted telegram_archive_url (w_trace r.2) = true
  ∧ r.1 = Raise exit_1
  ∧ logged "Cleaning up downloads folder" (w_trace r.2) = false
  ∧ FS.get telegram_download (w_fs r.2) = Some (FS.File telegram_archive).
Proof. vm_compute. repeat split; reflexivity. Qed.

(** What the cleanup does when it runs: on the world the failed session
    left, it empties the downloads folder. *)
Example cleanup_downloads_empties_the_folder :
  let w := (run (Startup2.main unused_regex) (start tar_fails "/root" machine)).2 in
  let r := run (Startup2.cleanup_downloads downloads) w in
  r.1 = Ret tt
  ∧ FS.get telegram_download (w_fs w) = Some (FS.File telegram_archive)
  ∧ FS.get ["root"; "startup"; "downloads"] (w_fs r.2) = Some (FS.Dir ∅).
Proof. vm_compute. repeat split; reflexivity. Qed.

(** C7, amended: in [main] the cleanup is the step after the five packages,
    inside the same [try] block.  Once the preparation has returned (the
    package phase is entered): when every package returns, the next thing the
    session does is the cleanup of the downloads folder, before it ends; when
    a package raises an [Exception], the session ends with exit status 1 in
    the world that package left, with two error records and no cleanup. *)
Theorem C7_cleanup_runs_when_every_package_returns re w w0 d w1 :
  run (log INFO "=== Installer started ===" ;; Startup2.require_root) w = (Ret tt, w0) →
  run prepare2 w0 = (Ret d, w1) →
  (∀ w2, run (sequence (packages2 re d)) w1 = (Ret tt, w2) →
     ∃ evs, w_trace (run (Startup2.main re) w).2
            = evs ++ EvLog INFO "Cleaning up downloads folder" :: w_trace w2)
  ∧ (∀ pre step post w2 e w3,
       packages2 re d = pre ++ step :: post →
       run (sequence pre) w1 = (Ret tt, w2) →
       run step w2 = (Raise e, w3) →
       isinstance e Exception = true →
       run (Startup2.main re) w = (Raise exit_1, aborted2 e w3)
       ∧ w_fs (run (Startup2.main re) w).2 = w_fs w3).
Proof.
  intros Hstart Hprep. split.
  - intros w2 Hpkgs.
    rewrite (main2_reaches_finish re w w0 d w1 w2 Hstart Hprep Hpkgs).
    apply finish2_emits.
  - intros pre step post w2 e w3 Hsplit Hpre Hstep Hexc.
    rewrite (main2_aborts re w w0 d w1 pre step post w2 e w3
               Hstart Hprep Hsplit Hpre Hstep Hexc).
    split; reflexivity.
Qed.

(** The theorem at the session in which tar fails: the preparation returns,
    Telegram raises, nothing is cleaned up. *)
Lemma C7_witness :
  let w := start tar_fails "/root" machine in
  let w0 := (run (log INFO "=== Installer started ===" ;; Startup2.require_root) w).2 in
  let w1 := (run prepare2 w0).2 in
  let step := Startup2.install_telegram unused_regex downloads in
  run prepare2 w0 = (Ret downloads, w1)
  ∧ (run step w1).1 = Raise (called_process_error
                              (Argv ["tar"; "-xf"; "/root/startup/downloads/tsetup.6.1.3.tar.xz";
                                     "-C"; "/opt/Telegram"; "--strip-components=1"])
                              2 "" "tar: Unexpected EOF in archive")
  ∧ w_fs (run (Startup2.main unused_regex) w).2 = w_fs (run step w1).2.
Proof.
  intros w w0 w1 step.
  assert (Hstart : run (log INFO "=== Installer started ===" ;; Startup2.require_root) w
                   = (Ret tt, w0)).
  { subst w0. apply (run_result _ w (Ret tt)). vm_compute; reflexivity. }
  assert (Hprep : run prepare2 w0 = (Ret downloads, w1)).
  { subst w1. apply (run_result prepare2 w0 (Ret downloads)). vm_compute; reflexivity. }
  assert (Hstep : (run step w1).1
                  = Raise (called_process_error
                             (Argv ["tar"; "-xf"; "/root/startup/downloads/tsetup.6.1.3.tar.xz";
                                    "-C"; "/opt/Telegram"; "--strip-components=1"])
                             2 "" "tar: Unexpected EOF in archive")).
  { vm_compute; reflexivity. }
  split; [exact Hprep|]. split; [exact Hstep|].
  destruct (C7_cleanup_runs_when_every_package_returns unused_regex w w0 downloads w1
              Hstart Hprep) as [_ Habort].
  refine (proj2 (Habort [] step (tail (packages2 unused_regex downloads)) w1
                   (called_process_error
                      (Argv ["tar"; "-xf"; "/root/startup/downloads/tsetup.6.1.3.tar.xz";
                             "-C"; "/opt/Telegram"; "--strip-components=1"])
                      2 "" "tar: Unexpected EOF in archive")
                   (run step w1).2 _ _ _ _)).
  - reflexivity.
  - reflexivity.
  - apply run_result. exact Hstep.
  - reflexivity.
Defined.

(** ** Launching what was installed *)

(** C8 at startup.py: [install_telegram] starts the binary outside any
    [try].  On a machine where the archive is downloaded and unpacked but the
    binary cannot be started (exec format error), [install_telegram] raises
    that OSError right after the launch, and the session ends with exit
    status 1; [install_telegram] of startup2.py, on the same machine, logs
    the failure and returns. *)
Theorem C8_startup_telegram_launch_failure_is_fatal :
  let w := start launch_fails "/root" machine in
  let w1 := (run prepare1
                 (run (log INFO "=== Installer started ===" ;; Startup.require_root) w).2).2 in
  let w2 := (run prepare2
                 (run (log INFO "=== Installer started ===" ;; Startup2.require_root) w).2).2 in
  let r1 := run (Startup.install_telegram unused_regex downloads) w1 in
  let r2 := run (Startup2.install_telegram unused_regex downloads) w2 in
  r1.1 = Raise exec_format_error
  ∧ head (w_trace r1.2) = Some (EvPopen ["/opt/Telegram/Telegram"])
  ∧ last (commands (w_trace r1.2))
    = Some (Argv ["tar"; "-xf"; "/root/startup/downloads/tsetup.6.1.3.tar.xz";
                  "-C"; "/opt/Telegram"; "--strip-components=1"])
  ∧ (run (Startup.main unused_regex) w).1 = Raise exit_1
  ∧ logged "Fatal error during installation: [Errno 8] Exec format error"
      (w_trace (run (Startup.main unused_regex) w).2) = true
  ∧ r2.1 = Ret tt
  ∧ logged "Could not launch Telegram binary; installation may still be ok."
      (w_trace r2.2) = true.
Proof. vm_compute. repeat split; reflexivity. Qed.

(** ** Copying a resource *)










(** startup2.py on the machine of the scenarios, on which it runs twice:
    after each run the installed [grub.cfg] and both theme directories are
    what the working copy holds. *)
Example backup_and_copy_grub_twice :
  let w := start (calm (scripted_net [])) "/root" machine in
  let r := run (Startup2.backup_and_copy_grub "/root/startup" ;;
                Startup2.backup_and_copy_grub "/root/startup") w in
  r.1 = Ret tt
  ∧ FS.get ["boot"; "grub"; "grub.cfg"] (w_fs r.2) = Some (text "set timeout=5")
  ∧ FS.get ["boot"; "grub"; "themes"; "kali"] (w_fs r.2)
    = FS.get ["root"; "startup"; "kali"] (w_fs r.2)
  ∧ FS.get ["usr"; "share"; "grub"; "themes"; "kali"] (w_fs r.2)
    = FS.get ["root"; "startup"; "kali"] (w_fs r.2)
  ∧ FS.get ["root"; "startup"; "kali"] (w_fs r.2)
    = Some (dir [("theme.txt", text "title-text: kali")]).
Proof. vm_compute. repeat split; reflexivity. Qed.

(** ** Path strings *)

(** [String c a +:+ b] is [String c (a +:+ b)]. *)
Ltac app_cons :=
  repeat match goal with
         | |- context [String ?x ?a +:+ ?b] =>
             change (String x a +:+ b) with (String x (a +:+ b))
         | H : context [String ?x ?a +:+ ?b] |- _ =>
             change (String x a +:+ b) with (String x (a +:+ b)) in H
         | |- context ["" +:+ ?b] => change ("" +:+ b) with b
         | H : context ["" +:+ ?b] |- _ => change ("" +:+ b) with b in H
         end.

Lemma string_app_assoc (a b c : string) : (a +:+ b) +:+ c = a +:+ (b +:+ c).
Proof. induction a as [|x a IH]; [done|]. app_cons. cbn. by rewrite IH. Qed.

Lemma string_app_length (a b : string) :
  String.length (a +:+ b) = (String.length a + String.length b)%nat.
Proof. induction a as [|x a IH]; [done|]. app_cons. cbn. by rewrite IH. Qed.

Lemma has_slash_app (a b : string) : has_slash (a +:+ b) = has_slash a || has_slash b.
Proof. induction a as [|x a IH]; [done|]. app_cons. cbn. by rewrite IH, orb_assoc. Qed.

Lemma rev_app_length (s acc : string) :
  String.length (String.rev_app s acc) = (String.length s + String.length acc)%nat.
Proof.
  revert acc. induction s as [|x s IH]; intros acc; [done|].
  cbn. rewrite IH. cbn. lia.
Qed.

Lemma rev_app_rev_app (s cur acc : string) :
  String.rev_app (String.rev_app s cur) acc = String.rev_app cur (s +:+ acc).
Proof.
  revert cur acc. induction s as [|x s IH]; intros cur acc; [done|].
  app_cons. cbn. by rewrite IH.
Qed.

Lemma rev_app_inj (cur a b : string) :
  String.rev_app cur a = String.rev_app cur b → a = b.
Proof.
  revert a b. induction cur as [|x cur IH]; intros a b H; [done|].
  cbn in H. apply IH in H. by simplify_eq.
Qed.

Lemma string_app_nil_r (s : string) : s +:+ "" = s.
Proof. induction s as [|x s IH]; [done|]. app_cons. by rewrite IH. Qed.

(** A name without a slash is read as one component, after what was being read. *)
Lemma components_go_name cur s :
  has_slash s = false →
  (2 ≤ String.length s + String.length cur)%nat →
  components_go cur s = [String.rev_app cur s].
Proof.
  revert cur. induction s as [|x s IH]; intros cur Hs Hlen.
  - cbn. unfold flush.
    destruct cur as [|a [|b cur]]; cbn in Hlen; try lia.
    rewrite !bool_decide_false by done. reflexivity.
  - cbn in Hs. apply orb_false_iff in Hs as [Hx Hs].
    cbn. rewrite Hx. rewrite IH; [done|done|]. cbn in *. lia.
Qed.

(** What a path string denotes, as far as its beginning decides it. *)
Lemma components_go_app cur s1 :
  ∃ pre cur', ∀ s2, components_go cur (s1 +:+ s2) = pre ++ components_go cur' s2.
Proof.
  revert cur. induction s1 as [|x s1 IH]; intros cur.
  - by exists [], cur.
  - destruct (is_slash x) eqn:Hx.
    + destruct (IH "") as (pre & cur' & H).
      exists (flush cur ++ pre), cur'. intros s2.
      app_cons. cbn. by rewrite Hx, H, app_assoc.
    + destruct (IH (String x cur)) as (pre & cur' & H).
      exists pre, cur'. intros s2. app_cons. cbn. by rewrite Hx, H.
Qed.

Lemma startswith_empty s : startswith s "" = true.
Proof. by destruct s. Qed.

(** The candidates of [make_unique_path]: [path_base], a dot, and a suffix
    without a slash, all denote entries of one directory, under names that
    differ when the suffixes do. *)
Lemma resolve_candidate cwd path_base :
  ∃ parent cur, ∀ sfx,
    has_slash sfx = false → sfx ≠ "" →
    resolve cwd (path_base +:+ "." +:+ sfx)
    = parent ++ [String.rev_app cur ("." +:+ sfx)].
Proof.
  destruct (components_go_app "" path_base) as (pre & cur & H).
  exists ((if startswith (path_base +:+ ".") "/" then [] else components cwd) ++ pre), cur.
  intros sfx Hs Hne. unfold resolve.
  assert (Hstart : startswith (path_base +:+ "." +:+ sfx) "/"
                   = startswith (path_base +:+ ".") "/").
  { destruct path_base; app_cons; [reflexivity|]. cbn. by rewrite !startswith_empty. }
  rewrite Hstart. unfold components. rewrite H.
  assert (Hname : components_go cur ("." +:+ sfx) = [String.rev_app cur ("." +:+ sfx)]).
  { apply components_go_name; [exact Hs|].
    app_cons. destruct sfx; [done|]. cbn. lia. }
  rewrite Hname. clear Hstart.
  destruct (startswith (path_base +:+ ".") "/"); [reflexivity|]. by rewrite app_assoc.
Qed.

(** *** [str(n)] *)

Lemma string_of_uint_no_slash d : has_slash (NilEmpty.string_of_uint d) = false.
Proof. induction d; cbn; by rewrite ?IHd. Qed.

Lemma str_of_Z_no_slash z : has_slash (str_of_Z z) = false.
Proof.
  unfold str_of_Z, NilZero.string_of_int, NilZero.string_of_uint.
  destruct (Z.to_int z) as [d|d]; destruct d; cbn; by rewrite ?string_of_uint_no_slash.
Qed.

Lemma str_of_Z_nonempty z : str_of_Z z ≠ "".
Proof.
  unfold str_of_Z, NilZero.string_of_int, NilZero.string_of_uint.
  destruct (Z.to_int z) as [d|d]; destruct d; done.
Qed.

Lemma to_int_not_nil z : Z.to_int z ≠ Decimal.Pos Decimal.Nil ∧ Z.to_int z ≠ Decimal.Neg Decimal.Nil.
Proof.
  destruct z as [|p|p]; cbn; split; try done;
    intros [= H]; by apply DecimalPos.Unsigned.to_uint_nonnil in H.
Qed.

Lemma str_of_Z_inj a b : str_of_Z a = str_of_Z b → a = b.
Proof.
  unfold str_of_Z. intros H. apply DecimalZ.to_int_inj.
  destruct (to_int_not_nil a) as [Ha1 Ha2], (to_int_not_nil b) as [Hb1 Hb2].
  pose proof (NilZero.isi _ Ha1 Ha2) as Ia. pose proof (NilZero.isi _ Hb1 Hb2) as Ib.
  rewrite H in Ia. rewrite Ia in Ib. by simplify_eq.
Qed.

(** ** make_unique_path *)

Lemma suffix_no_slash ts c : has_slash (suffix ts c) = false.
Proof.
  unfold suffix. destruct (bool_decide (c = 0)).
  - apply str_of_Z_no_slash.
  - by rewrite !has_slash_app, !str_of_Z_no_slash.
Qed.

Lemma suffix_nonempty ts c : suffix ts c ≠ "".
Proof.
  unfold suffix. pose proof (str_of_Z_nonempty ts) as H.
  destruct (bool_decide (c = 0)); [done|].
  destruct (str_of_Z ts); [done|]. by app_cons.
Qed.

Lemma suffix_inj ts i j : suffix ts i = suffix ts j → i = j.
Proof.
  unfold suffix. do 2 case_bool_decide; intros Heq; [congruence| | |].
  - apply (f_equal String.length) in Heq. rewrite !string_app_length in Heq. cbn in Heq. lia.
  - apply (f_equal String.length) in Heq. rewrite !string_app_length in Heq. cbn in Heq. lia.
  - apply String.app_inj in Heq. apply String.app_inj in Heq. by apply str_of_Z_inj.
Qed.

(** An entry of a directory is looked up among its children. *)
Lemma get_snoc p c t : FS.get (p ++ [c]) t = FS.children_of (FS.get p t) !! c.
Proof.
  revert t. induction p as [|d p IH]; intros t; cbn.
  - destruct t as [|ch]; [done|]. by destruct (ch !! c).
  - destruct t as [|ch]; [done|]. destruct (ch !! d); [apply IH|done].
Qed.

(** Distinct names that are all in a directory are no more than its entries. *)
Lemma names_bounded (D : gmap string FS.node) (seen : list string) :
  NoDup seen → (∀ x, x ∈ seen → is_Some (D !! x)) → (length seen ≤ size D)%nat.
Proof.
  intros Hnd Hin.
  rewrite <- (length_map_to_list D), <- (length_fmap fst).
  apply submseteq_length, NoDup_submseteq; [exact Hnd|].
  intros x Hx. destruct (Hin x Hx) as [n Hn].
  apply list_elem_of_fmap. exists (x, n). split; [done|]. by apply elem_of_map_to_list.
Qed.

Lemma run_unique_loop fuel path_base timestamp counter candidate w :
  run (Startup2.unique_loop fuel path_base timestamp counter candidate) w
  = if bool_decide (is_Some (FS.get (loc w candidate) (w_fs w)))
    then match fuel with
         | O => (Raise (mk_exn RuntimeError "make_unique_path: loop cut short"), w)
         | S fuel' =>
             run (Startup2.unique_loop fuel' path_base timestamp (counter + 1)
                    (path_base +:+ "." +:+ str_of_Z timestamp +:+ "."
                     +:+ str_of_Z (counter + 1))) w
         end
    else (Ret candidate, w).
Proof.
  destruct fuel; cbn [Startup2.unique_loop]; unfold run, bind, path_exists, stat, bind,
    get_world, ret; cbn; by destruct (bool_decide _).
Qed.

Section UniqueLoop.

Variables (w : world) (path_base : string) (timestamp : Z).
Variables (parent : FS.path) (cur : string).

Hypothesis candidates :
  ∀ sfx, has_slash sfx = false → sfx ≠ "" →
         loc w (path_base +:+ "." +:+ sfx) = parent ++ [String.rev_app cur ("." +:+ sfx)].

Let entries : gmap string FS.node := FS.children_of (FS.get parent (w_fs w)).
Let name (c : Z) : string := String.rev_app cur ("." +:+ suffix timestamp c).
Let candidate (c : Z) : string := path_base +:+ "." +:+ suffix timestamp c.

Local Lemma candidate_taken c :
  is_Some (FS.get (loc w (candidate c)) (w_fs w)) ↔ is_Some (entries !! name c).
Proof.
  unfold candidate.
  rewrite (candidates _ (suffix_no_slash timestamp c) (suffix_nonempty timestamp c)).
  by rewrite get_snoc.
Qed.

Local Lemma name_inj i j : name i = name j → i = j.
Proof.
  unfold name. intros H. apply rev_app_inj in H. apply String.app_inj in H.
  by apply suffix_inj in H.
Qed.

(** The loop ends before its fuel does: the names it has found taken are
    distinct entries of one directory. *)
Lemma unique_loop_returns fuel c (seen : list string) :
  0 ≤ c →
  NoDup seen →
  (∀ x, x ∈ seen → is_Some (entries !! x)) →
  (∀ x, x ∈ seen → ∃ j, j < c ∧ x = name j) →
  (size entries < fuel + length seen)%nat →
  ∃ k, c ≤ k
       ∧ run (Startup2.unique_loop fuel path_base timestamp c (candidate c)) w
         = (Ret (candidate k), w)
       ∧ FS.get (loc w (candidate k)) (w_fs w) = None.
Proof.
  revert c seen. induction fuel as [|fuel IH]; intros c seen Hc Hnd Hin Hold Hsize.
  - pose proof (names_bounded entries seen Hnd Hin). cbn in Hsize. lia.
  - rewrite run_unique_loop. case_bool_decide as Htaken.
    + assert (Hnew : name c ∉ seen).
      { intros Hx. destruct (Hold _ Hx) as (j & Hj & Heq). apply name_inj in Heq. lia. }
      destruct (IH (c + 1) (name c :: seen)) as (k & Hk & Hrun & Hfree).
      * lia.
      * by constructor.
      * intros x [->|Hx]%elem_of_cons; [by apply candidate_taken|by apply Hin].
      * intros x [->|Hx]%elem_of_cons; [exists c; split; [lia|done]|].
        destruct (Hold _ Hx) as (j & Hj & Heq). exists j. split; [lia|done].
      * cbn. lia.
      * exists k. split; [lia|]. split; [|exact Hfree].
        rewrite <- Hrun. unfold candidate, suffix.
        rewrite (bool_decide_false (c + 1 = 0)) by lia. reflexivity.
    + exists c. split; [lia|]. split; [reflexivity|].
      destruct (FS.get (loc w (candidate c)) (w_fs w)) eqn:Hget; [|done].
      exfalso. apply Htaken. by eexists.
Qed.

End UniqueLoop.

Lemma run_make_unique_path_eq path_base w :
  run (Startup2.make_unique_path path_base) w
  = if bool_decide (is_Some (FS.get (loc w path_base) (w_fs w)))
    then
      let timestamp := e_time (w_env w) (w_trace w) in
      let w1 := after EvTime w in
      let candidate := path_base +:+ "." +:+ str_of_Z timestamp in
      run (Startup2.unique_loop (Startup2.loop_fuel w1 candidate) path_base timestamp 0
             candidate) w1
    else (Ret path_base, w).
Proof.
  unfold Startup2.make_unique_path, run, bind, path_exists, stat, bind, get_world, ret,
    time_now, bind, get_world, World.emit, ret.
  by destruct (bool_decide _).
Qed.

(** [make_unique_path] always returns; it changes nothing but the trace (it
    may read the clock), and nothing exists at the path it returns, which is
    [path_base] or [path_base], a dot and a suffix without a slash. *)
Lemma run_make_unique_path path_base w :
  ∃ p evs,
    run (Startup2.make_unique_path path_base) w
    = (Ret p, W (w_env w) (w_cwd w) (w_fs w) (evs ++ w_trace w))
    ∧ FS.get (loc w p) (w_fs w) = None
    ∧ (evs = [] ∨ evs = [EvTime])
    ∧ (p = path_base
       ∨ ∃ sfx, has_slash sfx = false ∧ sfx ≠ "" ∧ p = path_base +:+ "." +:+ sfx).
Proof.
  rewrite run_make_unique_path_eq.
  destruct (FS.get (loc w path_base) (w_fs w)) as [n|] eqn:Hbase.
  - rewrite bool_decide_true by (by eexists). cbv zeta.
    set (ts := e_time (w_env w) (w_trace w)).
    set (w1 := after EvTime w).
    destruct (resolve_candidate (w_cwd w) path_base) as (parent & cur & Hcand).
    assert (Hfuel : Startup2.loop_fuel w1 (path_base +:+ "." +:+ str_of_Z ts)
                    = S (size (FS.children_of (FS.get parent (w_fs w1))))).
    { unfold Startup2.loop_fuel, loc. cbn [w_cwd w1 after].
      rewrite (Hcand _ (str_of_Z_no_slash ts) (str_of_Z_nonempty ts)).
      by rewrite removelast_last. }
    rewrite Hfuel.
    destruct (unique_loop_returns w1 path_base ts parent cur Hcand
                (S (size (FS.children_of (FS.get parent (w_fs w1))))) 0 [])
      as (k & Hk & Hrun & Hfree).
    + lia.
    + constructor.
    + intros x Hx. by apply elem_of_nil in Hx.
    + intros x Hx. by apply elem_of_nil in Hx.
    + cbn. lia.
    + unfold suffix in Hrun at 1. rewrite bool_decide_true in Hrun by done.
      rewrite Hrun.
      exists (path_base +:+ "." +:+ suffix ts k), [EvTime].
      split; [reflexivity|]. split; [exact Hfree|]. split; [by right|]. right.
      exists (suffix ts k). by auto using suffix_no_slash, suffix_nonempty.
  - rewrite bool_decide_false by (by intros [? ?]).
    exists path_base, []. split; [by destruct w|]. split; [exact Hbase|]. by auto.
Qed.

(** ** Moving to a backup *)

(** [shutil.move] to a path at which nothing exists: when it returns, it has
    not replaced anything, the path holds what the source held, and the move
    is recorded as one onto a free path. *)
Lemma run_move_fresh src dst w r w' :
  FS.get (loc w dst) (w_fs w) = None →
  run (Shutil.move src dst) w = (Ret r, w') →
  r = dst
  ∧ w_trace w' = EvMove src dst false :: w_trace w
  ∧ w_cwd w' = w_cwd w
  ∧ is_Some (FS.get (loc w src) (w_fs w))
  ∧ FS.get (loc w dst) (w_fs w') = FS.get (loc w src) (w_fs w).
Proof.
  intros Hdst. unfold Shutil.move. mstep. rewrite Hdst. cbn. rewrite !Hdst.
  rewrite bool_decide_false by (by intros [? ?]). cbn.
  destruct (FS.get (loc w src) (w_fs w)) as [n|]; [|discriminate].
  destruct (FS.is_dir (Some n) && FS.is_prefix (loc w src) (loc w dst)); [discriminate|].
  rewrite andb_false_r.
  match goal with
  | |- context [?fs0 ≫= FS.relocate ?a ?b ?c] =>
      destruct (fs0 ≫= FS.relocate a b c) as [fs'|] eqn:Hrel; [|discriminate]
  end.
  intros [= <- <-]. cbn. repeat split; [by eexists|].
  match type of Hrel with
  | ?fs0 ≫= _ = _ => destruct fs0 as [root|]; [|discriminate]
  end.
  cbn in Hrel. unfold FS.relocate in Hrel.
  destruct (FS.del (loc w src) root) as [root'|]; [|discriminate].
  by eapply get_put_same.
Qed.

(** ** Backups *)

(** C2, as the specification states it, fails for python.py: [backup_file]
    moves to the name it is given.  When the GRUB step runs a second time,
    [/boot/grub/grub.cfg.b] exists before the call, the second backup gets the
    path of the first, and the first backup (the original file) is replaced. *)
Lemma C2_counterexample_fixed_backup_name_is_reused :
  let w := start (calm (scripted_net [])) "/root/startup" machine in
  let step := (PythonPy.backup_file "/boot/grub/grub.cfg" "/boot/grub/grub.cfg.b" ;;
               PythonPy.copy_file "grub.cfg" "/boot/grub/")%prog in
  let r1 := run step w in
  let r2 := run step r1.2 in
  r1.1 = Ret tt
  ∧ FS.get ["boot"; "grub"; "grub.cfg.b"] (w_fs r1.2) = Some (text "old grub.cfg")
  ∧ r2.1 = Ret tt
  ∧ moves (w_trace r2.2)
    = [("/boot/grub/grub.cfg.b", false); ("/boot/grub/grub.cfg.b", true)]
  ∧ FS.get ["boot"; "grub"; "grub.cfg.b"] (w_fs r2.2) = Some (text "set timeout=5").
Proof. vm_compute. repeat split; reflexivity. Qed.

(** C2, amended, for the backups of startup.py and startup2.py, which are
    named by [make_unique_path] and made by [shutil.move].
    [make_unique_path] always returns (the search for a free name ends), it
    changes nothing but the trace, and nothing exists at the path it returns:
    the path differs from every path that exists, so from every earlier
    backup that is still in place.  A move to that path, when it returns, is
    recorded as a move onto a free path, and the path then holds what the
    source held. *)
Theorem C2_backup_path_is_fresh path_base w :
  ∃ p evs,
    run (Startup.make_unique_path path_base) w
    = (Ret p, W (w_env w) (w_cwd w) (w_fs w) (evs ++ w_trace w))
    ∧ FS.get (loc w p) (w_fs w) = None
    ∧ (∀ q, is_Some (FS.get (loc w q) (w_fs w)) → loc w p ≠ loc w q)
    ∧ (∀ src r w',
         run (Shutil.move src p) (W (w_env w) (w_cwd w) (w_fs w) (evs ++ w_trace w))
         = (Ret r, w') →
         r = p
         ∧ w_trace w' = EvMove src p false :: evs ++ w_trace w
         ∧ is_Some (FS.get (loc w src) (w_fs w))
         ∧ FS.get (loc w p) (w_fs w') = FS.get (loc w src) (w_fs w)).
Proof.
  destruct (run_make_unique_path path_base w) as (p & evs & Hrun & Hfree & _).
  exists p, evs. split; [exact Hrun|]. split; [exact Hfree|]. split.
  - intros q [n Hq] Heq. rewrite Heq, Hq in Hfree. discriminate.
  - intros src r w' Hmove.
    destruct (run_move_fresh src p (W (w_env w) (w_cwd w) (w_fs w) (evs ++ w_trace w))
                r w' Hfree Hmove) as (-> & Htr & _ & Hsrc & Hdst).
    by repeat split.
Qed.

(** The theorem on the machine of the scenarios after one run of the GRUB
    step: [grub.cfg.b] is taken, the name with the timestamp is returned, and
    the move to it replaces nothing. *)
Lemma C2_witness :
  let w := (run (Startup2.backup_and_copy_grub "/root/startup")
                (start (calm (scripted_net [])) "/root" machine)).2 in
  let r := run (dest ← Startup.make_unique_path "/boot/grub/grub.cfg.b";
                Shutil.move "/boot/grub/grub.cfg" dest) w in
  is_Some (FS.get ["boot"; "grub"; "grub.cfg.b"] (w_fs w))
  ∧ r.1 = Ret "/boot/grub/grub.cfg.b.1700000000"
  ∧ head (w_trace r.2)
    = Some (EvMove "/boot/grub/grub.cfg" "/boot/grub/grub.cfg.b.1700000000" false).
Proof.
  intros w r.
  destruct (C2_backup_path_is_fresh "/boot/grub/grub.cfg.b" w)
    as (p & evs & Hrun & Hfree & Hnew & Hmove).
  assert (Hp : (run (Startup.make_unique_path "/boot/grub/grub.cfg.b") w).1
               = Ret "/boot/grub/grub.cfg.b.1700000000") by (vm_compute; reflexivity).
  rewrite Hrun in Hp. cbn in Hp. injection Hp as ->.
  split; [vm_compute; by eexists|].
  assert (Hr : r.1 = Ret "/boot/grub/grub.cfg.b.1700000000") by (vm_compute; reflexivity).
  split; [exact Hr|].
  subst r. rewrite run_bind, Hrun in Hr |- *.
  destruct (run (Shutil.move _ _) _) as [[r'|e] w'] eqn:Hm; [|discriminate].
  destruct (Hmove _ _ _ Hm) as (_ & Htr & _). cbn. by rewrite Htr.
Defined.

(** Three runs of the resource steps of startup2.py on the machine of the
    scenarios, within the same second: every backup goes to a path that was
    free, and no two backups share a path (the third backup of [grub.cfg] is
    [grub.cfg.b.1700000000.1]). *)
Example backups_of_three_runs :
  let w := start (calm (scripted_net [])) "/root" machine in
  let steps := (Startup2.backup_and_copy_grub "/root/startup" ;;
                Startup2.backup_and_copy_wallpapers "/root/startup")%prog in
  let r := run (steps ;; steps ;; steps) w in
  r.1 = Ret tt
  ∧ length (moves (w_trace r.2)) = 19%nat
  ∧ (moves (w_trace r.2)).*2 = replicate 19 false
  ∧ NoDup (moves (w_trace r.2)).*1
  ∧ (moves (w_trace r.2)).*1 !! 10%nat = Some "/boot/grub/grub.cfg.b.1700000000.1".
Proof.
  cbv zeta. split; [vm_compute; reflexivity|]. split; [vm_compute; reflexivity|].
  split; [vm_compute; reflexivity|]. split; [|vm_compute; reflexivity].
  apply (bool_decide_unpack _). vm_compute. exact I.
Qed.

(** ** A source that is missing from the working copy *)

Lemma is_prefix_removelast q p :
  FS.is_prefix q (removelast p) = true → FS.is_prefix q p = true.
Proof.
  revert p. induction q as [|c q IH]; intros p H; [done|].
  destruct p as [|d p]; [done|]. destruct p as [|d' p]; [done|].
  cbn [removelast] in H. cbn in H |- *.
  apply andb_true_iff in H as [H1 H2]. rewrite H1. cbn.
  apply (IH (d' :: p)). exact H2.
Qed.

(** [shutil.move] to a free path makes nothing appear apart from that path. *)
Lemma run_move_absent src dst w r w' q :
  FS.get (loc w dst) (w_fs w) = None →
  run (Shutil.move src dst) w = (Ret r, w') →
  FS.get q (w_fs w) = None →
  FS.apart (loc w dst) q = true →
  FS.get q (w_fs w') = None ∧ w_cwd w' = w_cwd w.
Proof.
  intros Hdst Hrun Hq Hap. revert Hrun.
  unfold Shutil.move. mstep. rewrite Hdst. cbn. rewrite !Hdst.
  rewrite bool_decide_false by (by intros [? ?]). cbn.
  destruct (FS.get (loc w src) (w_fs w)) as [n|]; [|discriminate].
  destruct (FS.is_dir (Some n) && FS.is_prefix (loc w src) (loc w dst)); [discriminate|].
  rewrite andb_false_r.
  match goal with
  | |- context [?fs0 ≫= FS.relocate ?a ?b ?c] =>
      destruct (fs0 ≫= FS.relocate a b c) as [fs'|] eqn:Hrel; [|discriminate]
  end.
  intros [= <- <-]. cbn. split; [|done].
  match type of Hrel with
  | ?fs0 ≫= _ = _ => destruct fs0 as [root|] eqn:Hroot; [|discriminate]
  end.
  assert (Hq0 : FS.get q root = None).
  { destruct (FS.is_dir (Some n) && _).
    - rewrite (get_mkdirs_other _ _ _ q Hroot); [exact Hq|].
      destruct (FS.is_prefix q (removelast (loc w dst))) eqn:Hpre; [|done].
      apply is_prefix_removelast in Hpre. unfold FS.apart in Hap.
      rewrite Hpre in Hap. by rewrite andb_false_r in Hap.
    - by simplify_eq. }
  cbn in Hrel. unfold FS.relocate in Hrel.
  destruct (FS.del (loc w src) root) as [root'|] eqn:Hdel; [|discriminate].
  rewrite (get_put_apart _ _ _ _ q Hrel Hap). cbn.
  pose proof (get_del_none (loc w src) (Some root) q Hq0) as Hd.
  cbn in Hd. by rewrite Hdel in Hd.
Qed.

(** Where the backups of [/boot/grub/grub.cfg] go. *)
Lemma resolve_grub_backup cwd sfx :
  has_slash sfx = false →
  resolve cwd ("/boot/grub/grub.cfg.b" +:+ "." +:+ sfx)
  = ["boot"; "grub"; "grub.cfg.b." +:+ sfx].
Proof.
  intros Hs.
  assert (Hgo : components ("/boot/grub/grub.cfg.b" +:+ "." +:+ sfx)
                = ["boot"; "grub"] ++ components_go ".b.gfc.burg" sfx) by reflexivity.
  assert (Habs : startswith ("/boot/grub/grub.cfg.b" +:+ "." +:+ sfx) "/" = true)
    by reflexivity.
  unfold resolve. rewrite Habs, Hgo, components_go_name; [reflexivity|exact Hs|].
  cbn. lia.
Qed.

Lemma apart_not_under c p q :
  q ≠ [] → head q ≠ Some c → FS.apart (c :: p) q = true.
Proof.
  intros Hne Hhead. destruct q as [|d q]; [done|].
  unfold FS.apart. cbn. cbn in Hhead.
  rewrite (bool_decide_false (c = d)), (bool_decide_false (d = c)) by congruence.
  reflexivity.
Qed.

(** A [shutil.move] that raises has changed nothing. *)
Lemma run_move_raise src dst w e w' :
  run (Shutil.move src dst) w = (Raise e, w') → w' = w.
Proof.
  unfold Shutil.move. mstep.
  repeat match goal with
         | |- context [if ?b then _ else _] => destruct b; cbn
         | |- context [match ?x with _ => _ end] => destruct x; cbn
         end; by intros [= <- <-].
Qed.

(** The backups of [/boot/grub/grub.cfg] go to [/boot/grub]: nothing appears
    apart from it. *)
Lemma grub_backup_apart w p q :
  (p = "/boot/grub/grub.cfg.b"
   ∨ ∃ sfx, has_slash sfx = false ∧ sfx ≠ "" ∧ p = "/boot/grub/grub.cfg.b" +:+ "." +:+ sfx) →
  q ≠ [] → head q ≠ Some "boot" →
  FS.apart (loc w p) q = true.
Proof.
  intros [->|(sfx & Hs & _ & ->)] Hne Hhead.
  - by apply apart_not_under.
  - unfold loc. rewrite resolve_grub_backup by done. by apply apart_not_under.
Qed.

Lemma run_path_exists p w :
  run (path_exists p) w = (Ret (bool_decide (is_Some (FS.get (loc w p) (w_fs w)))), w).
Proof. reflexivity. Qed.

Lemma run_isdir p w : run (isdir p) w = (Ret (FS.is_dir (FS.get (loc w p) (w_fs w))), w).
Proof. reflexivity. Qed.

Lemma run_log lvl msg w : run (log lvl msg) w = (Ret tt, after (EvLog lvl msg) w).
Proof. reflexivity. Qed.

Lemma run_ret {A} (a : A) w : run (ret a) w = (Ret a, w).
Proof. reflexivity. Qed.

Lemma run_raise {A} e w : run (@raise A e) w = (Raise e, w).
Proof. reflexivity. Qed.

(** Step through a sequence, keeping the calls folded. *)
Ltac run_step :=
  rewrite ?run_bind, ?run_log, ?run_ret, ?run_raise, ?run_path_exists, ?run_isdir;
  cbv beta iota.

Lemma backup_and_copy_grub2_missing repo_path w :
  let src := path_join repo_path Startup2.GRUB_CFG_SRC in
  FS.get (loc w src) (w_fs w) = None →
  head (loc w src) ≠ Some "boot" →
  ∃ e w', run (Startup2.backup_and_copy_grub repo_path) w = (Raise e, w')
          ∧ FS.get (loc w src) (w_fs w') = None
          ∧ (e = mk_exn FileNotFoundError (src +:+ " not found in repo")
             ∨ ∃ dest w1, run (Shutil.move "/boot/grub/grub.cfg" dest) w1 = (Raise e, w')).
Proof.
  intros src Hq Hhead.
  assert (Hne : loc w src ≠ []).
  { intros Heq. rewrite Heq in Hq. discriminate. }
  unfold Startup2.backup_and_copy_grub. fold src.
  rewrite run_bind, run_log. cbv iota. set (w0 := after _ w).
  rewrite run_bind, run_path_exists. cbv iota beta.
  rewrite run_bind.
  destruct (bool_decide (is_Some (FS.get (loc w0 "/boot/grub/grub.cfg") (w_fs w0)))).
  - rewrite run_bind.
    destruct (run_make_unique_path ("/boot/grub/grub.cfg" +:+ ".b") w0)
      as (p & evs & Hrun & Hfree & _ & Hshape).
    rewrite Hrun. cbv iota beta. rewrite run_bind, run_log. cbv iota beta.
    set (w1 := after _ _). rewrite run_bind.
    destruct (run (Shutil.move "/boot/grub/grub.cfg" p) w1) as [[r|e] w2] eqn:Hmove.
    + destruct (run_move_absent "/boot/grub/grub.cfg" p w1 r w2 (loc w src)
                  Hfree Hmove Hq) as [Hq2 Hcwd].
      { by apply (grub_backup_apart w1). }
      rewrite run_ret. cbv iota beta. rewrite run_bind, run_path_exists. cbv iota beta.
      assert (Hloc : loc w2 src = loc w src) by (unfold loc; by rewrite Hcwd).
      rewrite Hloc, Hq2. rewrite bool_decide_false by (by intros [? ?]). cbn [negb].
      rewrite run_raise. eexists _, w2. split; [reflexivity|]. split; [exact Hq2|by left].
    + apply run_move_raise in Hmove as Heq. subst w2.
      exists e, w1. split; [reflexivity|]. split; [exact Hq|]. right. by exists p, w1.
  - rewrite run_ret. cbv iota beta. rewrite run_bind, run_path_exists. cbv iota beta.
    change (FS.get (loc w0 src) (w_fs w0)) with (FS.get (loc w src) (w_fs w)).
    rewrite Hq. rewrite bool_decide_false by (by intros [? ?]). cbn [negb].
    rewrite run_raise. eexists _, w0. split; [reflexivity|]. split; [exact Hq|by left].
Qed.

Lemma backup_and_copy_grub1_missing repo_path w :
  let src := path_join repo_path Startup.GRUB_CFG_SRC in
  FS.get (loc w src) (w_fs w) = None →
  head (loc w src) ≠ Some "boot" →
  ∃ e w', run (Startup.backup_and_copy_grub repo_path) w = (Raise e, w')
          ∧ FS.get (loc w src) (w_fs w') = None
          ∧ (e = mk_exn FileNotFoundError ("Expected grub.cfg in repo at " +:+ src)
             ∨ ∃ dest w1, run (Shutil.move "/boot/grub/grub.cfg" dest) w1 = (Raise e, w')).
Proof.
  intros src Hq Hhead.
  assert (Hne : loc w src ≠ []).
  { intros Heq. rewrite Heq in Hq. discriminate. }
  unfold Startup.backup_and_copy_grub, Startup.make_unique_path. fold src.
  rewrite run_bind, run_log. cbv iota. set (w0 := after _ w).
  rewrite run_bind, run_path_exists. cbv iota beta.
  rewrite run_bind.
  destruct (bool_decide (is_Some (FS.get (loc w0 "/boot/grub/grub.cfg") (w_fs w0)))).
  - rewrite run_bind.
    destruct (run_make_unique_path ("/boot/grub/grub.cfg" +:+ ".b") w0)
      as (p & evs & Hrun & Hfree & _ & Hshape).
    rewrite Hrun. cbv iota beta. rewrite run_bind, run_log. cbv iota beta.
    set (w1 := after _ _). rewrite run_bind.
    destruct (run (Shutil.move "/boot/grub/grub.cfg" p) w1) as [[r|e] w2] eqn:Hmove.
    + destruct (run_move_absent "/boot/grub/grub.cfg" p w1 r w2 (loc w src)
                  Hfree Hmove Hq) as [Hq2 Hcwd].
      { by apply (grub_backup_apart w1). }
      rewrite run_log. cbv iota beta. rewrite run_bind, run_path_exists. cbv iota beta.
      set (w3 := after _ w2).
      assert (Hloc : loc w3 src = loc w src) by (unfold loc; cbn; by rewrite Hcwd).
      change (w_fs w3) with (w_fs w2).
      rewrite Hloc, Hq2. rewrite bool_decide_false by (by intros [? ?]). cbn [negb].
      rewrite run_raise. eexists _, w3. split; [reflexivity|]. split; [exact Hq2|by left].
    + apply run_move_raise in Hmove as Heq. subst w2.
      exists e, w1. split; [reflexivity|]. split; [exact Hq|]. right. by exists p, w1.
  - rewrite run_ret. cbv iota beta. rewrite run_bind, run_path_exists. cbv iota beta.
    change (FS.get (loc w0 src) (w_fs w0)) with (FS.get (loc w src) (w_fs w)).
    rewrite Hq. rewrite bool_decide_false by (by intros [? ?]). cbn [negb].
    rewrite run_raise. eexists _, w0. split; [reflexivity|]. split; [exact Hq|by left].
Qed.

(** The wallpapers: the directory is looked for before anything else is done. *)
Lemma backup_and_copy_wallpapers2_missing repo_path w :
  let dir := path_join repo_path Startup2.WALLPAPER_DIR in
  FS.is_dir (FS.get (loc w dir) (w_fs w)) = false →
  run (Startup2.backup_and_copy_wallpapers repo_path) w
  = (Raise (mk_exn FileNotFoundError (dir +:+ " not found in repo")),
     after (EvLog INFO "Backing up and copying wallpapers") w).
Proof.
  intros dir Hdir. unfold Startup2.backup_and_copy_wallpapers. fold dir.
  rewrite run_bind, run_log. cbv iota beta. rewrite run_bind, run_isdir. cbv iota beta.
  change (FS.get (loc (after _ w) dir) (w_fs (after _ w)))
    with (FS.get (loc w dir) (w_fs w)).
  by rewrite Hdir.
Qed.

Lemma backup_and_copy_wallpapers1_missing repo_path w :
  let dir := path_join repo_path Startup.WALLPAPER_DIR in
  FS.is_dir (FS.get (loc w dir) (w_fs w)) = false →
  run (Startup.backup_and_copy_wallpapers repo_path) w
  = (Raise (mk_exn FileNotFoundError ("Expected wallpaper directory in repo at " +:+ dir)),
     after (EvLog INFO "Backing up and copying wallpapers") w).
Proof.
  intros dir Hdir. unfold Startup.backup_and_copy_wallpapers. fold dir.
  rewrite run_bind, run_log. cbv iota beta. rewrite run_bind, run_isdir. cbv iota beta.
  change (FS.get (loc (after _ w) dir) (w_fs (after _ w)))
    with (FS.get (loc w dir) (w_fs w)).
  by rewrite Hdir.
Qed.

(** ** What a computation keeps *)

Lemma keeps_ret I {A} (a : A) (Q : A → Prop) : Q a → keeps I (ret a) Q.
Proof. intros Ha w Hw. split; [done|]. by intros ? [= <-]. Qed.

Lemma keeps_raise I {A} e (Q : A → Prop) : keeps I (raise e) Q.
Proof. intros w Hw. split; [done|]. by intros ? [=]. Qed.

Lemma keeps_bind I {A B} (m : M A) (k : A → M B) (Q : A → Prop) (R : B → Prop) :
  keeps I m Q → (∀ a, Q a → keeps I (k a) R) → keeps I (bind m k) R.
Proof.
  intros Hm Hk w Hw. destruct (Hm w Hw) as [Hi Hq]. unfold bind.
  destruct (m w) as [[a|e] w1]; cbn in *; [|split; [done|by intros ? [=]]].
  by apply (Hk a (Hq a eq_refl) w1).
Qed.

Lemma keeps_weaken I {A} (m : M A) (Q Q' : A → Prop) :
  keeps I m Q → (∀ a, Q a → Q' a) → keeps I m Q'.
Proof. intros Hm Himp w Hw. destruct (Hm w Hw) as [Hi Hq]. split; [done|]. eauto. Qed.

Lemma keeps_try_except I {A} (body : M A) handler (Q : A → Prop) :
  keeps I body Q → (∀ e h, handler e = Some h → keeps I h Q) →
  keeps I (try_except body handler) Q.
Proof.
  intros Hm Hh w Hw. destruct (Hm w Hw) as [Hi Hq]. unfold try_except.
  destruct (body w) as [[a|e] w1]; cbn in *; [by split|].
  destruct (handler e) as [h|] eqn:He; [|split; [done|by intros ? [=]]].
  by apply (Hh e h He w1).
Qed.

Lemma keeps_for_each I {A} (xs : list A) body :
  (∀ x, x ∈ xs → keeps I (body x) (λ _, True)) → keeps I (for_each xs body) (λ _, True).
Proof.
  induction xs as [|x xs IH]; intros Hb; cbn [for_each].
  - by apply keeps_ret.
  - eapply keeps_bind; [apply Hb; by left|]. intros _ _. apply IH.
    intros y Hy. apply Hb. by right.
Qed.

Lemma never_raise I {A} e : never I (@raise A e).
Proof. intros w Hw. by exists e. Qed.

Lemma never_bind_l I {A B} (m : M A) (k : A → M B) : never I m → never I (bind m k).
Proof.
  intros Hm w Hw. destruct (Hm w Hw) as [e He]. unfold bind.
  destruct (m w) as [[a|e'] w1]; cbn in *; [done|]. by exists e'.
Qed.

Lemma never_bind_r I {A B} (m : M A) (k : A → M B) (Q : A → Prop) :
  keeps I m Q → (∀ a, Q a → never I (k a)) → never I (bind m k).
Proof.
  intros Hm Hk w Hw. destruct (Hm w Hw) as [Hi Hq]. unfold bind.
  destruct (m w) as [[a|e] w1]; cbn in *; [|by exists e].
  by apply (Hk a (Hq a eq_refl) w1).
Qed.

Lemma never_for_each I {A} (xs : list A) body x :
  x ∈ xs → (∀ y, y ∈ xs → keeps I (body y) (λ _, True)) → never I (body x) →
  never I (for_each xs body).
Proof.
  induction xs as [|y xs IH]; intros Hx Hb Hn; [by apply elem_of_nil in Hx|].
  cbn [for_each]. apply elem_of_cons in Hx as [->|Hx].
  - by apply never_bind_l.
  - eapply never_bind_r; [apply Hb; by left|]. intros _ _. apply IH; [done| |done].
    intros z Hz. apply Hb. by right.
Qed.

(** *** The filesystem calls that leave a missing path missing *)

Lemma relocate_absent src dst n (fs0 : option FS.node) fs' q :
  fs0 ≫= FS.relocate src dst n = Some fs' →
  fs0 ≫= FS.get q = None →
  FS.apart dst q = true →
  FS.get q fs' = None.
Proof.
  intros Hrel Hq Hap. destruct fs0 as [root|]; [|discriminate].
  cbn in Hrel. unfold FS.relocate in Hrel.
  destruct (FS.del src root) as [root'|] eqn:Hdel; [|discriminate].
  rewrite (get_put_apart _ _ _ _ q Hrel Hap). cbn.
  pose proof (get_del_none src (Some root) q Hq) as Hd.
  cbn in Hd. by rewrite Hdel in Hd.
Qed.

Lemma mkdirs_parent_absent (b : bool) dst fs q :
  FS.get q fs = None →
  FS.apart dst q = true →
  (if b then FS.mkdirs (removelast dst) (Some fs) else Some fs) ≫= FS.get q = None.
Proof.
  intros Hq Hap. destruct b; [|exact Hq].
  destruct (FS.mkdirs (removelast dst) (Some fs)) as [fs1|] eqn:Hmk; [|done].
  cbn. rewrite (get_mkdirs_other _ _ _ q Hmk); [exact Hq|].
  destruct (FS.is_prefix q (removelast dst)) eqn:Hpre; [|done].
  apply is_prefix_removelast in Hpre. unfold FS.apart in Hap.
  rewrite Hpre in Hap. by rewrite andb_false_r in Hap.
Qed.

(** [shutil.move], case by case. *)
Lemma run_move_eq src dst w :
  run (Shutil.move src dst) w
  = let d := FS.is_dir (FS.get (loc w dst) (w_fs w)) in
    if d && bool_decide (loc w src = loc w dst) then (Ret dst, w)
    else
      let real_dst := if d then path_join dst (basename (rstrip_slash src)) else dst in
      let occupied := bool_decide (is_Some (FS.get (loc w real_dst) (w_fs w))) in
      if d && occupied
      then (Raise (mk_exn ShutilError
                     ("Destination path '" +:+ real_dst +:+ "' already exists")), w)
      else
        let s := FS.get (loc w src) (w_fs w) in
        match s with
        | None => (Raise (mk_exn FileNotFoundError src), w)
        | Some n =>
            if FS.is_dir s && FS.is_prefix (loc w src) (loc w real_dst)
            then (Raise (mk_exn ShutilError "Cannot move a directory into itself"), w)
            else if FS.is_dir s && FS.is_file (FS.get (loc w real_dst) (w_fs w))
            then (Raise (mk_exn FileExistsError real_dst), w)
            else
              match (if FS.is_dir s
                        && negb (FS.is_dir (FS.get (removelast (loc w real_dst)) (w_fs w)))
                     then FS.mkdirs (removelast (loc w real_dst)) (Some (w_fs w))
                     else Some (w_fs w))
                    ≫= FS.relocate (loc w src) (loc w real_dst) n with
              | Some fs' =>
                  (Ret real_dst,
                   W (w_env w) (w_cwd w) fs' (EvMove src real_dst occupied :: w_trace w))
              | None =>
                  (Raise (mk_exn (if FS.is_dir s then NotADirectoryError
                                  else FileNotFoundError) real_dst), w)
              end
        end.
Proof.
  unfold Shutil.move, run, bind, get_world, isdir, path_exists, stat, bind, get_world,
    ret, raise, set_fs, World.emit. cbv zeta. cbn [w_env w_cwd w_fs w_trace fst snd].
  destruct (FS.is_dir (FS.get (loc w dst) (w_fs w)) && _); [reflexivity|].
  destruct (FS.is_dir (FS.get (loc w dst) (w_fs w)) && _); [reflexivity|].
  destruct (FS.get (loc w src) (w_fs w)) as [n|]; [|reflexivity].
  destruct (FS.is_dir (Some n) && FS.is_prefix _ _); [reflexivity|].
  destruct (FS.is_dir (Some n) && FS.is_file _); [reflexivity|].
  match goal with
  | |- context [?fs0 ≫= FS.relocate ?a ?b ?n0] => destruct (fs0 ≫= FS.relocate a b n0)
  end; reflexivity.
Qed.

Lemma has_slash_basename p : has_slash (basename p) = false.
Proof.
  induction p as [|x p IH]; [done|]. cbn.
  destruct (has_slash p) eqn:Hp; [exact IH|].
  destruct (is_slash x) eqn:Hx; [exact Hp|]. cbn. by rewrite Hx, Hp.
Qed.

Section Absent.

Variables (c : string) (q : FS.path).

Local Abbreviation zone := (Obs.zone c q).

Lemma keeps_same {A} (m : M A) (Q : A → Prop) :
  (∀ w, w_cwd (m w).2 = w_cwd w ∧ w_fs (m w).2 = w_fs w) →
  (∀ w a, (m w).1 = Ret a → Q a) →
  keeps (absent c q) m Q.
Proof.
  intros Hsame HQ w [Hc Hq]. destruct (Hsame w) as [H1 H2].
  split; [|by apply HQ]. unfold absent. by rewrite H1, H2.
Qed.

Lemma keeps_log lvl msg : keeps (absent c q) (log lvl msg) (λ _, True).
Proof. by apply keeps_same. Qed.

Lemma keeps_path_exists p : keeps (absent c q) (path_exists p) (λ _, True).
Proof. by apply keeps_same. Qed.

Lemma keeps_isdir p : keeps (absent c q) (isdir p) (λ _, True).
Proof. by apply keeps_same. Qed.

Lemma keeps_makedirs p : zone p → keeps (absent c q) (makedirs p) (λ _, True).
Proof.
  intros Hz w [Hc Hq]. split; [|done].
  unfold makedirs, bind, get_world, set_fs, raise, loc. cbn. rewrite Hc.
  destruct (FS.mkdirs (resolve c p) (Some (w_fs w))) as [fs1|] eqn:Hmk; cbn.
  - split; [done|]. cbn. rewrite (get_mkdirs_other _ _ _ q Hmk); [exact Hq|].
    unfold zone, FS.apart in Hz. by destruct (FS.is_prefix q (resolve c p)), (FS.is_prefix _ q).
  - by destruct (FS.is_file _).
Qed.

Lemma keeps_safe_makedirs p :
  zone p → keeps (absent c q) (Startup2.safe_makedirs p) (λ _, True).
Proof.
  intros Hz. unfold Startup2.safe_makedirs.
  eapply keeps_bind; [by apply keeps_makedirs|]. intros _ _.
  apply keeps_try_except.
  - apply keeps_same; [|done]. intros w.
    unfold chmod, bind, path_exists, stat, bind, get_world, ret, raise. cbn.
    by destruct (bool_decide _).
  - intros e h He. unfold except in He. destruct (isinstance e Exception); [|done].
    simplify_eq. by apply keeps_ret.
Qed.

Lemma keeps_make_unique_path path_base :
  keeps (absent c q) (Startup2.make_unique_path path_base)
    (λ p, p = path_base ∨ ∃ sfx, p = path_base +:+ "." +:+ sfx).
Proof.
  intros w Hw. destruct (run_make_unique_path path_base w) as (p & evs & Hrun & _ & _ & Hp).
  unfold run in Hrun. rewrite Hrun. cbn. split; [exact Hw|].
  intros a [= <-]. destruct Hp as [->|(sfx & _ & _ & ->)]; eauto.
Qed.

Lemma keeps_move src dst :
  zone dst → zone (path_join dst (basename (rstrip_slash src))) →
  keeps (absent c q) (Shutil.move src dst) (λ _, True).
Proof.
  intros Hz1 Hz2 w Hw. pose proof Hw as [Hc Hq]. split; [|done].
  change (Shutil.move src dst w) with (run (Shutil.move src dst) w).
  rewrite run_move_eq. cbv zeta. unfold loc. rewrite Hc.
  set (d := FS.is_dir (FS.get (resolve c dst) (w_fs w))).
  destruct (d && bool_decide (_ = _)); [exact Hw|].
  set (real_dst := if d then path_join dst (basename (rstrip_slash src)) else dst).
  assert (Hz : zone real_dst) by (subst real_dst; by destruct d).
  destruct (d && bool_decide (is_Some _)); [exact Hw|].
  destruct (FS.get (resolve c src) (w_fs w)) as [n|] eqn:Hsrc; [|exact Hw].
  destruct (FS.is_dir (Some n) && FS.is_prefix _ _); [exact Hw|].
  destruct (FS.is_dir (Some n) && FS.is_file _); [exact Hw|].
  match goal with
  | |- context [?fs0 ≫= FS.relocate ?a ?b ?n0] =>
      destruct (fs0 ≫= FS.relocate a b n0) as [fs'|] eqn:Hrel; [|exact Hw]
  end.
  split; [reflexivity|]. cbn.
  eapply relocate_absent; [exact Hrel| |exact Hz].
  by apply mkdirs_parent_absent.
Qed.

Lemma keeps_write_file p data :
  zone p → keeps (absent c q) (write_file p data) (λ _, True).
Proof.
  intros Hz w Hw. pose proof Hw as [Hc Hq]. split; [|done].
  unfold write_file, bind, get_world, set_fs, raise, loc. cbn. rewrite Hc.
  destruct (FS.is_dir _); [exact Hw|].
  destruct (FS.put (resolve c p) (FS.File data) (Some (w_fs w))) as [fs'|] eqn:Hput;
    [|exact Hw].
  split; [exact Hc|]. cbn. by rewrite (get_put_apart _ _ _ _ q Hput Hz).
Qed.

Lemma keeps_copy src dst :
  zone dst → zone (path_join dst (basename src)) →
  keeps (absent c q) (Shutil.copy src dst) (λ _, True).
Proof.
  intros Hz1 Hz2. unfold Shutil.copy.
  eapply keeps_bind; [apply keeps_isdir|]. intros d _.
  eapply (keeps_bind _ _ _ (λ _, True)); [by apply keeps_same|]. intros w0 _.
  destruct (_ && _); [apply keeps_raise|].
  eapply (keeps_bind _ _ _ (λ _, True)).
  { apply keeps_same; [|done]. intros w.
    unfold read_file, bind, stat, bind, get_world, ret, raise. cbn.
    by destruct (FS.get _ _) as [[|]|]. }
  intros data _.
  eapply keeps_bind; [apply keeps_write_file; by destruct d|].
  intros _ _. by apply keeps_ret.
Qed.

Lemma keeps_copytree src dst ok :
  zone dst → keeps (absent c q) (Shutil.copytree src dst ok) (λ _, True).
Proof.
  intros Hz. unfold Shutil.copytree.
  eapply (keeps_bind _ _ _ (λ _, True)); [by apply keeps_same|]. intros [[data|sch]|] _;
    [apply keeps_raise| |apply keeps_raise].
  eapply (keeps_bind _ _ _ (λ _, True)).
  { destruct ok; [by apply keeps_makedirs|]. unfold makedirs_new.
    eapply keeps_bind; [apply keeps_path_exists|]. intros [] _;
      [apply keeps_raise|by apply keeps_makedirs]. }
  intros _ _.
  eapply (keeps_bind _ _ _ (λ _, True)); [by apply keeps_same|]. intros t _.
  intros w Hw. pose proof Hw as [Hc Hq]. split; [|done].
  unfold bind, get_world. cbn -[FS.copy_entry].
  destruct (FS.copy_entry (basename src) (FS.Dir sch) t) as [t' errs].
  unfold bind, set_fs, ret, raise, loc. rewrite Hc.
  destruct t' as [n|]; cbn -[FS.put].
  - destruct (FS.put (resolve c dst) n (Some (w_fs w))) as [fs'|] eqn:Hput; cbn.
    + assert (Hq' : FS.get q fs' = None) by (by rewrite (get_put_apart _ _ _ _ q Hput Hz)).
      by destruct (bool_decide (errs = 0%nat)).
    + by destruct (bool_decide (errs = 0%nat)).
  - by destruct (bool_decide (errs = 0%nat)).
Qed.

(** The check that finds a source missing. *)
Lemma never_missing_file src e (rest : M unit) :
  resolve c src = q →
  never (absent c q) (bind (path_exists src) (λ found, if negb found then raise e else rest)).
Proof.
  intros Hsrc w [Hc Hq]. exists e.
  unfold bind, path_exists, stat, bind, get_world, ret, loc. cbn.
  rewrite Hc, Hsrc, Hq. by rewrite bool_decide_false by (by intros [? ?]).
Qed.

Lemma never_missing_dir src e (rest : M unit) :
  resolve c src = q →
  never (absent c q) (bind (isdir src) (λ found, if negb found then raise e else rest)).
Proof.
  intros Hsrc w [Hc Hq]. exists e.
  unfold bind, isdir, stat, bind, get_world, ret, loc. cbn.
  by rewrite Hc, Hsrc, Hq.
Qed.

Lemma zone_rooted pre p : (∀ s, zone (pre +:+ s)) → rooted pre p → zone p.
Proof. intros Hpre [s ->]. apply Hpre. Qed.

Lemma rooted_app pre p x : rooted pre p → rooted pre (p +:+ x).
Proof. intros [s ->]. exists (s +:+ x). apply string_app_assoc. Qed.

Lemma zone_join pre dst b :
  (∀ s, zone (pre +:+ s)) → rooted pre dst → has_slash b = false →
  zone (path_join dst b).
Proof.
  intros Hpre Hdst Hb. unfold path_join.
  assert (Hstart : startswith b "/" = false).
  { destruct b as [|x b]; [done|]. cbn in *. apply orb_false_iff in Hb as [Hx _].
    unfold is_slash in Hx. apply bool_decide_eq_false in Hx.
    rewrite bool_decide_false by congruence. done. }
  rewrite Hstart.
  destruct (_ || _); eapply zone_rooted; eauto using rooted_app.
Qed.

Hypothesis q_nonempty : q ≠ [].

Lemma zone_head p name : head (resolve c p) = Some name → head q ≠ Some name → zone p.
Proof.
  intros Hp Hq. unfold zone. destruct (resolve c p) as [|x r]; [done|].
  cbn in Hp. simplify_eq. by apply apart_not_under.
Qed.

(** *** The resource steps write under [/boot] and [/usr] only *)

Hypothesis not_boot : head q ≠ Some "boot".
Hypothesis not_usr : head q ≠ Some "usr".

Lemma zone_boot s : zone ("/boot/" +:+ s).
Proof. by eapply zone_head. Qed.

Lemma zone_usr s : zone ("/usr/" +:+ s).
Proof. by eapply zone_head. Qed.

Lemma zone_under_boot p : rooted "/boot/" p → zone p.
Proof. apply zone_rooted, zone_boot. Qed.

Lemma zone_under_usr p : rooted "/usr/" p → zone p.
Proof. apply zone_rooted, zone_usr. Qed.

Lemma rooted_candidate pre path_base p :
  rooted pre path_base →
  (p = path_base ∨ ∃ sfx, p = path_base +:+ "." +:+ sfx) →
  rooted pre p.
Proof. intros Hb [->|[sfx ->]]; [done|by apply rooted_app]. Qed.

(** A backup: a free name under [pre], then the move to it. *)
Lemma keeps_backup pre src path_base (msg : string → string) (after_move : string → M unit) :
  (∀ s, zone (pre +:+ s)) → rooted pre path_base →
  (∀ dest, keeps (absent c q) (after_move dest) (λ _, True)) →
  keeps (absent c q)
    (bind (Startup2.make_unique_path path_base) (λ dest,
       bind (log INFO (msg dest)) (λ _,
         bind (Shutil.move src dest) (λ _, after_move dest))))
    (λ _, True).
Proof.
  intros Hpre Hbase Hafter.
  eapply keeps_bind; [apply keeps_make_unique_path|]. intros dest Hdest.
  pose proof (rooted_candidate _ _ _ Hbase Hdest) as Hr.
  eapply keeps_bind; [apply keeps_log|]. intros _ _.
  eapply keeps_bind; [|intros _ _; apply Hafter].
  apply keeps_move.
  - by eapply zone_rooted.
  - eapply zone_join; [exact Hpre|exact Hr|apply has_slash_basename].
Qed.

Ltac rooted_tac := by (eexists; reflexivity).
Ltac zone_tac :=
  first [ apply zone_under_boot; rooted_tac
        | apply zone_under_usr; rooted_tac
        | eapply (zone_join "/boot/");
            [exact zone_boot|rooted_tac|apply has_slash_basename]
        | eapply (zone_join "/usr/");
            [exact zone_usr|rooted_tac|apply has_slash_basename] ].

(** The backup of [/boot/grub/grub.cfg] in startup2.py. *)
Lemma keeps_grub_cfg_backup2 (present : bool) :
  keeps (absent c q)
    (if present then
       bind (Startup2.make_unique_path ("/boot/grub/grub.cfg" +:+ ".b")) (λ dest,
         bind (log INFO ("Moving " +:+ "/boot/grub/grub.cfg" +:+ " -> " +:+ dest)) (λ _,
           bind (Shutil.move "/boot/grub/grub.cfg" dest) (λ _, ret tt)))
     else ret tt)
    (λ _, True).
Proof.
  destruct present; [|by apply keeps_ret].
  apply (keeps_backup "/boot/" _ _ (λ dest, "Moving " +:+ "/boot/grub/grub.cfg" +:+ " -> " +:+ dest)
           (λ _, ret tt)).
  - exact zone_boot.
  - rooted_tac.
  - intros _. by apply keeps_ret.
Qed.

Lemma grub2_never_without_grub_cfg repo_path :
  resolve c (path_join repo_path Startup2.GRUB_CFG_SRC) = q →
  never (absent c q) (Startup2.backup_and_copy_grub repo_path).
Proof.
  intros Hsrc. unfold Startup2.backup_and_copy_grub.
  eapply never_bind_r; [apply keeps_log|]. intros _ _.
  eapply never_bind_r; [apply keeps_path_exists|]. intros present _.
  eapply never_bind_r; [apply keeps_grub_cfg_backup2|]. intros _ _.
  by apply never_missing_file.
Qed.

Lemma grub2_never_without_kali repo_path :
  resolve c (path_join repo_path Startup2.KALI_THEME_SRC) = q →
  never (absent c q) (Startup2.backup_and_copy_grub repo_path).
Proof.
  intros Hsrc. unfold Startup2.backup_and_copy_grub.
  eapply never_bind_r; [apply keeps_log|]. intros _ _.
  eapply never_bind_r; [apply keeps_path_exists|]. intros present _.
  eapply never_bind_r; [apply keeps_grub_cfg_backup2|]. intros _ _.
  eapply never_bind_r; [apply keeps_path_exists|]. intros found _.
  destruct found; cbn [negb]; [|apply never_raise].
  eapply never_bind_r; [apply keeps_safe_makedirs; zone_tac|]. intros _ _.
  eapply never_bind_r; [apply keeps_copy; zone_tac|]. intros _ _.
  eapply never_bind_r; [apply keeps_safe_makedirs; zone_tac|]. intros _ _.
  eapply never_bind_r; [apply keeps_safe_makedirs; zone_tac|]. intros _ _.
  eapply never_bind_r; [apply keeps_isdir|]. intros d _.
  eapply (never_bind_r _ _ _ (λ _, True)).
  { destruct d; [|by apply keeps_ret].
    apply (keeps_backup "/boot/" _ _
             (λ dest, "Moving existing " +:+ "/boot/grub/themes/kali" +:+ " -> " +:+ dest)
             (λ _, ret tt)); [exact zone_boot|rooted_tac|].
    intros _. by apply keeps_ret. }
  intros _ _. by apply never_missing_dir.
Qed.

(** The directory of a path under [/usr] is [/usr] or under it. *)
Lemma zone_dirname_usr p : rooted "/usr/" p → zone (dirname p).
Proof.
  intros [s ->].
  assert (Hsplit : split_head ("/usr/" +:+ s) = "/usr/" +:+ split_head s).
  { assert (Hno : has_slash s = false → split_head s = "").
    { clear. induction s as [|x s IH]; [done|]. cbn. intros Hs.
      apply orb_false_iff in Hs as [Hx Hs]. by rewrite Hs, Hx. }
    change ("/usr/" +:+ s) with (String "/" (String "u" (String "s" (String "r" (String "/" s))))).
    cbn. destruct (has_slash s) eqn:Hs; [reflexivity|]. by rewrite Hno. }
  unfold dirname. cbv zeta. rewrite Hsplit.
  set (t := split_head s).
  assert (Hstrip : rstrip_slash ("/usr/" +:+ t)
                   = "/usr" +:+ match rstrip_slash t with
                                | "" => ""
                                | r => String "/" r
                                end).
  { change ("/usr/" +:+ t) with (String "/" (String "u" (String "s" (String "r" (String "/" t))))).
    cbn [rstrip_slash]. by destruct (rstrip_slash t). }
  rewrite Hstrip.
  destruct (rstrip_slash t) as [|x r].
  - rewrite bool_decide_false by done. by eapply zone_head.
  - rewrite bool_decide_false by done. by eapply zone_head.
Qed.

Ltac in_list H :=
  repeat (apply elem_of_cons in H as [->|H]); [..|by apply elem_of_nil in H].

(** The wallpapers of startup2.py: the backups, then the copies. *)
Lemma keeps_wallpaper_backups2 :
  keeps (absent c q)
    (for_each Startup2.WALLPAPER_FILES_TO_BACKUP (λ f,
       let target_file := path_join "/usr/share/backgrounds/kali" f in
       bind (path_exists target_file) (λ present,
         if present then
           bind (Startup2.make_unique_path
                   (path_join (path_join "/usr/share/backgrounds/kali" "backup") (f +:+ ".b")))
             (λ dest,
                bind (Startup2.safe_makedirs (dirname dest)) (λ _,
                  bind (Shutil.move target_file dest) (λ _,
                    log INFO ("Backed up " +:+ target_file +:+ " -> " +:+ dest))))
         else ret tt)))
    (λ _, True).
Proof.
  apply keeps_for_each. intros f Hf. cbv zeta.
  assert (Hbase : rooted "/usr/"
            (path_join (path_join "/usr/share/backgrounds/kali" "backup") (f +:+ ".b"))).
  { unfold Startup2.WALLPAPER_FILES_TO_BACKUP in Hf. in_list Hf; rooted_tac. }
  eapply keeps_bind; [apply keeps_path_exists|]. intros [] _; [|by apply keeps_ret].
  eapply keeps_bind; [apply keeps_make_unique_path|]. intros dest Hdest.
  pose proof (rooted_candidate _ _ _ Hbase Hdest) as Hr.
  eapply keeps_bind; [apply keeps_safe_makedirs; by apply zone_dirname_usr|]. intros _ _.
  eapply keeps_bind; [|intros _ _; apply keeps_log].
  apply keeps_move; [by apply zone_under_usr|].
  eapply zone_join; [exact zone_usr|exact Hr|apply has_slash_basename].
Qed.

Lemma keeps_wallpaper_copy2 (wallpaper_repo_path : string) (x : string * string) :
  x ∈ Startup2.WALLPAPER_FILES →
  keeps (absent c q)
    (let '(src_name, dest) := x in
     let src_file := path_join wallpaper_repo_path src_name in
     bind (path_exists src_file) (λ found,
       if negb found then raise (mk_exn FileNotFoundError (src_file +:+ " not found in repo"))
       else bind (Startup2.safe_makedirs (dirname dest)) (λ _,
              bind (Shutil.copy src_file dest) (λ _,
                log INFO ("Copied " +:+ src_file +:+ " -> " +:+ dest)))))
    (λ _, True).
Proof.
  intros Hx. unfold Startup2.WALLPAPER_FILES in Hx.
  in_list Hx; cbv zeta beta iota;
    (eapply keeps_bind; [apply keeps_path_exists|]; intros [] _; cbn [negb];
     [|apply keeps_raise];
     eapply keeps_bind; [apply keeps_safe_makedirs; apply zone_dirname_usr; rooted_tac|];
     intros _ _;
     eapply keeps_bind; [apply keeps_copy; zone_tac|]; intros _ _; apply keeps_log).
Qed.

Lemma wallpapers2_never_without_directory repo_path :
  resolve c (path_join repo_path Startup2.WALLPAPER_DIR) = q →
  never (absent c q) (Startup2.backup_and_copy_wallpapers repo_path).
Proof.
  intros Hsrc. unfold Startup2.backup_and_copy_wallpapers.
  eapply never_bind_r; [apply keeps_log|]. intros _ _.
  by apply never_missing_dir.
Qed.

Lemma wallpapers2_never_without_file repo_path src_name dest :
  (src_name, dest) ∈ Startup2.WALLPAPER_FILES →
  resolve c (path_join (path_join repo_path Startup2.WALLPAPER_DIR) src_name) = q →
  never (absent c q) (Startup2.backup_and_copy_wallpapers repo_path).
Proof.
  intros Hin Hsrc. unfold Startup2.backup_and_copy_wallpapers.
  eapply never_bind_r; [apply keeps_log|]. intros _ _.
  eapply never_bind_r; [apply keeps_isdir|]. intros [] _; cbn [negb]; [|apply never_raise].
  eapply never_bind_r; [apply keeps_safe_makedirs; zone_tac|]. intros _ _.
  eapply never_bind_r; [apply keeps_wallpaper_backups2|]. intros _ _.
  eapply (never_for_each _ _ _ (src_name, dest)); [exact Hin| |].
  - intros y Hy. by apply keeps_wallpaper_copy2.
  - by apply never_missing_file.
Qed.

(** The same steps in startup.py. *)
Lemma keeps_grub_cfg_backup1 (present : bool) :
  keeps (absent c q)
    (if present then
       bind (Startup.make_unique_path ("/boot/grub/grub.cfg" +:+ ".b")) (λ dest,
         bind (log INFO ("Moving " +:+ "/boot/grub/grub.cfg" +:+ " -> " +:+ dest)) (λ _,
           bind (Shutil.move "/boot/grub/grub.cfg" dest) (λ _,
             log INFO ("Backed up " +:+ "/boot/grub/grub.cfg" +:+ " -> " +:+ dest))))
     else ret tt)
    (λ _, True).
Proof.
  destruct present; [|by apply keeps_ret].
  apply (keeps_backup "/boot/" _ _ (λ dest, "Moving " +:+ "/boot/grub/grub.cfg" +:+ " -> " +:+ dest)
           (λ dest, log INFO ("Backed up " +:+ "/boot/grub/grub.cfg" +:+ " -> " +:+ dest))).
  - exact zone_boot.
  - rooted_tac.
  - intros dest. apply keeps_log.
Qed.

Lemma grub1_never_without_grub_cfg repo_path :
  resolve c (path_join repo_path Startup.GRUB_CFG_SRC) = q →
  never (absent c q) (Startup.backup_and_copy_grub repo_path).
Proof.
  intros Hsrc. unfold Startup.backup_and_copy_grub.
  eapply never_bind_r; [apply keeps_log|]. intros _ _.
  eapply never_bind_r; [apply keeps_path_exists|]. intros present _.
  eapply never_bind_r; [apply keeps_grub_cfg_backup1|]. intros _ _.
  by apply never_missing_file.
Qed.

Lemma grub1_never_without_kali repo_path :
  resolve c (path_join repo_path Startup.KALI_THEME_SRC) = q →
  never (absent c q) (Startup.backup_and_copy_grub repo_path).
Proof.
  intros Hsrc. unfold Startup.backup_and_copy_grub.
  eapply never_bind_r; [apply keeps_log|]. intros _ _.
  eapply never_bind_r; [apply keeps_path_exists|]. intros present _.
  eapply never_bind_r; [apply keeps_grub_cfg_backup1|]. intros _ _.
  eapply never_bind_r; [apply keeps_path_exists|]. intros found _.
  destruct found; cbn [negb]; [|apply never_raise].
  eapply never_bind_r; [apply keeps_safe_makedirs; zone_tac|]. intros _ _.
  eapply never_bind_r; [apply keeps_copy; zone_tac|]. intros _ _.
  eapply never_bind_r; [apply keeps_log|]. intros _ _.
  eapply never_bind_r; [apply keeps_safe_makedirs; zone_tac|]. intros _ _.
  eapply never_bind_r; [apply keeps_safe_makedirs; zone_tac|]. intros _ _.
  eapply never_bind_r; [apply keeps_isdir|]. intros d _.
  eapply (never_bind_r _ _ _ (λ _, True)).
  { destruct d; [|by apply keeps_ret].
    apply (keeps_backup "/boot/" _ _
             (λ dest, "Moving existing " +:+ "/boot/grub/themes/kali" +:+ " -> " +:+ dest)
             (λ dest, log INFO ("Moved existing " +:+ "/boot/grub/themes/kali" +:+ " -> "
                                +:+ dest)));
      [exact zone_boot|rooted_tac|].
    intros dest. apply keeps_log. }
  intros _ _. by apply never_missing_dir.
Qed.

Lemma keeps_wallpaper_backups1 :
  keeps (absent c q)
    (for_each Startup.WALLPAPER_FILES_TO_BACKUP (λ f,
       let target_file := path_join "/usr/share/backgrounds/kali" f in
       bind (path_exists target_file) (λ present,
         if present then
           bind (Startup.make_unique_path
                   (path_join (path_join "/usr/share/backgrounds/kali" "backup") (f +:+ ".b")))
             (λ dest,
                bind (log INFO ("Backing up " +:+ target_file +:+ " -> " +:+ dest)) (λ _,
                  bind (Startup.safe_makedirs (dirname dest)) (λ _,
                    bind (Shutil.move target_file dest) (λ _,
                      log INFO ("Backed up " +:+ target_file +:+ " -> " +:+ dest)))))
         else ret tt)))
    (λ _, True).
Proof.
  apply keeps_for_each. intros f Hf. cbv zeta.
  assert (Hbase : rooted "/usr/"
            (path_join (path_join "/usr/share/backgrounds/kali" "backup") (f +:+ ".b"))).
  { unfold Startup.WALLPAPER_FILES_TO_BACKUP, Startup2.WALLPAPER_FILES_TO_BACKUP in Hf.
    in_list Hf; rooted_tac. }
  eapply keeps_bind; [apply keeps_path_exists|]. intros [] _; [|by apply keeps_ret].
  eapply keeps_bind; [apply keeps_make_unique_path|]. intros dest Hdest.
  pose proof (rooted_candidate _ _ _ Hbase Hdest) as Hr.
  eapply keeps_bind; [apply keeps_log|]. intros _ _.
  eapply keeps_bind; [apply keeps_safe_makedirs; by apply zone_dirname_usr|]. intros _ _.
  eapply keeps_bind; [|intros _ _; apply keeps_log].
  apply keeps_move; [by apply zone_under_usr|].
  eapply zone_join; [exact zone_usr|exact Hr|apply has_slash_basename].
Qed.

Lemma keeps_wallpaper_copy1 (wallpaper_repo_path : string) (x : string * string) :
  x ∈ Startup.WALLPAPER_FILES →
  keeps (absent c q)
    (let '(src_name, dest) := x in
     let src_file := path_join wallpaper_repo_path src_name in
     bind (path_exists src_file) (λ found,
       if negb found
       then raise (mk_exn FileNotFoundError
                     ("Expected wallpaper file " +:+ src_file +:+ " in repo"))
       else bind (Startup.safe_makedirs (dirname dest)) (λ _,
              bind (Shutil.copy src_file dest) (λ _,
                log INFO ("Copied " +:+ src_file +:+ " -> " +:+ dest)))))
    (λ _, True).
Proof.
  intros Hx. unfold Startup.WALLPAPER_FILES, Startup2.WALLPAPER_FILES in Hx.
  in_list Hx; cbv zeta beta iota;
    (eapply keeps_bind; [apply keeps_path_exists|]; intros [] _; cbn [negb];
     [|apply keeps_raise];
     eapply keeps_bind; [apply keeps_safe_makedirs; apply zone_dirname_usr; rooted_tac|];
     intros _ _;
     eapply keeps_bind; [apply keeps_copy; zone_tac|]; intros _ _; apply keeps_log).
Qed.

Lemma wallpapers1_never_without_directory repo_path :
  resolve c (path_join repo_path Startup.WALLPAPER_DIR) = q →
  never (absent c q) (Startup.backup_and_copy_wallpapers repo_path).
Proof.
  intros Hsrc. unfold Startup.backup_and_copy_wallpapers.
  eapply never_bind_r; [apply keeps_log|]. intros _ _.
  by apply never_missing_dir.
Qed.

Lemma wallpapers1_never_without_file repo_path src_name dest :
  (src_name, dest) ∈ Startup.WALLPAPER_FILES →
  resolve c (path_join (path_join repo_path Startup.WALLPAPER_DIR) src_name) = q →
  never (absent c q) (Startup.backup_and_copy_wallpapers repo_path).
Proof.
  intros Hin Hsrc. unfold Startup.backup_and_copy_wallpapers.
  eapply never_bind_r; [apply keeps_log|]. intros _ _.
  eapply never_bind_r; [apply keeps_isdir|]. intros [] _; cbn [negb]; [|apply never_raise].
  eapply never_bind_r; [apply keeps_safe_makedirs; zone_tac|]. intros _ _.
  eapply never_bind_r; [apply keeps_wallpaper_backups1|]. intros _ _.
  eapply (never_for_each _ _ _ (src_name, dest)); [exact Hin| |].
  - intros y Hy. by apply keeps_wallpaper_copy1.
  - by apply never_missing_file.
Qed.

End Absent.

(** ** A resource whose source is missing *)

(** C6, as the specification states it, fails for startup3.py: with
    [3-wallpaper.png] missing from the working copy,
    [backup_and_copy_wallpapers] logs a warning, skips that wallpaper, goes on
    with the next ones and returns normally. *)
Lemma C6_counterexample_startup3_skips_missing_wallpaper :
  let missing := ["root"; "startup"; "wallpaper"; "3-wallpaper.png"] in
  let w := start (calm (scripted_net [])) "/root" (without missing machine) in
  let r := run (Startup3.backup_and_copy_wallpapers "/root/startup") w in
  FS.get missing (w_fs w) = None
  ∧ r.1 = Ret tt
  ∧ logged "Source wallpaper /root/startup/wallpaper/3-wallpaper.png not found"
      (w_trace r.2) = true
  ∧ FS.get ["usr"; "share"; "backgrounds"; "kali"; "kali-oleo-16x9.png"] (w_fs r.2) = None
  ∧ FS.get ["usr"; "share"; "backgrounds"; "kali"; "login.svg"] (w_fs r.2)
    = Some (text "svg").
Proof. vm_compute. repeat split; reflexivity. Qed.

Lemma never_run I {A} (m : M A) w : never I m → I w → ∃ e, (run m w).1 = Raise e.
Proof. intros Hn Hw. exact (Hn w Hw). Qed.

(** C6, amended, for startup.py and startup2.py, which look for every source
    before they install it.  When a source (the file [grub.cfg], the theme
    directory, the wallpaper directory or one of the wallpaper files) is
    absent from the working copy, and the working copy is not under [/boot]
    or [/usr], the step that installs it raises and does not return.  For
    [grub.cfg] the error is the FileNotFoundError that names the source,
    unless the backup of the installed [grub.cfg] failed before the check; for
    the wallpaper directory it is that FileNotFoundError, raised before
    anything is done. *)
Theorem C6_missing_source_is_fatal repo_path w src :
  FS.get (loc w src) (w_fs w) = None →
  head (loc w src) ≠ Some "boot" →
  head (loc w src) ≠ Some "usr" →
  (src = path_join repo_path Startup2.GRUB_CFG_SRC →
     (∃ e w', run (Startup2.backup_and_copy_grub repo_path) w = (Raise e, w')
              ∧ (e = mk_exn FileNotFoundError (src +:+ " not found in repo")
                 ∨ ∃ dest w1, run (Shutil.move "/boot/grub/grub.cfg" dest) w1 = (Raise e, w')))
     ∧ (∃ e w', run (Startup.backup_and_copy_grub repo_path) w = (Raise e, w')
                ∧ (e = mk_exn FileNotFoundError ("Expected grub.cfg in repo at " +:+ src)
                   ∨ ∃ dest w1,
                       run (Shutil.move "/boot/grub/grub.cfg" dest) w1 = (Raise e, w'))))
  ∧ (src = path_join repo_path Startup2.KALI_THEME_SRC →
       (∃ e, (run (Startup2.backup_and_copy_grub repo_path) w).1 = Raise e)
       ∧ (∃ e, (run (Startup.backup_and_copy_grub repo_path) w).1 = Raise e))
  ∧ (src = path_join repo_path Startup2.WALLPAPER_DIR →
       run (Startup2.backup_and_copy_wallpapers repo_path) w
       = (Raise (mk_exn FileNotFoundError (src +:+ " not found in repo")),
          after (EvLog INFO "Backing up and copying wallpapers") w)
       ∧ run (Startup.backup_and_copy_wallpapers repo_path) w
         = (Raise (mk_exn FileNotFoundError
                     ("Expected wallpaper directory in repo at " +:+ src)),
            after (EvLog INFO "Backing up and copying wallpapers") w))
  ∧ (∀ src_name dest,
       (src_name, dest) ∈ Startup2.WALLPAPER_FILES →
       src = path_join (path_join repo_path Startup2.WALLPAPER_DIR) src_name →
       (∃ e, (run (Startup2.backup_and_copy_wallpapers repo_path) w).1 = Raise e)
       ∧ (∃ e, (run (Startup.backup_and_copy_wallpapers repo_path) w).1 = Raise e)).
Proof.
  intros Hq Hboot Husr.
  assert (Hne : loc w src ≠ []).
  { intros Heq. rewrite Heq in Hq. discriminate. }
  assert (Hw : absent (w_cwd w) (loc w src) w) by by split.
  split; [|split; [|split]].
  - intros ->. split.
    + destruct (backup_and_copy_grub2_missing repo_path w Hq Hboot) as (e & w' & Hrun & _ & He).
      by exists e, w'.
    + destruct (backup_and_copy_grub1_missing repo_path w Hq Hboot) as (e & w' & Hrun & _ & He).
      by exists e, w'.
  - intros ->. split.
    + eapply never_run; [|exact Hw]. by apply grub2_never_without_kali.
    + eapply never_run; [|exact Hw]. by apply grub1_never_without_kali.
  - intros ->. split.
    + apply backup_and_copy_wallpapers2_missing. cbv zeta. by rewrite Hq.
    + apply backup_and_copy_wallpapers1_missing. cbv zeta.
      unfold Startup.WALLPAPER_DIR. by rewrite Hq.
  - intros src_name dest Hin ->. split.
    + eapply never_run; [|exact Hw]. by eapply wallpapers2_never_without_file.
    + eapply never_run; [|exact Hw]. by eapply wallpapers1_never_without_file.
Qed.

(** The theorem on the machine of the scenarios with [grub.cfg] taken out of
    the working copy, and with a wallpaper taken out. *)
Lemma C6_witness :
  let w1 := start (calm (scripted_net [])) "/root"
              (without ["root"; "startup"; "grub.cfg"] machine) in
  let w2 := start (calm (scripted_net [])) "/root"
              (without ["root"; "startup"; "wallpaper"; "3-wallpaper.png"] machine) in
  (∃ e w', run (Startup2.backup_and_copy_grub "/root/startup") w1 = (Raise e, w')
           ∧ (e = mk_exn FileNotFoundError ("/root/startup/grub.cfg" +:+ " not found in repo")
              ∨ ∃ dest w0, run (Shutil.move "/boot/grub/grub.cfg" dest) w0 = (Raise e, w')))
  ∧ (∃ e, (run (Startup2.backup_and_copy_wallpapers "/root/startup") w2).1 = Raise e).
Proof.
  intros w1 w2. split.
  - destruct (C6_missing_source_is_fatal "/root/startup" w1 "/root/startup/grub.cfg")
      as (H & _).
    + vm_compute; reflexivity.
    + vm_compute; discriminate.
    + vm_compute; discriminate.
    + destruct (H eq_refl) as [H2 _]. exact H2.
  - destruct (C6_missing_source_is_fatal "/root/startup" w2
                "/root/startup/wallpaper/3-wallpaper.png") as (_ & _ & _ & H).
    + vm_compute; reflexivity.
    + vm_compute; discriminate.
    + vm_compute; discriminate.
    + destruct (H "3-wallpaper.png" "/usr/share/backgrounds/kali/kali-oleo-16x9.png")
        as [H2 _]; [|reflexivity|exact H2].
      unfold Startup2.WALLPAPER_FILES. rewrite !elem_of_cons. tauto.
Defined.

(** * Further properties of the scripts *)

(** ** Who may run the installer *)

Lemma keeps_top {A} (m : M A) : keeps (λ _, True) m (λ _, True).
Proof. by intros w _. Qed.

Lemma never_try_except I {A} (body : M A) handler :
  never I body → keeps I body (λ _, True) →
  (∀ e h, handler e = Some h → never I h) →
  never I (try_except body handler).
Proof.
  intros Hn Hk Hh w Hw. destruct (Hn w Hw) as [e He]. destruct (Hk w Hw) as [Hi _].
  unfold try_except. destruct (body w) as [[a|e'] w1]; cbn in *; [done|].
  destruct (handler e') as [h|] eqn:Hhe; [|by exists e'].
  exact (Hh e' h Hhe w1 Hi).
Qed.

(** X1: a user who is not root gets nothing done.  [main] of startup2.py and
    of startup.py logs the start and the refusal and exits with status 2: no
    command is run, no network attempt is made, the filesystem is as it
    was. *)
Theorem X1_not_root_nothing_is_done re w :
  e_geteuid (w_env w) ≠ 0 →
  let refused :=
    W (w_env w) (w_cwd w) (w_fs w)
      (EvLog ERROR "This script must be run as root (sudo). Exiting."
       :: EvLog INFO "=== Installer started ===" :: w_trace w) in
  run (Startup2.main re) w = (Raise (Exn SystemExit "" 2 "" ""), refused)
  ∧ run (Startup.main re) w = (Raise (Exn SystemExit "" 2 "" ""), refused).
Proof.
  intros Huid refused. split.
  - unfold Startup2.main. rewrite run_bind, run_log. cbv iota beta. rewrite run_bind.
    unfold Startup2.require_root at 1, geteuid. mstep.
    by rewrite bool_decide_true.
  - unfold Startup.main. rewrite run_bind, run_log. cbv iota beta. rewrite run_bind.
    unfold Startup.require_root at 1, geteuid. mstep.
    by rewrite bool_decide_true.
Qed.

Lemma X1_witness :
  let w := start (as_user 1000 tar_fails) "/home/kali" machine in
  (run (Startup2.main unused_regex) w).1 = Raise (Exn SystemExit "" 2 "" "")
  ∧ w_fs (run (Startup2.main unused_regex) w).2 = machine
  ∧ commands (w_trace (run (Startup.main unused_regex) w).2) = [].
Proof.
  intros w.
  destruct (X1_not_root_nothing_is_done unused_regex w) as [H2 H1]; [by vm_compute|].
  rewrite H2, H1. by repeat split.
Defined.

(** ** startup.py never finishes *)

(** X2: [main] of startup.py never returns.  [install_rustscan] reads
    [RUSTSCAN_DEB_URL], which the script does not define, so whatever the
    steps before it do, the run ends with an exception: a step raised, or the
    NameError of [install_rustscan] reached the handler of [main], which exits
    with status 1. *)
Theorem X2_startup_main_never_returns re w :
  ∃ e w', run (Startup.main re) w = (Raise e, w').
Proof.
  assert (Hn : never (λ _, True) (Startup.main re)).
  { unfold Startup.main.
    eapply never_bind_r; [apply keeps_top|]. intros _ _.
    eapply never_bind_r; [apply keeps_top|]. intros _ _.
    apply never_try_except; [|apply keeps_top|].
    - do 9 (eapply never_bind_r; [apply keeps_top|]; intros ? _).
      apply never_bind_l. unfold Startup.install_rustscan.
      eapply never_bind_r; [apply keeps_top|]. intros _ _. apply never_raise.
    - intros e h He. unfold except in He.
      destruct (isinstance e Exception); [|done]. simplify_eq. unfold Startup.fatal.
      do 2 (eapply never_bind_r; [apply keeps_top|]; intros _ _).
      apply never_raise. }
  destruct (Hn w I) as [e He]. unfold run.
  destruct (Startup.main re w) as [r w']. cbn in He. subst r. by exists e, w'.
Qed.

(** ** Commands *)

(** The world [run_cmd] leaves after a command that exits with [rc]. *)
Lemma run_cmd2_eq cmd (capture : bool) environ w :
  let w0 := after (EvLog INFO ("Running: " +:+ show_command cmd)) w in
  let w1 := after (EvRun cmd environ) w0 in
  run (Startup2.run_cmd cmd capture environ) w
  = match e_run (w_env w) (w_trace w0) cmd environ (w_fs w) with
    | CmdSpawnFail err =>
        if isinstance err CalledProcessError
        then run (log ERROR ("Command failed: " +:+ show_command cmd +:+ " (exit "
                             +:+ str_of_Z (e_code err) +:+ ")") ;;
                  (if capture
                   then log ERROR ("stdout: " +:+ e_stdout err) ;;
                        log ERROR ("stderr: " +:+ e_stderr err)
                   else ret tt) ;;
                  raise err)%prog w1
        else (Raise err, w1)
    | CmdExit rc out err fs' =>
        let w2 := W (w_env w) (w_cwd w) fs' (w_trace w1) in
        if bool_decide (rc = 0)
        then (Ret (rc, out, err),
              if capture
              then after (EvLog DEBUG ("stderr: " +:+ err))
                     (after (EvLog DEBUG ("stdout: " +:+ out)) w2)
              else w2)
        else run (log ERROR ("Command failed: " +:+ show_command cmd +:+ " (exit "
                             +:+ str_of_Z rc +:+ ")") ;;
                  (if capture
                   then log ERROR ("stdout: " +:+ out) ;; log ERROR ("stderr: " +:+ err)
                   else ret tt) ;;
                  raise (called_process_error cmd rc out err))%prog w2
    end.
Proof.
  intros w0 w1.
  unfold Startup2.run_cmd, subprocess_check, subprocess_run, try_except, except. mstep.
  destruct (e_run _ _ _ _ _) as [err|rc out err fs']; mstep.
  - by destruct (isinstance err CalledProcessError).
  - case_bool_decide; mstep; [by destruct capture|reflexivity].
Qed.

Lemma run_cmd1_eq cmd (capture : bool) environ w :
  let w0 := after (EvLog INFO ("Running: " +:+ show_command cmd)) w in
  let w1 := after (EvRun cmd environ) w0 in
  run (Startup.run_cmd cmd capture environ) w
  = match e_run (w_env w) (w_trace w0) cmd environ (w_fs w) with
    | CmdSpawnFail err =>
        if isinstance err CalledProcessError
        then run (log ERROR ("Command failed: " +:+ show_command cmd) ;;
                  (if capture
                   then log ERROR ("stdout: " +:+ e_stdout err) ;;
                        log ERROR ("stderr: " +:+ e_stderr err)
                   else ret tt) ;;
                  raise err)%prog w1
        else (Raise err, w1)
    | CmdExit rc out err fs' =>
        let w2 := W (w_env w) (w_cwd w) fs' (w_trace w1) in
        if bool_decide (rc = 0)
        then (Ret (rc, out, err),
              if capture
              then after (EvLog DEBUG ("stderr: " +:+ err))
                     (after (EvLog DEBUG ("stdout: " +:+ out)) w2)
              else w2)
        else run (log ERROR ("Command failed: " +:+ show_command cmd) ;;
                  (if capture
                   then log ERROR ("stdout: " +:+ out) ;; log ERROR ("stderr: " +:+ err)
                   else ret tt) ;;
                  raise (called_process_error cmd rc out err))%prog w2
    end.
Proof.
  intros w0 w1.
  unfold Startup.run_cmd, subprocess_check, subprocess_run, try_except, except. mstep.
  destruct (e_run _ _ _ _ _) as [err|rc out err fs']; mstep.
  - by destruct (isinstance err CalledProcessError).
  - case_bool_decide; mstep; [by destruct capture|reflexivity].
Qed.

Lemma runs_ret {A} (a : A) : runs [] (ret a).
Proof. intros w. by exists [], 0%nat. Qed.

Lemma runs_raise {A} e : runs [] (@raise A e).
Proof. intros w. by exists [], 0%nat. Qed.

Lemma runs_log lvl msg : runs [] (log lvl msg).
Proof. intros w. by exists [EvLog lvl msg], 0%nat. Qed.

Lemma runs_bind {A B} c1 c2 (m : M A) (k : A → M B) :
  runs c1 m → (∀ a, runs c2 (k a)) → runs (c1 ++ c2) (bind m k).
Proof.
  intros Hm Hk w. destruct (Hm w) as (evs1 & k1 & Ht1 & Hc1 & Hr1).
  unfold bind. destruct (m w) as [[a|e] w1]; cbn in *.
  - destruct (Hk a w1) as (evs2 & k2 & Ht2 & Hc2 & Hr2).
    exists (evs2 ++ evs1), (length c1 + k2)%nat.
    rewrite Ht2, Ht1, commands_app, (Hr1 a eq_refl), Hc2. split_and!.
    + by rewrite app_assoc.
    + by rewrite take_app_add.
    + intros b Hb. by rewrite <- Hc2, (Hr2 b Hb).
  - exists evs1, (k1 `min` length c1)%nat. split_and!; [done| |done].
    rewrite Hc1. rewrite take_app_le by lia.
    destruct (decide (k1 ≤ length c1)%nat).
    + by rewrite Nat.min_l.
    + rewrite Nat.min_r by lia. by rewrite !take_ge by lia.
Qed.

Lemma runs_for_each {A} (f : A → command) (xs : list A) body :
  (∀ x, runs [f x] (body x)) → runs (f <$> xs) (for_each xs body).
Proof.
  intros Hb. induction xs as [|x xs IH]; [apply runs_ret|].
  cbn [for_each fmap list_fmap]. apply (runs_bind [f x]); [apply Hb|]. by intros _.
Qed.

Ltac trace_prefix l t :=
  match l with
  | t => constr:(@nil event)
  | ?x :: ?l' => let r := trace_prefix l' t in constr:(x :: r)
  end.

Ltac trace_is :=
  match goal with
  | |- ?l = _ ++ ?t => let r := trace_prefix l t in instantiate (1 := r); reflexivity
  end.

Ltac one_command :=
  match goal with
  | |- ∃ evs k, ?l = evs ++ ?t ∧ _ => let r := trace_prefix l t in by exists r, 1%nat
  end.

Lemma runs_run_cmd2 cmd capture environ : runs [cmd] (Startup2.run_cmd cmd capture environ).
Proof.
  intros w. pose proof (run_cmd2_eq cmd capture environ w) as E. unfold run in E.
  cbv zeta in E. rewrite E. clear E.
  destruct (e_run _ _ _ _ _) as [err|rc out err fs'].
  - destruct (isinstance err CalledProcessError); [destruct capture|]; mstep;
      one_command.
  - case_bool_decide; destruct capture; mstep;
      one_command.
Qed.

Lemma runs_run_cmd1 cmd capture environ : runs [cmd] (Startup.run_cmd cmd capture environ).
Proof.
  intros w. pose proof (run_cmd1_eq cmd capture environ w) as E. unfold run in E.
  cbv zeta in E. rewrite E. clear E.
  destruct (e_run _ _ _ _ _) as [err|rc out err fs'].
  - destruct (isinstance err CalledProcessError); [destruct capture|]; mstep;
      one_command.
  - case_bool_decide; destruct capture; mstep;
      one_command.
Qed.


Lemma keeps_env (P : env → Prop) {A} (m : M A) :
  extends m → keeps (λ w, P (w_env w)) m (λ _, True).
Proof.
  intros Hm w Hw. destruct (Hm w) as (evs & _ & He & _). rewrite He. by split.
Qed.

Lemma extends_run_cmd1 cmd capture environ : extends (Startup.run_cmd cmd capture environ).
Proof. unfold Startup.run_cmd. extends_auto; apply extends_subprocess_check. Qed.

Lemma never_run_cmd2 cmd capture environ :
  never (λ w, refuses (w_env w) cmd) (Startup2.run_cmd cmd capture environ).
Proof.
  intros w Hw. pose proof (run_cmd2_eq cmd capture environ w) as E. unfold run in E.
  cbv zeta in E. rewrite E. clear E.
  destruct (e_run _ _ _ _ _) as [err|rc out err fs'] eqn:Hr.
  - destruct (isinstance err CalledProcessError); [destruct capture|]; mstep; by eexists.
  - case_bool_decide as Hrc; [subst rc; by destruct (Hw _ _ _ _ _ _ Hr)|].
    destruct capture; mstep; by eexists.
Qed.

Lemma never_run_cmd1 cmd capture environ :
  never (λ w, refuses (w_env w) cmd) (Startup.run_cmd cmd capture environ).
Proof.
  intros w Hw. pose proof (run_cmd1_eq cmd capture environ w) as E. unfold run in E.
  cbv zeta in E. rewrite E. clear E.
  destruct (e_run _ _ _ _ _) as [err|rc out err fs'] eqn:Hr.
  - destruct (isinstance err CalledProcessError); [destruct capture|]; mstep; by eexists.
  - case_bool_decide as Hrc; [subst rc; by destruct (Hw _ _ _ _ _ _ Hr)|].
    destruct capture; mstep; by eexists.
Qed.

(** A sequence of [run_cmd] calls stops at the command that is refused. *)
Ltac refused_step :=
  lazymatch goal with
  | |- never _ (Startup2.run_cmd ?c _ _) => apply never_run_cmd2
  | |- never _ (Startup.run_cmd ?c _ _) => apply never_run_cmd1
  | |- never (λ w, refuses (w_env w) ?c) (bind (Startup2.run_cmd ?c _ _) _) =>
      apply never_bind_l, never_run_cmd2
  | |- never (λ w, refuses (w_env w) ?c) (bind (Startup.run_cmd ?c _ _) _) =>
      apply never_bind_l, never_run_cmd1
  | |- never _ (bind (Startup2.run_cmd _ _ _) _) =>
      eapply never_bind_r; [apply (keeps_env (λ e, refuses e _)), extends_run_cmd2|intros ? _]
  | |- never _ (bind (Startup.run_cmd _ _ _) _) =>
      eapply never_bind_r; [apply (keeps_env (λ e, refuses e _)), extends_run_cmd1|intros ? _]
  | |- never _ (bind (log _ _) _) =>
      eapply never_bind_r; [apply (keeps_env (λ e, refuses e _)), extends_emit|intros ? _]
  end.

Lemma never_set_loop2 c cmds (rest : M unit) :
  c ∈ cmds →
  never (λ w, refuses (w_env w) c)
        (for_each cmds (fun c => Startup2.run_cmd c false [] ;; ret tt) ;; rest)%prog.
Proof.
  intros Hc. apply never_bind_l. eapply never_for_each; [exact Hc| |by refused_step].
  intros y _. apply (keeps_env (λ e, refuses e _)). extends_auto. apply extends_run_cmd2.
Qed.

Lemma never_set_loop1 c cmds (rest : M unit) :
  c ∈ cmds →
  never (λ w, refuses (w_env w) c)
        (for_each cmds (fun c => Startup.run_cmd c false [] ;; ret tt) ;; rest)%prog.
Proof.
  intros Hc. apply never_bind_l. eapply never_for_each; [exact Hc| |by refused_step].
  intros y _. apply (keeps_env (λ e, refuses e _)). extends_auto. apply extends_run_cmd1.
Qed.

Lemma never_get_loop2 k keys cmds :
  k ∈ keys →
  never (λ w, refuses (w_env w) (Startup2.gsettings_get Startup2.DASH_TO_DOCK k))
        (for_each cmds (fun c => Startup2.run_cmd c false [] ;; ret tt) ;;
         for_each keys (fun k =>
           r ← Startup2.run_cmd (Startup2.gsettings_get Startup2.DASH_TO_DOCK k) true [];
           log INFO (k +:+ ": " +:+ strip r.1.2)))%prog.
Proof.
  intros Hk. eapply never_bind_r.
  - apply (keeps_env (λ e, refuses e _)). extends_auto. apply extends_run_cmd2.
  - intros _ _. eapply never_for_each; [exact Hk| |by refused_step].
    intros y _. apply (keeps_env (λ e, refuses e _)). extends_auto. apply extends_run_cmd2.
Qed.

Lemma never_get_loop1 k keys cmds :
  k ∈ keys →
  never (λ w, refuses (w_env w) (Startup2.gsettings_get Startup2.DASH_TO_DOCK k))
        (for_each cmds (fun c => Startup.run_cmd c false [] ;; ret tt) ;;
         for_each keys (fun k =>
           r ← Startup.run_cmd (Startup2.gsettings_get Startup2.DASH_TO_DOCK k) true [];
           log INFO (k +:+ ": " +:+ strip r.1.2)))%prog.
Proof.
  intros Hk. eapply never_bind_r.
  - apply (keeps_env (λ e, refuses e _)). extends_auto. apply extends_run_cmd1.
  - intros _ _. eapply never_for_each; [exact Hk| |by refused_step].
    intros y _. apply (keeps_env (λ e, refuses e _)). extends_auto. apply extends_run_cmd1.
Qed.

Lemma runs_dash_to_dock2 : runs dash_to_dock_commands Startup2.configure_dash_to_dock.
Proof.
  unfold Startup2.configure_dash_to_dock. apply (runs_bind [] _); [apply runs_log|intros _].
  apply (runs_bind (take 6 dash_to_dock_commands) (drop 6 dash_to_dock_commands)).
  - apply (runs_for_each id). intros c. apply (runs_bind [c] []); [apply runs_run_cmd2|].
    intros _. apply runs_ret.
  - intros _. apply (runs_for_each (Startup2.gsettings_get Startup2.DASH_TO_DOCK)).
    intros k. apply (runs_bind [_] []); [apply runs_run_cmd2|]. intros r. apply runs_log.
Qed.

Lemma runs_dash_to_dock1 : runs dash_to_dock_commands Startup.configure_dash_to_dock.
Proof.
  unfold Startup.configure_dash_to_dock. apply (runs_bind [] _); [apply runs_log|intros _].
  apply (runs_bind (take 6 dash_to_dock_commands) (drop 6 dash_to_dock_commands)).
  - apply (runs_for_each id). intros c. apply (runs_bind [c] []); [apply runs_run_cmd1|].
    intros _. apply runs_ret.
  - intros _. apply (runs_for_each (Startup2.gsettings_get Startup2.DASH_TO_DOCK)).
    intros k. apply (runs_bind [_] []); [apply runs_run_cmd1|]. intros r. apply runs_log.
Qed.

(** X4: [configure_dash_to_dock] is all or nothing.  In both scripts the
    commands it gives to the system are the twelve [gsettings] commands of
    the script in their order: all twelve when it returns, the first ones
    when it raises; and it raises whenever one of the twelve is a command
    that does not succeed. *)
Theorem X4_dash_to_dock_stops_at_first_failure :
  runs dash_to_dock_commands Startup2.configure_dash_to_dock
  ∧ runs dash_to_dock_commands Startup.configure_dash_to_dock
  ∧ Forall (λ c, never (λ w, refuses (w_env w) c) Startup2.configure_dash_to_dock
                 ∧ never (λ w, refuses (w_env w) c) Startup.configure_dash_to_dock)
           dash_to_dock_commands.
Proof.
  split; [apply runs_dash_to_dock2|]. split; [apply runs_dash_to_dock1|].
  unfold dash_to_dock_commands.
  repeat (apply Forall_cons; split;
          [split;
           (eapply never_bind_r; [apply (keeps_env (λ e, refuses e _)), extends_emit|intros ? _]);
           first [ apply never_set_loop2; set_solver
                 | apply never_set_loop1; set_solver
                 | apply never_get_loop2; set_solver
                 | apply never_get_loop1; set_solver ]|]).
  by apply Forall_nil.
Qed.

(** In a session without a display, [configure_dash_to_dock] of startup2.py
    stops after its first command. *)
Lemma X4_witness :
  let w := start headless "/root" machine in
  (∃ e, (run Startup2.configure_dash_to_dock w).1 = Raise e)
  ∧ commands (w_trace (run Startup2.configure_dash_to_dock w).2)
    = take 1 dash_to_dock_commands.
Proof.
  intros w. split; [|by vm_compute].
  destruct X4_dash_to_dock_stops_at_first_failure as (_ & _ & Hall).
  apply Forall_cons in Hall as [[Hn _] _]. apply Hn.
  intros h environ fs out err fs'. by cbn.
Defined.

(** ** Best-effort steps *)

Lemma completes_ret I {A} (a : A) : completes I (ret a).
Proof. intros w _. by exists a. Qed.

Lemma completes_log I lvl msg : completes I (log lvl msg).
Proof. intros w _. by exists tt. Qed.

Lemma completes_bind I {A B} (m : M A) (k : A → M B) :
  completes I m → keeps I m (λ _, True) → (∀ a, completes I (k a)) →
  completes I (bind m k).
Proof.
  intros Hm Hkeep Hk w Hw. destruct (Hm w Hw) as [a Ha]. destruct (Hkeep w Hw) as [Hi _].
  unfold bind. destruct (m w) as [[a'|e] w1]; cbn in *; [|done]. by apply Hk.
Qed.

(** [try: body except Exception: handler] returns when the handler does
    and the body raises nothing but an [Exception]. *)
Lemma completes_try_except I cls {A} (body : M A) (h : exn → M A) :
  raises_only I cls body → keeps I body (λ _, True) → (∀ e, completes I (h e)) →
  completes I (try_except body (except cls h)).
Proof.
  intros Hr Hkeep Hh w Hw. destruct (Hkeep w Hw) as [Hi _]. specialize (Hr w).
  unfold try_except, except. destruct (body w) as [[a|e] w1]; cbn in *; [by exists a|].
  rewrite (Hr e Hw eq_refl). by apply Hh.
Qed.

Lemma raises_only_ret I cls {A} (a : A) : raises_only I cls (ret a).
Proof. by intros w e _ [=]. Qed.

Lemma raises_only_log I cls lvl msg : raises_only I cls (log lvl msg).
Proof. by intros w e _ [=]. Qed.

Lemma raises_only_raise I cls {A} e : isinstance e cls = true → raises_only I cls (@raise A e).
Proof. by intros He w e' _ [= <-]. Qed.

Lemma raises_only_bind I cls {A B} (m : M A) (k : A → M B) :
  raises_only I cls m → keeps I m (λ _, True) → (∀ a, raises_only I cls (k a)) →
  raises_only I cls (bind m k).
Proof.
  intros Hm Hkeep Hk w e Hw. destruct (Hkeep w Hw) as [Hi _]. specialize (Hm w).
  unfold bind. destruct (m w) as [[a|e'] w1]; cbn in *.
  - by apply Hk.
  - intros [= <-]. by apply Hm.
Qed.

Lemma raises_only_try_except I cls {A} (body : M A) handler :
  raises_only I cls body → keeps I body (λ _, True) →
  (∀ e h, handler e = Some h → raises_only I cls h) →
  raises_only I cls (try_except body handler).
Proof.
  intros Hm Hkeep Hh w e Hw. destruct (Hkeep w Hw) as [Hi _]. specialize (Hm w).
  unfold try_except. destruct (body w) as [[a|e'] w1]; cbn in *; [done|].
  destruct (handler e') as [h|] eqn:Hhe.
  - by apply (Hh e' h Hhe).
  - intros [= <-]. by apply Hm.
Qed.

Lemma isinstance_called_process_error_exception e :
  isinstance e CalledProcessError = true → isinstance e Exception = true.
Proof. unfold isinstance. by destruct (e_class e). Qed.

Lemma isinstance_file_not_found_exception e :
  isinstance e FileNotFoundError = true → isinstance e Exception = true.
Proof. unfold isinstance. by destruct (e_class e). Qed.

Lemma raises_only_run_cmd2 cmd capture environ :
  raises_only (λ w, mannered (w_env w)) Exception (Startup2.run_cmd cmd capture environ).
Proof.
  intros w e Hw. pose proof (run_cmd2_eq cmd capture environ w) as E. unfold run in E.
  cbv zeta in E. rewrite E. clear E. destruct Hw as (Hrun & _).
  destruct (e_run _ _ _ _ _) as [err|rc out err fs'] eqn:Hr.
  - apply Hrun in Hr.
    destruct (isinstance err CalledProcessError); [destruct capture|]; mstep; by intros [= <-].
  - case_bool_decide; [done|]. destruct capture; mstep; by intros [= <-].
Qed.

Lemma raises_only_subprocess_run cmd environ :
  raises_only (λ w, mannered (w_env w)) Exception (subprocess_run cmd environ).
Proof.
  intros w e (Hrun & _). unfold subprocess_run. mstep.
  destruct (e_run _ _ _ _ _) as [err|rc out err fs'] eqn:Hr; mstep; [|done].
  intros [= <-]. by apply Hrun in Hr.
Qed.

Lemma raises_only_popen argv :
  raises_only (λ w, mannered (w_env w)) Exception (popen argv).
Proof.
  intros w e (_ & Hpopen & _). unfold popen. mstep.
  destruct (e_popen _ _ _) as [err|] eqn:Hr; mstep; [|done].
  intros [= <-]. by apply Hpopen in Hr.
Qed.

(** Decompose a best-effort step along its binds and handlers. *)
Ltac polite_keeps :=
  apply (keeps_env mannered); extends_auto;
  first [ apply extends_run_cmd2 | apply extends_run_cmd1 | apply extends_subprocess_run ].

Ltac raises_step :=
  cbv beta;
  lazymatch goal with
  | |- raises_only _ _ (bind _ _) => apply raises_only_bind; [|try polite_keeps|intros ?]
  | |- raises_only _ _ (ret _) => apply raises_only_ret
  | |- raises_only _ _ (log _ _) => apply raises_only_log
  | |- raises_only _ _ (Startup2.run_cmd _ _ _) => apply raises_only_run_cmd2
  | |- raises_only _ _ (subprocess_run _ _) => apply raises_only_subprocess_run
  | |- raises_only _ _ (popen _) => apply raises_only_popen
  | |- raises_only _ _ (if ?b then _ else _) => destruct b
  end.

Ltac completes_step :=
  cbv beta;
  lazymatch goal with
  | |- completes _ (bind _ _) => apply completes_bind; [|try polite_keeps|intros ?]
  | |- completes _ (ret _) => apply completes_ret
  | |- completes _ (log _ _) => apply completes_log
  | |- completes _ (try_except _ (except Exception _)) =>
      apply completes_try_except; [repeat raises_step|try polite_keeps|intros ?]
  | |- completes _ (if ?b then _ else _) => destruct b
  end.

Lemma completes_at I {A} (m : M A) w :
  completes I m → I w → ∃ a w', run m w = (Ret a, w').
Proof.
  intros Hm Hw. destruct (Hm w Hw) as [a Ha]. exists a, (m w).2.
  unfold run. by destruct (m w) as [[?|?] ?]; simplify_eq/=.
Qed.

Lemma run_bind_bind_ret {A B C} (m : M A) (k1 : A → M B) (k2 : B → M C) w a w1 :
  run m w = (Ret a, w1) → run (bind (bind m k1) k2) w = run (bind (k1 a) k2) w1.
Proof. unfold run, bind. by intros ->. Qed.

Lemma run_bind_bind_raise {A B C} (m : M A) (k1 : A → M B) (k2 : B → M C) w e w1 :
  run m w = (Raise e, w1) → run (bind (bind m k1) k2) w = (Raise e, w1).
Proof. unfold run, bind. by intros ->. Qed.

(** X5: in startup2.py [apply_gnome_tweaks] is best effort, but for its
    first command.  When the collaborators fail with ordinary errors only,
    the step returns whatever the [apt-get] and [gsettings] commands do;
    it raises in one case only: [fc-list], the first command, cannot be
    started for a reason other than a missing program, and then the error
    is raised at once, before any setting is touched. *)
Theorem X5_gnome_tweaks_are_best_effort w :
  mannered (w_env w) →
  match e_run (w_env w) (EvLog INFO "Applying GNOME tweaks and font settings" :: w_trace w)
              (Argv ["fc-list"; ":family"]) [] (w_fs w) with
  | CmdSpawnFail err =>
      if isinstance err FileNotFoundError
      then ∃ w', run Startup2.apply_gnome_tweaks w = (Ret tt, w')
      else run Startup2.apply_gnome_tweaks w
           = (Raise err,
              W (w_env w) (w_cwd w) (w_fs w)
                (EvRun (Argv ["fc-list"; ":family"]) []
                 :: EvLog INFO "Applying GNOME tweaks and font settings" :: w_trace w))
  | CmdExit _ _ _ _ => ∃ w', run Startup2.apply_gnome_tweaks w = (Ret tt, w')
  end.
Proof.
  intros Hw.
  unfold Startup2.apply_gnome_tweaks. rewrite run_bind, run_log. cbv iota beta.
  unfold Startup2.ensure_font_available.
  set (w0 := after _ w).
  match goal with
  | |- context [run (bind (bind ?first ?k1) ?k2) w0] =>
      assert (Hgo : ∀ (found : bool) w1, w_env w1 = w_env w →
                run first w0 = (Ret found, w1) →
                ∃ w', run (bind (bind first k1) k2) w0 = (Ret tt, w'))
  end.
  { intros found w1 Henv Hfirst.
    rewrite (run_bind_bind_ret _ _ _ _ _ _ Hfirst).
    match goal with
    | |- ∃ w', run ?m ?w1 = _ =>
        destruct (completes_at (λ w, mannered (w_env w)) m w1) as ([] & w' & ->);
          [|by rewrite Henv|by exists w']
    end.
    unfold Startup2.fc_list_has. destruct found; repeat completes_step. }
  subst w0.
  destruct (e_run _ _ _ _ _) as [err|rc out err fs'] eqn:Hr.
  - destruct (isinstance err FileNotFoundError) eqn:Hfnf.
    + eapply (Hgo false); [|unfold Startup2.fc_list_has, subprocess_run, try_except, except;
                            mstep; rewrite Hr; mstep; rewrite Hfnf; reflexivity]. done.
    + apply run_bind_bind_raise.
      unfold Startup2.fc_list_has, subprocess_run, try_except, except.
      mstep. rewrite Hr. mstep. by rewrite Hfnf.
  - destruct (str_contains (lower out) (lower Startup2.DESIRED_FONT_FAMILY)) eqn:Hhas.
    + eapply (Hgo true); [|unfold Startup2.fc_list_has, subprocess_run, try_except, except;
                           mstep; rewrite Hr; mstep; rewrite Hhas; reflexivity]. done.
    + eapply (Hgo false); [|unfold Startup2.fc_list_has, subprocess_run, try_except, except;
                            mstep; rewrite Hr; mstep; rewrite Hhas; reflexivity]. done.
Qed.

Lemma mannered_headless : mannered headless.
Proof.
  split_and!; cbn.
  - intros h cmd environ fs err. destruct (is_gsettings cmd); [done|].
    destruct (is_fc_list cmd); [|done]. by intros [= <-].
  - done.
  - by intros h url err [= <-].
  - done.
  - done.
Qed.

(** Without fontconfig and without a display the step still returns: the
    package lists are read and the font package is installed, the six
    [gsettings] commands that follow are tried as far as each block goes. *)
Lemma X5_witness :
  let w := start headless "/root" machine in
  mannered (w_env w)
  ∧ (∃ w', run Startup2.apply_gnome_tweaks w = (Ret tt, w'))
  ∧ commands (w_trace (run Startup2.apply_gnome_tweaks w).2)
    = [ Argv ["fc-list"; ":family"]; Argv ["apt-get"; "update"];
        Argv ["apt-get"; "install"; "-y"; "fonts-dejavu-core"]; Argv ["fc-list"; ":family"];
        Startup2.gsettings_set "org.gnome.desktop.interface" "font-name"
          "DejaVu Serif Condensed 10";
        Startup2.gsettings_set "org.gnome.desktop.interface" "text-scaling-factor" "0.95";
        Startup2.gsettings_get "org.gnome.desktop.interface" "font-name" ].
Proof.
  intros w. split; [exact mannered_headless|]. split; [|by vm_compute].
  exact (X5_gnome_tweaks_are_best_effort w mannered_headless).
Defined.

Lemma runs_gnome_tweaks1 : runs gnome_tweaks_commands Startup.apply_gnome_tweaks.
Proof.
  unfold Startup.apply_gnome_tweaks. apply (runs_bind [] _); [apply runs_log|intros _].
  do 6 (apply (runs_bind [_] _); [apply runs_run_cmd1|intros ?]).
  do 3 (apply (runs_bind [] []); [apply runs_log|intros _]). apply runs_log.
Qed.

(** X6: in startup.py [apply_gnome_tweaks] is all or nothing.  The commands
    it gives to the system are the six [gsettings] commands of the script in
    their order (the font is Conifer 11): all six when it returns, the first
    ones when it raises; and it raises whenever one of the six is a command
    that does not succeed, where the step of startup2.py goes on. *)
Theorem X6_startup_gnome_tweaks_stop_at_first_failure :
  runs gnome_tweaks_commands Startup.apply_gnome_tweaks
  ∧ Forall (λ c, never (λ w, refuses (w_env w) c) Startup.apply_gnome_tweaks)
           gnome_tweaks_commands.
Proof.
  split; [apply runs_gnome_tweaks1|].
  unfold gnome_tweaks_commands, Startup.apply_gnome_tweaks.
  unfold Startup.gsettings_set, Startup.gsettings_get.
  repeat (apply Forall_cons; split; [by repeat refused_step|]).
  by apply Forall_nil.
Qed.

(** Without a display the step of startup.py stops after its first command. *)
Lemma X6_witness :
  let w := start headless "/root" machine in
  (∃ e, (run Startup.apply_gnome_tweaks w).1 = Raise e)
  ∧ commands (w_trace (run Startup.apply_gnome_tweaks w).2) = take 1 gnome_tweaks_commands.
Proof.
  intros w. split; [|by vm_compute].
  destruct X6_startup_gnome_tweaks_stop_at_first_failure as (_ & Hall).
  apply Forall_cons in Hall as [Hn _]. apply Hn.
  intros h environ fs out err fs'. by cbn.
Defined.

(** ** Package steps *)

(** What [run_cmd] of startup2.py does, seen from outside. *)
Lemma run_cmd2_spec cmd capture environ w :
  ∃ w2 evs,
    run (Startup2.run_cmd cmd capture environ) w
    = (outcome cmd (e_run (w_env w)
                          (EvLog INFO ("Running: " +:+ show_command cmd) :: w_trace w)
                          cmd environ (w_fs w)), w2)
    ∧ w_trace w2 = evs ++ w_trace w ∧ commands evs = [cmd]
    ∧ w_env w2 = w_env w ∧ w_cwd w2 = w_cwd w.
Proof.
  pose proof (run_cmd2_eq cmd capture environ w) as E. cbv zeta in E. rewrite E. clear E.
  change (w_trace (after ?ev w)) with (ev :: w_trace w).
  unfold outcome.
  destruct (e_run _ _ _ _ _) as [err|rc out err fs'].
  - destruct (isinstance err CalledProcessError); [destruct capture|]; mstep;
      eexists _, _; (split_and!; [reflexivity|cbn; by trace_is|done..]).
  - case_bool_decide; destruct capture; mstep;
      eexists _, _; (split_and!; [reflexivity|cbn; by trace_is|done..]).
Qed.

Lemma outcome_raise_exception e cmd reply err :
  mannered e → (∃ h environ fs, reply = e_run e h cmd environ fs) →
  outcome cmd reply = Raise err → isinstance err Exception = true.
Proof.
  intros (Hrun & _) (h & environ & fs & ->). unfold outcome.
  destruct (e_run _ _ _ _ _) as [err'|rc out err' fs'] eqn:Hr.
  - intros [= <-]. by apply Hrun in Hr.
  - case_bool_decide; [done|]. by intros [= <-].
Qed.

Lemma outcome_refused e cmd h environ fs :
  refuses e cmd → ∃ err, outcome cmd (e_run e h cmd environ fs) = Raise err.
Proof.
  intros Href. unfold outcome.
  destruct (e_run _ _ _ _ _) as [err'|rc out err' fs'] eqn:Hr; [by eexists|].
  case_bool_decide as Hrc; [|by eexists]. subst rc. by destruct (Href _ _ _ _ _ _ Hr).
Qed.

Lemma outcome_accepted e cmd h environ fs :
  accepts e cmd → ∃ r, outcome cmd (e_run e h cmd environ fs) = Ret r.
Proof.
  intros Hacc. destruct (Hacc h environ fs) as (out & err & fs' & ->). by eexists.
Qed.

Lemma try_packages_spec pkgs w :
  mannered (w_env w) →
  ∃ w' evs k,
    run (Startup2.try_packages pkgs) w = (Ret tt, w')
    ∧ w_trace w' = evs ++ w_trace w
    ∧ commands evs = apt_install <$> take k pkgs
    ∧ ((∀ pkg, pkg ∈ pkgs → refuses (w_env w) (apt_install pkg)) →
       commands evs = apt_install <$> pkgs)
    ∧ (∀ j pkg, pkgs !! j = Some pkg →
         (∀ i p, (i < j)%nat → pkgs !! i = Some p → refuses (w_env w) (apt_install p)) →
         accepts (w_env w) (apt_install pkg) →
         commands evs = apt_install <$> take (S j) pkgs).
Proof.
  revert w. induction pkgs as [|pkg rest IH]; intros w Hw.
  - exists w, [], 0%nat. by split_and!.
  - cbn [Startup2.try_packages]. rewrite run_bind, run_try_except, run_bind.
    destruct (run_cmd2_spec (Argv ["apt"; "install"; "-y"; pkg]) false [] w)
      as (w2 & evs & -> & Ht & Hc & He & _).
    fold (apt_install pkg) in *.
    destruct (outcome _ _) as [r|err] eqn:Hout.
    + mstep. eexists _, (_ :: evs), 1%nat. split_and!; [reflexivity|by rewrite Ht|..].
      * by rewrite commands_cons, Hc, app_nil_r.
      * intros Hall. destruct (outcome_refused _ _
          (EvLog INFO ("Running: " +:+ show_command (apt_install pkg)) :: w_trace w)
          [] (w_fs w) (Hall pkg ltac:(by left))) as [err Herr]. congruence.
      * intros [|j] p Hp Href Hacc; [by rewrite commands_cons, Hc, app_nil_r|].
        destruct (outcome_refused _ _
          (EvLog INFO ("Running: " +:+ show_command (apt_install pkg)) :: w_trace w)
          [] (w_fs w) (Href 0%nat pkg ltac:(lia) eq_refl)) as [err Herr]. congruence.
    + unfold except. rewrite (outcome_raise_exception _ _ _ _ Hw ltac:(by eexists _, _, _) Hout).
      rewrite run_bind, run_log. cbv iota beta. rewrite run_ret. cbv iota beta.
      destruct (IH (after (EvLog WARNING ("Could not install ProtonVPN package '" +:+ pkg
                                          +:+ "': " +:+ e_msg err)) w2))
        as (w' & evs' & k & -> & Ht' & Hc' & Hall' & Hfirst'); [by rewrite <- He in Hw|].
      cbn [w_trace w_env after] in *. rewrite He in *.
      exists w', (evs' ++ EvLog WARNING ("Could not install ProtonVPN package '" +:+ pkg
                                         +:+ "': " +:+ e_msg err) :: evs), (S k).
      assert (Hcmds : commands (evs' ++ EvLog WARNING ("Could not install ProtonVPN package '"
                                   +:+ pkg +:+ "': " +:+ e_msg err) :: evs)
                      = apt_install pkg :: commands evs').
      { by rewrite commands_app, commands_cons, Hc, app_nil_r. }
      split_and!; [reflexivity|by rewrite Ht', Ht, <- app_assoc|..].
      * by rewrite Hcmds, Hc'.
      * intros Hall. rewrite Hcmds, Hall'; [done|]. intros p Hp. apply Hall. by right.
      * intros [|j] p Hp Href Hacc.
        -- injection Hp as <-.
           destruct (outcome_accepted _ _
             (EvLog INFO ("Running: " +:+ show_command (apt_install pkg)) :: w_trace w)
             [] (w_fs w) Hacc) as [r Hr]. congruence.
        -- rewrite Hcmds, (Hfirst' j p Hp); [done| |done].
           intros i q Hi Hq. apply (Href (S i) q); [lia|done].
Qed.

(** X7: the ProtonVPN application is optional.  The loop of
    [install_protonvpn] over the package names always comes to an end
    without an error when the collaborators fail with ordinary errors only:
    it runs [apt install -y] on the names in turn and on nothing else, stops
    after the first name that installs, and when no name installs it has
    tried them all and the step goes on all the same. *)
Theorem X7_protonvpn_names_are_tried_in_turn pkgs w :
  mannered (w_env w) →
  ∃ w' k,
    run (Startup2.try_packages pkgs) w = (Ret tt, w')
    ∧ commands (added w w') = apt_install <$> take k pkgs
    ∧ ((∀ pkg, pkg ∈ pkgs → refuses (w_env w) (apt_install pkg)) →
       commands (added w w') = apt_install <$> pkgs)
    ∧ (∀ j pkg, pkgs !! j = Some pkg →
         (∀ i p, (i < j)%nat → pkgs !! i = Some p → refuses (w_env w) (apt_install p)) →
         accepts (w_env w) (apt_install pkg) →
         commands (added w w') = apt_install <$> take (S j) pkgs).
Proof.
  intros Hw. destruct (try_packages_spec pkgs w Hw) as (w' & evs & k & Hrun & Ht & H).
  exists w', k. by rewrite (added_app evs w w' Ht).
Qed.

Lemma mannered_installable known : mannered (installable known).
Proof.
  split_and!; cbn; try done.
  intros h cmd environ fs err.
  repeat (match goal with |- context [match ?x with _ => _ end] => destruct x end; try done).
Qed.

(** Where only [proton-vpn] is known, the three names of the script are
    tried and the loop ends well. *)
Lemma X7_witness :
  let w := start (installable ["proton-vpn"]) "/root" machine in
  mannered (w_env w)
  ∧ ∃ w', run (Startup2.try_packages protonvpn_names) w = (Ret tt, w')
          ∧ commands (added w w') = apt_install <$> protonvpn_names.
Proof.
  intros w. split; [apply mannered_installable|].
  destruct (X7_protonvpn_names_are_tried_in_turn protonvpn_names w
              (mannered_installable _)) as (w' & k & Hrun & _ & _ & Hfirst).
  exists w'. split; [exact Hrun|].
  apply (Hfirst 2%nat "proton-vpn"); [reflexivity| |].
  - intros [|[|i]] p Hi Hp; [| |lia]; cbn in Hp; injection Hp as <-;
      intros h environ fs out err fs'; by cbn.
  - intros h environ fs. by eexists _, _, _.
Defined.

(** ** How a session ends *)

Lemma orderly_ret {A} (a : A) : orderly (ret a).
Proof. by intros w Hw. Qed.

Lemma orderly_raise {A} e : isinstance e Exception = true → orderly (@raise A e).
Proof. intros He w Hw. split; [done|]. by intros ? [= <-]. Qed.

Lemma orderly_emit ev : orderly (World.emit ev).
Proof. by intros w Hw. Qed.

Lemma orderly_get_world : orderly get_world.
Proof. by intros w Hw. Qed.

Lemma orderly_set_fs fs : orderly (set_fs fs).
Proof. by intros w Hw. Qed.

Lemma orderly_bind {A B} (m : M A) (k : A → M B) :
  orderly m → (∀ a, orderly (k a)) → orderly (bind m k).
Proof.
  intros Hm Hk w Hw. destruct (Hm w Hw) as [He Hr]. unfold bind.
  destruct (m w) as [[a|e] w1]; cbn in *.
  - rewrite <- He in Hw. destruct (Hk a w1 Hw) as [He' Hr']. split; [congruence|done].
  - split; [done|]. intros ? [= <-]. by apply Hr.
Qed.

Lemma orderly_try_except {A} (body : M A) cls (h : exn → M A) :
  orderly body → (∀ e, isinstance e cls = true → orderly (h e)) →
  orderly (try_except body (except cls h)).
Proof.
  intros Hb Hh w Hw. destruct (Hb w Hw) as [He Hr]. unfold try_except, except.
  destruct (body w) as [[a|e] w1]; cbn in *; [done|].
  destruct (isinstance e cls) eqn:Hc.
  - rewrite <- He in Hw. destruct (Hh e Hc w1 Hw) as [He' Hr']. split; [congruence|done].
  - split; [done|]. intros ? [= <-]. by apply Hr.
Qed.

Lemma orderly_for_each {A} (xs : list A) body :
  (∀ x, orderly (body x)) → orderly (for_each xs body).
Proof.
  intros Hb. induction xs as [|x xs IH]; cbn [for_each]; [apply orderly_ret|].
  apply orderly_bind; [apply Hb|]. by intros _.
Qed.

(** After a network attempt, what the network raised is an [Exception]. *)
Lemma orderly_urlopen_then {A} url (k : net_reply → M A) :
  (∀ e, isinstance e Exception = true → orderly (k (NetFail e))) →
  (∀ status final_url body, orderly (k (NetOk status final_url body None))) →
  (∀ status final_url body e,
     isinstance e Exception = true → orderly (k (NetOk status final_url body (Some e)))) →
  orderly (bind (urlopen url) k).
Proof.
  intros Hfail Hok Hread w Hw. unfold urlopen. mstep.
  pose proof Hw as (_ & _ & Hnet & Hrd & _).
  destruct (e_urlopen _ _ _) as [e|status final_url body [e|]] eqn:Hr.
  - apply Hnet in Hr. by apply (Hfail e Hr (W _ _ _ _)).
  - apply Hrd in Hr. by apply (Hread _ _ _ e Hr (W _ _ _ _)).
  - by apply (Hok _ _ _ (W _ _ _ _)).
Qed.

Lemma orderly_subprocess_run cmd environ : orderly (subprocess_run cmd environ).
Proof.
  intros w Hw. unfold subprocess_run. mstep. pose proof Hw as (Hrun & _).
  destruct (e_run _ _ _ _ _) as [err|rc out err fs'] eqn:Hr; mstep; [|done].
  split; [done|]. intros ? [= <-]. by apply Hrun in Hr.
Qed.

Lemma orderly_popen argv : orderly (popen argv).
Proof.
  intros w Hw. unfold popen. mstep. pose proof Hw as (_ & Hpopen & _).
  destruct (e_popen _ _ _) as [err|] eqn:Hr; mstep; [|done].
  split; [done|]. intros ? [= <-]. by apply Hpopen in Hr.
Qed.

Lemma orderly_setrlimit : orderly setrlimit.
Proof.
  intros w Hw. unfold setrlimit. mstep. pose proof Hw as (_ & _ & _ & _ & Hlim).
  destruct (e_setrlimit _ _) as [err|] eqn:Hr; mstep; [|done].
  split; [done|]. intros ? [= <-]. by apply Hlim in Hr.
Qed.

Create HintDb orderly.

(** Decompose a program along its binds, handlers, loops and branches. *)
Ltac orderly_step :=
  cbv beta iota;
  lazymatch goal with
  | |- orderly (bind (urlopen _) _) => apply orderly_urlopen_then; [intros ? ?|intros ? ? ?|intros ? ? ? ? ?]
  | |- orderly (bind _ _) => apply orderly_bind; [|intros ?]
  | |- orderly (ret _) => apply orderly_ret
  | |- orderly (raise (mk_exn _ _)) => by apply orderly_raise
  | |- orderly (raise (Exn _ _ _ _ _)) => by apply orderly_raise
  | |- orderly (raise _) =>
      apply orderly_raise;
      first [ assumption
            | by apply isinstance_called_process_error_exception
            | by apply isinstance_file_not_found_exception ]
  | |- orderly (sys_exit _) => fail
  | |- orderly get_world => apply orderly_get_world
  | |- orderly (World.emit _) => apply orderly_emit
  | |- orderly (log _ _) => apply orderly_emit
  | |- orderly (print _) => apply orderly_emit
  | |- orderly (sleep _) => apply orderly_emit
  | |- orderly (set_fs _) => apply orderly_set_fs
  | |- orderly (try_except _ (except _ _)) => apply orderly_try_except; [|intros ? ?]
  | |- orderly (for_each _ _) => apply orderly_for_each; intros ?
  | |- orderly (if ?b then _ else _) => destruct b
  | |- orderly (match ?x with _ => _ end) => destruct x
  | |- orderly (let '(_, _) := ?x in _) => destruct x
  | |- orderly _ => solve [auto 1 with orderly nocore]
  end.

Ltac orderly_auto := repeat orderly_step.

Lemma orderly_stat p : orderly (stat p).
Proof. unfold stat. orderly_auto. Qed.
#[local] Hint Extern 0 (orderly (stat _)) => apply orderly_stat : orderly.
#[local] Hint Extern 0 (orderly (subprocess_run _ _)) => apply orderly_subprocess_run : orderly.
#[local] Hint Extern 0 (orderly (popen _)) => apply orderly_popen : orderly.
#[local] Hint Extern 0 (orderly setrlimit) => apply orderly_setrlimit : orderly.

Lemma orderly_path_exists p : orderly (path_exists p).
Proof. unfold path_exists. orderly_auto. Qed.

Lemma orderly_isdir p : orderly (isdir p).
Proof. unfold isdir. orderly_auto. Qed.

Lemma orderly_isfile p : orderly (isfile p).
Proof. unfold isfile. orderly_auto. Qed.
#[local] Hint Extern 0 (orderly (path_exists _)) => apply orderly_path_exists : orderly.
#[local] Hint Extern 0 (orderly (isdir _)) => apply orderly_isdir : orderly.
#[local] Hint Extern 0 (orderly (isfile _)) => apply orderly_isfile : orderly.

Lemma orderly_makedirs p : orderly (makedirs p).
Proof. unfold makedirs. orderly_auto. Qed.
#[local] Hint Extern 0 (orderly (makedirs _)) => apply orderly_makedirs : orderly.

Lemma orderly_makedirs_new p : orderly (makedirs_new p).
Proof. unfold makedirs_new. orderly_auto. Qed.

Lemma orderly_chmod p : orderly (chmod p).
Proof. unfold chmod. orderly_auto. Qed.

Lemma orderly_read_file p : orderly (read_file p).
Proof. unfold read_file. orderly_auto. Qed.

Lemma orderly_write_file p data : orderly (write_file p data).
Proof. unfold write_file. orderly_auto. Qed.

Lemma orderly_unlink_tree p : orderly (unlink_tree p).
Proof. unfold unlink_tree. orderly_auto. Qed.
#[local] Hint Extern 0 (orderly (makedirs_new _)) => apply orderly_makedirs_new : orderly.
#[local] Hint Extern 0 (orderly (chmod _)) => apply orderly_chmod : orderly.
#[local] Hint Extern 0 (orderly (read_file _)) => apply orderly_read_file : orderly.
#[local] Hint Extern 0 (orderly (write_file _ _)) => apply orderly_write_file : orderly.
#[local] Hint Extern 0 (orderly (unlink_tree _)) => apply orderly_unlink_tree : orderly.

Lemma orderly_os_remove p : orderly (os_remove p).
Proof. unfold os_remove. orderly_auto. Qed.

Lemma orderly_listdir p : orderly (listdir p).
Proof. unfold listdir. orderly_auto. Qed.

Lemma orderly_time_now : orderly time_now.
Proof. unfold time_now. orderly_auto. Qed.

Lemma orderly_input prompt : orderly (input prompt).
Proof. unfold input. orderly_auto. Qed.

Lemma orderly_geteuid : orderly geteuid.
Proof. unfold geteuid. orderly_auto. Qed.
#[local] Hint Extern 0 (orderly (os_remove _)) => apply orderly_os_remove : orderly.
#[local] Hint Extern 0 (orderly (listdir _)) => apply orderly_listdir : orderly.
#[local] Hint Extern 0 (orderly time_now) => apply orderly_time_now : orderly.
#[local] Hint Extern 0 (orderly (input _)) => apply orderly_input : orderly.
#[local] Hint Extern 0 (orderly geteuid) => apply orderly_geteuid : orderly.

Lemma orderly_copy src dst : orderly (Shutil.copy src dst).
Proof. unfold Shutil.copy. orderly_auto. Qed.

Lemma orderly_copytree src dst ok : orderly (Shutil.copytree src dst ok).
Proof. unfold Shutil.copytree. orderly_auto. Qed.

Lemma orderly_rmtree p : orderly (Shutil.rmtree p).
Proof. unfold Shutil.rmtree. orderly_auto. Qed.

Lemma orderly_move src dst : orderly (Shutil.move src dst).
Proof.
  unfold Shutil.move. orderly_auto.
  all: match goal with |- context [mk_exn (if ?b then _ else _)] => destruct b end;
    by apply orderly_raise.
Qed.
#[local] Hint Extern 0 (orderly (Shutil.copy _ _)) => apply orderly_copy : orderly.
#[local] Hint Extern 0 (orderly (Shutil.copytree _ _ _)) => apply orderly_copytree : orderly.
#[local] Hint Extern 0 (orderly (Shutil.rmtree _)) => apply orderly_rmtree : orderly.
#[local] Hint Extern 0 (orderly (Shutil.move _ _)) => apply orderly_move : orderly.

Lemma orderly_subprocess_check cmd environ : orderly (subprocess_check cmd environ).
Proof. unfold subprocess_check. orderly_auto. Qed.
#[local] Hint Extern 0 (orderly (subprocess_check _ _)) => apply orderly_subprocess_check : orderly.

Lemma orderly_run_cmd2 cmd capture environ : orderly (Startup2.run_cmd cmd capture environ).
Proof. unfold Startup2.run_cmd. orderly_auto. Qed.

Lemma orderly_run_cmd1 cmd capture environ : orderly (Startup.run_cmd cmd capture environ).
Proof. unfold Startup.run_cmd. orderly_auto. Qed.

Lemma orderly_safe_makedirs p : orderly (Startup2.safe_makedirs p).
Proof. unfold Startup2.safe_makedirs. orderly_auto. Qed.

Lemma orderly_unique_loop fuel path_base timestamp :
  ∀ counter candidate, orderly (Startup2.unique_loop fuel path_base timestamp counter candidate).
Proof.
  induction fuel as [|fuel IH]; intros counter candidate; cbn [Startup2.unique_loop];
    orderly_auto.
Qed.
#[local] Hint Extern 0 (orderly (Startup2.run_cmd _ _ _)) => apply orderly_run_cmd2 : orderly.
#[local] Hint Extern 0 (orderly (Startup.run_cmd _ _ _)) => apply orderly_run_cmd1 : orderly.
#[local] Hint Extern 0 (orderly (Startup2.safe_makedirs _)) => apply orderly_safe_makedirs : orderly.
#[local] Hint Extern 0 (orderly (Startup2.unique_loop _ _ _ _ _)) => apply orderly_unique_loop : orderly.

Lemma orderly_make_unique_path path_base : orderly (Startup2.make_unique_path path_base).
Proof. unfold Startup2.make_unique_path. orderly_auto. Qed.

Lemma orderly_sha256_of_file path chunk_size : orderly (Startup2.sha256_of_file path chunk_size).
Proof. unfold Startup2.sha256_of_file. orderly_auto. Qed.

Lemma orderly_download_attempt url target attempt retries :
  orderly (Startup2.download_attempt url target attempt retries).
Proof. unfold Startup2.download_attempt. orderly_auto. Qed.

Lemma orderly_urlretrieve url filename : orderly (Startup.urlretrieve url filename).
Proof. unfold Startup.urlretrieve. orderly_auto. Qed.

Lemma orderly_fetch_page url : orderly (Startup2.fetch_page url).
Proof. unfold Startup2.fetch_page. orderly_auto. Qed.
#[local] Hint Extern 0 (orderly (Startup2.make_unique_path _)) => apply orderly_make_unique_path : orderly.
#[local] Hint Extern 0 (orderly (Startup2.sha256_of_file _ _)) => apply orderly_sha256_of_file : orderly.
#[local] Hint Extern 0 (orderly (Startup2.download_attempt _ _ _ _)) => apply orderly_download_attempt : orderly.
#[local] Hint Extern 0 (orderly (Startup.urlretrieve _ _)) => apply orderly_urlretrieve : orderly.
#[local] Hint Extern 0 (orderly (Startup2.fetch_page _)) => apply orderly_fetch_page : orderly.

Lemma retry_after_exception e m : retry_after e = Some m → isinstance e Exception = true.
Proof.
  unfold retry_after, isinstance. destruct (e_class e); by vm_compute.
Qed.

Lemma orderly_download_loop url target retries attempts :
  ∀ last, (∀ e, last = Some e → isinstance e Exception = true) →
          orderly (Startup2.download_loop url target retries attempts last).
Proof.
  induction attempts as [|a rest IH]; intros last Hlast.
  - cbn [Startup2.download_loop]. orderly_auto. apply orderly_raise. by apply Hlast.
  - intros w Hw.
    pose proof (download_loop_cons url target retries a rest last w) as E.
    unfold run in E. rewrite E. clear E.
    destruct (orderly_download_attempt url target a retries w Hw) as [He Hr].
    destruct (Startup2.download_attempt url target a retries w) as [[p|e] w1]; cbn in *;
      [done|].
    destruct (retry_after e) as [m|] eqn:Hretry.
    + assert (Hgo : orderly (log WARNING (m url) ;; sleep (1 + a) ;;
                             Startup2.download_loop url target retries rest (Some e))%prog).
      { orderly_auto. apply IH. intros ? [= <-]. by apply Hr. }
      rewrite <- He in Hw. rewrite <- He. exact (Hgo w1 Hw).
    + split; [done|]. intros ? [= <-]. by apply Hr.
Qed.

Lemma orderly_download_with_retries url target retries :
  orderly (Startup2.download_with_retries url target retries).
Proof. unfold Startup2.download_with_retries. by apply orderly_download_loop. Qed.
#[local] Hint Extern 0 (orderly (Startup2.download_with_retries _ _ _)) => apply orderly_download_with_retries : orderly.

(** *** The steps of startup2.py *)

Lemma orderly_clone_repo2 repo_url dest_dir : orderly (Startup2.clone_repo repo_url dest_dir).
Proof. unfold Startup2.clone_repo. orderly_auto. Qed.

Lemma orderly_setup_downloads2 repo_path : orderly (Startup2.setup_downloads repo_path).
Proof. unfold Startup2.setup_downloads. orderly_auto. Qed.

Lemma orderly_backup_and_copy_grub2 repo_path : orderly (Startup2.backup_and_copy_grub repo_path).
Proof. unfold Startup2.backup_and_copy_grub. orderly_auto. Qed.

Lemma orderly_backup_and_copy_wallpapers2 repo_path :
  orderly (Startup2.backup_and_copy_wallpapers repo_path).
Proof. unfold Startup2.backup_and_copy_wallpapers. orderly_auto. Qed.

Lemma orderly_ensure_font_available font_family apt_package :
  orderly (Startup2.ensure_font_available font_family apt_package).
Proof. unfold Startup2.ensure_font_available, Startup2.fc_list_has. orderly_auto. Qed.
#[local] Hint Extern 0 (orderly (Startup2.ensure_font_available _ _)) => apply orderly_ensure_font_available : orderly.

Lemma orderly_apply_gnome_tweaks2 : orderly Startup2.apply_gnome_tweaks.
Proof. unfold Startup2.apply_gnome_tweaks. orderly_auto. Qed.

Lemma orderly_configure_dash_to_dock2 : orderly Startup2.configure_dash_to_dock.
Proof. unfold Startup2.configure_dash_to_dock. orderly_auto. Qed.

Lemma orderly_first_candidate candidates : orderly (Startup2.first_candidate candidates).
Proof.
  induction candidates as [|c rest IH]; cbn [Startup2.first_candidate]; orderly_auto.
Qed.

Lemma orderly_try_packages pkgs : orderly (Startup2.try_packages pkgs).
Proof. induction pkgs as [|pkg rest IH]; cbn [Startup2.try_packages]; orderly_auto. Qed.

Lemma orderly_find_desktop_file names : orderly (Startup2.find_desktop_file names).
Proof. induction names as [|f rest IH]; cbn [Startup2.find_desktop_file]; orderly_auto. Qed.
#[local] Hint Extern 0 (orderly (Startup2.first_candidate _)) => apply orderly_first_candidate : orderly.
#[local] Hint Extern 0 (orderly (Startup2.try_packages _)) => apply orderly_try_packages : orderly.
#[local] Hint Extern 0 (orderly (Startup2.find_desktop_file _)) => apply orderly_find_desktop_file : orderly.

Lemma orderly_install_telegram2 re d : orderly (Startup2.install_telegram re d).
Proof. unfold Startup2.install_telegram. orderly_auto. Qed.

Lemma orderly_install_protonvpn2 d : orderly (Startup2.install_protonvpn d).
Proof. unfold Startup2.install_protonvpn. orderly_auto. Qed.

Lemma orderly_install_rustscan2 d : orderly (Startup2.install_rustscan d).
Proof. unfold Startup2.install_rustscan. orderly_auto. Qed.

Lemma orderly_install_vscode2 d : orderly (Startup2.install_vscode d).
Proof. unfold Startup2.install_vscode. orderly_auto. Qed.

Lemma orderly_install_brave2 d : orderly (Startup2.install_brave d).
Proof. unfold Startup2.install_brave. orderly_auto. Qed.

Lemma orderly_cleanup_downloads2 d : orderly (Startup2.cleanup_downloads d).
Proof. unfold Startup2.cleanup_downloads. orderly_auto. Qed.
#[local] Hint Extern 0 (orderly (Startup2.clone_repo _ _)) => apply orderly_clone_repo2 : orderly.
#[local] Hint Extern 0 (orderly (Startup2.setup_downloads _)) => apply orderly_setup_downloads2 : orderly.
#[local] Hint Extern 0 (orderly (Startup2.backup_and_copy_grub _)) => apply orderly_backup_and_copy_grub2 : orderly.
#[local] Hint Extern 0 (orderly (Startup2.backup_and_copy_wallpapers _)) => apply orderly_backup_and_copy_wallpapers2 : orderly.
#[local] Hint Extern 0 (orderly Startup2.apply_gnome_tweaks) => apply orderly_apply_gnome_tweaks2 : orderly.
#[local] Hint Extern 0 (orderly Startup2.configure_dash_to_dock) => apply orderly_configure_dash_to_dock2 : orderly.
#[local] Hint Extern 0 (orderly (Startup2.install_telegram _ _)) => apply orderly_install_telegram2 : orderly.
#[local] Hint Extern 0 (orderly (Startup2.install_protonvpn _)) => apply orderly_install_protonvpn2 : orderly.
#[local] Hint Extern 0 (orderly (Startup2.install_rustscan _)) => apply orderly_install_rustscan2 : orderly.
#[local] Hint Extern 0 (orderly (Startup2.install_vscode _)) => apply orderly_install_vscode2 : orderly.
#[local] Hint Extern 0 (orderly (Startup2.install_brave _)) => apply orderly_install_brave2 : orderly.
#[local] Hint Extern 0 (orderly (Startup2.cleanup_downloads _)) => apply orderly_cleanup_downloads2 : orderly.

(** *** The steps of startup.py *)

Lemma orderly_clone_repo1 repo_url dest_dir : orderly (Startup.clone_repo repo_url dest_dir).
Proof. unfold Startup.clone_repo. orderly_auto. Qed.

Lemma orderly_setup_downloads1 repo_path : orderly (Startup.setup_downloads repo_path).
Proof. unfold Startup.setup_downloads, Startup.safe_makedirs. orderly_auto. Qed.

Lemma orderly_backup_and_copy_grub1 repo_path : orderly (Startup.backup_and_copy_grub repo_path).
Proof.
  unfold Startup.backup_and_copy_grub, Startup.safe_makedirs, Startup.make_unique_path.
  orderly_auto.
Qed.

Lemma orderly_backup_and_copy_wallpapers1 repo_path :
  orderly (Startup.backup_and_copy_wallpapers repo_path).
Proof.
  unfold Startup.backup_and_copy_wallpapers, Startup.safe_makedirs, Startup.make_unique_path.
  orderly_auto.
Qed.

Lemma orderly_apply_gnome_tweaks1 : orderly Startup.apply_gnome_tweaks.
Proof. unfold Startup.apply_gnome_tweaks. orderly_auto. Qed.

Lemma orderly_configure_dash_to_dock1 : orderly Startup.configure_dash_to_dock.
Proof. unfold Startup.configure_dash_to_dock. orderly_auto. Qed.

Lemma orderly_install_telegram1 re d : orderly (Startup.install_telegram re d).
Proof. unfold Startup.install_telegram, Startup.safe_makedirs. orderly_auto. Qed.

Lemma orderly_install_protonvpn1 d : orderly (Startup.install_protonvpn d).
Proof. unfold Startup.install_protonvpn, Startup.sha256_of_file. orderly_auto. Qed.

Lemma orderly_install_rustscan1 d : orderly (Startup.install_rustscan d).
Proof. unfold Startup.install_rustscan. orderly_auto. Qed.

Lemma orderly_install_vscode1 d : orderly (Startup.install_vscode d).
Proof. unfold Startup.install_vscode. orderly_auto. Qed.

Lemma orderly_install_brave1 d : orderly (Startup.install_brave d).
Proof. unfold Startup.install_brave. orderly_auto. Qed.

Lemma orderly_cleanup_downloads1 d : orderly (Startup.cleanup_downloads d).
Proof. unfold Startup.cleanup_downloads. orderly_auto. Qed.
#[local] Hint Extern 0 (orderly (Startup.clone_repo _ _)) => apply orderly_clone_repo1 : orderly.
#[local] Hint Extern 0 (orderly (Startup.setup_downloads _)) => apply orderly_setup_downloads1 : orderly.
#[local] Hint Extern 0 (orderly (Startup.backup_and_copy_grub _)) => apply orderly_backup_and_copy_grub1 : orderly.
#[local] Hint Extern 0 (orderly (Startup.backup_and_copy_wallpapers _)) => apply orderly_backup_and_copy_wallpapers1 : orderly.
#[local] Hint Extern 0 (orderly Startup.apply_gnome_tweaks) => apply orderly_apply_gnome_tweaks1 : orderly.
#[local] Hint Extern 0 (orderly Startup.configure_dash_to_dock) => apply orderly_configure_dash_to_dock1 : orderly.
#[local] Hint Extern 0 (orderly (Startup.install_telegram _ _)) => apply orderly_install_telegram1 : orderly.
#[local] Hint Extern 0 (orderly (Startup.install_protonvpn _)) => apply orderly_install_protonvpn1 : orderly.
#[local] Hint Extern 0 (orderly (Startup.install_rustscan _)) => apply orderly_install_rustscan1 : orderly.
#[local] Hint Extern 0 (orderly (Startup.install_vscode _)) => apply orderly_install_vscode1 : orderly.
#[local] Hint Extern 0 (orderly (Startup.install_brave _)) => apply orderly_install_brave1 : orderly.
#[local] Hint Extern 0 (orderly (Startup.cleanup_downloads _)) => apply orderly_cleanup_downloads1 : orderly.

(** A guarded body: it returns, or its handler ends the run. *)
Lemma guarded_session (body : M unit) (h : exn → M unit) w :
  orderly body → mannered (w_env w) →
  (∀ e w1, ∃ w2, h e w1 = (Raise (Exn SystemExit "" 1 "" ""), w2)) →
  ∃ w', (run (try_except body (except Exception h)) w = (Ret tt, w') ∧ (body w).1 = Ret tt)
        ∨ run (try_except body (except Exception h)) w = (Raise (Exn SystemExit "" 1 "" ""), w').
Proof.
  intros Hb Hw Hh. destruct (Hb w Hw) as [_ Hr]. unfold run, try_except, except.
  destruct (body w) as [[[]|e] w1]; cbn in *; [exists w1; by left|].
  rewrite (Hr e eq_refl). destruct (Hh e w1) as [w2 ->]. exists w2. by right.
Qed.

Lemma fatal2_exits e w1 : ∃ w2, Startup2.fatal e w1 = (Raise (Exn SystemExit "" 1 "" ""), w2).
Proof. unfold Startup2.fatal. mstep. by eexists. Qed.

Lemma fatal1_exits e w1 : ∃ w2, Startup.fatal e w1 = (Raise (Exn SystemExit "" 1 "" ""), w2).
Proof. unfold Startup.fatal. mstep. by eexists. Qed.

Lemma require_root2_root w :
  e_geteuid (w_env w) = 0 → run Startup2.require_root w = (Ret tt, w).
Proof.
  intros Huid. unfold Startup2.require_root, geteuid. mstep. rewrite Huid.
  by rewrite bool_decide_false by (intros H; by apply H).
Qed.

Lemma require_root1_root w :
  e_geteuid (w_env w) = 0 →
  run Startup.require_root w = (Ret tt, after (EvLog DEBUG "Root check passed.") w).
Proof.
  intros Huid. unfold Startup.require_root, geteuid. mstep. rewrite Huid.
  by rewrite bool_decide_false by (intros H; by apply H).
Qed.

(** X8: a session of root ends with status 0 or 1.  When the collaborators
    fail with ordinary errors only, [main] of startup2.py returns or exits
    with status 1 through its handler: no other exception leaves it,
    whatever the network, the commands and the filesystem do.  [main] of
    startup.py always exits with status 1. *)
Theorem X8_session_of_root_ends_with_status_0_or_1 re w :
  mannered (w_env w) → e_geteuid (w_env w) = 0 →
  (∃ w', run (Startup2.main re) w = (Ret tt, w')
         ∨ run (Startup2.main re) w = (Raise (Exn SystemExit "" 1 "" ""), w'))
  ∧ (∃ w', run (Startup.main re) w = (Raise (Exn SystemExit "" 1 "" ""), w')).
Proof.
  intros Hw Huid. split.
  - unfold Startup2.main. rewrite run_bind, run_log. cbv iota beta.
    rewrite run_bind, require_root2_root by exact Huid. cbv iota beta.
    match goal with
    | |- ∃ w', run (try_except ?body (except Exception ?h)) ?w0 = _ ∨ _ =>
        destruct (guarded_session body h w0) as [w' [[H _]|H]];
          [|exact Hw|apply fatal2_exits|exists w'; by left|exists w'; by right]
    end.
    orderly_auto.
  - unfold Startup.main. rewrite run_bind, run_log. cbv iota beta.
    rewrite run_bind, require_root1_root by exact Huid. cbv iota beta.
    match goal with
    | |- ∃ w', run (try_except ?body (except Exception ?h)) ?w0 = _ =>
        destruct (guarded_session body h w0) as [w' [[_ H]|H]];
          [|exact Hw|apply fatal1_exits| |by exists w']
    end.
    + orderly_auto.
    + exfalso. revert H.
      match goal with
      | |- (?body ?w0).1 = _ → _ =>
          assert (Hn : never (λ _, True) body); [|destruct (Hn w0 I) as [e ->]; done]
      end.
      do 9 (eapply never_bind_r; [apply keeps_top|]; intros ? _).
      apply never_bind_l. unfold Startup.install_rustscan.
      eapply never_bind_r; [apply keeps_top|]. intros _ _. apply never_raise.
Qed.

(** Without a display both scripts end with status 1, at Dash-to-Dock and
    at the first GNOME setting. *)
Lemma X8_witness :
  let w := start headless "/root" machine in
  (mannered (w_env w) ∧ e_geteuid (w_env w) = 0)
  ∧ ((∃ w', run (Startup2.main unused_regex) w = (Ret tt, w')
            ∨ run (Startup2.main unused_regex) w = (Raise (Exn SystemExit "" 1 "" ""), w'))
     ∧ (∃ w', run (Startup.main unused_regex) w = (Raise (Exn SystemExit "" 1 "" ""), w')))
  ∧ (run (Startup2.main unused_regex) w).1 = Raise (Exn SystemExit "" 1 "" "")
  ∧ last (commands (w_trace (run (Startup2.main unused_regex) w).2))
    = Some (Startup2.gsettings_set Startup2.DASH_TO_DOCK "dock-position" "LEFT")
  ∧ last (commands (w_trace (run (Startup.main unused_regex) w).2))
    = Some (Startup2.gsettings_set "org.gnome.desktop.interface" "font-name" "Conifer 11").
Proof.
  intros w. split; [split; [exact mannered_headless|reflexivity]|].
  split; [|by vm_compute].
  exact (X8_session_of_root_ends_with_status_0_or_1 unused_regex w mannered_headless eq_refl).
Defined.

(** ** The network *)

Lemma not_exception_no_retry e : isinstance e Exception = false → retry_after e = None.
Proof.
  unfold retry_after, isinstance. destruct (e_class e); by vm_compute.
Qed.

(** X9: an interruption is not retried.  When the first network attempt of
    [download_with_retries] fails with an error that is not an [Exception]
    (a KeyboardInterrupt), the error leaves the function at once: one
    attempt was made, nothing was slept, no warning was logged and the
    filesystem is as it was, whatever the number of retries allowed. *)
Theorem X9_interrupt_is_not_retried url target retries w err :
  0 < retries →
  e_urlopen (w_env w)
            (EvLog INFO ("Downloading (attempt " +:+ str_of_Z 1 +:+ "/" +:+ str_of_Z retries
                         +:+ "): " +:+ url) :: w_trace w) url = NetFail err →
  isinstance err Exception = false →
  run (Startup2.download_with_retries url target retries) w
  = (Raise err,
     W (w_env w) (w_cwd w) (w_fs w)
       (EvUrlopen url
        :: EvLog INFO ("Downloading (attempt " +:+ str_of_Z 1 +:+ "/" +:+ str_of_Z retries
                       +:+ "): " +:+ url) :: w_trace w)).
Proof.
  intros Hretries Hnet Herr. unfold Startup2.download_with_retries.
  rewrite range_cons by lia. rewrite download_loop_cons.
  unfold Startup2.download_attempt. mstep. rewrite Hnet.
  by rewrite (not_exception_no_retry err Herr).
Qed.

Lemma X9_witness :
  let w := start interrupted "/root" machine in
  (run (Startup2.download_with_retries pkg_url "/tmp/pkg.deb" 3) w).1 = Raise keyboard_interrupt
  ∧ net_attempts (w_trace (run (Startup2.download_with_retries pkg_url "/tmp/pkg.deb" 3) w).2)
    = 1%nat
  ∧ sleeps (w_trace (run (Startup2.download_with_retries pkg_url "/tmp/pkg.deb" 3) w).2) = [].
Proof.
  intros w.
  rewrite (X9_interrupt_is_not_retried pkg_url "/tmp/pkg.deb" 3 w keyboard_interrupt);
    [by split_and!|lia|reflexivity|reflexivity].
Defined.

(** X10: a redirect wins over the page.  When the download page of Telegram
    answers with a redirect to a [.tar.xz] address, [install_telegram]
    (startup2.py and startup.py) takes that address and does not look at
    the page: the run is the same whatever [re.search] would find. *)
Theorem X10_redirect_wins_over_page_parsing re1 re2 d w status final_url body :
  (∀ h, e_urlopen (w_env w) h Startup2.TELEGRAM_DL_PAGE = NetOk status final_url body None) →
  endswith final_url ".tar.xz" = true →
  run (Startup2.install_telegram re1 d) w = run (Startup2.install_telegram re2 d) w
  ∧ run (Startup.install_telegram re1 d) w = run (Startup.install_telegram re2 d) w.
Proof.
  intros Hnet Hend.
  assert (Hne : bool_decide (final_url ≠ "") = true).
  { apply bool_decide_eq_true. by intros ->. }
  split.
  - unfold Startup2.install_telegram, Startup2.fetch_page, try_except, except. mstep.
    rewrite !Hnet. cbn [isinstance]. mstep. by rewrite Hne, Hend.
  - unfold Startup.install_telegram, Startup2.fetch_page, try_except, except. mstep.
    rewrite !Hnet. mstep. by rewrite Hne, Hend.
Qed.

Lemma X10_witness :
  let w := start tar_fails "/root" machine in
  let other : string → string → option string :=
    fun _ _ => Some "https://example.org/other.tar.xz" in
  run (Startup2.install_telegram unused_regex downloads) w
  = run (Startup2.install_telegram other downloads) w
  ∧ run (Startup.install_telegram unused_regex downloads) w
    = run (Startup.install_telegram other downloads) w.
Proof.
  intros w other.
  apply (X10_redirect_wins_over_page_parsing unused_regex other downloads w
           200 telegram_archive_url []); [by intros h|by vm_compute].
Defined.

(** One pass through the [try] block that returns has stored a whole
    response at the target. *)
Lemma download_attempt_returns url target attempt retries w p w1 :
  run (Startup2.download_attempt url target attempt retries) w = (Ret p, w1) →
  p = target
  ∧ ∃ h status final_url body,
      e_urlopen (w_env w) h url = NetOk status final_url body None
      ∧ FS.get (loc w target) (w_fs w1) = Some (FS.File body).
Proof.
  unfold Startup2.download_attempt. rewrite run_bind, run_log. cbv iota beta.
  rewrite run_bind. unfold urlopen at 1. mstep.
  destruct (e_urlopen _ _ _) as [e|status final_url body read_error] eqn:Hnet; [done|].
  match goal with
  | |- context [Startup2.safe_makedirs ?d ?w0] =>
      change (Startup2.safe_makedirs d w0) with (run (Startup2.safe_makedirs d) w0);
      rewrite (run_safe_makedirs d w0)
  end.
  cbn [w_fs w_cwd w_env w_trace]. unfold loc. cbn [w_fs w_cwd w_env w_trace].
  destruct (FS.mkdirs _ _) as [fs1|]; [|done]. cbn [w_fs w_cwd w_env w_trace].
  unfold write_file. mstep. unfold loc. cbn [w_fs w_cwd w_env w_trace].
  destruct (FS.is_dir _); [done|].
  destruct (FS.put _ _ _) as [fs2|] eqn:Hput; [|done]. cbn.
  destruct read_error as [e|]; [done|]. intros [= <- <-]. split; [done|].
  exists (EvLog INFO ("Downloading (attempt " +:+ str_of_Z attempt +:+ "/"
                      +:+ str_of_Z retries +:+ "): " +:+ url) :: w_trace w),
    status, final_url, body.
  split; [exact Hnet|]. cbn. by apply get_put_same in Hput.
Qed.

Lemma download_loop_returns url target retries attempts :
  ∀ last w p w',
    run (Startup2.download_loop url target retries attempts last) w = (Ret p, w') →
    p = target
    ∧ ∃ h status final_url body,
        e_urlopen (w_env w) h url = NetOk status final_url body None
        ∧ FS.get (loc w target) (w_fs w') = Some (FS.File body).
Proof.
  induction attempts as [|a rest IH]; intros last w p w'.
  - cbn [Startup2.download_loop]. rewrite run_bind, run_log. cbv iota beta.
    by destruct last.
  - rewrite download_loop_cons.
    destruct (download_attempt_shape url target a retries w)
      as (r & fs1 & evs1 & Hrun & _).
    pose proof (download_attempt_returns url target a retries w) as Hret.
    rewrite Hrun in *. destruct r as [p1|e].
    + intros [= <- <-]. by apply Hret.
    + destruct (retry_after e) as [m|]; [|done].
      rewrite run_bind, run_log. cbv iota beta. rewrite run_bind.
      change (run (sleep (1 + a)) ?w0) with (Ret tt, after (EvSleep (1 + a)) w0).
      cbv iota beta. intros Hloop. apply IH in Hloop. exact Hloop.
Qed.

(** X15: a download that succeeds leaves a whole file.  When
    [download_with_retries] returns, it returns the target path, and the
    file at the target holds the body of a response that was read to its end:
    a response cut short raises, is retried, and the file it left is written
    over, so no truncated file survives a download that succeeded. *)
Theorem X15_download_leaves_a_whole_file url target retries w p w' :
  run (Startup2.download_with_retries url target retries) w = (Ret p, w') →
  p = target
  ∧ ∃ h status final_url body,
      e_urlopen (w_env w) h url = NetOk status final_url body None
      ∧ FS.get (loc w target) (w_fs w') = Some (FS.File body).
Proof. unfold Startup2.download_with_retries. apply download_loop_returns. Qed.

(** The first response breaks off after three bytes; the second attempt
    leaves the whole package. *)
Lemma X15_witness :
  let w := start (calm (scripted_net truncated_then_whole)) "/tmp" bare_root in
  let r := run (Startup2.download_with_retries pkg_url "/tmp/pkg.deb" 3) w in
  r.1 = Ret "/tmp/pkg.deb"
  ∧ net_attempts (w_trace r.2) = 2%nat
  ∧ (∃ h status final_url body,
       e_urlopen (w_env w) h pkg_url = NetOk status final_url body None
       ∧ FS.get (loc w "/tmp/pkg.deb") (w_fs r.2) = Some (FS.File body))
  ∧ FS.get ["tmp"; "pkg.deb"] (w_fs r.2) = Some (FS.File pkg_body).
Proof.
  intros w r.
  assert (Hrun : run (Startup2.download_with_retries pkg_url "/tmp/pkg.deb" 3) w
                 = (Ret "/tmp/pkg.deb", r.2)).
  { apply run_result. by vm_compute. }
  split; [by vm_compute|]. split; [by vm_compute|]. split; [|by vm_compute].
  exact (proj2 (X15_download_leaves_a_whole_file _ _ _ _ _ _ Hrun)).
Defined.

(** ** Cleaning up *)

Lemma components_go_plain cur s :
  has_slash s = false →
  String.rev_app cur s ≠ "" → String.rev_app cur s ≠ "." →
  components_go cur s = [String.rev_app cur s].
Proof.
  revert cur. induction s as [|x s IH]; intros cur Hs Hne Hdot.
  - cbn in *. unfold flush, String.rev.
    destruct cur as [|a [|b cur]]; [done| |by rewrite !bool_decide_false by done].
    rewrite (bool_decide_false (_ = "")) by done.
    rewrite bool_decide_false; [done|]. by intros [= ->].
  - cbn in Hs. apply orb_false_iff in Hs as [Hx Hs]. cbn. rewrite Hx. by apply IH.
Qed.

Lemma components_plain name : plain name → components name = [name].
Proof. intros (Hs & Hne & Hdot). by apply (components_go_plain "" name). Qed.

Lemma startswith_app_nonempty d s p :
  d ≠ "" → startswith (d +:+ s) (String p "") = startswith d (String p "").
Proof. destruct d as [|a d]; [done|]. intros _. app_cons. cbn. by rewrite !startswith_empty. Qed.

(** An entry of a directory, addressed through [os.path.join]. *)
Lemma resolve_join_plain cwd d name :
  d ≠ "" → endswith d "/" = false → plain name →
  resolve cwd (path_join d name) = resolve cwd d ++ [name].
Proof.
  intros Hd Hend Hname. pose proof Hname as (Hs & Hne & Hdot).
  unfold path_join.
  assert (startswith name "/" = false) as ->.
  { destruct name as [|a name]; [done|]. cbn in *. apply orb_false_iff in Hs as [Ha _].
    unfold is_slash in Ha. case_bool_decide; [done|]. by rewrite bool_decide_false by done. }
  rewrite bool_decide_false by done. rewrite Hend. cbn [orb].
  unfold resolve. rewrite startswith_app_nonempty by done.
  assert (Hc : components (d +:+ "/" +:+ name) = components d ++ [name]).
  { unfold components. destruct (components_go_app "" d) as (pre & cur' & H).
    pose proof (H "") as H0. rewrite string_app_nil_r in H0. rewrite H, H0.
    app_cons. cbn. change (components_go "" name) with (components name).
    change (is_slash "/") with true. cbv iota.
    rewrite components_plain by done. by rewrite app_assoc. }
  rewrite Hc. destruct (startswith d "/"); [done|]. by rewrite app_assoc.
Qed.

(** Removing an entry of the directory at [p]. *)
Lemma del_snoc p name fs entries :
  FS.get p fs = Some (FS.Dir entries) →
  ∃ fs', FS.del (p ++ [name]) fs = Some fs'
         ∧ FS.get p fs' = Some (FS.Dir (delete name entries))
         ∧ ∀ q, FS.apart p q = true → FS.get q fs' = FS.get q fs.
Proof.
  revert fs. induction p as [|c p IH]; intros fs Hget.
  - cbn in Hget. injection Hget as ->. eexists. split; [reflexivity|]. split.
    + cbn. apply (f_equal (λ x, Some (FS.Dir x))).
      apply partial_alter_ext. intros x _. by destruct x.
    + by intros q.
  - cbn in Hget. destruct fs as [|ch]; [done|].
    destruct (ch !! c) as [child|] eqn:Hc; [|done].
    destruct (IH child Hget) as (child' & Hdel & Hsame & Hframe).
    exists (FS.Dir (<[c := child']> ch)). split_and!.
    + change ((c :: p) ++ [name]) with (c :: (p ++ [name])). cbn [FS.del].
      apply (f_equal (λ x, Some (FS.Dir x))). unfold insert, map_insert.
      apply partial_alter_ext. intros x Hx. rewrite Hc in Hx. by subst x.
    + cbn [FS.get]. by rewrite lookup_insert_eq.
    + intros [|d q] Hq; [done|]. cbn [FS.get].
      destruct (decide (c = d)) as [<-|Hne].
      * rewrite lookup_insert_eq, Hc. apply Hframe.
        unfold FS.apart in *. cbn in Hq. by rewrite !bool_decide_true in Hq by done.
      * by rewrite lookup_insert_ne.
Qed.

Section Cleanup.

Variable d : string.
Variable warn : string → exn → string.
Hypothesis d_nonempty : d ≠ "".
Hypothesis d_no_slash : endswith d "/" = false.

(** The body of the loop of [cleanup_downloads]. *)
Let remove (entry : string) : M unit :=
  let path := path_join d entry in
  try_except
    (f ← isfile path;
     if f then os_remove path
     else d' ← isdir path; if d' then Shutil.rmtree path else ret tt)%prog
    (except Exception (fun e => log WARNING (warn path e))).

Local Lemma remove_entry entry w entries n :
  FS.get (loc w d) (w_fs w) = Some (FS.Dir entries) →
  entries !! entry = Some n → plain entry →
  ∃ fs', run (remove entry) w = (Ret tt, W (w_env w) (w_cwd w) fs' (w_trace w))
         ∧ FS.get (loc w d) fs' = Some (FS.Dir (delete entry entries))
         ∧ ∀ q, FS.apart (loc w d) q = true → FS.get q fs' = FS.get q (w_fs w).
Proof.
  intros Hget Hn Hplain.
  destruct (del_snoc (loc w d) entry (w_fs w) entries Hget) as (fs' & Hdel & Hsame & Hframe).
  exists fs'. split; [|done].
  assert (Hloc : loc w (path_join d entry) = loc w d ++ [entry]).
  { unfold loc. by apply resolve_join_plain. }
  assert (Hat : FS.get (loc w (path_join d entry)) (w_fs w) = Some n).
  { by rewrite Hloc, get_snoc, Hget. }
  unfold remove, os_remove, Shutil.rmtree, unlink_tree, isfile, isdir, try_except.
  mstep. rewrite !Hat. destruct n as [data|sub]; cbn; mstep;
    repeat (first [rewrite Hat | rewrite Hloc, Hdel | progress cbv beta iota
                  | progress cbn [FS.is_dir FS.is_file] | progress mstep]);
    reflexivity.
Qed.

Lemma cleanup_loop (names : list string) :
  ∀ w entries,
    NoDup names →
    FS.get (loc w d) (w_fs w) = Some (FS.Dir entries) →
    (∀ name, is_Some (entries !! name) ↔ name ∈ names) →
    (∀ name, name ∈ names → plain name) →
    ∃ fs', run (for_each names remove) w = (Ret tt, W (w_env w) (w_cwd w) fs' (w_trace w))
           ∧ FS.get (loc w d) fs' = Some (FS.Dir ∅)
           ∧ ∀ q, FS.apart (loc w d) q = true → FS.get q fs' = FS.get q (w_fs w).
Proof.
  induction names as [|name names IH]; intros w entries Hnd Hget Hdom Hplain.
  - exists (w_fs w). split; [by destruct w|]. split; [|done].
    rewrite Hget. do 2 f_equal. apply map_empty. intros name.
    apply eq_None_not_Some. rewrite Hdom. apply not_elem_of_nil.
  - apply NoDup_cons in Hnd as [Hnotin Hnd].
    destruct (proj2 (Hdom name) ltac:(by left)) as [n Hn].
    destruct (remove_entry name w entries n Hget Hn (Hplain name ltac:(by left)))
      as (fs1 & Hrun & Hget1 & Hframe1).
    cbn [for_each]. rewrite run_bind, Hrun. cbv iota beta.
    destruct (IH (W (w_env w) (w_cwd w) fs1 (w_trace w)) (delete name entries) Hnd Hget1)
      as (fs' & Hrun' & Hget' & Hframe').
    + intros x. destruct (decide (x = name)) as [->|Hne].
      * rewrite lookup_delete_eq. split; [by intros []|done].
      * rewrite lookup_delete_ne by done. rewrite Hdom.
        split; [intros [?|?]%elem_of_cons; done|intros; by right].
    + intros x Hx. apply Hplain. by right.
    + exists fs'. split; [exact Hrun'|]. split; [exact Hget'|].
      intros q Hq. cbn in Hframe'. rewrite Hframe' by done. by apply Hframe1.
Qed.

Lemma run_listdir_dir p w entries :
  FS.get (loc w p) (w_fs w) = Some (FS.Dir entries) →
  run (listdir p) w = (Ret (FS.names (Some (FS.Dir entries))), w).
Proof. intros Hget. unfold listdir. mstep. by rewrite Hget. Qed.

Lemma names_of_directory entries :
  NoDup (FS.names (Some (FS.Dir entries)))
  ∧ ∀ name, is_Some (entries !! name) ↔ name ∈ FS.names (Some (FS.Dir entries)).
Proof.
  unfold FS.names. cbn [FS.children_of]. split; [apply NoDup_fst_map_to_list|].
  intros name. rewrite list_elem_of_fmap. split.
  - intros [n Hn]. exists (name, n). split; [done|]. by apply elem_of_map_to_list.
  - intros ([name' n] & -> & Hin). apply elem_of_map_to_list in Hin. by exists n.
Qed.

(** The whole step on a directory, whatever its messages are. *)
Lemma cleanup_directory (start_msg done_msg : string) handler w entries :
  FS.get (loc w d) (w_fs w) = Some (FS.Dir entries) →
  (∀ name, is_Some (entries !! name) → plain name) →
  ∃ w', run (log INFO start_msg ;;
             try_except
               (names ← listdir d; for_each names remove ;; log INFO done_msg)
               handler)%prog w = (Ret tt, w')
        ∧ FS.get (loc w d) (w_fs w') = Some (FS.Dir ∅)
        ∧ ∀ q, FS.apart (loc w d) q = true → FS.get q (w_fs w') = FS.get q (w_fs w).
Proof.
  intros Hget Hplain. destruct (names_of_directory entries) as [Hnd Hdom].
  rewrite run_bind, run_log. cbv iota beta. rewrite run_try_except, run_bind.
  rewrite (run_listdir_dir d _ entries) by exact Hget. cbv iota beta. rewrite run_bind.
  destruct (cleanup_loop (FS.names (Some (FS.Dir entries)))
              (after (EvLog INFO start_msg) w) entries Hnd Hget Hdom)
    as (fs' & -> & Hget' & Hframe').
  { intros name Hin. apply Hplain. by apply Hdom. }
  cbv iota beta. rewrite run_log. eexists. split; [reflexivity|]. by split.
Qed.

End Cleanup.

(** X11: what [cleanup_downloads] does, by what is at the downloads folder
    (startup2.py and startup.py).  A missing folder is tolerated: the step
    returns and the filesystem is as it was.  A regular file in its place
    is an error the step does not catch: NotADirectoryError leaves it.  A
    directory is emptied, files and subdirectories alike, the step returns,
    and everything outside the folder is left as it was. *)
Theorem X11_cleanup_empties_the_downloads_folder downloads_dir w :
  cleaned downloads_dir w (run (Startup2.cleanup_downloads downloads_dir) w)
  ∧ cleaned downloads_dir w (run (Startup.cleanup_downloads downloads_dir) w).
Proof.
  unfold cleaned.
  destruct (FS.get (loc w downloads_dir) (w_fs w)) as [[data|entries]|] eqn:Hget.
  - unfold loc in Hget.
    split; unfold Startup2.cleanup_downloads, Startup.cleanup_downloads, listdir, try_except;
      mstep; unfold loc; cbn [w_cwd w_fs]; by rewrite Hget.
  - split; intros Hne Hend Hplain.
    + destruct (cleanup_directory downloads_dir
                  (λ path e, "Could not remove " +:+ path +:+ ": " +:+ e_msg e) Hne Hend
                  "Cleaning up downloads folder" "Cleanup complete."
                  (except FileNotFoundError
                     (fun _ => log DEBUG "Downloads folder not found for cleanup."))
                  w entries Hget Hplain) as (w' & Hrun & Hres).
      assert (Hrun' : run (Startup2.cleanup_downloads downloads_dir) w = (Ret tt, w'))
        by exact Hrun.
      by rewrite Hrun'.
    + destruct (cleanup_directory downloads_dir
                  (λ path e, "Could not remove " +:+ path +:+ ": " +:+ e_msg e) Hne Hend
                  "Cleaning up downloaded installer files in the repo downloads folder"
                  "Downloads cleanup complete."
                  (except FileNotFoundError
                     (fun _ => log WARNING "Downloads folder not found during cleanup; skipping."))
                  w entries Hget Hplain) as (w' & Hrun & Hres).
      assert (Hrun' : run (Startup.cleanup_downloads downloads_dir) w = (Ret tt, w'))
        by exact Hrun.
      by rewrite Hrun'.
  - unfold loc in Hget.
    split; unfold Startup2.cleanup_downloads, Startup.cleanup_downloads, listdir, try_except;
      mstep; unfold loc; cbn [w_cwd w_fs]; by rewrite Hget.
Qed.

(** Two packages and a directory are in the folder; nothing is afterwards. *)
Lemma X11_witness :
  let w := start tar_fails "/root" machine_with_downloads in
  let r := run (Startup2.cleanup_downloads downloads) w in
  cleaned downloads w r
  ∧ size (FS.children_of (FS.get ["root"; "startup"; "downloads"] (w_fs w))) = 3%nat
  ∧ r.1 = Ret tt
  ∧ FS.get ["root"; "startup"; "downloads"] (w_fs r.2) = Some (FS.Dir ∅).
Proof.
  intros w r. split; [exact (proj1 (X11_cleanup_empties_the_downloads_folder downloads w))|].
  by vm_compute.
Defined.

(** ** The working copy *)

Lemma moves_cons ev tr :
  moves (ev :: tr) = moves tr ++ match ev with EvMove _ dst ex => [(dst, ex)] | _ => [] end.
Proof. unfold moves. cbn [rev]. rewrite omap_app. f_equal. destruct ev; reflexivity. Qed.


(** [run_cmd], seen from outside: result, filesystem, commands, moves. *)
Lemma run_cmd2_full cmd capture environ w :
  let reply := e_run (w_env w) (EvLog INFO ("Running: " +:+ show_command cmd) :: w_trace w)
                     cmd environ (w_fs w) in
  ∃ w2 evs,
    run (Startup2.run_cmd cmd capture environ) w = (outcome cmd reply, w2)
    ∧ w_trace w2 = evs ++ w_trace w ∧ commands evs = [cmd] ∧ moves evs = []
    ∧ w_env w2 = w_env w ∧ w_cwd w2 = w_cwd w ∧ w_fs w2 = left_by reply (w_fs w).
Proof.
  intros reply.
  pose proof (run_cmd2_eq cmd capture environ w) as E. cbv zeta in E. rewrite E. clear E.
  change (w_trace (after ?ev w)) with (ev :: w_trace w). fold reply.
  unfold outcome, left_by.
  destruct reply as [err|rc out err fs'].
  - destruct (isinstance err CalledProcessError); [destruct capture|]; mstep;
      eexists _, _; (split_and!; [reflexivity|cbn; by trace_is|done..]).
  - case_bool_decide; destruct capture; mstep;
      eexists _, _; (split_and!; [reflexivity|cbn; by trace_is|done..]).
Qed.







Lemma parent_of_entry p name fs n :
  FS.get (p ++ [name]) fs = Some n →
  ∃ entries, FS.get p fs = Some (FS.Dir entries) ∧ entries !! name = Some n.
Proof.
  rewrite get_snoc. destruct (FS.get p fs) as [[data|entries]|]; cbn; [done| |done].
  intros H. by exists entries.
Qed.



Section Clone.

Variables (repo_url dest_dir : string) (tree : gmap string FS.node) (w : world).
Hypothesis dest_plain : plain dest_dir.
Hypothesis polite : mannered (w_env w).
Hypothesis pull_fails : refuses (w_env w) (Argv ["git"; "-C"; dest_dir; "pull"]).
Hypothesis pull_is_idle :
  ∀ h fs, left_by (e_run (w_env w) h (Argv ["git"; "-C"; dest_dir; "pull"]) [] fs) fs = fs.
Hypothesis old_copy : FS.get (loc w dest_dir) (w_fs w) = Some (FS.Dir tree).
Hypothesis no_backup :
  ∀ ts, FS.get (loc w (dest_dir +:+ ".bak-" +:+ str_of_Z ts)) (w_fs w) = None.



End Clone.




(** ** python.py and startup3.py *)

Lemma rev_app_app (a b acc : string) :
  String.rev_app (a +:+ b) acc = String.rev_app b (String.rev_app a acc).
Proof.
  revert acc. induction a as [|x a IH]; intros acc; [done|]. app_cons. cbn. apply IH.
Qed.

(** A path that ends with a name does not end with a slash. *)
Lemma endswith_startup a : endswith (a +:+ "startup") "/" = false.
Proof. unfold endswith, String.rev. rewrite rev_app_app. reflexivity. Qed.

Lemma repo_path_shape cwd :
  path_join cwd "startup" ≠ "" ∧ endswith (path_join cwd "startup") "/" = false.
Proof.
  unfold path_join. change (startswith "startup" "/") with false. cbv iota.
  destruct (bool_decide (cwd = "") || endswith cwd "/").
  - split; [|apply endswith_startup]. destruct cwd; [done|]. by app_cons.
  - split.
    + destruct cwd; [done|]. by app_cons.
    + rewrite <- string_app_assoc. apply endswith_startup.
Qed.

(** [run] of startup3.py gives one command line to the shell. *)
Lemma run3_one_command cmd check w :
  ∃ r w2 evs, run (Startup3.run cmd check) w = (r, w2)
              ∧ w_trace w2 = evs ++ w_trace w ∧ commands evs = [Shell cmd].
Proof.
  unfold Startup3.run, subprocess_run. mstep.
  destruct (e_run _ _ _ _ _) as [err|rc out err fs']; mstep.
  - eexists _, _, _. split; [reflexivity|]. split; [cbn; by trace_is|done].
  - destruct (check && negb (bool_decide (rc = 0))); mstep;
      (eexists _, _, _; split; [reflexivity|]; split; [cbn; by trace_is|done]).
Qed.

Lemma run_makedirs p w :
  run (makedirs p) w
  = match FS.mkdirs (loc w p) (Some (w_fs w)) with
    | Some fs' => (Ret tt, W (w_env w) (w_cwd w) fs' (w_trace w))
    | None => (Raise (mk_exn (if FS.is_file (FS.get (loc w p) (w_fs w))
                              then FileExistsError else NotADirectoryError) p), w)
    end.
Proof.
  unfold makedirs. mstep. destruct (FS.mkdirs _ _); [done|]. by destruct (FS.is_file _).
Qed.

(** X13: startup3.py never clones.  The script makes the downloads folder
    inside the working copy before it looks whether the working copy
    exists: the test finds it every time, and the only command the
    beginning of the script can run is [git pull], on a fresh machine in
    the directory it has just made.  When the folder cannot be made, no
    command is run. *)
Theorem X13_startup3_never_clones w :
  let repo_path := path_join (w_cwd w) "startup" in
  let r := run Startup3.clone_or_update w in
  match FS.mkdirs (loc w (path_join repo_path "downloads")) (Some (w_fs w)) with
  | Some _ => commands (added w r.2) = [Shell ("git -C " +:+ repo_path +:+ " pull")]
  | None => (∃ e, r.1 = Raise e) ∧ commands (added w r.2) = []
  end.
Proof.
  intros repo_path r.
  destruct (FS.mkdirs _ _) as [fs'|] eqn:Hmk.
  - assert (Hr : ∃ res w2 evs,
               r = (res, w2)
               ∧ w_trace w2
                 = (evs ++ [EvLog INFO
                      "Repo directory 'startup' already exists. Attempting to pull latest."])
                   ++ w_trace w
               ∧ commands evs = [Shell ("git -C " +:+ repo_path +:+ " pull")]).
    { subst r. unfold Startup3.clone_or_update.
      rewrite run_bind. change (run get_world w) with (Ret w, w). cbv iota beta zeta.
      fold repo_path. rewrite run_bind. unfold Startup3.ensure_dir.
      rewrite run_makedirs, Hmk. cbv iota beta.
      rewrite run_bind, run_path_exists. cbv iota beta.
      set (w1 := W _ _ fs' _).
      assert (Hthere : is_Some (FS.get (loc w1 repo_path) (w_fs w1))).
      { destruct (repo_path_shape (w_cwd w)) as [Hne Hend].
        assert (Hplain : plain "downloads") by (by split_and!).
        apply get_mkdirs_same in Hmk. unfold loc in Hmk.
        rewrite (resolve_join_plain _ repo_path "downloads") in Hmk by done.
        destruct (parent_of_entry _ _ _ _ Hmk) as (entries & Hparent & _).
        unfold loc. cbn [w1 w_cwd w_fs]. by rewrite Hparent. }
      rewrite bool_decide_true by exact Hthere. cbn [negb]. cbv iota.
      rewrite run_bind, run_bind, run_log. cbv iota beta. rewrite run_bind.
      destruct (run3_one_command ("git -C " +:+ repo_path +:+ " pull") true
                  (after (EvLog INFO
                     "Repo directory 'startup' already exists. Attempting to pull latest.") w1))
        as (res & w2 & evs & -> & Ht & Hc).
      destruct res as [out|e]; cbv iota beta; rewrite ?run_ret; cbv iota beta;
        (eexists _, w2, evs; split; [reflexivity|]; split; [|done]);
        rewrite Ht; cbn; by rewrite <- app_assoc. }
    destruct Hr as (res & w2 & evs & -> & Htrace & Hc). cbn [snd].
    by rewrite (added_app _ _ _ Htrace), commands_app, Hc.
  - assert (Hr : ∃ e, r = (Raise e, w)).
    { subst r. unfold Startup3.clone_or_update.
      rewrite run_bind. change (run get_world w) with (Ret w, w). cbv iota beta zeta.
      fold repo_path. rewrite run_bind. unfold Startup3.ensure_dir.
      rewrite run_makedirs, Hmk. by eexists. }
    destruct Hr as [e ->]. split; [by exists e|]. cbn [snd]. by rewrite (added_app [] w w).
Qed.

(** On a machine that has no working copy, the script still pulls. *)
Lemma X13_witness :
  let w := start (calm (scripted_net [])) "/tmp" bare_root in
  FS.get ["tmp"; "startup"] (w_fs w) = None
  ∧ commands (added w (run Startup3.clone_or_update w).2)
    = [Shell "git -C /tmp/startup pull"].
Proof.
  intros w. split; [by vm_compute|].
  pose proof (X13_startup3_never_clones w) as H. cbv zeta in H.
  destruct (FS.mkdirs _ _) eqn:Hmk in H; [exact H|]. by vm_compute in Hmk.
Defined.

(** [run] of python.py returns whatever the exit status is. *)
Lemma python_run_returns cmd capture w :
  shell_starts (w_env w) →
  ∃ r w2 evs, run (PythonPy.run cmd capture) w = (Ret r, w2)
              ∧ w_trace w2 = evs ++ w_trace w ∧ commands evs = [Shell cmd]
              ∧ w_env w2 = w_env w.
Proof.
  intros Hshell. unfold PythonPy.run, subprocess_check, subprocess_run, try_except, except.
  mstep. destruct (e_run _ _ _ _ _) as [err|rc out err fs'] eqn:Hr; [by apply Hshell in Hr|].
  mstep. case_bool_decide; mstep.
  - eexists _, _, _. split; [reflexivity|]. split; [cbn; by trace_is|done].
  - change (isinstance _ CalledProcessError) with true. cbv iota.
    destruct capture; mstep;
      (eexists _, _, _; split; [reflexivity|]; split; [cbn; by trace_is|done]).
Qed.

(** A loop whose body returns and gives one command each time. *)
Lemma for_each_one_command {A} (I : world → Prop) (f : A → command) (body : A → M unit) xs :
  (∀ x w, I w → ∃ w2 evs, run (body x) w = (Ret tt, w2)
                          ∧ w_trace w2 = evs ++ w_trace w ∧ commands evs = [f x] ∧ I w2) →
  ∀ w, I w → ∃ w2 evs, run (for_each xs body) w = (Ret tt, w2)
                       ∧ w_trace w2 = evs ++ w_trace w ∧ commands evs = f <$> xs ∧ I w2.
Proof.
  intros Hbody. induction xs as [|x xs IH]; intros w Hw.
  - by exists w, [].
  - cbn [for_each]. rewrite run_bind.
    destruct (Hbody x w Hw) as (w1 & evs1 & -> & Ht1 & Hc1 & Hw1). cbv iota beta.
    destruct (IH w1 Hw1) as (w2 & evs2 & -> & Ht2 & Hc2 & Hw2).
    exists w2, (evs2 ++ evs1). split; [done|]. split; [by rewrite Ht2, Ht1, app_assoc|].
    split; [|done]. by rewrite commands_app, Hc1, Hc2.
Qed.

Lemma python_loop (f : string * string → string) (pairs : list (string * string)) w :
  shell_starts (w_env w) →
  ∃ w2 evs, run (for_each pairs (fun '(key, value) =>
                   PythonPy.run (f (key, value)) false ;; ret tt)%prog) w = (Ret tt, w2)
            ∧ w_trace w2 = evs ++ w_trace w
            ∧ commands evs = (λ kv, Shell (f kv)) <$> pairs.
Proof.
  intros Hw.
  destruct (for_each_one_command (λ w, shell_starts (w_env w)) (λ kv, Shell (f kv))
              (fun '(key, value) => PythonPy.run (f (key, value)) false ;; ret tt)%prog
              pairs) with (w := w) as (w2 & evs & Hrun & Ht & Hc & _); [|done|by exists w2, evs].
  intros [key value] w0 Hw0. rewrite run_bind.
  destruct (python_run_returns (f (key, value)) false w0 Hw0) as (r & w1 & evs & -> & Ht & Hc & He).
  exists w1, evs. split_and!; [done..|]. by rewrite He.
Qed.

(** X14: python.py goes on after a failed command.  Its [run] catches
    CalledProcessError, so as long as the shell can be started
    [apply_gnome_tweaks] and [configure_dash_to_dock] run every command of
    their lists, in order, return, and print their success message last,
    whatever the exit statuses were. *)
Theorem X14_python_py_goes_on_after_failed_commands w :
  shell_starts (w_env w) →
  (∃ w', run PythonPy.apply_gnome_tweaks w = (Ret tt, w')
         ∧ commands (added w w') = tweak_command <$> PythonPy.tweaks
         ∧ head (w_trace w') = Some (EvPrint "✅ GNOME tweaks applied."))
  ∧ (∃ w', run PythonPy.configure_dash_to_dock w = (Ret tt, w')
           ∧ commands (added w w') = dock_command <$> PythonPy.dock_settings
           ∧ head (w_trace w') = Some (EvPrint "✅ Dash-to-Dock configured.")).
Proof.
  intros Hw. split.
  - unfold PythonPy.apply_gnome_tweaks. rewrite run_bind.
    destruct (python_loop (λ kv, "gsettings set " +:+ kv.1 +:+ " " +:+ kv.2)
                PythonPy.tweaks w Hw) as (w2 & evs & Hrun & Ht & Hc).
    match goal with
    | |- context [run ?m w] =>
        replace (run m w) with (@Ret unit tt, w2) by (symmetry; exact Hrun)
    end.
    cbv iota beta. eexists. split; [reflexivity|]. split; [|done].
    erewrite added_app; [|cbn; rewrite Ht; by rewrite app_comm_cons].
    by rewrite commands_cons, Hc, app_nil_r.
  - unfold PythonPy.configure_dash_to_dock. rewrite run_bind.
    destruct (python_loop
                (λ kv, "gsettings set org.gnome.shell.extensions.dash-to-dock "
                       +:+ kv.1 +:+ " " +:+ kv.2)
                PythonPy.dock_settings w Hw) as (w2 & evs & Hrun & Ht & Hc).
    match goal with
    | |- context [run ?m w] =>
        replace (run m w) with (@Ret unit tt, w2) by (symmetry; exact Hrun)
    end.
    cbv iota beta. eexists. split; [reflexivity|]. split; [|done].
    erewrite added_app; [|cbn; rewrite Ht; by rewrite app_comm_cons].
    by rewrite commands_cons, Hc, app_nil_r.
Qed.

(** Every command fails, and both steps report success. *)
Lemma X14_witness :
  let w := start failing_shell "/root" machine in
  shell_starts (w_env w)
  ∧ (run PythonPy.configure_dash_to_dock w).1 = Ret tt
  ∧ length (commands (w_trace (run PythonPy.configure_dash_to_dock w).2)) = 6%nat
  ∧ (run PythonPy.apply_gnome_tweaks w).1 = Ret tt.
Proof.
  intros w.
  assert (Hshell : shell_starts (w_env w)) by (by intros h line environ fs err).
  destruct (X14_python_py_goes_on_after_failed_commands w Hshell)
    as [(w1 & H1 & _) (w2 & H2 & Hc & _)].
  rewrite H1, H2. split_and!; [done..| |done].
  cbn [snd]. rewrite <- (added_app (w_trace w2) w w2) by (by rewrite app_nil_r).
  by rewrite Hc.
Defined.

(** ** Installing a package and repairing *)

Lemma run_popen_guarded argv (msg : string) w :
  mannered (w_env w) →
  ∃ w2 evs, run (try_except (popen argv) (except Exception (fun _ => log DEBUG msg))) w
            = (Ret tt, w2)
            ∧ w_trace w2 = evs ++ w_trace w ∧ commands evs = []
            ∧ w_env w2 = w_env w.
Proof.
  intros (_ & Hpopen & _). unfold popen, try_except, except. mstep.
  destruct (e_popen _ _ _) as [err|] eqn:Hr; mstep.
  - rewrite (Hpopen _ _ _ Hr). mstep. by exists (W (w_env w) (w_cwd w) (w_fs w)
      (EvLog DEBUG msg :: EvPopen argv :: w_trace w)), [EvLog DEBUG msg; EvPopen argv].
  - by eexists _, [EvPopen argv].
Qed.

(** X16: when [dpkg] fails, [install_vscode] of startup2.py repairs.  Once
    the package is downloaded, a [dpkg -i] that does not succeed is followed
    by [apt-get install -f -y], and these are the two commands of the step:
    the step returns when the repair succeeds and raises when it does not. *)
Theorem X16_vscode_is_repaired_after_a_failed_dpkg downloads_dir w p w1 :
  let target := path_join downloads_dir "code.deb" in
  let r := run (Startup2.install_vscode downloads_dir) w in
  mannered (w_env w) →
  run (Startup2.download_with_retries Startup2.VSCODE_DEB_URL target 3)
      (after (EvLog INFO "Installing VS Code (.deb)") w) = (Ret p, w1) →
  refuses (w_env w) (dpkg_install target) →
  commands (added w r.2) = [dpkg_install target; Argv ["apt-get"; "install"; "-f"; "-y"]]
  ∧ (accepts (w_env w) (Argv ["apt-get"; "install"; "-f"; "-y"]) → r.1 = Ret tt)
  ∧ (refuses (w_env w) (Argv ["apt-get"; "install"; "-f"; "-y"]) → ∃ e, r.1 = Raise e).
Proof.
  intros target r Hw Hdl Hdpkg. unfold dpkg_install in *.
  destruct (download_loop_shape Startup2.VSCODE_DEB_URL target 3 (range 1 (3 + 1)) None
              (after (EvLog INFO "Installing VS Code (.deb)") w))
    as (r0 & fs0 & evs0 & j & Hshape & _ & _ & _ & Hc0).
  unfold Startup2.download_with_retries in Hdl. rewrite Hdl in Hshape.
  injection Hshape as <- ->.
  assert (Hr : ∃ res w4 evs,
             r = (res, w4)
             ∧ w_trace w4 = evs ++ w_trace w
             ∧ commands evs = [dpkg_install target; Argv ["apt-get"; "install"; "-f"; "-y"]]
             ∧ (accepts (w_env w) (Argv ["apt-get"; "install"; "-f"; "-y"]) → res = Ret tt)
             ∧ (refuses (w_env w) (Argv ["apt-get"; "install"; "-f"; "-y"]) →
                ∃ e, res = Raise e)).
  { subst r. unfold Startup2.install_vscode. rewrite run_bind, run_log. cbv iota beta zeta.
    fold target. rewrite run_bind. unfold Startup2.download_with_retries at 1. rewrite Hdl.
    cbv iota beta. rewrite run_bind, run_try_except, run_bind.
    set (w1 := W _ _ fs0 _).
    destruct (run_cmd2_full (Argv ["dpkg"; "-i"; target]) false [] w1)
      as (w2 & evs2 & -> & Ht2 & Hc2 & _ & He2 & _ & _).
    destruct (outcome_refused (w_env w) _
                (EvLog INFO ("Running: " +:+ show_command (Argv ["dpkg"; "-i"; target]))
                 :: w_trace w1) [] (w_fs w1) Hdpkg) as [err Herr].
    assert (Hexc : isinstance err Exception = true).
    { eapply outcome_raise_exception; [exact Hw| |exact Herr]. by eexists _, _, _. }
    change (w_env w1) with (w_env w) in *. rewrite Herr. cbv iota. unfold except.
    rewrite Hexc. rewrite run_bind.
    destruct (run_cmd2_full (Argv ["apt-get"; "install"; "-f"; "-y"]) false [] w2)
      as (w3 & evs3 & -> & Ht3 & Hc3 & _ & He3 & _ & _).
    rewrite He2 in *.
    assert (Ht : w_trace w3
                 = (evs3 ++ evs2 ++ evs0 ++ [EvLog INFO "Installing VS Code (.deb)"])
                   ++ w_trace w).
    { rewrite Ht3, Ht2. cbn. by rewrite <- !app_assoc. }
    destruct (outcome (Argv ["apt-get"; "install"; "-f"; "-y"]) _) as [r3|e3] eqn:Hout;
      cbv iota beta.
    - rewrite run_ret. cbv iota beta. rewrite run_bind.
      destruct (run_popen_guarded ["code"]
                  "Could not start VS Code now; it may require desktop session." w3)
        as (w4 & evs4 & Hp & Ht4 & Hc4 & _); [by rewrite He3|].
      unfold except in Hp. rewrite Hp. cbv iota beta. rewrite run_log.
      eexists _, _, (EvLog INFO "✅ VS Code install attempted." :: evs4 ++ evs3 ++ evs2
                     ++ evs0 ++ [EvLog INFO "Installing VS Code (.deb)"]).
      split; [reflexivity|]. split_and!.
      + cbn. rewrite Ht4, Ht. by rewrite <- !app_assoc.
      + rewrite commands_cons, !commands_app, Hc4, Hc3, Hc2, Hc0. by cbn.
      + done.
      + intros Href. destruct (outcome_refused _ _
          (EvLog INFO ("Running: " +:+ show_command (Argv ["apt-get"; "install"; "-f"; "-y"]))
           :: w_trace w2) [] (w_fs w2) Href) as [e He]. congruence.
    - eexists _, w3, _. split; [reflexivity|]. split; [exact Ht|]. split_and!.
      + rewrite !commands_app, Hc3, Hc2, Hc0. by cbn.
      + intros Hacc. destruct (outcome_accepted _ _
          (EvLog INFO ("Running: " +:+ show_command (Argv ["apt-get"; "install"; "-f"; "-y"]))
           :: w_trace w2) [] (w_fs w2) Hacc) as [r3 Hr3]. congruence.
      + by eexists. }
  destruct Hr as (res & w4 & evs & -> & Ht & Hc & Hacc & Href). cbn [fst snd].
  by rewrite (added_app _ _ _ Ht).
Qed.

Lemma mannered_dpkg_fails : mannered dpkg_fails.
Proof.
  split_and!; cbn; try done.
  intros h cmd environ fs err. by destruct (is_dpkg cmd).
Qed.

(** On a machine where [dpkg] exits with status 1 and [apt-get] succeeds, the
    step gives the two commands and returns. *)
Lemma X16_witness :
  let w := start dpkg_fails "/root" machine_with_downloads in
  let r := run (Startup2.install_vscode downloads) w in
  commands (added w r.2)
  = [dpkg_install "/root/startup/downloads/code.deb"; Argv ["apt-get"; "install"; "-f"; "-y"]]
  ∧ r.1 = Ret tt.
Proof.
  intros w r.
  pose (w0 := after (EvLog INFO "Installing VS Code (.deb)") w).
  pose (dl := run (Startup2.download_with_retries Startup2.VSCODE_DEB_URL
                     "/root/startup/downloads/code.deb" 3) w0).
  destruct (X16_vscode_is_repaired_after_a_failed_dpkg downloads w
              "/root/startup/downloads/code.deb" dl.2 mannered_dpkg_fails)
    as (Hc & Hacc & _).
  - apply run_result. by vm_compute.
  - intros h environ fs out err fs'. by cbn.
  - split; [exact Hc|]. apply Hacc. intros h environ fs. by eexists _, _, _.
Defined.
